(** * mediastreamer2: the stream session controller (src/voip/mediastream.c),
    the VideoToolbox decoder (src/voip/h26x/videotoolbox-decoder.cpp) and the
    MediaCodec H.264 decoder (src/voip/h26x/media-codec-h264-decoder.cpp), as
    a shallow embedding.

  Conventions of the embedding.
  - A C [int], [uint64_t] or [time_t] is a [Z]; where the source does
    arithmetic that can leave the type's range the wrap-around or the clamp
    is written out.
  - A pointer to an opaque collaborator object is an [option handle]
    ([None] is the null pointer).  [RtpSession] objects, whose fields the
    source reads and writes, live in a heap indexed by handle.
  - A call into a collaborator (oRTP, the filter graph, the security
    engines, the logger, Apple's and Android's frameworks) is recorded, in
    program order, in the trace of the machine state.
  - A C string is the [string] of its bytes before the terminator. *)

From Stdlib Require Import ZArith String Ascii List Bool Lia.
From stdpp Require Import base option gmap.
Import ListNotations.

Local Open Scope Z_scope.
Local Open Scope string_scope.

(** ** C strings *)

Module CString.

(** The value of a byte as [strncmp] compares it (unsigned char). *)
Definition code (c : ascii) : Z := Z.of_N (N_of_ascii c).

(** A well-formed C string holds no NUL before its terminator. *)
Definition c_string (s : string) : Prop :=
  forall c, In c (list_ascii_of_string s) -> c <> zero.

(** [strncmp s1 s2 n]: compares at most [n] bytes, the terminator counting
    as the byte 0; the sign of the first difference, 0 when there is none. *)
Fixpoint strncmp (s1 s2 : string) (n : nat) : Z :=
  match n with
  | O => 0
  | S n' =>
      match s1, s2 with
      | EmptyString, EmptyString => 0
      | EmptyString, String c2 _ => 0 - code c2
      | String c1 _, EmptyString => code c1 - 0
      | String c1 t1, String c2 t2 =>
          if Ascii.eqb c1 c2 then strncmp t1 t2 n' else code c1 - code c2
      end
  end.

(** [sizeof] of a string literal: its length plus the terminator. *)
Definition sizeof_literal (key : string) : nat := S (String.length key).

(** [#define keywordcmp(key, b) strncmp(key, b, sizeof(key))] *)
Definition keywordcmp (key b : string) : Z := strncmp key b (sizeof_literal key).

(** [strstr haystack needle]: the offset of the first occurrence, [None]
    for the null pointer. *)
Fixpoint strstr (haystack needle : string) : option nat :=
  if String.prefix needle haystack then Some O
  else match haystack with
       | EmptyString => None
       | String _ t => option_map S (strstr t needle)
       end.

(** [tolower] on the ASCII letters. *)
Definition tolower (c : ascii) : ascii :=
  if (65 <=? code c)%Z && (code c <=? 90)%Z
  then ascii_of_N (N_of_ascii c + 32) else c.

(** [strcasecmp s1 s2 == 0] *)
Fixpoint strcaseeq (s1 s2 : string) : bool :=
  match s1, s2 with
  | EmptyString, EmptyString => true
  | String c1 t1, String c2 t2 => Ascii.eqb (tolower c1) (tolower c2) && strcaseeq t1 t2
  | _, _ => false
  end.

Definition isspace (c : ascii) : bool :=
  (code c =? 32)%Z || ((9 <=? code c)%Z && (code c <=? 13)%Z).

Definition isdigit (c : ascii) : bool := (48 <=? code c)%Z && (code c <=? 57)%Z.

Fixpoint skip_spaces (s : string) : string :=
  match s with
  | String c t => if isspace c then skip_spaces t else s
  | EmptyString => s
  end.

(** The value of the leading decimal digits of [s], after [acc]. *)
Fixpoint digits (acc : Z) (s : string) : Z :=
  match s with
  | String c t => if isdigit c then digits (10 * acc + (code c - 48)) t else acc
  | EmptyString => acc
  end.

(** [atoi]: blanks, an optional sign, then decimal digits; 0 when no digit
    follows.  (The C function is undefined when the value does not fit an
    [int]; the model keeps the mathematical value.) *)
Definition atoi (s : string) : Z :=
  match skip_spaces s with
  | String "-" t => - digits 0 t
  | String "+" t => digits 0 t
  | t => digits 0 t
  end.

(** A C condition on a pointer: non-null is true. *)
Definition non_null {A} (p : option A) : bool :=
  match p with Some _ => true | None => false end.

End CString.

(** ** Crypto suites and their SDP descriptors *)

Module Crypto.
Import CString.

Inductive MSCryptoSuite : Type :=
| MS_CRYPTO_SUITE_INVALID
| MS_AES_128_SHA1_80
| MS_AES_128_SHA1_80_NO_AUTH
| MS_AES_128_SHA1_80_SRTP_NO_CIPHER
| MS_AES_128_SHA1_80_SRTCP_NO_CIPHER
| MS_AES_128_SHA1_80_NO_CIPHER
| MS_AES_256_SHA1_80
| MS_AES_CM_256_SHA1_80
| MS_AES_128_SHA1_32
| MS_AES_128_SHA1_32_NO_AUTH
| MS_AES_256_SHA1_32
| MS_AEAD_AES_128_GCM
| MS_AEAD_AES_256_GCM.

(** [MSCryptoSuiteNameParams]: [name] is dereferenced by the source, [params]
    may be null. *)
Record MSCryptoSuiteNameParams : Type := mkNameParams {
  name : string;
  params : option string
}.

(** One line of [ms_error] output. *)
Record LogLine : Type := mkLog { log_error : bool; log_text : string }.

(** [parameters && strstr(parameters, tok)] *)
Definition has (parameters : option string) (tok : string) : bool :=
  match parameters with
  | Some p => non_null (strstr p tok)
  | None => false
  end.

(** The text after the [error:] label. *)
Definition unsupported (d : MSCryptoSuiteNameParams) : MSCryptoSuite * list LogLine :=
  (MS_CRYPTO_SUITE_INVALID,
   [mkLog true ("Unsupported crypto suite '" ++ name d ++ "' with parameters '"
                ++ match params d with Some p => p | None => EmptyString end ++ "'")]).

(** The four tests every branch of the source makes, in its order; [r1] to
    [r4] are what the branch does on each, [r5] in the final [else]. *)
Definition by_parameters {A} (parameters : option string) (r1 r2 r3 r4 r5 : A) : A :=
  if has parameters "UNENCRYPTED_SRTP" && has parameters "UNENCRYPTED_SRTCP" then r1
  else if has parameters "UNENCRYPTED_SRTP" then r2
  else if has parameters "UNENCRYPTED_SRTCP" then r3
  else if has parameters "UNAUTHENTICATED_SRTP" then r4
  else r5.

Definition ms_crypto_suite_build_from_name_params_logged
    (descrption : MSCryptoSuiteNameParams) : MSCryptoSuite * list LogLine :=
  let name := name descrption in
  let parameters := params descrption in
  let error := unsupported descrption in
  let ok (cs : MSCryptoSuite) : MSCryptoSuite * list LogLine := (cs, []) in
  if (keywordcmp "AES_CM_128_HMAC_SHA1_80" name =? 0)%Z then
    by_parameters parameters
      (ok MS_AES_128_SHA1_80_NO_CIPHER) (ok MS_AES_128_SHA1_80_SRTP_NO_CIPHER)
      (ok MS_AES_128_SHA1_80_SRTCP_NO_CIPHER) (ok MS_AES_128_SHA1_80_NO_AUTH)
      (ok MS_AES_128_SHA1_80)
  else if (keywordcmp "AES_CM_128_HMAC_SHA1_32" name =? 0)%Z then
    by_parameters parameters error error error
      (ok MS_AES_128_SHA1_32_NO_AUTH) (ok MS_AES_128_SHA1_32)
  else if (keywordcmp "AES_256_CM_HMAC_SHA1_32" name =? 0)%Z then
    by_parameters parameters error error error error (ok MS_AES_256_SHA1_32)
  else if (keywordcmp "AES_256_CM_HMAC_SHA1_80" name =? 0)%Z then
    by_parameters parameters error error error error (ok MS_AES_256_SHA1_80)
  else if (keywordcmp "AES_CM_256_HMAC_SHA1_80" name =? 0)%Z then
    by_parameters parameters error error error error (ok MS_AES_CM_256_SHA1_80)
  else if (keywordcmp "AEAD_AES_128_GCM" name =? 0)%Z then
    by_parameters parameters error error error error (ok MS_AEAD_AES_128_GCM)
  else if (keywordcmp "AEAD_AES_256_GCM" name =? 0)%Z then
    by_parameters parameters error error error error (ok MS_AEAD_AES_256_GCM)
  else error.

(** The suite [ms_crypto_suite_build_from_name_params] returns. *)
Definition ms_crypto_suite_build_from_name_params
    (descrption : MSCryptoSuiteNameParams) : MSCryptoSuite :=
  fst (ms_crypto_suite_build_from_name_params_logged descrption).

Definition ms_crypto_suite_is_unencrypted (cs : MSCryptoSuite) : bool :=
  match cs with
  | MS_AES_128_SHA1_80_SRTP_NO_CIPHER | MS_AES_128_SHA1_80_SRTCP_NO_CIPHER
  | MS_AES_128_SHA1_80_NO_CIPHER => true
  | _ => false
  end.

Definition ms_crypto_suite_is_unauthenticated (cs : MSCryptoSuite) : bool :=
  match cs with
  | MS_AES_128_SHA1_80_NO_AUTH | MS_AES_128_SHA1_32_NO_AUTH => true
  | _ => false
  end.

(** [ms_crypto_suite_to_name_params]: the status and the out-parameter.  The
    source clears both fields first, so [name] is null exactly when the
    status is -1. *)
Definition ms_crypto_suite_to_name_params (cs : MSCryptoSuite)
    : Z * option MSCryptoSuiteNameParams :=
  let found n p := (0, Some (mkNameParams n p)) in
  match cs with
  | MS_CRYPTO_SUITE_INVALID => (-1, None)
  | MS_AES_128_SHA1_80 => found "AES_CM_128_HMAC_SHA1_80" None
  | MS_AES_128_SHA1_32 => found "AES_CM_128_HMAC_SHA1_32" None
  | MS_AES_128_SHA1_80_NO_AUTH =>
      found "AES_CM_128_HMAC_SHA1_80" (Some "UNAUTHENTICATED_SRTP")
  | MS_AES_128_SHA1_32_NO_AUTH =>
      found "AES_CM_128_HMAC_SHA1_32" (Some "UNAUTHENTICATED_SRTP")
  | MS_AES_128_SHA1_80_SRTP_NO_CIPHER =>
      found "AES_CM_128_HMAC_SHA1_80" (Some "UNENCRYPTED_SRTP")
  | MS_AES_128_SHA1_80_SRTCP_NO_CIPHER =>
      found "AES_CM_128_HMAC_SHA1_80" (Some "UNENCRYPTED_SRTCP")
  | MS_AES_128_SHA1_80_NO_CIPHER =>
      found "AES_CM_128_HMAC_SHA1_80" (Some "UNENCRYPTED_SRTP UNENCRYPTED_SRTCP")
  | MS_AES_256_SHA1_80 => found "AES_256_CM_HMAC_SHA1_80" None
  | MS_AES_CM_256_SHA1_80 => found "AES_CM_256_HMAC_SHA1_80" None
  | MS_AES_256_SHA1_32 => found "AES_256_CM_HMAC_SHA1_32" None
  | MS_AEAD_AES_128_GCM => found "AEAD_AES_128_GCM" None
  | MS_AEAD_AES_256_GCM => found "AEAD_AES_256_GCM" None
  end.

End Crypto.

(** ** The machine: session objects, collaborator calls, the clock *)

Module Machine.

(** The address of an object. *)
Definition handle : Type := positive.

Inductive MSFormatType : Type := MSAudio | MSVideo | MSText | MSUnknownMedia.

Inductive MSStreamState : Type :=
| MSStreamInitialized | MSStreamPreparing | MSStreamStarted | MSStreamStopped.

Inductive MediaStreamDir : Type :=
| MediaStreamSendRecv | MediaStreamSendOnly | MediaStreamRecvOnly.

Inductive MSSrtpKeySource : Type :=
| MSSrtpKeySourceUnknown | MSSrtpKeySourceUnavailable | MSSrtpKeySourceSDES
| MSSrtpKeySourceZRTP | MSSrtpKeySourceDTLS | MSSrtpKeySourceEKT.

Definition MSFormatType_eqb (a b : MSFormatType) : bool :=
  match a, b with
  | MSAudio, MSAudio | MSVideo, MSVideo | MSText, MSText
  | MSUnknownMedia, MSUnknownMedia => true
  | _, _ => false
  end.

Definition MSStreamState_eqb (a b : MSStreamState) : bool :=
  match a, b with
  | MSStreamInitialized, MSStreamInitialized | MSStreamPreparing, MSStreamPreparing
  | MSStreamStarted, MSStreamStarted | MSStreamStopped, MSStreamStopped => true
  | _, _ => false
  end.

(** [PayloadType]: the two fields the controller reads. *)
Record PayloadType : Type := mkPayloadType {
  mime_type : string;
  recv_fmtp : option string
}.

(** [RtpProfile]: the payload types by payload-type number. *)
Definition RtpProfile : Type := list (Z * PayloadType).

(** The fields of oRTP's [RtpSession] that the controller reads, writes, or
    reaches through oRTP's getters and setters. *)
Record RtpSession : Type := mkRtpSession {
  target_upload_bandwidth : Z;
  stats_recv : Z;
  bundle : option handle;
  is_primary : bool;
  session_fec_stream : option handle;
  audio_bandwidth_estimator_enabled : bool;
  audio_bw_estimator : option handle;
  audio_bandwidth_estimator_duplicate_rate : Z;
  jitter_compensation : Z;
  scheduling_mode : Z;
  blocking_mode : Z;
  avpf_feature_tmmbr : bool;
  session_profile : option RtpProfile;
  session_payload_type : Z
}.

Record MSMediaStreamSessions : Type := mkSessions {
  rtp_session : option handle;
  fec_session : option handle;
  srtp_context : option handle;
  zrtp_context : option handle;
  dtls_context : option handle;
  ticker : option handle
}.

Record MediaStream : Type := mkMediaStream {
  type : MSFormatType;
  state : MSStreamState;
  sessions : MSMediaStreamSessions;
  evd : option handle;
  evq : option handle;
  factory : option handle;
  rc : option handle;
  rc_enable : bool;
  rtpsend : option handle;
  rtprecv : option handle;
  encoder : option handle;
  decoder : option handle;
  voidsink : option handle;
  qi : option handle;
  ice_check_list : option handle;
  start_time : Z;
  last_packet_count : Z;
  last_packet_time : Z;
  owns_sessions : bool;
  target_bitrate : Z;
  max_target_bitrate : Z;
  stun_allowed : bool;
  direction : MediaStreamDir;
  video_quality_controller : option handle;
  fec_stream : option handle
}.

(** [MSDtlsSrtpParams], without the certificate and the key, which the
    controller passes on untouched. *)
Record MSDtlsSrtpParams : Type := mkDtlsParams {
  dtls_role : Z;
  mtu : Z
}.

Record MSVideoSize : Type := mkVSize { width : Z; height : Z }.

Record MSVideoConfiguration : Type := mkVConf {
  required_bitrate : Z;
  bitrate_limit : Z;
  vsize : MSVideoSize;
  fps : Z;
  mincpu : Z
}.

Record FecParameters : Type := mkFecParameters {
  fec_L : Z;
  fec_D : Z;
  repair_window : Z
}.

(** The kind of an RTCP sub-packet, [None] in [RtcpPacket] when the common
    header cannot be read. *)
Inductive RtcpType : Type :=
| RTCP_SR | RTCP_RR | RTCP_SDES | RTCP_BYE | RTCP_APP | RTCP_RTPFB | RTCP_PSFB | RTCP_XR.

Record RtcpPacket : Type := mkRtcpPacket {
  rtcp_type : option RtcpType;
  rtcp_bytes : list Z
}.

(** Modelled from the spec: oRTP's [RtcpParserContext], which is not part of
    this repository.  A received compound packet is an ordered sequence of
    sub-packets: [rtcp_parser_context_init] yields the first one (the block
    itself), and each [rtcp_parser_context_next_packet] the next, until null. *)
Record mblk_t : Type := mkCompound {
  first_packet : RtcpPacket;
  next_packets : list RtcpPacket
}.

Definition RtcpParserContext : Type := list RtcpPacket.

Definition rtcp_parser_context_init (m : mblk_t) : RtcpParserContext * RtcpPacket :=
  (next_packets m, first_packet m).

Definition rtcp_parser_context_next_packet (ctx : RtcpParserContext)
    : RtcpParserContext * option RtcpPacket :=
  match ctx with
  | [] => ([], None)
  | p :: ctx' => (ctx', Some p)
  end.

Definition rtcp_is_SR (m : mblk_t) : bool :=
  match rtcp_type (first_packet m) with Some RTCP_SR => true | _ => false end.

Definition rtcp_is_RR (m : mblk_t) : bool :=
  match rtcp_type (first_packet m) with Some RTCP_RR => true | _ => false end.

(** The methods the controller calls on a filter, with the argument passed. *)
Inductive FilterMethod : Type :=
| MS_RTP_SEND_ENABLE_STUN (enabled : bool)
| MS_RTP_SEND_ENABLE_STUN_FORCED (enabled : bool)
| MS_FILTER_SET_BITRATE (bitrate : Z)
| MS_VIDEO_ENCODER_GET_CONFIGURATION_LIST
| MS_VIDEO_ENCODER_GET_CONFIGURATION
| MS_VIDEO_ENCODER_SET_CONFIGURATION (vconf : MSVideoConfiguration).

Inductive LogLevel : Type := ms_message | ms_warning | ms_error.

(** A call into a collaborator, as the trace records it.  A pointer the
    source checks before the call is a [handle], one it passes unchecked an
    [option handle].  A log line keeps its format and its integer arguments. *)
Inductive Event : Type :=
| Log (level : LogLevel) (format : string) (args : list Z)
| ortp_ev_dispatcher_disconnect (d : option handle)
| ms_zrtp_set_stream_sessions (ctx : handle) (bound : bool)
| ms_dtls_srtp_set_stream_sessions (ctx : handle) (bound : bool)
| rtp_session_unregister_event_queue (s : handle) (q : option handle)
| ortp_ev_queue_destroy (q : handle)
| ortp_ev_dispatcher_destroy (d : handle)
| ms_srtp_context_delete (ctx : handle)
| rtp_session_destroy (s : handle)
| ms_zrtp_context_destroy (ctx : handle)
| ms_dtls_srtp_context_destroy (ctx : handle)
| ms_ticker_destroy (t : handle)
| ms_bitrate_controller_destroy (c : handle)
| ms_filter_destroy (f : handle)
| ms_quality_indicator_destroy (q : handle)
| ms_video_quality_controller_destroy (c : handle)
| ms_dtls_srtp_context_new (params : MSDtlsSrtpParams) (result : option handle)
| ms_filter_call_method (f : handle) (method : FilterMethod)
| ms_bitrate_controller_process_rtcp (c : handle) (p : RtcpPacket)
| ms_quality_indicator_update_from_feedback (q : handle) (p : RtcpPacket)
| process_rtcp (p : RtcpPacket)
| rtp_session_new (s : handle)
| rtp_bundle_add_fec_session (b : option handle) (primary fec : handle)
| fec_stream_new (primary fec : handle) (params : FecParameters) (result : handle)
| fec_stream_init (f : handle)
| ms_video_quality_controller_new (result : handle)
| ms_video_quality_controller_update_from_tmmbr (c : handle) (bitrate : Z).

(** What the collaborators answer; the controller only consumes it.
    [VIDEO_ENABLED] is the build option; [ms_time n] is the clock's reading
    number [n]; [dtls_srtp_available] says whether [ms_dtls_srtp_context_new]
    returns a context or null; [filter_status f m] is the status
    [ms_filter_call_method] returns; [encoder_configuration_list] and
    [encoder_configuration] are what the video encoder's two getters write;
    [fmtp_get_value fmtp name size] is the value oRTP copies to a buffer of
    [size] bytes, [None] when it returns false; the last three are the security
    engine's queries on the sessions. *)
Record Env : Type := mkEnv {
  VIDEO_ENABLED : bool;
  ms_time : nat -> Z;
  ms_factory_get_mtu : Z;
  ms_factory_get_cpu_count : Z;
  dtls_srtp_available : bool;
  filter_status : handle -> FilterMethod -> Z;
  video_stream_get_video_preset : option string;
  encoder_configuration_list : option (list MSVideoConfiguration);
  encoder_configuration : MSVideoConfiguration;
  ms_video_find_best_configuration_for_size_and_bitrate :
    list MSVideoConfiguration -> MSVideoSize -> Z -> Z -> MSVideoConfiguration;
  fmtp_get_value : option string -> string -> nat -> option string;
  ms_media_stream_sessions_secured : MSMediaStreamSessions -> MediaStreamDir -> bool;
  ms_media_stream_sessions_get_srtp_key_source :
    MSMediaStreamSessions -> MediaStreamDir -> bool -> MSSrtpKeySource;
  ms_media_stream_sessions_get_srtp_crypto_suite :
    MSMediaStreamSessions -> MediaStreamDir -> bool -> Crypto.MSCryptoSuite
}.

(** The memory the controller works on: the stream, the session objects, the
    trace of collaborator calls (oldest first), the next free address and the
    number of clock readings taken so far. *)
Record World : Type := mkWorld {
  stream : MediaStream;
  heap : gmap handle RtpSession;
  trace : list Event;
  next_handle : handle;
  clock_reads : nat
}.

(** A computation on the world; [None] is undefined behaviour (a null or
    dangling session pointer dereferenced, a division by zero). *)
Definition M (A : Type) : Type := World -> option (A * World).

Definition ret {A} (a : A) : M A := fun w => Some (a, w).

Definition bind {A B} (c : M A) (k : A -> M B) : M B :=
  fun w => match c w with
           | Some (a, w') => k a w'
           | None => None
           end.

Definition undefined {A} : M A := fun _ => None.

End Machine.

(** ** The controller's operations *)

Module Controller.
Import CString Machine.

(** Field updates ([s->f = v]). *)

Definition set_sessions (v : MSMediaStreamSessions) (ms : MediaStream) : MediaStream :=
  mkMediaStream (type ms) (state ms) v (evd ms) (evq ms) (factory ms) (rc ms)
    (rc_enable ms) (rtpsend ms) (rtprecv ms) (encoder ms) (decoder ms) (voidsink ms)
    (qi ms) (ice_check_list ms) (start_time ms) (last_packet_count ms)
    (last_packet_time ms) (owns_sessions ms) (target_bitrate ms) (max_target_bitrate ms)
    (stun_allowed ms) (direction ms) (video_quality_controller ms) (fec_stream ms).

Definition set_last_packet_count (v : Z) (ms : MediaStream) : MediaStream :=
  mkMediaStream (type ms) (state ms) (sessions ms) (evd ms) (evq ms) (factory ms)
    (rc ms) (rc_enable ms) (rtpsend ms) (rtprecv ms) (encoder ms) (decoder ms)
    (voidsink ms) (qi ms) (ice_check_list ms) (start_time ms) v (last_packet_time ms)
    (owns_sessions ms) (target_bitrate ms) (max_target_bitrate ms) (stun_allowed ms)
    (direction ms) (video_quality_controller ms) (fec_stream ms).

Definition set_last_packet_time (v : Z) (ms : MediaStream) : MediaStream :=
  mkMediaStream (type ms) (state ms) (sessions ms) (evd ms) (evq ms) (factory ms)
    (rc ms) (rc_enable ms) (rtpsend ms) (rtprecv ms) (encoder ms) (decoder ms)
    (voidsink ms) (qi ms) (ice_check_list ms) (start_time ms) (last_packet_count ms) v
    (owns_sessions ms) (target_bitrate ms) (max_target_bitrate ms) (stun_allowed ms)
    (direction ms) (video_quality_controller ms) (fec_stream ms).


Definition set_target_bitrate (v : Z) (ms : MediaStream) : MediaStream :=
  mkMediaStream (type ms) (state ms) (sessions ms) (evd ms) (evq ms) (factory ms)
    (rc ms) (rc_enable ms) (rtpsend ms) (rtprecv ms) (encoder ms) (decoder ms)
    (voidsink ms) (qi ms) (ice_check_list ms) (start_time ms) (last_packet_count ms)
    (last_packet_time ms) (owns_sessions ms) v (max_target_bitrate ms) (stun_allowed ms)
    (direction ms) (video_quality_controller ms) (fec_stream ms).

Definition set_max_target_bitrate (v : Z) (ms : MediaStream) : MediaStream :=
  mkMediaStream (type ms) (state ms) (sessions ms) (evd ms) (evq ms) (factory ms)
    (rc ms) (rc_enable ms) (rtpsend ms) (rtprecv ms) (encoder ms) (decoder ms)
    (voidsink ms) (qi ms) (ice_check_list ms) (start_time ms) (last_packet_count ms)
    (last_packet_time ms) (owns_sessions ms) (target_bitrate ms) v (stun_allowed ms)
    (direction ms) (video_quality_controller ms) (fec_stream ms).

Definition set_video_quality_controller (v : option handle) (ms : MediaStream) : MediaStream :=
  mkMediaStream (type ms) (state ms) (sessions ms) (evd ms) (evq ms) (factory ms)
    (rc ms) (rc_enable ms) (rtpsend ms) (rtprecv ms) (encoder ms) (decoder ms)
    (voidsink ms) (qi ms) (ice_check_list ms) (start_time ms) (last_packet_count ms)
    (last_packet_time ms) (owns_sessions ms) (target_bitrate ms) (max_target_bitrate ms)
    (stun_allowed ms) (direction ms) v (fec_stream ms).

Definition set_fec_stream (v : option handle) (ms : MediaStream) : MediaStream :=
  mkMediaStream (type ms) (state ms) (sessions ms) (evd ms) (evq ms) (factory ms)
    (rc ms) (rc_enable ms) (rtpsend ms) (rtprecv ms) (encoder ms) (decoder ms)
    (voidsink ms) (qi ms) (ice_check_list ms) (start_time ms) (last_packet_count ms)
    (last_packet_time ms) (owns_sessions ms) (target_bitrate ms) (max_target_bitrate ms)
    (stun_allowed ms) (direction ms) (video_quality_controller ms) v.

Definition set_rtp_session (v : option handle) (ss : MSMediaStreamSessions) : MSMediaStreamSessions :=
  mkSessions v (fec_session ss) (srtp_context ss) (zrtp_context ss) (dtls_context ss)
    (ticker ss).

Definition set_fec_session (v : option handle) (ss : MSMediaStreamSessions) : MSMediaStreamSessions :=
  mkSessions (rtp_session ss) v (srtp_context ss) (zrtp_context ss) (dtls_context ss)
    (ticker ss).

Definition set_srtp_context (v : option handle) (ss : MSMediaStreamSessions) : MSMediaStreamSessions :=
  mkSessions (rtp_session ss) (fec_session ss) v (zrtp_context ss) (dtls_context ss)
    (ticker ss).

Definition set_zrtp_context (v : option handle) (ss : MSMediaStreamSessions) : MSMediaStreamSessions :=
  mkSessions (rtp_session ss) (fec_session ss) (srtp_context ss) v (dtls_context ss)
    (ticker ss).

Definition set_dtls_context (v : option handle) (ss : MSMediaStreamSessions) : MSMediaStreamSessions :=
  mkSessions (rtp_session ss) (fec_session ss) (srtp_context ss) (zrtp_context ss) v
    (ticker ss).

Definition set_ticker (v : option handle) (ss : MSMediaStreamSessions) : MSMediaStreamSessions :=
  mkSessions (rtp_session ss) (fec_session ss) (srtp_context ss) (zrtp_context ss)
    (dtls_context ss) v.

Definition set_target_upload_bandwidth (v : Z) (rs : RtpSession) : RtpSession :=
  mkRtpSession v (stats_recv rs) (bundle rs) (is_primary rs) (session_fec_stream rs)
    (audio_bandwidth_estimator_enabled rs) (audio_bw_estimator rs)
    (audio_bandwidth_estimator_duplicate_rate rs) (jitter_compensation rs)
    (scheduling_mode rs) (blocking_mode rs) (avpf_feature_tmmbr rs) (session_profile rs)
    (session_payload_type rs).

Definition set_session_fec_stream (v : option handle) (rs : RtpSession) : RtpSession :=
  mkRtpSession (target_upload_bandwidth rs) (stats_recv rs) (bundle rs) (is_primary rs)
    v (audio_bandwidth_estimator_enabled rs) (audio_bw_estimator rs)
    (audio_bandwidth_estimator_duplicate_rate rs) (jitter_compensation rs)
    (scheduling_mode rs) (blocking_mode rs) (avpf_feature_tmmbr rs) (session_profile rs)
    (session_payload_type rs).

Definition set_jitter_compensation (v : Z) (rs : RtpSession) : RtpSession :=
  mkRtpSession (target_upload_bandwidth rs) (stats_recv rs) (bundle rs) (is_primary rs)
    (session_fec_stream rs) (audio_bandwidth_estimator_enabled rs)
    (audio_bw_estimator rs) (audio_bandwidth_estimator_duplicate_rate rs) v
    (scheduling_mode rs) (blocking_mode rs) (avpf_feature_tmmbr rs) (session_profile rs)
    (session_payload_type rs).

Definition set_scheduling_mode (v : Z) (rs : RtpSession) : RtpSession :=
  mkRtpSession (target_upload_bandwidth rs) (stats_recv rs) (bundle rs) (is_primary rs)
    (session_fec_stream rs) (audio_bandwidth_estimator_enabled rs)
    (audio_bw_estimator rs) (audio_bandwidth_estimator_duplicate_rate rs)
    (jitter_compensation rs) v (blocking_mode rs) (avpf_feature_tmmbr rs)
    (session_profile rs) (session_payload_type rs).

Definition set_blocking_mode (v : Z) (rs : RtpSession) : RtpSession :=
  mkRtpSession (target_upload_bandwidth rs) (stats_recv rs) (bundle rs) (is_primary rs)
    (session_fec_stream rs) (audio_bandwidth_estimator_enabled rs)
    (audio_bw_estimator rs) (audio_bandwidth_estimator_duplicate_rate rs)
    (jitter_compensation rs) (scheduling_mode rs) v (avpf_feature_tmmbr rs)
    (session_profile rs) (session_payload_type rs).

Definition set_avpf_feature_tmmbr (v : bool) (rs : RtpSession) : RtpSession :=
  mkRtpSession (target_upload_bandwidth rs) (stats_recv rs) (bundle rs) (is_primary rs)
    (session_fec_stream rs) (audio_bandwidth_estimator_enabled rs)
    (audio_bw_estimator rs) (audio_bandwidth_estimator_duplicate_rate rs)
    (jitter_compensation rs) (scheduling_mode rs) (blocking_mode rs) v
    (session_profile rs) (session_payload_type rs).

Definition set_session_profile (v : option RtpProfile) (rs : RtpSession) : RtpSession :=
  mkRtpSession (target_upload_bandwidth rs) (stats_recv rs) (bundle rs) (is_primary rs)
    (session_fec_stream rs) (audio_bandwidth_estimator_enabled rs)
    (audio_bw_estimator rs) (audio_bandwidth_estimator_duplicate_rate rs)
    (jitter_compensation rs) (scheduling_mode rs) (blocking_mode rs)
    (avpf_feature_tmmbr rs) v (session_payload_type rs).

Definition set_session_payload_type (v : Z) (rs : RtpSession) : RtpSession :=
  mkRtpSession (target_upload_bandwidth rs) (stats_recv rs) (bundle rs) (is_primary rs)
    (session_fec_stream rs) (audio_bandwidth_estimator_enabled rs)
    (audio_bw_estimator rs) (audio_bandwidth_estimator_duplicate_rate rs)
    (jitter_compensation rs) (scheduling_mode rs) (blocking_mode rs)
    (avpf_feature_tmmbr rs) (session_profile rs) v.

Definition set_world_stream (v : MediaStream) (w : World) : World :=
  mkWorld v (heap w) (trace w) (next_handle w) (clock_reads w).

Definition set_world_heap (v : gmap handle RtpSession) (w : World) : World :=
  mkWorld (stream w) v (trace w) (next_handle w) (clock_reads w).

Notation "x <- c1 ;; c2" := (bind c1 (fun x => c2))
  (at level 100, c1 at next level, right associativity).
Notation "c1 ;; c2" := (bind c1 (fun _ => c2))
  (at level 100, right associativity).

(** *** Primitive actions *)

Definition get_stream : M MediaStream := fun w => Some (stream w, w).

Definition modify_stream (f : MediaStream -> MediaStream) : M unit :=
  fun w => Some (tt, set_world_stream (f (stream w)) w).

(** A session as [rtp_session_new] returns it (zero-initialised). *)
Definition fresh_session : RtpSession :=
  mkRtpSession 0 0 None false None false None 0 0 0 0 false None 0.

(** What a collaborator call does to the session objects. *)
Definition effect (e : Event) (h : gmap handle RtpSession) : gmap handle RtpSession :=
  match e with
  | rtp_session_destroy s => delete s h
  | rtp_session_new s => <[s := fresh_session]> h
  | _ => h
  end.

(** Make the call: apply its effect and append it to the trace. *)
Definition call (e : Event) : M unit :=
  fun w => Some (tt, mkWorld (stream w) (effect e (heap w)) (trace w ++ [e])
                             (next_handle w) (clock_reads w)).

(** The address of a newly created object. *)
Definition alloc : M handle :=
  fun w => Some (next_handle w,
                 mkWorld (stream w) (heap w) (trace w) (Pos.succ (next_handle w))
                         (clock_reads w)).

(** [*p] for a session pointer. *)
Definition deref (p : option handle) : M RtpSession :=
  fun w => match p with
           | Some h => match heap w !! h with
                       | Some rs => Some (rs, w)
                       | None => None
                       end
           | None => None
           end.

(** [*p = f( *p )] for a session pointer. *)
Definition update (p : option handle) (f : RtpSession -> RtpSession) : M unit :=
  fun w => match p with
           | Some h => match heap w !! h with
                       | Some rs => Some (tt, set_world_heap (<[h := f rs]> (heap w)) w)
                       | None => None
                       end
           | None => None
           end.

(** A pointer that must not be null where the source dereferences it. *)
Definition the {A} (p : option A) : M A :=
  match p with Some a => ret a | None => undefined end.

Definition when (b : bool) (c : M unit) : M unit := if b then c else ret tt.

(** [if (p) c(p)] *)
Definition if_set {A} (p : option A) (c : A -> M unit) : M unit :=
  match p with Some a => c a | None => ret tt end.

(** Modelled from the spec: oRTP's [fmtp_get_value], which is not part of this
    repository.  An fmtp is a sequence of [name=value] attributes separated
    by [;]; the value of the first attribute called [param_name] is copied to
    a buffer of [result_len] bytes (so at most [result_len - 1] of its bytes),
    and the result is false (here [None]) when the fmtp is null or has no such
    attribute. *)
Fixpoint fmtp_attributes (cur : string) (fmtp : string) : list string :=
  match fmtp with
  | EmptyString => [cur]
  | String c t =>
      if Ascii.eqb c ";" then cur :: fmtp_attributes EmptyString t
      else fmtp_attributes (cur ++ String c EmptyString) t
  end.

Definition attribute_value (param_name attribute : string) : option string :=
  let a := skip_spaces attribute in
  let key := param_name ++ "=" in
  if String.prefix key a
  then Some (String.substring (String.length key) (String.length a - String.length key) a)
  else None.

Fixpoint first_value (param_name : string) (attributes : list string) : option string :=
  match attributes with
  | [] => None
  | a :: rest =>
      match attribute_value param_name a with
      | Some v => Some v
      | None => first_value param_name rest
      end
  end.

Definition fmtp_get_value_model (fmtp : option string) (param_name : string)
    (result_len : nat) : option string :=
  match fmtp with
  | None => None
  | Some f =>
      option_map (String.substring 0 (result_len - 1))
                 (first_value param_name (fmtp_attributes EmptyString f))
  end.

Section WithEnv.

Variable env : Env.

(** [ms_time(NULL)]: the next reading of the clock. *)
Definition ms_time_now : M Z :=
  fun w => Some (ms_time env (clock_reads w),
                 mkWorld (stream w) (heap w) (trace w) (next_handle w)
                         (S (clock_reads w))).

(** *** Lifecycle and ownership *)

Definition media_stream_started (stream : MediaStream) : bool :=
  negb (start_time stream =? 0)%Z.

Definition media_stream_remove_tmmbr_handler : M unit :=
  ms <- get_stream ;;
  call (ortp_ev_dispatcher_disconnect (evd ms)).

(** One step of [ms_media_stream_sessions_uninit]:
    [if (sessions->f) { destroy(sessions->f); sessions->f = NULL; }] *)
Definition release (get : MSMediaStreamSessions -> option handle)
    (destroy : handle -> Event)
    (clear : MSMediaStreamSessions -> MSMediaStreamSessions) : M unit :=
  ms <- get_stream ;;
  if_set (get (sessions ms)) (fun h =>
    call (destroy h) ;;
    modify_stream (fun ms => set_sessions (clear (sessions ms)) ms)).

(** [ms_media_stream_sessions_uninit(&stream->sessions)] *)
Definition ms_media_stream_sessions_uninit : M unit :=
  release srtp_context ms_srtp_context_delete (set_srtp_context None) ;;
  release rtp_session rtp_session_destroy (set_rtp_session None) ;;
  release zrtp_context ms_zrtp_context_destroy (set_zrtp_context None) ;;
  release dtls_context ms_dtls_srtp_context_destroy (set_dtls_context None) ;;
  release ticker ms_ticker_destroy (set_ticker None).

Definition media_stream_free : M unit :=
  media_stream_remove_tmmbr_handler ;;
  stream <- get_stream ;;
  if_set (zrtp_context (sessions stream)) (fun z =>
    call (ms_zrtp_set_stream_sessions z false)) ;;
  if_set (dtls_context (sessions stream)) (fun d =>
    call (ms_dtls_srtp_set_stream_sessions d false)) ;;
  if_set (rtp_session (sessions stream)) (fun s =>
    call (rtp_session_unregister_event_queue s (evq stream))) ;;
  if_set (evq stream) (fun q => call (ortp_ev_queue_destroy q)) ;;
  if_set (evd stream) (fun d => call (ortp_ev_dispatcher_destroy d)) ;;
  when (owns_sessions stream) ms_media_stream_sessions_uninit ;;
  if_set (rc stream) (fun c => call (ms_bitrate_controller_destroy c)) ;;
  if_set (rtpsend stream) (fun f => call (ms_filter_destroy f)) ;;
  if_set (rtprecv stream) (fun f => call (ms_filter_destroy f)) ;;
  if_set (encoder stream) (fun f => call (ms_filter_destroy f)) ;;
  if_set (decoder stream) (fun f => call (ms_filter_destroy f)) ;;
  if_set (voidsink stream) (fun f => call (ms_filter_destroy f)) ;;
  if_set (qi stream) (fun q => call (ms_quality_indicator_destroy q)) ;;
  when (VIDEO_ENABLED env)
    (if_set (video_quality_controller stream) (fun c =>
       call (ms_video_quality_controller_destroy c))).


(** *** Security contexts *)

(** This function decides whether it is necessary to send dummy stun packets
    for firewall opening. *)
Definition media_stream_configure_stun_packet_sending : M unit :=
  stream <- get_stream ;;
  let stun_enabled := stun_allowed stream in
  let stun_enabled := if non_null (ice_check_list stream) then false else stun_enabled in
  rs <- deref (rtp_session (sessions stream)) ;;
  let stun_enabled :=
    if non_null (bundle rs) && negb (is_primary rs) then false else stun_enabled in
  if_set (rtpsend stream) (fun f =>
    call (ms_filter_call_method f (MS_RTP_SEND_ENABLE_STUN stun_enabled)) ;;
    when (non_null (dtls_context (sessions stream)))
      (call (ms_filter_call_method f (MS_RTP_SEND_ENABLE_STUN_FORCED stun_enabled)))).

Definition media_stream_enable_dtls (params : MSDtlsSrtpParams) : M unit :=
  stream <- get_stream ;;
  match dtls_context (sessions stream) with
  | None =>
      let params_copy := params in
      call (Log ms_message "Create DTLS media stream context in stream session [%p]" []) ;;
      let params_copy :=
        if (mtu params_copy =? 0)%Z
        then mkDtlsParams (dtls_role params_copy) (ms_factory_get_mtu env)
        else params_copy in
      ctx <- (if dtls_srtp_available env
              then h <- alloc ;; ret (Some h)
              else ret None) ;;
      call (ms_dtls_srtp_context_new params_copy ctx) ;;
      modify_stream (fun ms => set_sessions (set_dtls_context ctx (sessions ms)) ms) ;;
      media_stream_configure_stun_packet_sending
  | Some _ => ret tt
  end.

Definition media_stream_secured (stream : MediaStream) : bool :=
  if negb (MSStreamState_eqb (state stream) MSStreamStarted) then false
  else match type stream with
       | MSAudio | MSText | MSVideo =>
           ms_media_stream_sessions_secured env (sessions stream) (direction stream)
       | MSUnknownMedia => false
       end.

Definition media_stream_get_srtp_key_source (stream : MediaStream)
    (dir : MediaStreamDir) (is_inner : bool) : MSSrtpKeySource :=
  if negb (MSStreamState_eqb (state stream) MSStreamStarted)
  then MSSrtpKeySourceUnavailable
  else match type stream with
       | MSAudio | MSText | MSVideo =>
           ms_media_stream_sessions_get_srtp_key_source env (sessions stream) dir is_inner
       | MSUnknownMedia => MSSrtpKeySourceUnavailable
       end.

Definition media_stream_get_srtp_crypto_suite (stream : MediaStream)
    (dir : MediaStreamDir) (is_inner : bool) : Crypto.MSCryptoSuite :=
  if negb (MSStreamState_eqb (state stream) MSStreamStarted)
  then Crypto.MS_CRYPTO_SUITE_INVALID
  else match type stream with
       | MSAudio | MSText | MSVideo =>
           ms_media_stream_sessions_get_srtp_crypto_suite env (sessions stream) dir is_inner
       | MSUnknownMedia => Crypto.MS_CRYPTO_SUITE_INVALID
       end.

(** *** RTCP feedback and liveness *)

(** The body of the [do ... while] loop, for one sub-packet. *)
Definition process_rtcp_packet (rtcp_packet : RtcpPacket) : M unit :=
  stream <- get_stream ;;
  when (rc_enable stream)
    (if_set (rc stream) (fun c =>
       call (ms_bitrate_controller_process_rtcp c rtcp_packet))) ;;
  if_set (qi stream) (fun q =>
    call (ms_quality_indicator_update_from_feedback q rtcp_packet)) ;;
  call (process_rtcp rtcp_packet).

(** [while ((rtcp_packet = rtcp_parser_context_next_packet(&rtcp_parser)) != NULL)]:
    the parser hands out what it holds, head first, and null when empty. *)
Fixpoint process_next_packets (rtcp_parser : RtcpParserContext) : M unit :=
  match rtcp_parser with
  | [] => ret tt
  | rtcp_packet :: rtcp_parser' =>
      process_rtcp_packet rtcp_packet ;;
      process_next_packets rtcp_parser'
  end.

Definition media_stream_process_rtcp (m : mblk_t) (curtime : Z) : M unit :=
  modify_stream (set_last_packet_time curtime) ;;
  call (Log ms_message "%s stream [%p]: receiving RTCP %s%s"
            [Z.b2z (rtcp_is_SR m); Z.b2z (rtcp_is_RR m)]) ;;
  let '(rtcp_parser, rtcp_packet) := rtcp_parser_context_init m in
  process_rtcp_packet rtcp_packet ;;
  process_next_packets rtcp_parser.

(** [media_stream_alive]; the clock is read once for the refresh and once for
    the test.  (Times are [time_t] values far from its bounds: the
    subtraction is exact.) *)
Definition media_stream_alive (timeout : Z) : M bool :=
  ms <- get_stream ;;
  if negb (MSStreamState_eqb (state ms) MSStreamStarted) then ret true
  else
    stats <- deref (rtp_session (sessions ms)) ;;
    when (negb (stats_recv stats =? 0)%Z)
      (when (negb (stats_recv stats =? last_packet_count ms)%Z)
         (modify_stream (set_last_packet_count (stats_recv stats)) ;;
          now <- ms_time_now ;;
          modify_stream (set_last_packet_time now))) ;;
    now <- ms_time_now ;;
    ms <- get_stream ;;
    if (now - last_packet_time ms >? timeout)%Z
    then ret false (* more than timeout seconds of inactivity *)
    else ret true.

(** *** Bitrate control *)

Definition INT_MAX : Z := 2 ^ 31 - 1.

Definition UINT64_MODULUS : Z := 2 ^ 64.

Definition media_stream_set_target_network_bitrate (target_bitrate : Z) : M Z :=
  modify_stream (set_target_bitrate target_bitrate) ;;
  ret 0.

Definition media_stream_set_max_network_bitrate (max_bitrate : Z) : M Z :=
  modify_stream (set_max_target_bitrate max_bitrate) ;;
  ret 0.

Definition rtp_session_get_target_upload_bandwidth (session : option handle) : M Z :=
  rs <- deref session ;;
  ret (target_upload_bandwidth rs).

Definition rtp_session_set_target_upload_bandwidth (session : option handle)
    (target_bandwidth : Z) : M unit :=
  update session (set_target_upload_bandwidth target_bandwidth).

Definition update_bitrate_limit_from_tmmbr (br_limit : Z) : M Z :=
  obj <- get_stream ;;
  previous_br_limit <- rtp_session_get_target_upload_bandwidth (rtp_session (sessions obj)) ;;
  match encoder obj with
  | None =>
      call (Log ms_warning "TMMBR not applicable because no encoder for this stream." []) ;;
      ret (-1)
  | Some enc =>
      br_limit <-
        (if (max_target_bitrate obj >? 0)%Z && (br_limit >? max_target_bitrate obj)%Z
         then
           call (Log ms_message
                   "TMMBR is greater than maximum target bitrate set (%i > %i), capping to %i bits/s"
                   [br_limit; max_target_bitrate obj; max_target_bitrate obj]) ;;
           ret (max_target_bitrate obj)
         else ret br_limit) ;;
      if (previous_br_limit =? br_limit)%Z
      then
        call (Log ms_message "Previous bitrate limit was already %i, skipping..." [br_limit]) ;;
        ret (-1)
      else
        when (negb (MSFormatType_eqb (type obj) MSVideo))
          (call (ms_filter_call_method enc (MS_FILTER_SET_BITRATE br_limit)) ;;
           when (negb (filter_status env enc (MS_FILTER_SET_BITRATE br_limit) =? 0)%Z)
             (call (Log ms_warning "Failed to apply bitrate constraint to %s" []))) ;;
        media_stream_set_target_network_bitrate br_limit ;;
        rtp_session_set_target_upload_bandwidth (rtp_session (sessions obj)) br_limit ;;
        ret br_limit
  end.

(** The [VIDEO_ENABLED] part of [media_stream_process_tmmbr]. *)
Definition process_tmmbr_video (br_int : Z) : M unit :=
  ms <- get_stream ;;
  when (MSFormatType_eqb (type ms) MSVideo)
    (enc <- the (encoder ms) ;;
     let preset := video_stream_get_video_preset env in
     if match preset with Some p => String.eqb p "custom" | None => false end
     then
       call (ms_filter_call_method enc MS_VIDEO_ENCODER_GET_CONFIGURATION_LIST) ;;
       if_set (encoder_configuration_list env) (fun vconf_list =>
         call (ms_filter_call_method enc MS_VIDEO_ENCODER_GET_CONFIGURATION) ;;
         let current_vconf := encoder_configuration env in
         let vconf :=
           ms_video_find_best_configuration_for_size_and_bitrate env
             vconf_list (vsize current_vconf) (ms_factory_get_cpu_count env) br_int in
         let new_bitrate_limit :=
           if (br_int <? bitrate_limit vconf)%Z then br_int else bitrate_limit vconf in
         call (Log ms_message "Changing video encoder's output bitrate to %i"
                   [new_bitrate_limit]) ;;
         let current_vconf :=
           mkVConf new_bitrate_limit (bitrate_limit current_vconf) (vsize current_vconf)
                   (fps current_vconf) (mincpu current_vconf) in
         call (ms_filter_call_method enc (MS_VIDEO_ENCODER_SET_CONFIGURATION current_vconf)) ;;
         when (negb (filter_status env enc
                       (MS_VIDEO_ENCODER_SET_CONFIGURATION current_vconf) =? 0)%Z)
           (call (Log ms_warning "Failed to apply fps and bitrate constraint to %s" [])))
     else
       (match video_quality_controller ms with
        | None =>
            c <- alloc ;;
            call (ms_video_quality_controller_new c) ;;
            modify_stream (set_video_quality_controller (Some c))
        | Some _ => ret tt
        end) ;;
       ms <- get_stream ;;
       c <- the (video_quality_controller ms) ;;
       call (ms_video_quality_controller_update_from_tmmbr c br_int)).

(** [tmmbr_mxtbr] is a [uint64_t]: the subtraction wraps, the divisor is the
    [int] rate converted to [uint64_t], and a zero divisor is undefined. *)
Definition media_stream_process_tmmbr (tmmbr_mxtbr : Z) : M unit :=
  call (Log ms_message "MediaStream[%p]: received a TMMBR for bitrate %llu kbits/s"
            [tmmbr_mxtbr / 1000]) ;;
  ms <- get_stream ;;
  (* When audio estimator is on, the actual output will be increased so reduce
     the incoming TMMBR *)
  tmmbr_mxtbr <-
    (if MSFormatType_eqb (type ms) MSAudio
     then
       rs <- deref (rtp_session (sessions ms)) ;;
       if audio_bandwidth_estimator_enabled rs && non_null (audio_bw_estimator rs)
       then
         let rate := audio_bandwidth_estimator_duplicate_rate rs mod UINT64_MODULUS in
         if (rate =? 0)%Z then undefined
         else ret ((tmmbr_mxtbr - tmmbr_mxtbr / rate) mod UINT64_MODULUS)
       else ret tmmbr_mxtbr
     else ret tmmbr_mxtbr) ;;
  let br_int := if (tmmbr_mxtbr <? INT_MAX)%Z then tmmbr_mxtbr else INT_MAX in
  br_int <- update_bitrate_limit_from_tmmbr br_int ;;
  if (br_int =? -1)%Z then ret tt
  else when (VIDEO_ENABLED env) (process_tmmbr_video br_int).

(** *** Forward error correction *)

(** [fmtp_get_value(fmtp, name, buffer, size)] then [atoi(buffer)], or the
    default with its notice. *)
Definition fmtp_int (fmtp : option string) (param : string) (size : nat)
    (found : string) (missing : string) (default : Z) : M Z :=
  match fmtp_get_value env fmtp param size with
  | Some buffer =>
      let v := atoi buffer in
      call (Log ms_message found [v]) ;;
      ret v
  | None =>
      call (Log ms_error missing []) ;;
      ret default
  end.

Definition media_stream_extract_fec_params (fec_payload_type : PayloadType)
    : M FecParameters :=
  let max_size := 10%nat in
  rw <- fmtp_int (recv_fmtp fec_payload_type) "repair-window" max_size
          "[flexfec] repair window set to %d according to fmtp"
          "[flexfec] Impossible to read value of repair window. A default value of 100000 is given."
          100000 ;;
  L <- fmtp_int (recv_fmtp fec_payload_type) "L" 10
         "[flexfec] L parameter set to %d according to fmtp"
         "[flexfec] Impossible to read value of parameter L. A default value of 10 is given."
         10 ;;
  D <- fmtp_int (recv_fmtp fec_payload_type) "D" 10
         "[flexfec] D parameter set to %d according to fmtp"
         "[flexfec] Impossible to read value of parameter D. A default value of 0 is given."
         0 ;;
  ret (mkFecParameters L D rw).

(** oRTP's profile lookups: the first payload type whose mime type matches,
    case-insensitively, and its number (-1 when there is none). *)
Definition rtp_profile_find (profile : RtpProfile) (mime : string)
    : option (Z * PayloadType) :=
  List.find (fun e => strcaseeq (mime_type (snd e)) mime) profile.

Definition rtp_profile_get_payload_from_mime (profile : RtpProfile) (mime : string)
    : option PayloadType :=
  option_map snd (rtp_profile_find profile mime).

Definition rtp_profile_get_payload_number_from_mime (profile : RtpProfile)
    (mime : string) : Z :=
  match rtp_profile_find profile mime with
  | Some e => fst e
  | None => -1
  end.

Definition media_stream_handle_fec (profile : RtpProfile) : M unit :=
  match rtp_profile_get_payload_from_mime profile "flexfec" with
  | None => ret tt
  | Some fec_payload_type =>
      ms <- get_stream ;;
      primary <- deref (rtp_session (sessions ms)) ;;
      let bundle := bundle primary in
      update (rtp_session (sessions ms)) (set_jitter_compensation 200) ;;
      (match fec_session (sessions ms) with
       | None =>
           s <- alloc ;;
           call (rtp_session_new s) ;;
           modify_stream (fun ms => set_sessions (set_fec_session (Some s) (sessions ms)) ms)
       | Some _ => ret tt
       end) ;;
      ms <- get_stream ;;
      let fec := fec_session (sessions ms) in
      update fec (set_scheduling_mode 0) ;;
      update fec (set_blocking_mode 0) ;;
      update fec (set_avpf_feature_tmmbr true) ;;
      update fec (set_session_profile (Some profile)) ;;
      let payload_type_number := rtp_profile_get_payload_number_from_mime profile "flexfec" in
      update fec (set_session_payload_type payload_type_number) ;;
      update fec (set_session_fec_stream None) ;;
      p <- the (rtp_session (sessions ms)) ;;
      f <- the fec ;;
      call (rtp_bundle_add_fec_session bundle p f) ;;
      fec_params <- media_stream_extract_fec_params fec_payload_type ;;
      fs <- alloc ;;
      call (fec_stream_new p f fec_params fs) ;;
      modify_stream (set_fec_stream (Some fs)) ;;
      call (fec_stream_init fs)
  end.

End WithEnv.

End Controller.

(** ** The VideoToolbox decoder: asynchronous deliveries and teardown *)

Module VideoToolbox.
Import Machine.

(** [OSStatus]: [noErr] is 0. *)
Definition OSStatus : Type := Z.

Definition noErr : OSStatus := 0.

(** A decoded image as the callback receives it: its encoded size and planes. *)
Record CVImageBuffer : Type := mkImage {
  encoded_width : Z;
  encoded_height : Z;
  image_planes : list (list Z)
}.

(** [Frame]: the picture copied out of the image, null for a failed decode. *)
Record Frame : Type := mkFrame { getData : option CVImageBuffer }.

Inductive Status : Type := NoError | NoFrameAvailable | DecodingFailure.

Record VideoToolboxDecoder : Type := mkDecoder {
  _session : option handle;
  _formatDesc : option handle;
  _queue : list Frame;
  _destroying : bool;
  _freeze : bool;
  _mutex_held : bool
}.

(** One delivery of the decompression session to [outputCb]. *)
Record Delivery : Type := mkDelivery {
  status : OSStatus;
  imageBuffer : option CVImageBuffer
}.

(** What the decoder does, in program order. *)
Inductive Op : Type :=
| mutex_lock
| mutex_unlock
| write_destroying (v : bool)
| queue_push_back (f : Frame)
| queue_pop_front
| vt_log (text : string)
| VTDecompressionSessionWaitForAsynchronousFrames (s : option handle)
| VTDecompressionSessionInvalidate (s : option handle)
| CFRelease (o : option handle).

Record DecoderState : Type := mkDecoderState {
  this : VideoToolboxDecoder;
  ops : list Op
}.

(** A step of the decoder; [None] when it cannot proceed (the mutex is
    locked while held, or unlocked while free). *)
Definition D (A : Type) : Type := DecoderState -> option (A * DecoderState).

Definition dret {A} (a : A) : D A := fun st => Some (a, st).

Definition dbind {A B} (c : D A) (k : A -> D B) : D B :=
  fun st => match c st with
            | Some (a, st') => k a st'
            | None => None
            end.

Notation "x <~ c1 ;; c2" := (dbind c1 (fun x => c2))
  (at level 100, c1 at next level, right associativity).
Notation "c1 ;;; c2" := (dbind c1 (fun _ => c2))
  (at level 100, right associativity).

Definition op (o : Op) : D unit :=
  fun st => Some (tt, mkDecoderState (this st) (ops st ++ [o])).

Definition read : D VideoToolboxDecoder := fun st => Some (this st, st).

Definition write (f : VideoToolboxDecoder -> VideoToolboxDecoder) : D unit :=
  fun st => Some (tt, mkDecoderState (f (this st)) (ops st)).

Definition set_mutex_held (v : bool) (d : VideoToolboxDecoder) : VideoToolboxDecoder :=
  mkDecoder (_session d) (_formatDesc d) (_queue d) (_destroying d) (_freeze d) v.

Definition set_destroying (v : bool) (d : VideoToolboxDecoder) : VideoToolboxDecoder :=
  mkDecoder (_session d) (_formatDesc d) (_queue d) v (_freeze d) (_mutex_held d).

Definition set_queue (v : list Frame) (d : VideoToolboxDecoder) : VideoToolboxDecoder :=
  mkDecoder (_session d) (_formatDesc d) v (_destroying d) (_freeze d) (_mutex_held d).

Definition set_session (v : option handle) (d : VideoToolboxDecoder) : VideoToolboxDecoder :=
  mkDecoder v (_formatDesc d) (_queue d) (_destroying d) (_freeze d) (_mutex_held d).

Definition set_formatDesc (v : option handle) (d : VideoToolboxDecoder)
    : VideoToolboxDecoder :=
  mkDecoder (_session d) v (_queue d) (_destroying d) (_freeze d) (_mutex_held d).

(** [_mutex.lock()] *)
Definition lock : D unit :=
  fun st => if _mutex_held (this st) then None
            else (op mutex_lock ;;; write (set_mutex_held true)) st.

(** [_mutex.unlock()], also the end of a [std::lock_guard]'s scope. *)
Definition unlock : D unit :=
  fun st => if _mutex_held (this st)
            then (op mutex_unlock ;;; write (set_mutex_held false)) st
            else None.

(** [_destroying = v] *)
Definition assign_destroying (v : bool) : D unit :=
  op (write_destroying v) ;;; write (set_destroying v).

(** [_queue.push_back(f)] *)
Definition push_back (f : Frame) : D unit :=
  op (queue_push_back f) ;;; write (fun d => set_queue (_queue d ++ [f]) d).

(** [VideoToolboxDecoder::outputCb]; [ctx] is the decoder of the state, and
    the [std::lock_guard] is released on every way out. *)
Definition outputCb (d : Delivery) : D unit :=
  lock ;;;
  ctx <~ read ;;
  if _destroying ctx then unlock
  else if negb (status d =? noErr)%Z || negb (CString.non_null (imageBuffer d))
  then
    op (vt_log "fail to decode one frame: %s") ;;;
    push_back (mkFrame None) ;;;
    unlock
  else
    (* the planes are copied into a buffer of the encoded size *)
    push_back (mkFrame (imageBuffer d)) ;;;
    unlock.

(** [VideoToolboxDecoder::fetch]: the status and the frame. *)
Definition fetch : D (Status * option CVImageBuffer) :=
  lock ;;;
  ctx <~ read ;;
  match _queue ctx with
  | [] => unlock ;;; dret (NoFrameAvailable, None)
  | f :: rest =>
      op queue_pop_front ;;;
      write (set_queue rest) ;;;
      unlock ;;;
      dret (match getData f with Some _ => NoError | None => DecodingFailure end, getData f)
  end.

(** The callbacks the decompression session still makes while it is waited
    for, in their order. *)
Fixpoint deliver (late : list Delivery) : D unit :=
  match late with
  | [] => dret tt
  | d :: rest => outputCb d ;;; deliver rest
  end.

(** [VideoToolboxDecoder::destroyDecoder].  The output callback may be called
    until the decoding session is completely destroyed: [late] are the
    deliveries that arrive while the session is waited for. *)
Definition destroyDecoder (late : list Delivery) : D unit :=
  op (vt_log "destroying decoder") ;;;
  lock ;;;
  assign_destroying true ;;;
  unlock ;;;
  ctx <~ read ;;
  op (VTDecompressionSessionWaitForAsynchronousFrames (_session ctx)) ;;;
  deliver late ;;;
  op (VTDecompressionSessionInvalidate (_session ctx)) ;;;
  op (CFRelease (_session ctx)) ;;;
  op (CFRelease (_formatDesc ctx)) ;;;
  write (set_session None) ;;;
  write (set_formatDesc None) ;;;
  assign_destroying false.

End VideoToolbox.

(** ** What the specification says, in the model's terms *)

Module Spec.
Import CString Crypto Machine Controller VideoToolbox.

Local Open Scope list_scope.

Definition olist {A} (p : option A) : list A :=
  match p with Some a => [a] | None => [] end.

(** *** Security descriptors (the table of external interfaces) *)

Definition known_names : list string :=
  ["AES_CM_128_HMAC_SHA1_80"; "AES_CM_128_HMAC_SHA1_32"; "AES_256_CM_HMAC_SHA1_32";
   "AES_256_CM_HMAC_SHA1_80"; "AES_CM_256_HMAC_SHA1_80"; "AEAD_AES_128_GCM";
   "AEAD_AES_256_GCM"].

(** The names of the table's last row: no params token is valid with them. *)
Definition names_without_params : list string :=
  ["AES_256_CM_HMAC_SHA1_32"; "AES_256_CM_HMAC_SHA1_80"; "AES_CM_256_HMAC_SHA1_80";
   "AEAD_AES_128_GCM"; "AEAD_AES_256_GCM"].

Definition unencrypted_tokens : list string := ["UNENCRYPTED_SRTP"; "UNENCRYPTED_SRTCP"].

(** The params tokens of the table. *)
Definition params_tokens : list string := unencrypted_tokens ++ ["UNAUTHENTICATED_SRTP"].

(** [p] holds one of [tokens], wherever in the string. *)
Definition mentions (p : option string) (tokens : list string) : Prop :=
  exists tok, In tok tokens /\ has p tok = true.

(** The valid rows, in the spelling [ms_crypto_suite_to_name_params] writes,
    each with its suite. *)
Definition table_valid : list (MSCryptoSuiteNameParams * MSCryptoSuite) :=
  [ (mkNameParams "AES_CM_128_HMAC_SHA1_80" None, MS_AES_128_SHA1_80);
    (mkNameParams "AES_CM_128_HMAC_SHA1_80" (Some "UNENCRYPTED_SRTP"),
     MS_AES_128_SHA1_80_SRTP_NO_CIPHER);
    (mkNameParams "AES_CM_128_HMAC_SHA1_80" (Some "UNENCRYPTED_SRTCP"),
     MS_AES_128_SHA1_80_SRTCP_NO_CIPHER);
    (mkNameParams "AES_CM_128_HMAC_SHA1_80" (Some "UNENCRYPTED_SRTP UNENCRYPTED_SRTCP"),
     MS_AES_128_SHA1_80_NO_CIPHER);
    (mkNameParams "AES_CM_128_HMAC_SHA1_80" (Some "UNAUTHENTICATED_SRTP"),
     MS_AES_128_SHA1_80_NO_AUTH);
    (mkNameParams "AES_CM_128_HMAC_SHA1_32" None, MS_AES_128_SHA1_32);
    (mkNameParams "AES_CM_128_HMAC_SHA1_32" (Some "UNAUTHENTICATED_SRTP"),
     MS_AES_128_SHA1_32_NO_AUTH);
    (mkNameParams "AES_256_CM_HMAC_SHA1_32" None, MS_AES_256_SHA1_32);
    (mkNameParams "AES_256_CM_HMAC_SHA1_80" None, MS_AES_256_SHA1_80);
    (mkNameParams "AES_CM_256_HMAC_SHA1_80" None, MS_AES_CM_256_SHA1_80);
    (mkNameParams "AEAD_AES_128_GCM" None, MS_AEAD_AES_128_GCM);
    (mkNameParams "AEAD_AES_256_GCM" None, MS_AEAD_AES_256_GCM) ].

(** Other spellings of valid rows: an empty params string for none, the two
    tokens in the other order, extra blanks. *)
Definition table_spellings : list MSCryptoSuiteNameParams :=
  [ mkNameParams "AES_CM_128_HMAC_SHA1_80" (Some EmptyString);
    mkNameParams "AES_CM_128_HMAC_SHA1_80" (Some "UNENCRYPTED_SRTCP UNENCRYPTED_SRTP");
    mkNameParams "AES_CM_128_HMAC_SHA1_80" (Some " UNENCRYPTED_SRTP  UNENCRYPTED_SRTCP ");
    mkNameParams "AES_CM_128_HMAC_SHA1_32" (Some EmptyString);
    mkNameParams "AES_CM_128_HMAC_SHA1_32" (Some " UNAUTHENTICATED_SRTP");
    mkNameParams "AEAD_AES_256_GCM" (Some EmptyString) ].

(** The blank-separated words of a params string. *)
Fixpoint words (cur : string) (s : string) : list string :=
  match s with
  | EmptyString => if String.eqb cur EmptyString then [] else [cur]
  | String c t =>
      if Ascii.eqb c " "
      then (if String.eqb cur EmptyString then [] else [cur]) ++ words EmptyString t
      else words (cur ++ String c EmptyString)%string t
  end.

Definition tokens (p : option string) : list string :=
  match p with Some s => words EmptyString s | None => [] end.

(** Two descriptors are equivalent: the same name and the same set of tokens. *)
Definition equivalent (d d' : MSCryptoSuiteNameParams) : Prop :=
  name d = name d' /\ forall tok, In tok (tokens (params d)) <-> In tok (tokens (params d')).

(** Building a suite from [d] gives a valid one, which is written back as [d']. *)
Definition round_trips_to (d d' : MSCryptoSuiteNameParams) : Prop :=
  ms_crypto_suite_build_from_name_params d <> MS_CRYPTO_SUITE_INVALID /\
  ms_crypto_suite_to_name_params (ms_crypto_suite_build_from_name_params d) = (0, Some d').

(** *** Security contexts *)

(** The invariant of the data model: at most one of the three contexts. *)
Definition at_most_one_security_context (ss : MSMediaStreamSessions) : Prop :=
  match zrtp_context ss, dtls_context ss, srtp_context ss with
  | Some _, Some _, _ | Some _, _, Some _ | _, Some _, Some _ => False
  | _, _, _ => True
  end.

(** *** Ownership and teardown *)

(** The calls [media_stream_free] makes before the sessions' turn. *)
Definition free_before (ms : MediaStream) : list Event :=
  [ortp_ev_dispatcher_disconnect (evd ms)]
  ++ olist (option_map (fun z => ms_zrtp_set_stream_sessions z false)
                       (zrtp_context (sessions ms)))
  ++ olist (option_map (fun d => ms_dtls_srtp_set_stream_sessions d false)
                       (dtls_context (sessions ms)))
  ++ olist (option_map (fun s => rtp_session_unregister_event_queue s (evq ms))
                       (rtp_session (sessions ms)))
  ++ olist (option_map ortp_ev_queue_destroy (evq ms))
  ++ olist (option_map ortp_ev_dispatcher_destroy (evd ms)).

(** The calls it makes after: the sub-resources that are never shared. *)
Definition free_after (env : Env) (ms : MediaStream) : list Event :=
  olist (option_map ms_bitrate_controller_destroy (rc ms))
  ++ olist (option_map ms_filter_destroy (rtpsend ms))
  ++ olist (option_map ms_filter_destroy (rtprecv ms))
  ++ olist (option_map ms_filter_destroy (encoder ms))
  ++ olist (option_map ms_filter_destroy (decoder ms))
  ++ olist (option_map ms_filter_destroy (voidsink ms))
  ++ olist (option_map ms_quality_indicator_destroy (qi ms))
  ++ (if VIDEO_ENABLED env
      then olist (option_map ms_video_quality_controller_destroy
                             (video_quality_controller ms))
      else []).


(** The releases the sessions-uninit step owes for [ss], in its order. *)
Definition expected_releases (ss : MSMediaStreamSessions) : list Event :=
  olist (option_map ms_srtp_context_delete (srtp_context ss))
  ++ olist (option_map rtp_session_destroy (rtp_session ss))
  ++ olist (option_map ms_zrtp_context_destroy (zrtp_context ss))
  ++ olist (option_map ms_dtls_srtp_context_destroy (dtls_context ss))
  ++ olist (option_map ms_ticker_destroy (ticker ss)).

Definition released_sessions (ss : MSMediaStreamSessions) : MSMediaStreamSessions :=
  mkSessions None (fec_session ss) None None None None.

Definition without_session (p : option handle) (h : gmap handle RtpSession)
    : gmap handle RtpSession :=
  match p with Some s => delete s h | None => h end.

(** *** RTCP feedback *)

(** What one sub-packet is fed to, in order. *)
Definition feedback_calls (ms : MediaStream) (p : RtcpPacket) : list Event :=
  (if rc_enable ms
   then olist (option_map (fun c => ms_bitrate_controller_process_rtcp c p) (rc ms))
   else [])
  ++ olist (option_map (fun q => ms_quality_indicator_update_from_feedback q p) (qi ms))
  ++ [process_rtcp p].

Definition sub_packets (m : mblk_t) : list RtcpPacket := first_packet m :: next_packets m.

(** The spec's malformed or truncated sub-packet: one whose common header
    cannot be read.  [media_stream_process_rtcp] makes no such test. *)
Definition malformed (p : RtcpPacket) : Prop := rtcp_type p = None.

(** A call that hands the sub-packet [p] to one of the three handlers. *)
Definition feeds (p : RtcpPacket) (e : Event) : Prop :=
  match e with
  | ms_bitrate_controller_process_rtcp _ q | ms_quality_indicator_update_from_feedback _ q
  | process_rtcp q => q = p
  | _ => False
  end.

(** The spec's dropped sub-packet: no call of the trace hands it on. *)
Definition dropped (p : RtcpPacket) (tr : list Event) : Prop :=
  Forall (fun e => ~ feeds p e) tr.

(** *** Bitrate control *)

Definition is_encoder_call (e : Event) : bool :=
  match e with ms_filter_call_method _ _ => true | _ => false end.

Definition encoder_calls (tr : list Event) : list Event := List.filter is_encoder_call tr.

(** The limit after the ceiling [max_target_bitrate], when one is set. *)
Definition capped (ms : MediaStream) (br_limit : Z) : Z :=
  if (max_target_bitrate ms >? 0)%Z && (br_limit >? max_target_bitrate ms)%Z
  then max_target_bitrate ms else br_limit.

(** The audio stream has an active duplicate-packet estimator. *)
Definition estimator_active (ms : MediaStream) (rs : RtpSession) : bool :=
  MSFormatType_eqb (type ms) MSAudio
  && (audio_bandwidth_estimator_enabled rs && non_null (audio_bw_estimator rs)).

(** The limit a TMMBR asks for: corrected for duplicates, then clamped to the
    platform's integer maximum. *)
Definition requested_limit (ms : MediaStream) (rs : RtpSession) (tmmbr_mxtbr : Z) : Z :=
  let corrected :=
    if estimator_active ms rs
    then (tmmbr_mxtbr
          - tmmbr_mxtbr / (audio_bandwidth_estimator_duplicate_rate rs mod UINT64_MODULUS))
         mod UINT64_MODULUS
    else tmmbr_mxtbr in
  Z.min corrected INT_MAX.

Definition set_bitrate_calls (ms : MediaStream) (enc : handle) (limit : Z) : list Event :=
  if MSFormatType_eqb (type ms) MSVideo then []
  else [ms_filter_call_method enc (MS_FILTER_SET_BITRATE limit)].

(** *** Forward error correction *)

(** The value [media_stream_extract_fec_params] takes for one attribute. *)
Definition fmtp_value (env : Env) (fmtp : option string) (param : string) (default : Z) : Z :=
  match fmtp_get_value env fmtp param 10 with
  | Some buffer => atoi buffer
  | None => default
  end.

Definition expected_fec_params (env : Env) (pt : PayloadType) : FecParameters :=
  mkFecParameters (fmtp_value env (recv_fmtp pt) "L" 10)
                  (fmtp_value env (recv_fmtp pt) "D" 0)
                  (fmtp_value env (recv_fmtp pt) "repair-window" 100000).

(** The documented defaults. *)
Definition default_fec_params : FecParameters := mkFecParameters 10 0 100000.

Definition is_error_notice (e : Event) : bool :=
  match e with Log ms_error _ _ => true | _ => false end.

(** How many of the three attributes [fmtp_get_value] does not find. *)
Definition missing_attributes (env : Env) (pt : PayloadType) : nat :=
  List.length
    (List.filter
       (fun param => negb (non_null (fmtp_get_value env (recv_fmtp pt) param 10)))
       ["repair-window"; "L"; "D"]).

(** The secondary session as [media_stream_handle_fec] configures it. *)
Definition configured (profile : RtpProfile) (rs : RtpSession) : RtpSession :=
  set_session_fec_stream None
    (set_session_payload_type (rtp_profile_get_payload_number_from_mime profile "flexfec")
       (set_session_profile (Some profile)
          (set_avpf_feature_tmmbr true
             (set_blocking_mode 0 (set_scheduling_mode 0 rs))))).

End Spec.

(** ** Concrete streams and environments *)

Module Sample.
Import CString Crypto Machine Controller VideoToolbox Spec.

Local Open Scope list_scope.

Definition vconf : MSVideoConfiguration := mkVConf 512000 1024000 (mkVSize 640 480) 30 1.

(** Collaborators that answer as favourably as they can: every session is
    reported secured, DTLS is available, the encoder accepts every call, the
    clock advances by one second per reading from 1000, and fmtp attributes
    are read by the model of oRTP's parser. *)
Definition env : Env :=
  mkEnv true (fun n => 1000 + Z.of_nat n) 1440 4 true (fun _ _ => 0) None None vconf
        (fun l _ _ _ => List.hd vconf l) fmtp_get_value_model
        (fun _ _ => true) (fun _ _ _ => MSSrtpKeySourceZRTP)
        (fun _ _ _ => MS_AES_128_SHA1_80).

(** A started audio stream that owns its sessions: transport at address 1,
    FEC session at 11, an active ZRTP context at 7, no DTLS context. *)
Definition sessions : MSMediaStreamSessions :=
  mkSessions (Some 1%positive) (Some 11%positive) (Some 12%positive) (Some 7%positive)
             None (Some 13%positive).

Definition stream : MediaStream :=
  mkMediaStream MSAudio MSStreamStarted sessions (Some 2%positive) (Some 3%positive)
    (Some 4%positive) (Some 14%positive) true (Some 5%positive) (Some 6%positive)
    (Some 8%positive) (Some 9%positive) None (Some 10%positive) None 1000 0 1000 true 0
    300000 true MediaStreamSendRecv None (Some 15%positive).

Definition heap : gmap handle RtpSession :=
  <[ 11%positive := fresh_session ]> {[ 1%positive := fresh_session ]}.

Definition world : World := mkWorld stream heap [] 20%positive 0.

(** The same stream before it is started. *)
Definition idle_stream : MediaStream :=
  mkMediaStream MSAudio MSStreamInitialized sessions (Some 2%positive) (Some 3%positive)
    (Some 4%positive) (Some 14%positive) true (Some 5%positive) (Some 6%positive)
    (Some 8%positive) (Some 9%positive) None (Some 10%positive) None 0 0 0 true 0
    300000 true MediaStreamSendRecv None (Some 15%positive).

(** The started stream [timeout + 1] seconds after its last packet, for the
    timeout 10: the clock reads 1011.  In [late_world] the transport has
    received nothing; in [late_world_with_packet] its count is 1. *)
Definition late_world : World := mkWorld stream heap [] 20%positive 11.

Definition session_with_packet : RtpSession :=
  mkRtpSession 0 1 None false None false None 0 0 0 0 false None 0.

Definition late_world_with_packet : World :=
  mkWorld stream (<[ 1%positive := session_with_packet ]> heap) [] 20%positive 11.

(** The stream before any FEC setup. *)
Definition stream_without_fec : MediaStream :=
  set_fec_stream None (set_sessions (set_fec_session None sessions) stream).

Definition world_without_fec : World :=
  mkWorld stream_without_fec {[ 1%positive := fresh_session ]} [] 20%positive 0.

Definition flexfec (fmtp : option string) : PayloadType := mkPayloadType "flexfec" fmtp.

Definition profile : RtpProfile :=
  [(96, mkPayloadType "opus" None);
   (113, flexfec (Some "repair-window=50000;L=4;D=2"))].

(** A well-formed receiver report followed by a truncated tail and a
    further report. *)
Definition compound : mblk_t :=
  mkCompound (mkRtcpPacket (Some RTCP_RR) [129; 201; 0; 7])
             [mkRtcpPacket None [255; 3]; mkRtcpPacket (Some RTCP_SR) [128; 200; 0; 6]].

(** A decoder being torn down, with two frames already queued. *)
Definition image : CVImageBuffer := mkImage 640 480 [[16; 16]; [128]; [128]].

Definition decoder : VideoToolboxDecoder :=
  mkDecoder (Some 40%positive) (Some 41%positive)
            [mkFrame (Some image); mkFrame None] true false false.

(** The same decoder at work. *)
Definition running_decoder : VideoToolboxDecoder :=
  mkDecoder (Some 40%positive) (Some 41%positive)
            [mkFrame (Some image); mkFrame None] false false false.

End Sample.

(** ** Worlds reached by several steps *)

Module Steps.
Import Machine Controller.

Local Open Scope list_scope.

(** Several calls in a row. *)
Definition emit (evs : list Event) (w : World) : World :=
  mkWorld (stream w) (fold_left (fun h e => effect e h) evs (heap w)) (trace w ++ evs)
          (next_handle w) (clock_reads w).

(** The world after one step of the sessions-uninit. *)
Definition release_world (get : MSMediaStreamSessions -> option handle)
    (destroy : handle -> Event)
    (clear : MSMediaStreamSessions -> MSMediaStreamSessions) (w : World) : World :=
  match get (sessions (stream w)) with
  | Some h => set_world_stream (set_sessions (clear (sessions (stream w))) (stream w))
                (emit [destroy h] w)
  | None => w
  end.

Definition uninit_world (w : World) : World :=
  release_world ticker ms_ticker_destroy (set_ticker None)
    (release_world dtls_context ms_dtls_srtp_context_destroy (set_dtls_context None)
      (release_world zrtp_context ms_zrtp_context_destroy (set_zrtp_context None)
        (release_world rtp_session rtp_session_destroy (set_rtp_session None)
          (release_world srtp_context ms_srtp_context_delete (set_srtp_context None) w)))).

(** A call that changes the session objects. *)
Definition heap_event (e : Event) : bool :=
  match e with
  | rtp_session_destroy _ | rtp_session_new _ => true
  | _ => false
  end.

End Steps.

(** ** Ticker priorities from the environment *)

Module TickerPriority.
Import CString Crypto.

Inductive MSTickerPrio : Type :=
| MS_TICKER_PRIO_NORMAL | MS_TICKER_PRIO_HIGH | MS_TICKER_PRIO_REALTIME.

(** The build options the priority functions are compiled under. *)
Record Platform : Type := mkPlatform {
  TARGET_OS_IPHONE : bool;
  MS2_WINDOWS_UNIVERSAL : bool
}.

(** [_ms_ticker_prio_from_env]: [Some prio] when it returns 0 and has written
    [*prio], [None] when it returns -1; with the error line it logs. *)
Definition _ms_ticker_prio_from_env (penv : string) : option MSTickerPrio * list LogLine :=
  if strcaseeq penv "NORMAL" then (Some MS_TICKER_PRIO_NORMAL, [])
  else if strcaseeq penv "HIGH" then (Some MS_TICKER_PRIO_HIGH, [])
  else if strcaseeq penv "REALTIME" then (Some MS_TICKER_PRIO_REALTIME, [])
  else (None, [mkLog true ("Undefined priority " ++ penv)]).

(** [if (penv && _ms_ticker_prio_from_env(penv, &prio) == 0) return prio;]
    and the [return] that follows it. *)
Definition prio_or (penv : option string) (otherwise : MSTickerPrio)
    : MSTickerPrio * list LogLine :=
  match penv with
  | Some v =>
      match _ms_ticker_prio_from_env v with
      | (Some prio, log) => (prio, log)
      | (None, log) => (otherwise, log)
      end
  | None => (otherwise, [])
  end.

(** [__ms_get_default_prio]; [getenv] is the process environment. *)
Definition __ms_get_default_prio (platform : Platform) (getenv : string -> option string)
    (is_video : bool) : MSTickerPrio * list LogLine :=
  if is_video then
    let penv := if MS2_WINDOWS_UNIVERSAL platform then None else getenv "MS_VIDEO_PRIO" in
    prio_or penv (if TARGET_OS_IPHONE platform then MS_TICKER_PRIO_HIGH
                  else MS_TICKER_PRIO_NORMAL)
  else
    let penv := if MS2_WINDOWS_UNIVERSAL platform then None else getenv "MS_AUDIO_PRIO" in
    prio_or penv MS_TICKER_PRIO_HIGH.

End TickerPriority.

(** ** Media resources *)

Module Resource.
Import CString Crypto Machine.

Local Open Scope list_scope.

(** [MSResourceType]; an [enum] object can hold a value that is none of the
    enumerators, which is what the code after each [switch] is for. *)
Inductive MSResourceType : Type :=
| MSResourceInvalid | MSResourceDefault | MSResourceFile | MSResourceRtp
| MSResourceCamera | MSResourceSoundcard | MSResourceVoid | MSResourceItc
| unlisted (value : Z).

Record MSMediaResource : Type := mkResource {
  type : MSResourceType;
  resource_arg : option handle
}.

Record MSMediaStreamIO : Type := mkIO {
  input : MSMediaResource;
  output : MSMediaResource
}.

Definition ms_resource_type_to_string (type : MSResourceType) : string :=
  match type with
  | MSResourceDefault => "MSResourceDefault"
  | MSResourceInvalid => "MSResourceInvalid"
  | MSResourceCamera => "MSResourceCamera"
  | MSResourceFile => "MSResourceFile"
  | MSResourceRtp => "MSResourceRtp"
  | MSResourceSoundcard => "MSResourceSoundcard"
  | MSResourceVoid => "MSResourceVoid"
  | MSResourceItc => "MSResourceItc"
  | unlisted _ => "INVALID"
  end.

(** The result, with the error lines logged. *)
Definition ms_media_resource_is_consistent (r : MSMediaResource) : bool * list LogLine :=
  match type r with
  | MSResourceCamera | MSResourceRtp | MSResourceSoundcard =>
      match resource_arg r with
      | None =>
          (false, [mkLog true ("No resource argument specified for resource type "
                               ++ ms_resource_type_to_string (type r))%string])
      | Some _ => (true, [])
      end
  | MSResourceFile
      (* setting up file player/recorder without specifying the file to play
         immediately is allowed *)
  | MSResourceDefault | MSResourceItc => (true, [])
  | MSResourceInvalid => (false, [mkLog true "Invalid resource type specified"])
  | MSResourceVoid => (true, [])
  | unlisted _ => (false, [mkLog true "Unsupported media resource type [%i]"])
  end.

(** [a && b]: the output is looked at only when the input is consistent. *)
Definition ms_media_stream_io_is_consistent (io : MSMediaStreamIO) : bool * list LogLine :=
  let '(in_ok, in_log) := ms_media_resource_is_consistent (input io) in
  if in_ok
  then let '(out_ok, out_log) := ms_media_resource_is_consistent (output io) in
       (out_ok, in_log ++ out_log)
  else (false, in_log).

End Resource.

(** ** Computations on a state, for the parts below

    A computation takes the state and returns a result with the new state,
    or [None] where the source's behaviour is undefined. *)

Module StateMonad.

Definition ST (S A : Type) : Type := S -> option (A * S).

Definition sret {S A} (a : A) : ST S A := fun s => Some (a, s).

Definition sbind {S A B} (c : ST S A) (k : A -> ST S B) : ST S B :=
  fun s => match c s with
           | Some (a, s') => k a s'
           | None => None
           end.

Definition sget {S} : ST S S := fun s => Some (s, s).

Definition smodify {S} (f : S -> S) : ST S unit := fun s => Some (tt, f s).

Definition sfail {S A} : ST S A := fun _ => None.

(** A pointer or a value that must be there where the source uses it. *)
Definition sthe {S A} (p : option A) : ST S A :=
  match p with Some a => sret a | None => sfail end.

Definition swhen {S} (b : bool) (c : ST S unit) : ST S unit := if b then c else sret tt.

(** [if (p) c(p)] *)
Definition sif_set {S A} (p : option A) (c : A -> ST S unit) : ST S unit :=
  match p with Some a => c a | None => sret tt end.

Declare Scope st_scope.
Delimit Scope st_scope with ST.
Bind Scope st_scope with ST.

Notation "x <- c1 ;; c2" := (sbind c1 (fun x => c2))
  (at level 100, c1 at next level, right associativity) : st_scope.
Notation "c1 ;; c2" := (sbind c1 (fun _ => c2))
  (at level 100, right associativity) : st_scope.

End StateMonad.

(** ** Message blocks, as the decoders use them *)

Module Msgb.

(** Of oRTP's [mblk_t], which is not part of this repository: the bytes
    between [b_rptr] and [b_wptr] of the first block, and those of the blocks
    chained to it by [b_cont]. *)
Record mblk_t : Type := mkBlock {
  bytes : list Z;
  b_cont : list (list Z)
}.

(** [msgdsize]: the bytes of the whole chain. *)
Definition msgdsize (m : mblk_t) : nat :=
  (List.length (bytes m) + List.length (List.concat (b_cont m)))%nat.

(** [dupb]: the first block alone; [dupmsg]: the whole chain. *)
Definition dupb (m : mblk_t) : mblk_t := mkBlock (bytes m) [].

Definition dupmsg (m : mblk_t) : mblk_t := m.

(** The sign of the first difference of two byte sequences. *)
Fixpoint first_difference (s1 s2 : list Z) : Z :=
  match s1, s2 with
  | c1 :: t1, c2 :: t2 => if (c1 =? c2)%Z then first_difference t1 t2 else c1 - c2
  | _, _ => 0
  end.

(** [memcmp(s1, s2, n)] on the contents of two blocks; undefined when [n]
    bytes are not there in one of them. *)
Definition memcmp (s1 s2 : list Z) (n : nat) : option Z :=
  if (n <=? List.length s1)%nat && (n <=? List.length s2)%nat
  then Some (first_difference (firstn n s1) (firstn n s2))
  else None.

End Msgb.

(** ** The MediaCodec H.264 decoder (src/voip/h26x/media-codec-h264-decoder.cpp) *)

Module MediaCodec.
Import CString Machine StateMonad Msgb.

Local Open Scope st_scope.

(** *** Devices that need a restart on new parameter sets *)

Record DeviceInfo : Type := mkDeviceInfo {
  manufacturer : string;
  model : string;
  platform : string
}.

(** [DeviceInfo::operator==] *)
Definition DeviceInfo_eqb (this info : DeviceInfo) : bool :=
  String.eqb (manufacturer this) (manufacturer info)
  && String.eqb (model this) (model info)
  && String.eqb (platform this) (platform info).

Definition weakEquals (this info : DeviceInfo) : bool :=
  String.eqb (manufacturer this) (manufacturer info)
  && String.eqb (platform this) (platform info).

Definition toString (this : DeviceInfo) : string :=
  "{ '" ++ manufacturer this ++ "', '" ++ model this ++ "', '" ++ platform this ++ "' }".

Definition _tvDevices : list DeviceInfo :=
  [ mkDeviceInfo "Amlogic" "Quad-Core Enjoy TV Box" "gxl";
    mkDeviceInfo "rockchip" "X9-LX" "rk3288";
    mkDeviceInfo "rockchip" "rk3288" "rk3288";
    mkDeviceInfo "rockchip" "rk3399" "rk3399";
    mkDeviceInfo "rockchip" "rk3399pro" "rk3399pro";
    mkDeviceInfo "rockchip" "rk3368" "rk3368";
    mkDeviceInfo "rockchip" "Sasincomm S09" "rk3126c";
    mkDeviceInfo "freescale" "Control4-imx8mm" "imx8" ].

(** [getDeviceInfo]; [__system_property_get name] is the status and the
    value Android writes to the buffer. *)
Definition getDeviceInfo (__system_property_get : string -> Z * string) : DeviceInfo :=
  let property name :=
    let '(status, value) := __system_property_get name in
    if (status <? 0)%Z then EmptyString else value in
  mkDeviceInfo (property "ro.product.manufacturer") (property "ro.product.model")
               (property "ro.board.platform").

(** *** The decoder *)

(** What the decoder asks of its base class and of the logger. *)
Inductive Op : Type :=
| ms_message (text : string)
| stopImpl
| startImpl
| MediaCodecDecoder_setParameterSets (parameterSet : list mblk_t) (timestamp : Z).

(** [_format] is an [AMediaFormat], a map from keys to values. *)
Record MediaCodecH264Decoder : Type := mkH264Decoder {
  _resetOnPsReceiving : bool;
  _lastSps : option mblk_t;
  _format : gmap string Z;
  ops : list Op
}.

Definition set_resetOnPsReceiving (v : bool) (d : MediaCodecH264Decoder)
    : MediaCodecH264Decoder :=
  mkH264Decoder v (_lastSps d) (_format d) (ops d).

Definition set_lastSps (v : option mblk_t) (d : MediaCodecH264Decoder)
    : MediaCodecH264Decoder :=
  mkH264Decoder (_resetOnPsReceiving d) v (_format d) (ops d).

Definition set_format (v : gmap string Z) (d : MediaCodecH264Decoder)
    : MediaCodecH264Decoder :=
  mkH264Decoder (_resetOnPsReceiving d) (_lastSps d) v (ops d).

Definition op (o : Op) : ST MediaCodecH264Decoder unit :=
  smodify (fun d => mkH264Decoder (_resetOnPsReceiving d) (_lastSps d) (_format d)
                                  (ops d ++ [o])).

(** The constructor, on a decoder whose members have their initial values
    ([_resetOnPsReceiving] false, as the restart mode is opt-in). *)
Definition MediaCodecH264Decoder_new (__system_property_get : string -> Z * string)
    : ST MediaCodecH264Decoder unit :=
  let info := getDeviceInfo __system_property_get in
  op (ms_message ("MediaCodecH264Decoder: got device info: " ++ toString info)) ;;
  if existsb (fun device => DeviceInfo_eqb device info) _tvDevices
  then
    op (ms_message
          "MediaCodecH264Decoder: found exact device, enabling reset on new SPS/PPS mode") ;;
    smodify (set_resetOnPsReceiving true)
  else
    match List.find (fun device => weakEquals info device) _tvDevices with
    | Some _ =>
        op (ms_message
              "MediaCodecH264Decoder: found matching manufacturer/platform, enabling reset on new SPS/PPS mode") ;;
        smodify (set_resetOnPsReceiving true)
    | None => sret tt
    end.

Definition isNewPps (sps : mblk_t) : ST MediaCodecH264Decoder bool :=
  this <- sget ;;
  match _lastSps this with
  | None =>
      smodify (set_lastSps (Some (dupmsg sps))) ;;
      sret true
  | Some last =>
      let spsSize := List.length (bytes sps) in
      let lastSpsSize := List.length (bytes last) in
      differs <- (if negb (spsSize =? lastSpsSize)%nat then sret true
                  else d <- sthe (memcmp (bytes last) (bytes sps) spsSize) ;;
                       sret (negb (d =? 0)%Z)) ;;
      if differs : bool
      then smodify (set_lastSps (Some (dupmsg sps))) ;; sret true
      else sret false
  end.

(** The H.264 helpers the decoder calls, which are not part of this
    repository: the type of a NAL unit and the picture size an SPS
    announces; and the result of the base class's [setParameterSets]. *)
Record H264Utils : Type := mkH264Utils {
  ms_h264_nalu_get_type : mblk_t -> Z;
  ms_h264_sps_get_video_size : mblk_t -> MSVideoSize;
  base_setParameterSets : list mblk_t -> Z -> bool
}.

Definition MSH264NaluTypeSPS : Z := 7.

Section WithUtils.

Variable utils : H264Utils.

(** The body of the loop over the parameter sets, for one NAL unit.
    [AMediaFormat_getInt32] leaves its result unset when the key is
    missing: reading it is undefined. *)
Definition restart_on_new_size (m : mblk_t) : ST MediaCodecH264Decoder unit :=
  let type := ms_h264_nalu_get_type utils m in
  new_sps <- (if (type =? MSH264NaluTypeSPS)%Z then isNewPps m else sret false) ;;
  swhen new_sps
    (this <- sget ;;
     curWidth <- sthe (_format this !! "width") ;;
     curHeight <- sthe (_format this !! "height") ;;
     let vsize := ms_h264_sps_get_video_size utils m in
     swhen (negb (width vsize =? curWidth)%Z || negb (height vsize =? curHeight)%Z)
       (op (ms_message
              "MediaCodecDecoder: restarting decoder because the video size has changed (%dx%d->%dx%d)") ;;
        smodify (fun d => set_format (<["width" := width vsize]> (_format d)) d) ;;
        smodify (fun d => set_format (<["height" := height vsize]> (_format d)) d) ;;
        op stopImpl ;;
        op startImpl)).

Fixpoint for_each_parameter_set (parameterSet : list mblk_t)
    : ST MediaCodecH264Decoder unit :=
  match parameterSet with
  | [] => sret tt
  | m :: rest => restart_on_new_size m ;; for_each_parameter_set rest
  end.

Definition setParameterSets (parameterSet : list mblk_t) (timestamp : Z)
    : ST MediaCodecH264Decoder bool :=
  this <- sget ;;
  swhen (_resetOnPsReceiving this) (for_each_parameter_set parameterSet) ;;
  op (MediaCodecDecoder_setParameterSets parameterSet timestamp) ;;
  sret (base_setParameterSets utils parameterSet timestamp).

End WithUtils.

(** *** The filter around the decoder *)

(** What the filter asks of the unpacker, of its base class and of the
    logger. *)
Inductive FilterOp : Type :=
| filter_message (text : string)
| setOutOfBandSpsPps (sps pps : mblk_t)
| H26xDecoderFilter_process.

Record MediaCodecH264DecoderFilterImpl : Type := mkFilterImpl {
  _sps : option mblk_t;
  _pps : option mblk_t;
  filter_ops : list FilterOp
}.

Definition set_sps (v : option mblk_t) (f : MediaCodecH264DecoderFilterImpl)
    : MediaCodecH264DecoderFilterImpl :=
  mkFilterImpl v (_pps f) (filter_ops f).

Definition set_pps (v : option mblk_t) (f : MediaCodecH264DecoderFilterImpl)
    : MediaCodecH264DecoderFilterImpl :=
  mkFilterImpl (_sps f) v (filter_ops f).

Definition filter_op (o : FilterOp) : ST MediaCodecH264DecoderFilterImpl unit :=
  smodify (fun f => mkFilterImpl (_sps f) (_pps f) (filter_ops f ++ [o])).

Definition process : ST MediaCodecH264DecoderFilterImpl unit :=
  this <- sget ;;
  match _sps this, _pps this with
  | Some sps, Some pps =>
      filter_op (setOutOfBandSpsPps sps pps) ;;
      smodify (set_sps None) ;;
      smodify (set_pps None)
  | _, _ => sret tt
  end ;;
  filter_op H26xDecoderFilter_process.

(** [strchr(value, ',')]: the text before the first comma and the text
    after it, [None] for the null pointer. *)
Fixpoint split_at_comma (value : string) : option (string * string) :=
  match value with
  | EmptyString => None
  | String c t =>
      if Ascii.eqb c ","
      then Some (EmptyString, t)
      else option_map (fun '(before, after) => (String c before, after)) (split_at_comma t)
  end.

(** [addFmtp]; [fmtp_get_value] is oRTP's, as in the controller, and
    [b64_decode text size] the bytes oRTP's base-64 decoder writes to a
    buffer of [size] bytes. *)
Definition addFmtp (fmtp_get_value : option string -> string -> nat -> option string)
    (b64_decode : string -> nat -> list Z) (fmtp : option string)
    : ST MediaCodecH264DecoderFilterImpl unit :=
  match fmtp_get_value fmtp "sprop-parameter-sets" 256%nat with
  | Some value =>
      match split_at_comma value with
      | Some (b64_sps, b64_pps) =>
          filter_op (filter_message "Got sprop-parameter-sets : sps=%s , pps=%s") ;;
          smodify (set_sps (Some (mkBlock (b64_decode b64_sps 256%nat) []))) ;;
          smodify (set_pps (Some (mkBlock (b64_decode b64_pps 256%nat) [])))
      | None => sret tt
      end
  | None => sret tt
  end.

Definition updateSps (sps : mblk_t) : ST MediaCodecH264DecoderFilterImpl unit :=
  smodify (set_sps (Some (dupb sps))).

Definition updatePps (pps : option mblk_t) : ST MediaCodecH264DecoderFilterImpl unit :=
  match pps with
  | Some p => smodify (set_pps (Some (dupb p)))
  | None => smodify (set_pps None)
  end.

(** [(msgdsize(a) != msgdsize(b)) || (memcmp(b->b_rptr, a->b_rptr, msgdsize(a)) != 0)] *)
Definition changed (a b : mblk_t) : ST MediaCodecH264DecoderFilterImpl bool :=
  if negb (msgdsize a =? msgdsize b)%nat then sret true
  else d <- sthe (memcmp (bytes b) (bytes a) (msgdsize a)) ;;
       sret (negb (d =? 0)%Z).

Definition checkSpsChange (sps : mblk_t) : ST MediaCodecH264DecoderFilterImpl bool :=
  this <- sget ;;
  match _sps this with
  | Some stored =>
      ret <- changed sps stored ;;
      swhen ret
        (filter_op (filter_message "MediaCodecDecoder: SPS changed ! %i,%i") ;;
         updateSps sps ;;
         updatePps None) ;;
      sret ret
  | None =>
      filter_op (filter_message "MediaCodecDecoder: receiving first SPS") ;;
      updateSps sps ;;
      sret false
  end.

Definition checkPpsChange (pps : mblk_t) : ST MediaCodecH264DecoderFilterImpl bool :=
  this <- sget ;;
  match _pps this with
  | Some stored =>
      ret <- changed pps stored ;;
      swhen ret
        (filter_op (filter_message "MediaCodecDecoder: PPS changed ! %i,%i") ;;
         updatePps (Some pps)) ;;
      sret ret
  | None =>
      filter_op (filter_message "MediaCodecDecoder: receiving first PPS") ;;
      updatePps (Some pps) ;;
      sret false
  end.

End MediaCodec.

(** ** The VideoToolbox decoder: feeding encoded frames
    (src/voip/h26x/videotoolbox-decoder.cpp)

    [feed], [createDecoder], [decodeFrame] and [formatDescFromSpsPps] call
    into the parameter-set store, the NAL unit header and Apple's
    frameworks, and they throw.  A collaborator's answer is a function of
    the calls made so far; the block buffers and the sample, which the
    source builds by calls that cannot fail, are the bytes they hold. *)

Module Feeding.
Import CString Machine VideoToolbox StateMonad Msgb.

Local Open Scope list_scope.

(** What is thrown: a [runtime_error] with its message, or the
    [InvalidSessionError] derived from it. *)
Inductive Exception : Type :=
| runtime_error (what : string)
| InvalidSessionError.

(** A call into a collaborator: one of the decoder's operations above, or
    one of these.  The session is created for the planar 4:2:0 pixel format,
    and frames are decoded asynchronously in real-time playback, always. *)
Inductive Call : Type :=
| Decoder (o : Op)
| extractAllPs (frame : list mblk_t)
| acknowlege
| createFormatDescription
| VTDecompressionSessionCreate (formatDesc : option handle) (hardware_accelerated : bool)
| VTSessionCopyProperty (s : option handle) (key : string)
| VTSessionSetProperty (s : option handle) (key : string) (value : bool)
| CFRelease_hardware_acceleration
| CMBlockBufferCreateEmpty
| freemsg (nalu : mblk_t)
| VTDecompressionSessionDecodeFrame (s formatDesc : option handle) (data : list Z)
    (timestamp timescale : Z)
| CFRelease_sample
| CFRelease_stream
| ms_error (fmt arg : string).

Definition kCMBlockBufferNoErr : OSStatus := 0.

(** [kVTInvalidSessionErr] of VideoToolbox's [VTErrors.h]. *)
Definition kVTInvalidSessionErr : OSStatus := -12903.

(** What the collaborators answer, given the calls made so far: the build
    target and the size of the length field before a NAL unit (a constant of
    the decoder's header); what [extractAllPs] leaves in the queue, and the
    store's two flags; whether a NAL unit is part of a key frame; the message
    of the [AppleOSError] or the format description made from the store; the
    status of each framework call, with the session left in [_session] and
    the boolean left in [hardware_acceleration] (null is [None]); the
    deliveries made while a session is waited for; the text of a status and
    of an [InvalidSessionError]. *)
Record Toolbox : Type := mkToolbox {
  TARGET_OS_IPHONE : bool;
  _naluSizeLength : nat;
  extractAllPs_leaves : list Call -> list mblk_t -> list mblk_t;
  hasNewParameters : list Call -> bool;
  psGatheringCompleted : list Call -> bool;
  isKeyFramePart : mblk_t -> bool;
  createFormatDescription_result : list Call -> string + handle;
  VTDecompressionSessionCreate_result : list Call -> OSStatus * option handle;
  VTSessionCopyProperty_result : list Call -> OSStatus * option bool;
  VTSessionSetProperty_result : list Call -> OSStatus;
  CMBlockBufferCreateEmpty_result : list Call -> OSStatus;
  VTDecompressionSessionDecodeFrame_result : list Call -> OSStatus;
  late_deliveries : list Call -> list Delivery;
  toString : OSStatus -> string;
  InvalidSessionError_what : string
}.

(** The decoder, the caller's queue of NAL units, and the calls made so far
    (oldest first). *)
Record Feeder : Type := mkFeeder {
  self : VideoToolboxDecoder;
  encodedFrame : list mblk_t;
  calls : list Call
}.

(** A computation returns or throws. *)
Inductive Outcome (A : Type) : Type :=
| Returned (a : A)
| Thrown (e : Exception).

Arguments Returned {A} a.
Arguments Thrown {A} e.

Definition F (A : Type) : Type := ST Feeder (Outcome A).

Definition fret {A} (a : A) : F A := sret (Returned a).

Definition throw {A} (e : Exception) : F A := sret (Thrown e).

Definition fbind {A B} (c : F A) (k : A -> F B) : F B :=
  sbind c (fun o => match o with
                    | Returned a => k a
                    | Thrown e => sret (Thrown e)
                    end).

(** [try { c } catch (const runtime_error &e) { handler }] *)
Definition try_catch {A} (c : F A) (handler : Exception -> F A) : F A :=
  sbind c (fun o => match o with
                    | Returned a => sret (Returned a)
                    | Thrown e => handler e
                    end).

Declare Scope feed_scope.
Delimit Scope feed_scope with F.
Bind Scope feed_scope with F.

Notation "x <- c1 ;; c2" := (fbind c1 (fun x => c2))
  (at level 100, c1 at next level, right associativity) : feed_scope.
Notation "c1 ;; c2" := (fbind c1 (fun _ => c2))
  (at level 100, right associativity) : feed_scope.

Local Open Scope feed_scope.

Definition history : F (list Call) := fun s => Some (Returned (calls s), s).

Definition call (k : Call) : F unit :=
  fun s => Some (Returned tt, mkFeeder (self s) (encodedFrame s) (calls s ++ [k])).

Definition member {A} (field : VideoToolboxDecoder -> A) : F A :=
  fun s => Some (Returned (field (self s)), s).

Definition assign (f : VideoToolboxDecoder -> VideoToolboxDecoder) : F unit :=
  fun s => Some (Returned tt, mkFeeder (f (self s)) (encodedFrame s) (calls s)).

Definition queue : F (list mblk_t) := fun s => Some (Returned (encodedFrame s), s).

Definition set_encodedFrame (frame : list mblk_t) : F unit :=
  fun s => Some (Returned tt, mkFeeder (self s) frame (calls s)).

(** An operation of the decoder above; its operations join the calls. *)
Definition decoder_op {A} (c : D A) : F A :=
  fun s => match c (mkDecoderState (self s) []) with
           | Some (a, st) =>
               Some (Returned a,
                     mkFeeder (this st) (encodedFrame s) (calls s ++ List.map Decoder (ops st)))
           | None => None
           end.

Definition when (b : bool) (c : F unit) : F unit := if b then c else fret tt.

(** A value that must be there where the source uses it. *)
Definition the {A} (o : option A) : F A :=
  fun s => match o with Some a => Some (Returned a, s) | None => None end.

Definition set_freeze (v : bool) (d : VideoToolboxDecoder) : VideoToolboxDecoder :=
  mkDecoder (_session d) (_formatDesc d) (_queue d) (_destroying d) v (_mutex_held d).

Definition what (e : Exception) (InvalidSessionError_what : string) : string :=
  match e with
  | runtime_error text => text
  | InvalidSessionError => InvalidSessionError_what
  end.

(** [htonl(v)] as it lies in memory: the four bytes of [v], the most
    significant first. *)
Definition htonl (v : Z) : list Z :=
  [Z.land (Z.shiftr v 24) 255; Z.land (Z.shiftr v 16) 255;
   Z.land (Z.shiftr v 8) 255; Z.land v 255].

Section WithToolbox.

Variable t : Toolbox.

(** [VideoToolboxDecoder::destroyDecoder], with the deliveries that arrive
    while the session is waited for. *)
Definition destroyDecoder : F unit :=
  h <- history ;;
  decoder_op (VideoToolbox.destroyDecoder (late_deliveries t h)).

(** [VideoToolboxDecoder::formatDescFromSpsPps] *)
Definition formatDescFromSpsPps : F unit :=
  h <- history ;;
  call createFormatDescription ;;
  match createFormatDescription_result t h with
  | inl e_what => throw (runtime_error ("cannot create format description: " ++ e_what))
  | inr format_desc =>
      decoder_op (op (vt_log "new video format %dx%d")) ;;
      old_desc <- member _formatDesc ;;
      when (non_null old_desc) (decoder_op (op (CFRelease old_desc))) ;;
      assign (set_formatDesc (Some format_desc))
  end.

(** [VideoToolboxDecoder::createDecoder] *)
Definition createDecoder : F unit :=
  decoder_op (op (vt_log "creating a decoding session")) ;;
  decoder_op lock ;;
  destroying <- member _destroying ;;
  when destroying (decoder_op (assign_destroying false)) ;;
  decoder_op unlock ;;
  formatDescFromSpsPps ;;
  desc <- member _formatDesc ;;
  h <- history ;;
  call (VTDecompressionSessionCreate desc (negb (TARGET_OS_IPHONE t))) ;;
  let '(status, session) := VTDecompressionSessionCreate_result t h in
  assign (set_session session) ;;
  if negb (status =? noErr)%Z
  then throw (runtime_error ("could not create the decoding context: " ++ toString t status))
  else
    when (negb (TARGET_OS_IPHONE t))
      (h <- history ;;
       call (VTSessionCopyProperty session
               "kVTDecompressionPropertyKey_UsingHardwareAcceleratedVideoDecoder") ;;
       let '(status, hardware_acceleration) := VTSessionCopyProperty_result t h in
       (if negb (status =? noErr)%Z
        then
          decoder_op (op (vt_log
            "could not read kVTDecompressionPropertyKey_UsingHardwareAcceleratedVideoDecoder property: %s"))
        else
          match hardware_acceleration with
          | Some true => decoder_op (op (vt_log "hardware acceleration enabled"))
          | _ => decoder_op (op (vt_log "hardware acceleration not enabled"))
          end) ;;
       when (non_null hardware_acceleration) (call CFRelease_hardware_acceleration)) ;;
    when (TARGET_OS_IPHONE t)
      (h <- history ;;
       call (VTSessionSetProperty session "kVTDecompressionPropertyKey_RealTime" true) ;;
       when (negb (VTSessionSetProperty_result t h =? noErr)%Z)
         (decoder_op (op (vt_log "could not be able to switch to real-time mode: %s")))).

(** The block made for one NAL unit: its size as [uint32_t] in network
    order, of which the first [_naluSizeLength] bytes are copied, then
    [msgdsize(nalu)] bytes from [nalu->b_rptr]; undefined when these bytes
    are not there. *)
Definition nalu_block (nalu : mblk_t) : option (list Z) :=
  let nalu_size := htonl (Z.of_nat (msgdsize nalu) mod 2 ^ 32) in
  if (_naluSizeLength t <=? 4)%nat && (msgdsize nalu <=? List.length (bytes nalu))%nat
  then Some (firstn (_naluSizeLength t) nalu_size ++ firstn (msgdsize nalu) (bytes nalu))
  else None.

(** The loop of [decodeFrame] over the queue: each NAL unit is taken from
    the queue, its block is appended to the stream, and it is freed. *)
Fixpoint append_nalus (frame : list mblk_t) (stream : list (list Z)) : F (list (list Z)) :=
  match frame with
  | [] => fret stream
  | nalu :: rest =>
      set_encodedFrame rest ;;
      block <- the (nalu_block nalu) ;;
      call (freemsg nalu) ;;
      append_nalus rest (stream ++ [block])
  end.

(** [VideoToolboxDecoder::decodeFrame]; the stream is the list of the blocks
    appended to it, and is empty when there is none. *)
Definition decodeFrame (timestamp : Z) : F unit :=
  h <- history ;;
  call CMBlockBufferCreateEmpty ;;
  if negb (CMBlockBufferCreateEmpty_result t h =? kCMBlockBufferNoErr)%Z
  then throw (runtime_error "failure while creating input buffer for decoder")
  else
    frame <- queue ;;
    stream <- append_nalus frame [] ;;
    match stream with
    | [] => fret tt
    | _ :: _ =>
        session <- member _session ;;
        desc <- member _formatDesc ;;
        h <- history ;;
        call (VTDecompressionSessionDecodeFrame session desc (List.concat stream)
                timestamp 1000) ;;
        let status := VTDecompressionSessionDecodeFrame_result t h in
        call CFRelease_sample ;;
        if negb (status =? noErr)%Z
        then
          call CFRelease_stream ;;
          if (status =? kVTInvalidSessionErr)%Z
          then throw InvalidSessionError
          else throw (runtime_error ("error while passing encoded frames to the decoder: "
                                     ++ toString t status))
        else fret tt
    end ;;
    call CFRelease_stream.

(** The loop of [feed] over the NAL units of a frozen decoder: it stops at
    the first part of a key frame. *)
Fixpoint unfreeze_on_key_frame (frame : list mblk_t) : F unit :=
  match frame with
  | [] => fret tt
  | nalu :: rest =>
      if isKeyFramePart t nalu then assign (set_freeze false)
      else unfreeze_on_key_frame rest
  end.

(** [VideoToolboxDecoder::feed] *)
Definition feed (timestamp : Z) : F bool :=
  try_catch
    (frame <- queue ;;
     call (extractAllPs frame) ;;
     h <- history ;;
     set_encodedFrame (extractAllPs_leaves t h frame) ;;
     when (hasNewParameters t h)
       (call acknowlege ;;
        session <- member _session ;;
        when (non_null session) destroyDecoder) ;;
     frame <- queue ;;
     match frame with
     | [] => fret true
     | _ :: _ =>
         h <- history ;;
         (if negb (psGatheringCompleted t h)
          then throw (runtime_error "need more parameter sets")
          else fret tt) ;;
         session <- member _session ;;
         when (negb (non_null session)) createDecoder ;;
         frozen <- member _freeze ;;
         when frozen (unfreeze_on_key_frame frame) ;;
         still_frozen <- member _freeze ;;
         if negb still_frozen
         then decodeFrame timestamp ;; fret true
         else fret false
     end)
    (fun e =>
       call (ms_error "VideoToolboxDecoder: %s" (what e (InvalidSessionError_what t))) ;;
       call (ms_error "VideoToolboxDecoder: feeding failed" EmptyString) ;;
       match e with
       | InvalidSessionError => destroyDecoder
       | runtime_error _ => fret tt
       end ;;
       fret false).

End WithToolbox.

(** *** What feeding amounts to *)

(** What a computation keeps: a free mutex stays free, a guard that is down
    stays down, the decoder is not frozen anew, the decoded frames stay as
    they are, and the calls made are kept. *)
Definition keeps (s s' : Feeder) : Prop :=
  (_mutex_held (self s) = false -> _mutex_held (self s') = false)
  /\ (_destroying (self s) = false -> _destroying (self s') = false)
  /\ (_freeze (self s') = true -> _freeze (self s) = true)
  /\ _queue (self s') = _queue (self s)
  /\ exists added, calls s' = calls s ++ added.

(** The calls of [destroyDecoder] on this session and format description,
    with these late deliveries. *)
Definition destroy_calls (session formatDesc : option handle) (late : list Delivery)
    : list Call :=
  List.map Decoder
    ([vt_log "destroying decoder"; mutex_lock; write_destroying true; mutex_unlock;
      VTDecompressionSessionWaitForAsynchronousFrames session]
     ++ flat_map (fun _ => [mutex_lock; mutex_unlock]) late
     ++ [VTDecompressionSessionInvalidate session; CFRelease session; CFRelease formatDesc;
         write_destroying false]).

(** The calls of [createDecoder] once the session [session] is created,
    [h] being the calls made until then. *)
Definition property_calls (t : Toolbox) (session : option handle) (h : list Call)
    : list Call :=
  if TARGET_OS_IPHONE t
  then
    VTSessionSetProperty session "kVTDecompressionPropertyKey_RealTime" true
    :: (if negb (VTSessionSetProperty_result t h =? noErr)%Z
        then [Decoder (vt_log "could not be able to switch to real-time mode: %s")]
        else [])
  else
    let '(status, hardware_acceleration) := VTSessionCopyProperty_result t h in
    [VTSessionCopyProperty session
       "kVTDecompressionPropertyKey_UsingHardwareAcceleratedVideoDecoder";
     Decoder (vt_log
       (if negb (status =? noErr)%Z
        then "could not read kVTDecompressionPropertyKey_UsingHardwareAcceleratedVideoDecoder property: %s"
        else match hardware_acceleration with
             | Some true => "hardware acceleration enabled"
             | _ => "hardware acceleration not enabled"
             end))]
    ++ (if non_null hardware_acceleration then [CFRelease_hardware_acceleration] else []).

(** The bytes of the block made for a NAL unit. *)
Definition block_bytes (t : Toolbox) (nalu : mblk_t) : list Z :=
  match nalu_block t nalu with Some block => block | None => [] end.

(** A NAL unit in one block. *)
Definition unfragmented (nalu : mblk_t) : Prop := List.concat (b_cont nalu) = [].

(** A NAL unit behind its size in four bytes, the most significant first. *)
Definition framed (nalu : mblk_t) : list Z :=
  htonl (Z.of_nat (List.length (bytes nalu))) ++ bytes nalu.

(** Reading such a stream back: a size and that many bytes, in turn, for at
    most [fuel] NAL units. *)
Fixpoint split_nalus (fuel : nat) (data : list Z) : option (list (list Z)) :=
  match data, fuel with
  | [], _ => Some []
  | b3 :: b2 :: b1 :: b0 :: rest, S fuel' =>
      let size := Z.to_nat (b3 * 2 ^ 24 + b2 * 2 ^ 16 + b1 * 2 ^ 8 + b0) in
      if (size <=? List.length rest)%nat
      then option_map (cons (firstn size rest)) (split_nalus fuel' (skipn size rest))
      else None
  | _, _ => None
  end.

End Feeding.

(** ** The rest of the stream session controller (src/voip/mediastream.c)

    The operations below make collaborator calls that the machine's [Event]
    does not list; a session keeps the calls of both kinds, in program order,
    together with the stream's remaining fields. *)

Module Session.
Import CString Crypto Machine Controller TickerPriority StateMonad.

Local Open Scope list_scope.

(** Field updates ([s->f = v]). *)

Definition set_evd (v : option handle) (ms : MediaStream) : MediaStream :=
  mkMediaStream (type ms) (state ms) (sessions ms) v (evq ms) (factory ms) (rc ms)
    (rc_enable ms) (rtpsend ms) (rtprecv ms) (encoder ms) (decoder ms) (voidsink ms)
    (qi ms) (ice_check_list ms) (start_time ms) (last_packet_count ms)
    (last_packet_time ms) (owns_sessions ms) (target_bitrate ms) (max_target_bitrate ms)
    (stun_allowed ms) (direction ms) (video_quality_controller ms) (fec_stream ms).

Definition set_evq (v : option handle) (ms : MediaStream) : MediaStream :=
  mkMediaStream (type ms) (state ms) (sessions ms) (evd ms) v (factory ms) (rc ms)
    (rc_enable ms) (rtpsend ms) (rtprecv ms) (encoder ms) (decoder ms) (voidsink ms)
    (qi ms) (ice_check_list ms) (start_time ms) (last_packet_count ms)
    (last_packet_time ms) (owns_sessions ms) (target_bitrate ms) (max_target_bitrate ms)
    (stun_allowed ms) (direction ms) (video_quality_controller ms) (fec_stream ms).

Definition set_factory (v : option handle) (ms : MediaStream) : MediaStream :=
  mkMediaStream (type ms) (state ms) (sessions ms) (evd ms) (evq ms) v (rc ms)
    (rc_enable ms) (rtpsend ms) (rtprecv ms) (encoder ms) (decoder ms) (voidsink ms)
    (qi ms) (ice_check_list ms) (start_time ms) (last_packet_count ms)
    (last_packet_time ms) (owns_sessions ms) (target_bitrate ms) (max_target_bitrate ms)
    (stun_allowed ms) (direction ms) (video_quality_controller ms) (fec_stream ms).

Definition set_ice_check_list (v : option handle) (ms : MediaStream) : MediaStream :=
  mkMediaStream (type ms) (state ms) (sessions ms) (evd ms) (evq ms) (factory ms)
    (rc ms) (rc_enable ms) (rtpsend ms) (rtprecv ms) (encoder ms) (decoder ms)
    (voidsink ms) (qi ms) v (start_time ms) (last_packet_count ms) (last_packet_time ms)
    (owns_sessions ms) (target_bitrate ms) (max_target_bitrate ms) (stun_allowed ms)
    (direction ms) (video_quality_controller ms) (fec_stream ms).

Definition set_stun_allowed (v : bool) (ms : MediaStream) : MediaStream :=
  mkMediaStream (type ms) (state ms) (sessions ms) (evd ms) (evq ms) (factory ms)
    (rc ms) (rc_enable ms) (rtpsend ms) (rtprecv ms) (encoder ms) (decoder ms)
    (voidsink ms) (qi ms) (ice_check_list ms) (start_time ms) (last_packet_count ms)
    (last_packet_time ms) (owns_sessions ms) (target_bitrate ms) (max_target_bitrate ms)
    v (direction ms) (video_quality_controller ms) (fec_stream ms).

Definition set_direction (v : MediaStreamDir) (ms : MediaStream) : MediaStream :=
  mkMediaStream (type ms) (state ms) (sessions ms) (evd ms) (evq ms) (factory ms)
    (rc ms) (rc_enable ms) (rtpsend ms) (rtprecv ms) (encoder ms) (decoder ms)
    (voidsink ms) (qi ms) (ice_check_list ms) (start_time ms) (last_packet_count ms)
    (last_packet_time ms) (owns_sessions ms) (target_bitrate ms) (max_target_bitrate ms)
    (stun_allowed ms) v (video_quality_controller ms) (fec_stream ms).

(** oRTP's feedback message types; a 5-bit field can hold others. *)
Inductive rtcp_rtpfb_type_t : Type :=
| RTCP_RTPFB_NACK | RTCP_RTPFB_TMMBR | RTCP_RTPFB_TMMBN | rtpfb_other (fmt : Z).

(** The event types [media_stream_iterate] tells apart. *)
Inductive OrtpEventType : Type :=
| ORTP_EVENT_STUN_PACKET_RECEIVED
| ORTP_EVENT_RTCP_PACKET_RECEIVED
| ORTP_EVENT_RTCP_PACKET_EMITTED
| ORTP_EVENT_ZRTP_ENCRYPTION_CHANGED
| ORTP_EVENT_DTLS_ENCRYPTION_CHANGED
| ortp_event_other.

(** An event of the queue: its address, its type and the packet of its
    data. *)
Record OrtpEvent : Type := mkOrtpEvent {
  event : handle;
  ortp_event_get_type : OrtpEventType;
  packet : option mblk_t
}.

(** A call into a collaborator: one of the machine's, or one of these. *)
Inductive Call : Type :=
| Core (e : Event)
| ortp_ev_dispatcher_new (s : option handle) (result : handle)
| ortp_ev_queue_new (result : handle)
| rtp_session_register_event_queue (s : option handle) (q : handle)
| ortp_ev_dispatcher_connect (d : option handle)
| rtp_session_set_recv_buf_size (s : handle) (size : Z)
| rtp_session_enable_adaptive_jitter_compensation (s : option handle) (enabled : bool)
| rtp_session_set_symmetric_rtp (s : handle) (yes : bool)
| rtp_session_set_local_addr (s : handle) (addr : string) (rtp_port rtcp_port : Z)
| rtp_session_signal_connect (s : handle) (signal : string)
| rtp_session_set_ssrc_changed_threshold (s : handle) (packets : Z)
| rtp_session_set_rtcp_report_interval (s : option handle) (interval_ms : Z)
| rtp_session_set_multicast_loopback (s : handle) (yes : bool)
| rtp_session_set_send_ts_offset (s : handle) (offset : Z)
| setsockopt_SO_NO_CHECK (s : handle)
| rtp_session_set_rtp_socket_recv_buffer_size (s : handle) (size : Z)
| rtp_session_set_rtp_socket_send_buffer_size (s : handle) (size : Z)
| ms_ticker_new_with_params (name : string) (prio : MSTickerPrio) (result : handle)
| ice_check_list_set_rtp_session (cl : handle) (s : option handle)
| ice_check_list_process (cl : handle) (s : option handle)
| ice_handle_stun_packet (cl : handle) (s : option handle) (ev : handle)
| ice_check_list_print_route (cl : handle)
| ms_bandwidth_controller_elect_controlled_streams (c : handle)
| ms_quality_indicator_update_local (q : handle)
| ms_bitrate_controller_update (c : handle)
| ortp_ev_dispatcher_iterate (d : handle)
| ortp_event_destroy (ev : handle)
| rtp_stats_display (s : handle)
| fec_stream_print_stats (f : handle).

(** What the collaborators of these operations answer: the machine's [Env];
    the build options and the process environment; the name of a stream
    type; the type and the bitrate oRTP reads from a feedback packet; the
    status of [rtp_session_set_local_addr] and of [setsockopt]; and a random
    number. *)
Record Collaborators : Type := mkCollaborators {
  env : Env;
  platform : Platform;
  DISABLE_CHECKSUMS : bool;
  getenv : string -> option string;
  ms_format_type_to_string : MSFormatType -> string;
  rtcp_RTPFB_get_type : mblk_t -> rtcp_rtpfb_type_t;
  rtcp_RTPFB_tmmbr_get_max_bitrate : mblk_t -> Z;
  local_addr_status : string -> Z -> Z -> Z;
  setsockopt_status : Z;
  bctbx_random : Z
}.

(** The stream with the fields the machine's [MediaStream] leaves out, and
    the calls made so far (oldest first).  The trace of [world] is not used:
    the machine's calls are moved to [calls] as they are made. *)
Record Session : Type := mkSession {
  world : World;
  is_beginning : bool;
  last_iterate_time : Z;
  bandwidth_controller : option handle;
  calls : list Call
}.

Definition X (A : Type) : Type := ST Session A.

Definition set_is_beginning (v : bool) (s : Session) : Session :=
  mkSession (world s) v (last_iterate_time s) (bandwidth_controller s) (calls s).

Definition set_last_iterate_time (v : Z) (s : Session) : Session :=
  mkSession (world s) (is_beginning s) v (bandwidth_controller s) (calls s).

Definition set_bandwidth_controller (v : option handle) (s : Session) : Session :=
  mkSession (world s) (is_beginning s) (last_iterate_time s) v (calls s).

(** The world with an empty trace. *)
Definition flush (w : World) : World :=
  mkWorld (stream w) (heap w) [] (next_handle w) (clock_reads w).

(** An operation of the machine, run on the session's world; the calls it
    makes join the session's. *)
Definition lift {A} (c : M A) : X A :=
  fun s => match c (flush (world s)) with
           | Some (a, w') =>
               Some (a, mkSession (flush w') (is_beginning s) (last_iterate_time s)
                                  (bandwidth_controller s)
                                  (calls s ++ List.map Core (trace w')))
           | None => None
           end.

Definition xcall (c : Call) : X unit :=
  smodify (fun s => mkSession (world s) (is_beginning s) (last_iterate_time s)
                              (bandwidth_controller s) (calls s ++ [c])).

Definition MediaStreamDir_eqb (a b : MediaStreamDir) : bool :=
  match a, b with
  | MediaStreamSendRecv, MediaStreamSendRecv | MediaStreamSendOnly, MediaStreamSendOnly
  | MediaStreamRecvOnly, MediaStreamRecvOnly => true
  | _, _ => false
  end.

(** [toupper] on the ASCII letters. *)
Definition toupper (c : ascii) : ascii :=
  if (97 <=? code c)%Z && (code c <=? 122)%Z
  then ascii_of_N (N_of_ascii c - 32) else c.

(** [snprintf(buffer, size, ...)] of a text: at most [size - 1] of its bytes. *)
Definition snprintf (size : nat) (text : string) : string :=
  String.substring 0 (size - 1) text.

Definition MS_MINIMAL_MTU : Z := 1500.

Definition UINT32_MODULUS : Z := 2 ^ 32.

Section WithCollaborators.

Variable c : Collaborators.

Local Open Scope st_scope.

(** *** Creation *)

Definition media_stream_add_tmmbr_handler : X unit :=
  stream <- lift get_stream ;;
  xcall (ortp_ev_dispatcher_connect (evd stream)).

Definition bind_zrtp (z : handle) : M unit := call (ms_zrtp_set_stream_sessions z true).

Definition bind_dtls (d : handle) : M unit := call (ms_dtls_srtp_set_stream_sessions d true).

Definition media_stream_init (factory : option handle) (sessions : MSMediaStreamSessions)
    : X unit :=
  lift (modify_stream (set_sessions sessions)) ;;
  d <- lift alloc ;;
  xcall (ortp_ev_dispatcher_new (rtp_session sessions) d) ;;
  lift (modify_stream (set_evd (Some d))) ;;
  q <- lift alloc ;;
  xcall (ortp_ev_queue_new q) ;;
  lift (modify_stream (set_evq (Some q))) ;;
  (* the factory is used later to instanciate everything in mediastreamer2. *)
  lift (modify_stream (set_factory factory)) ;;
  xcall (rtp_session_register_event_queue (rtp_session sessions) q) ;;
  (* we give to the zrtp and dtls sessions a backpointer to all the stream
     sessions *)
  lift (if_set (zrtp_context sessions) bind_zrtp) ;;
  lift (if_set (dtls_context sessions) bind_dtls) ;;
  media_stream_add_tmmbr_handler ;;
  lift (modify_stream (set_stun_allowed true)).

Definition disable_checksums (sock : handle) : X unit :=
  swhen (DISABLE_CHECKSUMS c)
    (xcall (setsockopt_SO_NO_CHECK sock) ;;
     swhen (setsockopt_status c =? -1)%Z
       (xcall (Core (Log ms_warning "Could not disable udp checksum: %s" [])))).

(** The scheduling mode, the blocking mode and the TMMBR feature are
    fields of the session object, as in [media_stream_handle_fec]. *)
Definition ms_create_duplex_rtp_session (local_ip : option string)
    (loc_rtp_port loc_rtcp_port mtu : Z) : X handle :=
  let socket_buf_size := 2000000 in
  rtpr <- lift alloc ;;
  lift (call (rtp_session_new rtpr)) ;;
  xcall (rtp_session_set_recv_buf_size rtpr (Z.max mtu MS_MINIMAL_MTU)) ;;
  lift (update (Some rtpr) (set_scheduling_mode 0)) ;;
  lift (update (Some rtpr) (set_blocking_mode 0)) ;;
  xcall (rtp_session_enable_adaptive_jitter_compensation (Some rtpr) true) ;;
  xcall (rtp_session_set_symmetric_rtp rtpr true) ;;
  match local_ip with
  | Some ip => xcall (rtp_session_set_local_addr rtpr ip loc_rtp_port loc_rtcp_port)
  | None =>
      xcall (rtp_session_set_local_addr rtpr "::0" loc_rtp_port loc_rtcp_port) ;;
      swhen (local_addr_status c "::0" loc_rtp_port loc_rtcp_port <? 0)%Z
        (xcall (rtp_session_set_local_addr rtpr "0.0.0.0" loc_rtp_port loc_rtcp_port))
  end ;;
  xcall (rtp_session_signal_connect rtpr "timestamp_jump") ;;
  xcall (rtp_session_signal_connect rtpr "ssrc_changed") ;;
  xcall (rtp_session_set_ssrc_changed_threshold rtpr 0) ;;
  (* At the beginning of the session send more reports. *)
  xcall (rtp_session_set_rtcp_report_interval (Some rtpr) 2500) ;;
  xcall (rtp_session_set_multicast_loopback rtpr true) ;;
  xcall (rtp_session_set_send_ts_offset rtpr (bctbx_random c mod UINT32_MODULUS)) ;;
  lift (update (Some rtpr) (set_avpf_feature_tmmbr true)) ;;
  disable_checksums rtpr ;;
  xcall (rtp_session_set_rtp_socket_recv_buffer_size rtpr socket_buf_size) ;;
  xcall (rtp_session_set_rtp_socket_send_buffer_size rtpr socket_buf_size) ;;
  sret rtpr.

Definition media_stream_type_str (stream : MediaStream) : string :=
  ms_format_type_to_string c (type stream).

(** The name written to [char name[32]]. *)
Definition ticker_name (stream : MediaStream) : string :=
  match snprintf 31 (media_stream_type_str stream ++ " MSTicker")%string with
  | String first rest => String (toupper first) rest
  | EmptyString => EmptyString
  end.

Definition log_line (l : LogLine) : Call :=
  Core (Log (if log_error l then ms_error else ms_message) (log_text l) []).

Fixpoint log_lines (ls : list LogLine) : X unit :=
  match ls with
  | [] => sret tt
  | l :: rest => xcall (log_line l) ;; log_lines rest
  end.

Definition media_stream_start_ticker : X unit :=
  stream <- lift get_stream ;;
  match ticker (sessions stream) with
  | Some _ => sret tt
  | None =>
      let name := ticker_name stream in
      let '(prio, logged) :=
        __ms_get_default_prio (platform c) (getenv c)
          (if MSFormatType_eqb (type stream) MSVideo then true else false) in
      log_lines logged ;;
      t <- lift alloc ;;
      xcall (ms_ticker_new_with_params name prio t) ;;
      lift (modify_stream (fun ms => set_sessions (set_ticker (Some t) (sessions ms)) ms))
  end.

(** *** Settings *)

Definition media_stream_set_ice_check_list (cl : option handle) : X unit :=
  lift (modify_stream (set_ice_check_list cl)) ;;
  stream <- lift get_stream ;;
  sif_set (ice_check_list stream) (fun l =>
    xcall (ice_check_list_set_rtp_session l (rtp_session (sessions stream)))) ;;
  lift media_stream_configure_stun_packet_sending.

Definition media_stream_set_direction (dir : MediaStreamDir) : X unit :=
  lift (modify_stream (set_direction dir)) ;;
  s <- sget ;;
  swhen (MediaStreamDir_eqb dir MediaStreamSendOnly)
    (sif_set (bandwidth_controller s) (fun b =>
       xcall (ms_bandwidth_controller_elect_controlled_streams b))).

(** *** The periodic iteration *)

(** The body of the loop over the event queue, for one event. *)
Definition process_event (curtime : Z) (ev : OrtpEvent) : X unit :=
  let evt := ortp_event_get_type ev in
  stream <- lift get_stream ;;
  match evt with
  | ORTP_EVENT_RTCP_PACKET_RECEIVED =>
      m <- sthe (packet ev) ;;
      lift (media_stream_process_rtcp m curtime)
  | ORTP_EVENT_RTCP_PACKET_EMITTED =>
      lift (deref (rtp_session (sessions stream))) ;;
      xcall (Core (Log ms_message
                     "%s_stream_iterate[%p], local statistics available:\n\tLocal current jitter buffer size: %5.1fms"
                     []))
  | ORTP_EVENT_STUN_PACKET_RECEIVED =>
      sif_set (ice_check_list stream) (fun cl =>
        xcall (ice_handle_stun_packet cl (rtp_session (sessions stream)) (event ev)))
  | ORTP_EVENT_ZRTP_ENCRYPTION_CHANGED | ORTP_EVENT_DTLS_ENCRYPTION_CHANGED =>
      xcall (Core (Log ms_message "%s_stream_iterate[%p]: is %s "
                     [Z.b2z (media_stream_secured (env c) stream)]))
  | ortp_event_other => sret tt
  end ;;
  xcall (ortp_event_destroy (event ev)).

(** [while ((ev = ortp_ev_queue_get(stream->evq)) != NULL)]: [pending] are
    the events the queue hands out before it is empty. *)
Fixpoint process_events (curtime : Z) (pending : list OrtpEvent) : X unit :=
  match pending with
  | [] => sret tt
  | ev :: rest => process_event curtime ev ;; process_events curtime rest
  end.

(** [media_stream_tmmbr_received], the handler [media_stream_init] connects
    to the dispatcher; [packet] is [evd->packet] and the stream is the
    handler's user pointer. *)
Definition media_stream_tmmbr_received (packet : mblk_t) : M unit :=
  match rtcp_RTPFB_get_type c packet with
  | RTCP_RTPFB_TMMBR =>
      let tmmbr_mxtbr := rtcp_RTPFB_tmmbr_get_max_bitrate c packet in
      media_stream_process_tmmbr (env c) tmmbr_mxtbr
  | _ => ret tt
  end.

(** Modelled from the spec: oRTP's dispatcher, which is not part of this
    repository.  [ortp_ev_dispatcher_iterate] invokes the registered handler
    synchronously for each RTCP feedback packet it recognises among the
    events it has received; [dispatched] are the packets of these events, in
    order, and the handler is the one [media_stream_init] registers. *)
Fixpoint dispatch (dispatched : list mblk_t) : M unit :=
  match dispatched with
  | [] => ret tt
  | packet :: rest => bind (media_stream_tmmbr_received packet) (fun _ => dispatch rest)
  end.

(** [media_stream_iterate]; [dispatched] are the feedback packets the
    dispatcher hands to its handler during the call, and [pending] the events
    of the stream's own queue. *)
Definition media_stream_iterate (dispatched : list mblk_t) (pending : list OrtpEvent)
    : X unit :=
  curtime <- lift (ms_time_now (env c)) ;;
  stream <- lift get_stream ;;
  sif_set (ice_check_list stream) (fun cl =>
    xcall (ice_check_list_process cl (rtp_session (sessions stream)))) ;;
  (* we choose to update the quality indicator as much as possible, since
     local statistics can be computed realtime. *)
  swhen (MSStreamState_eqb (state stream) MSStreamStarted)
    (s <- sget ;;
     swhen (is_beginning s && (curtime - start_time stream >? 15)%Z)
       (xcall (rtp_session_set_rtcp_report_interval (rtp_session (sessions stream)) 5000) ;;
        smodify (set_is_beginning false)) ;;
     s <- sget ;;
     sif_set (qi stream) (fun q =>
       swhen (curtime >? last_iterate_time s)%Z
         (* Local quality indicator in send only will be wrong *)
         (swhen (negb (MediaStreamDir_eqb (direction stream) MediaStreamSendOnly))
            (xcall (ms_quality_indicator_update_local q))))) ;;
  smodify (set_last_iterate_time curtime) ;;
  sif_set (rc stream) (fun r => xcall (ms_bitrate_controller_update r)) ;;
  sif_set (evd stream) (fun d =>
    xcall (ortp_ev_dispatcher_iterate d) ;;
    lift (dispatch dispatched)) ;;
  stream <- lift get_stream ;;
  sif_set (evq stream) (fun _ => process_events curtime pending).

(** *** Reports *)

Definition media_stream_print_summary : X unit :=
  ms <- lift get_stream ;;
  xcall (Core (Log ms_message "MediaStream[%p] (%s) with RtpSession[%p] summary:" [])) ;;
  rs <- lift (deref (rtp_session (sessions ms))) ;;
  xcall (Core (Log ms_message "send-ssrc = [dec:%u hex:%x]" [])) ;;
  xcall (Core (Log ms_message "recv-ssrc = [dec:%u hex:%x]" [])) ;;
  sif_set (ice_check_list ms) (fun cl =>
    xcall (ice_check_list_print_route cl) ;;
    lift (modify_stream (set_ice_check_list None))) ;;
  s <- sthe (rtp_session (sessions ms)) ;;
  xcall (rtp_stats_display s) ;;
  sif_set (session_fec_stream rs) (fun f => xcall (fec_stream_print_stats f)).

End WithCollaborators.

End Session.

(** ** What the operations above amount to, in the model's terms

    The predicates and the lists of calls that the theorems on the rest of
    the controller and on the decoders are stated with. *)

Module Behaviour.
Import CString Crypto Machine Controller VideoToolbox Spec Steps.
Import StateMonad TickerPriority Session.

Local Open Scope list_scope.

(** *** Media resources *)

(** A resource that can be used: of a listed, valid type, and with an
    argument where a camera, a transport or a sound card is named. *)
Definition usable (r : Resource.MSMediaResource) : Prop :=
  match Resource.type r with
  | Resource.MSResourceCamera | Resource.MSResourceRtp | Resource.MSResourceSoundcard =>
      Resource.resource_arg r <> None
  | Resource.MSResourceInvalid | Resource.unlisted _ => False
  | _ => True
  end.

(** *** The MediaCodec H.264 decoder *)

(** The devices that get the restart mode, by manufacturer and platform. *)
Definition restart_platforms : list (string * string) :=
  [("Amlogic", "gxl"); ("rockchip", "rk3288"); ("rockchip", "rk3399");
   ("rockchip", "rk3399pro"); ("rockchip", "rk3368"); ("rockchip", "rk3126c");
   ("freescale", "imx8")].

(** The decoder holds an SPS of these bytes. *)
Definition holds_sps (d : MediaCodec.MediaCodecH264Decoder) (sps : Msgb.mblk_t) : Prop :=
  exists last, MediaCodec._lastSps d = Some last
               /\ Msgb.bytes last = Msgb.bytes sps.

(** No NAL unit of the set is an SPS. *)
Definition no_sps (utils : MediaCodec.H264Utils) (parameterSet : list Msgb.mblk_t)
    : Prop :=
  Forall (fun m => MediaCodec.ms_h264_nalu_get_type utils m <> MediaCodec.MSH264NaluTypeSPS)
         parameterSet.

(** *** Initialisation and release *)

(** The call that undoes a registration or frees an object made by
    [media_stream_init]. *)
Definition undone_by (k : Call) : option Call :=
  match k with
  | ortp_ev_dispatcher_new _ d => Some (Core (ortp_ev_dispatcher_destroy d))
  | ortp_ev_queue_new q => Some (Core (ortp_ev_queue_destroy q))
  | rtp_session_register_event_queue (Some s) q =>
      Some (Core (rtp_session_unregister_event_queue s (Some q)))
  | Core (ms_zrtp_set_stream_sessions z true) => Some (Core (ms_zrtp_set_stream_sessions z false))
  | Core (ms_dtls_srtp_set_stream_sessions d true) =>
      Some (Core (ms_dtls_srtp_set_stream_sessions d false))
  | ortp_ev_dispatcher_connect d => Some (Core (ortp_ev_dispatcher_disconnect d))
  | _ => None
  end.

(** The calls of [media_stream_init] for these sessions, with the
    dispatcher [d] and the queue [q] it creates. *)
Definition init_calls (ss : MSMediaStreamSessions) (d q : handle) : list Call :=
  [ortp_ev_dispatcher_new (rtp_session ss) d; ortp_ev_queue_new q;
   rtp_session_register_event_queue (rtp_session ss) q]
  ++ olist (option_map (fun z => Core (ms_zrtp_set_stream_sessions z true)) (zrtp_context ss))
  ++ olist (option_map (fun z => Core (ms_dtls_srtp_set_stream_sessions z true))
                       (dtls_context ss))
  ++ [ortp_ev_dispatcher_connect (Some d)].

(** *** The periodic iteration *)

Definition is_rtcp_received (ev : OrtpEvent) : bool :=
  match ortp_event_get_type ev with ORTP_EVENT_RTCP_PACKET_RECEIVED => true | _ => false end.

(** The calls the loop over the event queue makes for one event. *)
Definition event_calls (c : Collaborators) (ms : MediaStream) (ev : OrtpEvent) : list Call :=
  match ortp_event_get_type ev with
  | ORTP_EVENT_RTCP_PACKET_RECEIVED =>
      match packet ev with
      | Some m =>
          List.map Core
            (Log ms_message "%s stream [%p]: receiving RTCP %s%s"
                 [Z.b2z (rtcp_is_SR m); Z.b2z (rtcp_is_RR m)]
             :: flat_map (feedback_calls ms) (sub_packets m))
      | None => []
      end
  | ORTP_EVENT_RTCP_PACKET_EMITTED =>
      [Core (Log ms_message
               "%s_stream_iterate[%p], local statistics available:\n\tLocal current jitter buffer size: %5.1fms"
               [])]
  | ORTP_EVENT_STUN_PACKET_RECEIVED =>
      olist (option_map (fun cl => ice_handle_stun_packet cl (rtp_session (sessions ms))
                                     (event ev))
                        (ice_check_list ms))
  | ORTP_EVENT_ZRTP_ENCRYPTION_CHANGED | ORTP_EVENT_DTLS_ENCRYPTION_CHANGED =>
      [Core (Log ms_message "%s_stream_iterate[%p]: is %s "
               [Z.b2z (media_stream_secured (env c) ms)])]
  | ortp_event_other => []
  end
  ++ [ortp_event_destroy (event ev)].

(** Every received RTCP packet of the queue comes with its packet. *)
Definition well_formed_events (pending : list OrtpEvent) : Prop :=
  Forall (fun ev => is_rtcp_received ev = true -> packet ev <> None) pending.

Definition is_event_destroy (k : Call) : bool :=
  match k with ortp_event_destroy _ => true | _ => false end.

Definition is_report_interval (k : Call) : bool :=
  match k with rtp_session_set_rtcp_report_interval _ _ => true | _ => false end.

Definition is_local_quality_update (k : Call) : bool :=
  match k with ms_quality_indicator_update_local _ => true | _ => false end.

(** The first minute's report interval ends: the stream is started, still
    at its beginning, and more than 15 seconds old. *)
Definition beginning_is_over (s : Session) (curtime : Z) : bool :=
  MSStreamState_eqb (state (stream (world s))) MSStreamStarted
  && (is_beginning s && (curtime - start_time (stream (world s)) >? 15)%Z).

(** The calls of [media_stream_iterate] up to that of the dispatcher, before
    the handlers run and the event queue is emptied. *)
Definition iterate_prelude (s : Session) (curtime : Z) : list Call :=
  let ms := stream (world s) in
  olist (option_map (fun cl => ice_check_list_process cl (rtp_session (sessions ms)))
                    (ice_check_list ms))
  ++ (if beginning_is_over s curtime
      then [rtp_session_set_rtcp_report_interval (rtp_session (sessions ms)) 5000] else [])
  ++ (if MSStreamState_eqb (state ms) MSStreamStarted
         && ((curtime >? last_iterate_time s)%Z
             && negb (MediaStreamDir_eqb (direction ms) MediaStreamSendOnly))
      then olist (option_map ms_quality_indicator_update_local (qi ms)) else [])
  ++ olist (option_map ms_bitrate_controller_update (rc ms))
  ++ olist (option_map ortp_ev_dispatcher_iterate (evd ms)).

(** The feedback packets the dispatcher's handler gets in an iteration: the
    dispatched ones when the stream has a dispatcher, none when it has not. *)
Definition handled (ms : MediaStream) (dispatched : list mblk_t) : list mblk_t :=
  if non_null (evd ms) then dispatched else [].

(** The world the handlers start in during an iteration from [s]: that of
    [s] after the reading of the clock, with no call of its own yet. *)
Definition dispatcher_world (s : Session) : World :=
  mkWorld (stream (world s)) (heap (world s)) [] (next_handle (world s))
          (S (clock_reads (world s))).

(** One of the packets is a TMMBR. *)
Definition has_tmmbr (c : Collaborators) (packets : list mblk_t) : bool :=
  existsb (fun m => match rtcp_RTPFB_get_type c m with
                    | RTCP_RTPFB_TMMBR => true
                    | _ => false
                    end) packets.

(** What the handlers may do to the world, for a stream whose transport [p]
    holds [rs]: set the target bitrate and the video quality controller of
    the stream and the upload bandwidth of the transport, and add calls.
    The rest of the stream, the other session objects and the clock stay. *)
Definition tmmbr_frame (p : handle) (rs : RtpSession) (w w' : World) : Prop :=
  (exists tb vqc,
      stream w' = set_video_quality_controller vqc (set_target_bitrate tb (stream w)))
  /\ (exists b, heap w' = <[p := set_target_upload_bandwidth b rs]> (heap w))
  /\ (exists added, trace w' = trace w ++ added)
  /\ clock_reads w' = clock_reads w.

(** *** STUN and the ICE check list *)

(** What [media_stream_configure_stun_packet_sending] decides. *)
Definition stun_enabled (ms : MediaStream) (rs : RtpSession) : bool :=
  stun_allowed ms && negb (non_null (ice_check_list ms))
  && negb (non_null (bundle rs) && negb (is_primary rs)).

(** The calls it makes to the sending filter. *)
Definition stun_calls (ms : MediaStream) (rs : RtpSession) : list Event :=
  match rtpsend ms with
  | Some f =>
      ms_filter_call_method f (MS_RTP_SEND_ENABLE_STUN (stun_enabled ms rs))
      :: (if non_null (dtls_context (sessions ms))
          then [ms_filter_call_method f (MS_RTP_SEND_ENABLE_STUN_FORCED (stun_enabled ms rs))]
          else [])
  | None => []
  end.

(** *** A duplex transport *)

Definition is_local_addr (k : Call) : bool :=
  match k with rtp_session_set_local_addr _ _ _ _ => true | _ => false end.

(** The session object [ms_create_duplex_rtp_session] leaves behind. *)
Definition duplex_session : RtpSession :=
  set_avpf_feature_tmmbr true (set_blocking_mode 0 (set_scheduling_mode 0 fresh_session)).

(** *** TMMBR on a video stream *)

Definition is_quality_controller_call (e : Event) : bool :=
  match e with
  | ms_video_quality_controller_new _ | ms_video_quality_controller_update_from_tmmbr _ _ =>
      true
  | _ => false
  end.

(** The video preset of the stream is the custom one. *)
Definition custom_preset (env : Env) : bool :=
  match video_stream_get_video_preset env with
  | Some p => String.eqb p "custom"
  | None => false
  end.

(** The log line of a limit above the stream's maximum target bitrate. *)
Definition capping_log (ms : MediaStream) (br_limit : Z) : list Event :=
  if (max_target_bitrate ms >? 0)%Z && (br_limit >? max_target_bitrate ms)%Z
  then [Log ms_message
          "TMMBR is greater than maximum target bitrate set (%i > %i), capping to %i bits/s"
          [br_limit; max_target_bitrate ms; max_target_bitrate ms]]
  else [].

(** *** The VideoToolbox decoder's queue *)

(** The frame [outputCb] queues for a delivery. *)
Definition frame_of (d : Delivery) : Frame :=
  if negb (status d =? noErr)%Z || negb (non_null (imageBuffer d))
  then mkFrame None else mkFrame (imageBuffer d).

(** What [fetch] returns for a queued frame. *)
Definition fetched (f : Frame) : Status * option CVImageBuffer :=
  (match getData f with Some _ => NoError | None => DecodingFailure end, getData f).

(** [fetch] called [n] times, with what each call returned. *)
Fixpoint fetch_times (n : nat) : D (list (Status * option CVImageBuffer)) :=
  match n with
  | O => dret []
  | S n' => dbind fetch (fun r => dbind (fetch_times n') (fun rs => dret (r :: rs)))
  end.

End Behaviour.

(** ** Concrete sessions, events and decoders *)

Module Scenario.
Import CString Crypto Machine Controller VideoToolbox Spec Steps.
Import StateMonad TickerPriority Session.

Local Open Scope list_scope.

(** Android's properties on a rockchip board of the rk3399 platform, of a
    model that is not listed. *)
Definition rockchip_board (name : string) : Z * string :=
  if String.eqb name "ro.product.manufacturer" then (8, "rockchip")
  else if String.eqb name "ro.product.model" then (16, "some other model")
  else if String.eqb name "ro.board.platform" then (6, "rk3399")
  else (-1, EmptyString).

(** H.264 helpers: the type of a NAL unit is in the low five bits of its
    first byte; every SPS announces 1280x720; the base class accepts every
    set. *)
Definition utils : MediaCodec.H264Utils :=
  MediaCodec.mkH264Utils
    (fun m => match Msgb.bytes m with b :: _ => Z.land b 31 | [] => 0 end)
    (fun _ => mkVSize 1280 720)
    (fun _ _ => true).

Definition sps : Msgb.mblk_t := Msgb.mkBlock [103; 66; 0; 31] [].

Definition pps : Msgb.mblk_t := Msgb.mkBlock [104; 206; 60; 128] [].

(** A decoder in the restart mode, configured for 640x480, that has seen
    no SPS yet. *)
Definition h264_decoder : MediaCodec.MediaCodecH264Decoder :=
  MediaCodec.mkH264Decoder true None (<["height" := 480]> (<["width" := 640]> ∅)) [].

(** A filter that stores a PPS where the SPS should be. *)
Definition h264_filter : MediaCodec.MediaCodecH264DecoderFilterImpl :=
  MediaCodec.mkFilterImpl (Some pps) (Some pps) [].

(** Collaborators around [Sample.env]: a desktop build with checksums on,
    an empty process environment, feedback packets that are TMMBRs for
    128 kbit/s, and sockets that accept every call. *)
Definition collaborators : Collaborators :=
  mkCollaborators Sample.env (mkPlatform false false) false (fun _ => None)
    (fun t => match t with MSAudio => "audio" | MSVideo => "video" | _ => "text" end)
    (fun _ => RTCP_RTPFB_TMMBR) (fun _ => 128000) (fun _ _ _ => 0) 0 0.

(** The started audio stream of [Sample.world], at its beginning, with a
    bandwidth controller. *)
Definition session : Session :=
  mkSession Sample.world true 0 (Some 30%positive) [].

(** A received RTCP packet, then a STUN packet. *)
Definition pending : list OrtpEvent :=
  [mkOrtpEvent 50%positive ORTP_EVENT_RTCP_PACKET_RECEIVED (Some Sample.compound);
   mkOrtpEvent 51%positive ORTP_EVENT_STUN_PACKET_RECEIVED None].

(** A feedback packet, which [collaborators] reads as a TMMBR for
    128 kbit/s, handed by the dispatcher to its handler. *)
Definition tmmbr : mblk_t := mkCompound (mkRtcpPacket (Some RTCP_RTPFB) [131; 205; 0; 4]) [].

Definition dispatched : list mblk_t := [tmmbr].

(** The same stream with an ICE check list. *)
Definition session_with_check_list : Session :=
  mkSession
    (set_world_stream (set_ice_check_list (Some 16%positive) Sample.stream) Sample.world)
    true 0 None [].

(** The same stream without encoder. *)
Definition stream_without_encoder : MediaStream :=
  mkMediaStream MSAudio MSStreamStarted Sample.sessions (Some 2%positive) (Some 3%positive)
    (Some 4%positive) (Some 14%positive) true (Some 5%positive) (Some 6%positive)
    None (Some 9%positive) None (Some 10%positive) None 1000 0 1000 true 0
    300000 true MediaStreamSendRecv None (Some 15%positive).

Definition world_without_encoder : World :=
  mkWorld stream_without_encoder Sample.heap [] 20%positive 0.

(** A started video stream with an encoder, on the same sessions. *)
Definition video_stream : MediaStream :=
  mkMediaStream MSVideo MSStreamStarted Sample.sessions (Some 2%positive) (Some 3%positive)
    (Some 4%positive) (Some 14%positive) true (Some 5%positive) (Some 6%positive)
    (Some 8%positive) (Some 9%positive) None (Some 10%positive) None 1000 0 1000 true 0
    300000 true MediaStreamSendRecv None (Some 15%positive).

Definition video_world : World := mkWorld video_stream Sample.heap [] 20%positive 0.

(** Two deliveries: a decoded image, then a failed decode. *)
Definition deliveries : list Delivery :=
  [mkDelivery noErr (Some Sample.image); mkDelivery (-12909) None].

(** An IDR slice and a slice of another picture. *)
Definition idr : Msgb.mblk_t := Msgb.mkBlock [101; 136; 132] [].

Definition slice : Msgb.mblk_t := Msgb.mkBlock [65; 154] [].

(** A toolbox on a desktop build, with a length field of four bytes, a
    store that keeps nothing of the frame and has its parameter sets, a NAL
    unit header that takes type 5 for a key frame, and frameworks that
    succeed: the format description is at address 42 and the session at 43.
    [new_parameters] is the answer of [hasNewParameters] and [decode_status]
    that of [VTDecompressionSessionDecodeFrame]. *)
Definition toolbox (new_parameters : bool) (decode_status : OSStatus) : Feeding.Toolbox :=
  Feeding.mkToolbox false 4 (fun _ frame => frame) (fun _ => new_parameters)
    (fun _ => true)
    (fun nalu => match Msgb.bytes nalu with
                 | b :: _ => (Z.land b 31 =? 5)%Z
                 | [] => false
                 end)
    (fun _ => inr 42%positive) (fun _ => (0, Some 43%positive)) (fun _ => (0, Some true))
    (fun _ => 0) (fun _ => 0) (fun _ => decode_status) (fun _ => deliveries)
    (fun _ => "an error") "invalid session".

(** A decoder with a session, frozen or not, fed with these NAL units. *)
Definition feeder (frozen : bool) (frame : list Msgb.mblk_t) : Feeding.Feeder :=
  Feeding.mkFeeder (mkDecoder (Some 40%positive) (Some 41%positive) [] false frozen false)
    frame [].

End Scenario.

(** * Verification *)

Import CString Crypto Machine Controller VideoToolbox Spec Steps.

Local Open Scope list_scope.

(** ** Reasoning about computations on the world *)

Lemma bind_Some {A B} (c : M A) (k : A -> M B) w a w' :
  c w = Some (a, w') -> bind c k w = k a w'.
Proof. unfold bind. now intros ->. Qed.

Lemma get_stream_mk ms hp tr nh cr :
  get_stream (mkWorld ms hp tr nh cr) = Some (ms, mkWorld ms hp tr nh cr).
Proof. reflexivity. Qed.

Lemma modify_stream_mk f ms hp tr nh cr :
  modify_stream f (mkWorld ms hp tr nh cr) = Some (tt, mkWorld (f ms) hp tr nh cr).
Proof. reflexivity. Qed.

Lemma call_mk e ms hp tr nh cr :
  call e (mkWorld ms hp tr nh cr) = Some (tt, mkWorld ms (effect e hp) (tr ++ [e]) nh cr).
Proof. reflexivity. Qed.

Lemma alloc_mk ms hp tr nh cr :
  alloc (mkWorld ms hp tr nh cr) = Some (nh, mkWorld ms hp tr (Pos.succ nh) cr).
Proof. reflexivity. Qed.

Lemma ret_mk {A} (a : A) w : ret a w = Some (a, w).
Proof. reflexivity. Qed.

Lemma the_mk {A} (a : A) w : the (Some a) w = Some (a, w).
Proof. reflexivity. Qed.

Lemma deref_mk h rs ms hp tr nh cr :
  hp !! h = Some rs ->
  deref (Some h) (mkWorld ms hp tr nh cr) = Some (rs, mkWorld ms hp tr nh cr).
Proof. intros H. unfold deref. cbn [heap]. now rewrite H. Qed.

Lemma update_mk h f rs ms hp tr nh cr :
  hp !! h = Some rs ->
  update (Some h) f (mkWorld ms hp tr nh cr)
  = Some (tt, mkWorld ms (<[h := f rs]> hp) tr nh cr).
Proof. intros H. unfold update. cbn [heap]. now rewrite H. Qed.

(** A session lookup through the updates made so far. *)
Ltac solve_lookup :=
  first [ eassumption
        | apply lookup_insert_eq
        | rewrite lookup_insert_ne by congruence; solve_lookup ].

(** One step of a computation on an explicit world. *)
Ltac step :=
  erewrite bind_Some by
    first [ apply get_stream_mk | apply modify_stream_mk | apply call_mk | apply alloc_mk
          | apply ret_mk | apply the_mk
          | apply deref_mk; solve_lookup | apply update_mk; solve_lookup ];
  cbv beta.

(** Unfold the plumbing of a computation, leaving the heap operations folded. *)
Ltac run :=
  cbv [bind ret undefined call alloc get_stream modify_stream when if_set the deref update
       ms_time_now set_world_stream set_world_heap];
  cbn [stream heap trace next_handle clock_reads effect].

(** The same for the decoder's steps. *)
Ltac drun :=
  cbv [dbind dret op read write lock unlock assign_destroying push_back];
  cbn [this ops _mutex_held _destroying _queue _session _formatDesc _freeze
       set_mutex_held set_destroying set_queue set_session set_formatDesc].

(** The events a step added, read off the new trace. *)
Ltac added_trace :=
  first [ reflexivity
        | rewrite <- !app_assoc; reflexivity
        | symmetry; apply app_nil_r ].

Lemma emit_nil w : emit [] w = w.
Proof. destruct w. unfold emit. cbn [stream heap trace next_handle clock_reads fold_left].
  now rewrite app_nil_r. Qed.

Lemma emit_emit a b w : emit b (emit a w) = emit (a ++ b) w.
Proof.
  unfold emit. cbn [stream heap trace next_handle clock_reads].
  now rewrite fold_left_app, app_assoc.
Qed.

Lemma call_emit e w : call e w = Some (tt, emit [e] w).
Proof. reflexivity. Qed.

Lemma if_set_call {A} (p : option A) (f : A -> Event) w :
  if_set p (fun a => call (f a)) w = Some (tt, emit (olist (option_map f p)) w).
Proof. destruct p; cbn [if_set olist option_map]; [reflexivity | now rewrite emit_nil]. Qed.

Lemma get_stream_eq w : get_stream w = Some (stream w, w).
Proof. reflexivity. Qed.





Lemma MSStreamState_eqb_eq a b : MSStreamState_eqb a b = true <-> a = b.
Proof. destruct a, b; cbn; split; congruence. Qed.

(** ** Crypto suite descriptors *)

Lemma code_inj c1 c2 : code c1 = code c2 -> c1 = c2.
Proof.
  unfold code. intros H. apply N2Z.inj in H.
  rewrite <- (ascii_N_embedding c1), <- (ascii_N_embedding c2). now rewrite H.
Qed.

Lemma c_string_tail c s : c_string (String c s) -> c <> zero /\ c_string s.
Proof.
  unfold c_string. cbn [list_ascii_of_string In]. intros H. split.
  - apply H. now left.
  - intros c' Hc'. apply H. now right.
Qed.

(** [keywordcmp] compares the terminator too: it is 0 only on equal strings. *)
Lemma strncmp_eq key : forall b,
  c_string key -> c_string b ->
  strncmp key b (sizeof_literal key) = 0 -> key = b.
Proof.
  unfold sizeof_literal.
  induction key as [|c1 t1 IH]; intros [|c2 t2] Hk Hb; cbn [strncmp String.length].
  - reflexivity.
  - intros H. apply c_string_tail in Hb as [Hc _].
    exfalso. apply Hc, code_inj. change (code zero) with 0%Z. lia.
  - intros H. apply c_string_tail in Hk as [Hc _].
    exfalso. apply Hc, code_inj. change (code zero) with 0%Z. lia.
  - destruct (Ascii.eqb_spec c1 c2) as [->|Hne].
    + intros H. f_equal.
      apply IH; [apply (c_string_tail _ _ Hk) | apply (c_string_tail _ _ Hb) | exact H].
    + intros H. exfalso. apply Hne, code_inj. lia.
Qed.

Lemma known_names_c_string k : In k known_names -> c_string k.
Proof.
  intros Hk c Hc.
  repeat (destruct Hk as [<- | Hk];
          [ cbn in Hc; repeat (destruct Hc as [<- | Hc]; [discriminate|]); destruct Hc |]).
  destruct Hk.
Qed.

Lemma keywordcmp_unknown k name :
  In k known_names -> c_string name -> ~ In name known_names ->
  (keywordcmp k name =? 0)%Z = false.
Proof.
  intros Hk Hn Hnot. apply Z.eqb_neq. intros H.
  apply strncmp_eq in H; [ | now apply known_names_c_string | exact Hn ].
  subst. contradiction.
Qed.

Lemma unknown_name d :
  c_string (name d) -> ~ In (name d) known_names ->
  ms_crypto_suite_build_from_name_params_logged d = unsupported d.
Proof.
  intros Hc Hn. unfold ms_crypto_suite_build_from_name_params_logged.
  rewrite !keywordcmp_unknown; auto; cbn; tauto.
Qed.

Lemma build_sha1_32 p :
  ms_crypto_suite_build_from_name_params_logged (mkNameParams "AES_CM_128_HMAC_SHA1_32" p)
  = by_parameters p (unsupported (mkNameParams "AES_CM_128_HMAC_SHA1_32" p))
      (unsupported (mkNameParams "AES_CM_128_HMAC_SHA1_32" p))
      (unsupported (mkNameParams "AES_CM_128_HMAC_SHA1_32" p))
      (MS_AES_128_SHA1_32_NO_AUTH, []) (MS_AES_128_SHA1_32, []).
Proof. reflexivity. Qed.

Lemma build_without_params n p :
  In n names_without_params ->
  exists cs,
    ms_crypto_suite_build_from_name_params_logged (mkNameParams n p)
    = by_parameters p (unsupported (mkNameParams n p)) (unsupported (mkNameParams n p))
        (unsupported (mkNameParams n p)) (unsupported (mkNameParams n p)) (cs, []).
Proof.
  intros Hn.
  repeat (destruct Hn as [<- | Hn]; [eexists; reflexivity|]). destruct Hn.
Qed.

Lemma by_parameters_unencrypted {A} p (e r4 r5 : A) :
  mentions p unencrypted_tokens -> by_parameters p e e e r4 r5 = e.
Proof.
  intros (tok & Hin & Hhas). unfold by_parameters.
  destruct Hin as [<- | [<- | []]]; rewrite Hhas;
    repeat match goal with |- context [has p ?t] => destruct (has p t) end; reflexivity.
Qed.

Lemma by_parameters_any {A} p (e r5 : A) :
  mentions p params_tokens -> by_parameters p e e e e r5 = e.
Proof.
  intros (tok & Hin & Hhas). unfold by_parameters.
  destruct Hin as [<- | [<- | [<- | []]]]; rewrite Hhas;
    repeat match goal with |- context [has p ?t] => destruct (has p t) end; reflexivity.
Qed.

(** C2.  Every valid row of the descriptor table builds its suite, and the
    suite is written back as the same name and params; other spellings of a
    valid row are written back as an equivalent descriptor.  With
    AES_CM_128_HMAC_SHA1_32 any UNENCRYPTED token, and with the five
    names of the last row any of the three params tokens, gives
    MS_CRYPTO_SUITE_INVALID; so does every unknown name, and the error line
    carries the name and the params. *)
Theorem crypto_suite_descriptor_table :
  Forall (fun '(d, cs) =>
            ms_crypto_suite_build_from_name_params d = cs /\ round_trips_to d d) table_valid
  /\ Forall (fun d => exists d', round_trips_to d d' /\ equivalent d d') table_spellings
  /\ (forall p, mentions p unencrypted_tokens ->
        ms_crypto_suite_build_from_name_params (mkNameParams "AES_CM_128_HMAC_SHA1_32" p)
        = MS_CRYPTO_SUITE_INVALID)
  /\ (forall n p, In n names_without_params -> mentions p params_tokens ->
        ms_crypto_suite_build_from_name_params (mkNameParams n p) = MS_CRYPTO_SUITE_INVALID)
  /\ (forall d, c_string (name d) -> ~ In (name d) known_names ->
        ms_crypto_suite_build_from_name_params_logged d = unsupported d).
Proof.
  split; [|split; [|split; [|split]]].
  - repeat constructor; discriminate.
  - repeat constructor; eexists; (split; [split; [discriminate | reflexivity] | ]);
      (split; [reflexivity | intros tok; simpl; tauto]).
  - intros p Hp. unfold ms_crypto_suite_build_from_name_params.
    rewrite build_sha1_32, by_parameters_unencrypted by exact Hp. reflexivity.
  - intros n p Hn Hp. unfold ms_crypto_suite_build_from_name_params.
    destruct (build_without_params n p Hn) as [cs ->].
    rewrite by_parameters_any by exact Hp. reflexivity.
  - exact unknown_name.
Qed.

(** The invalid rows at three concrete descriptors: an UNENCRYPTED token
    inside a longer params string, a token with a GCM suite, and a name that
    is a known name cut short. *)
Lemma crypto_suite_descriptor_table_witness :
  ms_crypto_suite_build_from_name_params
    (mkNameParams "AES_CM_128_HMAC_SHA1_32" (Some "KDR=1 UNENCRYPTED_SRTCP"))
  = MS_CRYPTO_SUITE_INVALID
  /\ ms_crypto_suite_build_from_name_params
       (mkNameParams "AEAD_AES_128_GCM" (Some "UNAUTHENTICATED_SRTP"))
     = MS_CRYPTO_SUITE_INVALID
  /\ ms_crypto_suite_build_from_name_params_logged
       (mkNameParams "AES_CM_128_HMAC_SHA1_8" None)
     = (MS_CRYPTO_SUITE_INVALID,
        [mkLog true "Unsupported crypto suite 'AES_CM_128_HMAC_SHA1_8' with parameters ''"]).
Proof.
  destruct crypto_suite_descriptor_table as (_ & _ & H32 & Hnone & Hunknown).
  split; [|split].
  - apply H32. exists "UNENCRYPTED_SRTCP"%string. split; [cbn; tauto | reflexivity].
  - apply Hnone; [cbn; tauto|].
    exists "UNAUTHENTICATED_SRTP"%string. split; [cbn; tauto | reflexivity].
  - rewrite Hunknown; [reflexivity | |].
    + intros c Hc. cbn in Hc.
      repeat (destruct Hc as [<- | Hc]; [discriminate|]). destruct Hc.
    + cbn. intros H. repeat (destruct H as [H | H]; [discriminate|]). exact H.
Defined.

(** ** Ownership and teardown *)

Lemma release_eq get destroy clear w :
  release get destroy clear w = Some (tt, release_world get destroy clear w).
Proof.
  unfold release, release_world. rewrite (bind_Some _ _ _ _ _ (get_stream_eq w)).
  destruct (get (sessions (stream w))); reflexivity.
Qed.

Lemma uninit_eq w : ms_media_stream_sessions_uninit w = Some (tt, uninit_world w).
Proof.
  unfold ms_media_stream_sessions_uninit, uninit_world.
  repeat (erewrite bind_Some by apply release_eq). apply release_eq.
Qed.

Lemma when_uninit b w :
  when b ms_media_stream_sessions_uninit w = Some (tt, (if b then uninit_world else id) w).
Proof. destruct b; [apply uninit_eq | reflexivity]. Qed.

Lemma release_world_mk get destroy clear ms hp tr nh cr :
  release_world get destroy clear (mkWorld ms hp tr nh cr) =
  match get (sessions ms) with
  | Some h => mkWorld (set_sessions (clear (sessions ms)) ms) (effect (destroy h) hp)
                      (tr ++ [destroy h]) nh cr
  | None => mkWorld ms hp tr nh cr
  end.
Proof. unfold release_world. cbn [stream]. now destruct (get (sessions ms)). Qed.

Lemma uninit_world_eq w :
  uninit_world w =
  mkWorld (set_sessions (released_sessions (sessions (stream w))) (stream w))
          (without_session (rtp_session (sessions (stream w))) (heap w))
          (trace w ++ expected_releases (sessions (stream w)))
          (next_handle w) (clock_reads w).
Proof.
  destruct w as [ms hp tr nh cr]. destruct ms as [? ? ss ? ? ? ? ? ? ? ? ? ? ? ? ? ? ? ? ? ? ? ? ? ?].
  destruct ss as [r f s z d t].
  unfold uninit_world, expected_releases, released_sessions, without_session.
  cbn [stream heap trace next_handle clock_reads sessions rtp_session fec_session
       srtp_context zrtp_context dtls_context ticker].
  destruct s, r, z, d, t;
    repeat (rewrite release_world_mk;
            cbn [sessions set_sessions set_ticker set_dtls_context set_zrtp_context
                 set_rtp_session set_srtp_context rtp_session fec_session srtp_context
                 zrtp_context dtls_context ticker effect]);
    cbn [olist option_map]; rewrite <- ?app_assoc, ?app_nil_r; reflexivity.
Qed.







Section Ownership.

Variable env : Env.




(** [media_stream_free] always returns; its calls are those before the
    sessions, the sessions' releases when they are owned, and those after. *)
Lemma media_stream_free_eq w :
  media_stream_free env w =
  Some (tt, emit (free_after env (stream w))
              ((if owns_sessions (stream w) then uninit_world else id)
                 (emit (free_before (stream w)) w))).
Proof.
  unfold media_stream_free, media_stream_remove_tmmbr_handler.
  erewrite bind_Some by (erewrite bind_Some by apply get_stream_eq; apply call_emit).
  erewrite bind_Some by apply get_stream_eq.
  cbn [stream emit].
  repeat (erewrite bind_Some by apply if_set_call; rewrite ?emit_emit).
  erewrite bind_Some by (apply when_uninit).
  set (w1 := (if owns_sessions (stream w) then uninit_world else id) _).
  repeat (erewrite bind_Some by apply if_set_call; rewrite ?emit_emit).
  unfold free_after. destruct (VIDEO_ENABLED env); cbn [when].
  - rewrite if_set_call, emit_emit. subst w1. unfold free_before.
    now rewrite <- !app_assoc.
  - unfold ret. rewrite app_nil_r. subst w1. unfold free_before.
    now rewrite <- !app_assoc.
Qed.


End Ownership.



(** ** Security contexts *)

Section Security.

Variable env : Env.

(** C1, as the code has it.  [media_stream_enable_dtls] looks at the DTLS
    slot only: with a DTLS context in place the call changes nothing; with
    the slot empty (and a valid transport) it fills the slot with what
    [ms_dtls_srtp_context_new] returns, whatever the ZRTP and SRTP slots
    hold, and leaves those slots, the transport and the session objects
    unchanged. *)
Theorem media_stream_enable_dtls_slot (params : MSDtlsSrtpParams) (w : World) :
  (forall d, dtls_context (sessions (stream w)) = Some d ->
     media_stream_enable_dtls env params w = Some (tt, w))
  /\ (dtls_context (sessions (stream w)) = None ->
      forall s rs, rtp_session (sessions (stream w)) = Some s -> heap w !! s = Some rs ->
      exists w',
        media_stream_enable_dtls env params w = Some (tt, w')
        /\ dtls_context (sessions (stream w'))
           = (if dtls_srtp_available env then Some (next_handle w) else None)
        /\ zrtp_context (sessions (stream w')) = zrtp_context (sessions (stream w))
        /\ srtp_context (sessions (stream w')) = srtp_context (sessions (stream w))
        /\ rtp_session (sessions (stream w')) = rtp_session (sessions (stream w))
        /\ heap w' = heap w).
Proof.
  split.
  - intros d Hd. unfold media_stream_enable_dtls. run. now rewrite Hd.
  - intros Hd s rs Hs Hrs. unfold media_stream_enable_dtls,
      media_stream_configure_stun_packet_sending. run. rewrite Hd.
    cbn [sessions set_sessions set_dtls_context rtp_session rtpsend dtls_context].
    destruct (dtls_srtp_available env); run;
      cbn [sessions set_sessions set_dtls_context rtp_session rtpsend dtls_context];
      rewrite Hs, Hrs; destruct (rtpsend (stream w)); run;
      cbn [non_null]; run; eexists; (split; [reflexivity|]);
      cbn [stream sessions set_sessions set_dtls_context rtp_session dtls_context
           zrtp_context srtp_context heap];
      auto.
Qed.

(** C8.  Outside the Started state, and for a stream of unknown media type
    in any state, the three security queries answer not secured, key source
    unavailable and invalid suite, for every direction and inner flag and
    whatever the security engine would say. *)
Theorem security_queries_outside_started (ms : MediaStream) (dir : MediaStreamDir)
    (is_inner : bool) :
  state ms <> MSStreamStarted \/ type ms = MSUnknownMedia ->
  media_stream_secured env ms = false
  /\ media_stream_get_srtp_key_source env ms dir is_inner = MSSrtpKeySourceUnavailable
  /\ media_stream_get_srtp_crypto_suite env ms dir is_inner = MS_CRYPTO_SUITE_INVALID.
Proof.
  unfold media_stream_secured, media_stream_get_srtp_key_source,
    media_stream_get_srtp_crypto_suite.
  intros [Hst | Hty].
  - destruct (MSStreamState_eqb (state ms) MSStreamStarted) eqn:E.
    + apply MSStreamState_eqb_eq in E. contradiction.
    + auto.
  - rewrite Hty. destruct (negb _); auto.
Qed.

End Security.

(** C1, as stated, fails: the stream of [Sample] has an active ZRTP context
    and no other; after [media_stream_enable_dtls] it has the ZRTP context 7
    and the new DTLS context 20. *)
Lemma enable_dtls_beside_zrtp :
  zrtp_context (sessions (stream Sample.world)) = Some 7%positive
  /\ dtls_context (sessions (stream Sample.world)) = None
  /\ exists w',
      media_stream_enable_dtls Sample.env (mkDtlsParams 0 0) Sample.world = Some (tt, w')
      /\ zrtp_context (sessions (stream w')) = Some 7%positive
      /\ dtls_context (sessions (stream w')) = Some 20%positive
      /\ ~ at_most_one_security_context (sessions (stream w')).
Proof.
  split; [reflexivity|]. split; [reflexivity|].
  eexists. split; [vm_compute; reflexivity|].
  cbn [stream sessions zrtp_context dtls_context]. split; [reflexivity|].
  split; [reflexivity|]. intros H. exact H.
Defined.

(** The amended statement on the same stream: the DTLS slot is filled with
    the new context 20, the ZRTP context 7 stays. *)
Lemma media_stream_enable_dtls_slot_witness :
  exists w',
    media_stream_enable_dtls Sample.env (mkDtlsParams 0 0) Sample.world = Some (tt, w')
    /\ dtls_context (sessions (stream w')) = Some 20%positive
    /\ zrtp_context (sessions (stream w')) = Some 7%positive.
Proof.
  destruct (media_stream_enable_dtls_slot Sample.env (mkDtlsParams 0 0) Sample.world)
    as [_ Hnew].
  destruct (Hnew eq_refl 1%positive fresh_session eq_refl eq_refl)
    as (w' & Hrun & Hd & Hz & _).
  exists w'. split; [exact Hrun|]. split; [exact Hd | exact Hz].
Defined.

(** A stream that is not started, with a security engine that reports every
    session secured. *)
Lemma security_queries_outside_started_witness :
  media_stream_secured Sample.env Sample.idle_stream = false
  /\ media_stream_get_srtp_key_source Sample.env Sample.idle_stream MediaStreamSendRecv false
     = MSSrtpKeySourceUnavailable
  /\ media_stream_get_srtp_crypto_suite Sample.env Sample.idle_stream MediaStreamSendRecv false
     = MS_CRYPTO_SUITE_INVALID.
Proof.
  apply security_queries_outside_started. left. cbn. discriminate.
Defined.

(** ** Liveness *)

Section Liveness.

Variable env : Env.

(** C4.  A stream that is not in the Started state is alive for every
    timeout, and nothing changes.  A started stream whose last sample is an
    earlier value of the cumulative received-packet count has its
    last-packet time set to the clock's reading exactly when the count
    differs from the sample, the sample replaced by the count, and is
    reported not alive exactly when the clock's reading at the test, minus
    that last-packet time, exceeds the timeout. *)
Theorem media_stream_alive_spec (timeout : Z) (w : World) :
  (state (stream w) <> MSStreamStarted ->
   media_stream_alive env timeout w = Some (true, w))
  /\ (state (stream w) = MSStreamStarted ->
      forall s rs,
        rtp_session (sessions (stream w)) = Some s ->
        heap w !! s = Some rs ->
        0 <= last_packet_count (stream w) <= stats_recv rs ->
        let refreshed := negb (stats_recv rs =? last_packet_count (stream w))%Z in
        let t_refresh := ms_time env (clock_reads w) in
        let t_check :=
          ms_time env (if refreshed then S (clock_reads w) else clock_reads w) in
        exists alive w',
          media_stream_alive env timeout w = Some (alive, w')
          /\ last_packet_time (stream w')
             = (if refreshed then t_refresh else last_packet_time (stream w))
          /\ last_packet_count (stream w') = stats_recv rs
          /\ (alive = false <-> t_check - last_packet_time (stream w') > timeout)
          /\ heap w' = heap w /\ trace w' = trace w).
Proof.
  split.
  - intros Hst. unfold media_stream_alive. run.
    destruct (MSStreamState_eqb (state (stream w)) MSStreamStarted) eqn:E.
    + apply MSStreamState_eqb_eq in E. contradiction.
    + reflexivity.
  - intros Hst s rs Hs Hrs Hcount refreshed t_refresh t_check.
    unfold media_stream_alive. run. rewrite Hst. cbn [MSStreamState_eqb negb].
    rewrite Hs, Hrs. subst refreshed t_refresh t_check.
    destruct (Z.eqb_spec (stats_recv rs) (last_packet_count (stream w))) as [Heq|Hne];
      cbn [negb].
    + destruct (stats_recv rs =? 0)%Z; cbn [negb]; run;
        match goal with |- context [(?a - ?b >? timeout)%Z] =>
          destruct (Z.gtb_spec (a - b) timeout) end;
        eexists _, _; (split; [reflexivity|]); cbn [stream heap trace];
        repeat split; auto; try congruence; try lia.
    + destruct (Z.eqb_spec (stats_recv rs) 0) as [Hz|Hz]; [lia|]. cbn [negb]. run.
      cbn [last_packet_time set_last_packet_time].
      match goal with |- context [(?a - ?b >? timeout)%Z] =>
          destruct (Z.gtb_spec (a - b) timeout) end;
        eexists _, _; (split; [reflexivity|]);
        cbn [stream heap trace last_packet_time set_last_packet_time last_packet_count
             set_last_packet_count];
        repeat split; auto; try congruence; try lia.
Qed.

(** The guard on a zero count: while the transport reports no packet, the
    sample and the last-packet time are left alone, whatever the sample. *)
Lemma media_stream_alive_zero_count (timeout : Z) (w : World) s rs :
  state (stream w) = MSStreamStarted ->
  rtp_session (sessions (stream w)) = Some s ->
  heap w !! s = Some rs ->
  stats_recv rs = 0 ->
  exists alive w',
    media_stream_alive env timeout w = Some (alive, w')
    /\ stream w' = stream w
    /\ (alive = false
        <-> ms_time env (clock_reads w) - last_packet_time (stream w) > timeout).
Proof.
  intros Hst Hs Hrs Hz. unfold media_stream_alive. run. rewrite Hst.
  cbn [MSStreamState_eqb negb]. rewrite Hs, Hrs, Hz. cbn [Z.eqb negb]. run.
  match goal with |- context [(?a - ?b >? timeout)%Z] =>
    destruct (Z.gtb_spec (a - b) timeout) end;
    eexists _, _; (split; [reflexivity|]); cbn [stream];
    repeat split; auto; try congruence; try lia.
Qed.

End Liveness.

(** The stream of [Sample], started at 1000 with its last packet then.
    Before it is started it is alive for the timeout 0.  Started, with
    nothing received, it is not alive for the timeout 10 at the reading 1011;
    with one packet counted by then it is alive, its last-packet time being
    the reading 1011. *)
Lemma media_stream_alive_spec_witness :
  media_stream_alive Sample.env 0
    (mkWorld Sample.idle_stream Sample.heap [] 20%positive 5) =
  Some (true, mkWorld Sample.idle_stream Sample.heap [] 20%positive 5)
  /\ (exists w', media_stream_alive Sample.env 10 Sample.late_world = Some (false, w'))
  /\ (exists w',
        media_stream_alive Sample.env 10 Sample.late_world_with_packet = Some (true, w')
        /\ last_packet_time (stream w') = 1011).
Proof.
  split; [|split].
  - apply (media_stream_alive_spec Sample.env 0). cbn. discriminate.
  - destruct (media_stream_alive_spec Sample.env 10 Sample.late_world) as [_ H].
    destruct (H eq_refl 1%positive fresh_session eq_refl eq_refl)
      as (alive & w' & Hrun & Ht & _ & Hiff & _).
    + cbn. lia.
    + exists w'. rewrite Hrun.
      assert (Hdead : alive = false)
        by (apply Hiff; rewrite Ht; vm_compute; reflexivity).
      now rewrite Hdead.
  - destruct (media_stream_alive_spec Sample.env 10 Sample.late_world_with_packet)
      as [_ H].
    destruct (H eq_refl 1%positive Sample.session_with_packet eq_refl eq_refl)
      as (alive & w' & Hrun & Ht & _ & Hiff & _).
    + cbn. lia.
    + exists w'. split; [|exact Ht]. rewrite Hrun. destruct alive; [reflexivity|].
      destruct Hiff as [Hgt _]. specialize (Hgt eq_refl). rewrite Ht in Hgt.
      vm_compute in Hgt. discriminate Hgt.
Defined.

(** ** RTCP feedback *)

(** The loop of the source, step by step with the parser. *)
Lemma process_next_packets_unfold ctx :
  process_next_packets ctx =
  match rtcp_parser_context_next_packet ctx with
  | (ctx', Some p) => bind (process_rtcp_packet p) (fun _ => process_next_packets ctx')
  | (_, None) => ret tt
  end.
Proof. destruct ctx; reflexivity. Qed.

Lemma process_rtcp_packet_eq p ms hp tr nh cr :
  process_rtcp_packet p (mkWorld ms hp tr nh cr)
  = Some (tt, mkWorld ms hp (tr ++ feedback_calls ms p) nh cr).
Proof.
  unfold process_rtcp_packet, feedback_calls. run.
  destruct (rc_enable ms), (rc ms), (qi ms); run; cbn [olist option_map];
    rewrite <- ?app_assoc; reflexivity.
Qed.

Lemma process_next_packets_eq ps : forall ms hp tr nh cr,
  process_next_packets ps (mkWorld ms hp tr nh cr)
  = Some (tt, mkWorld ms hp (tr ++ flat_map (feedback_calls ms) ps) nh cr).
Proof.
  induction ps as [|p ps IH]; intros ms hp tr nh cr.
  - cbn [process_next_packets flat_map]. now rewrite app_nil_r.
  - cbn [process_next_packets flat_map]. unfold bind.
    rewrite process_rtcp_packet_eq, IH. now rewrite <- app_assoc.
Qed.

(** C5, as the code has it.  For a received compound packet,
    [media_stream_process_rtcp] always returns; its only change to the stream
    is one assignment of the current time to the last-packet time; and after
    the log line the trace holds, for each sub-packet in arrival order, the
    call to the bitrate controller (when adaptive control is enabled and a
    controller exists), the call to the quality indicator (when present) and
    the stream's hook.  No sub-packet is dropped, whatever it holds: each one
    is handed to the stream's hook, so it is not [dropped], and the calls for
    it and for every sub-packet after it are in the trace. *)
Theorem media_stream_process_rtcp_spec (m : mblk_t) (curtime : Z) (w : World) :
  exists w',
    media_stream_process_rtcp m curtime w = Some (tt, w')
    /\ stream w' = set_last_packet_time curtime (stream w)
    /\ last_packet_time (stream w') = curtime
    /\ heap w' = heap w
    /\ trace w'
       = trace w
         ++ Log ms_message "%s stream [%p]: receiving RTCP %s%s"
                [Z.b2z (rtcp_is_SR m); Z.b2z (rtcp_is_RR m)]
         :: flat_map (feedback_calls (stream w)) (sub_packets m)
    /\ (forall before p after,
          sub_packets m = before ++ p :: after ->
          exists tr,
            trace w' = tr ++ feedback_calls (stream w) p
                          ++ flat_map (feedback_calls (stream w)) after)
    /\ (forall p, In p (sub_packets m) ->
          In (process_rtcp p) (trace w') /\ ~ dropped p (trace w')).
Proof.
  destruct w as [ms hp tr nh cr].
  unfold media_stream_process_rtcp, rtcp_parser_context_init.
  unfold bind at 1 2. unfold modify_stream, call, set_world_stream.
  cbn [stream heap trace next_handle clock_reads effect].
  unfold bind. rewrite process_rtcp_packet_eq, process_next_packets_eq.
  assert (Hf : forall q, feedback_calls (set_last_packet_time curtime ms) q
                         = feedback_calls ms q) by reflexivity.
  assert (Hfm : forall l, flat_map (feedback_calls (set_last_packet_time curtime ms)) l
                          = flat_map (feedback_calls ms) l).
  { induction l as [|q l IHl]; cbn [flat_map]; [reflexivity | now rewrite Hf, IHl]. }
  rewrite Hf, Hfm.
  eexists. split; [reflexivity|]. cbn [stream heap trace].
  split; [reflexivity|]. split; [reflexivity|]. split; [reflexivity|].
  assert (Htr : (tr ++ [Log ms_message "%s stream [%p]: receiving RTCP %s%s"
                         [Z.b2z (rtcp_is_SR m); Z.b2z (rtcp_is_RR m)]])
                ++ feedback_calls ms (first_packet m)
                ++ flat_map (feedback_calls ms) (next_packets m)
                = tr ++ Log ms_message "%s stream [%p]: receiving RTCP %s%s"
                          [Z.b2z (rtcp_is_SR m); Z.b2z (rtcp_is_RR m)]
                     :: flat_map (feedback_calls ms) (sub_packets m)).
  { unfold sub_packets. cbn [flat_map]. now rewrite <- !app_assoc. }
  rewrite <- !app_assoc in *. cbn [app] in *.
  split; [exact Htr|].
  assert (Hsplits : forall before p after,
            sub_packets m = before ++ p :: after ->
            exists tr0,
              tr ++ Log ms_message "%s stream [%p]: receiving RTCP %s%s"
                        [Z.b2z (rtcp_is_SR m); Z.b2z (rtcp_is_RR m)]
                 :: feedback_calls ms (first_packet m)
                    ++ flat_map (feedback_calls ms) (next_packets m)
              = tr0 ++ feedback_calls ms p ++ flat_map (feedback_calls ms) after).
  { intros before p after Hsplit. unfold sub_packets in *. cbn [flat_map] in Htr.
    change (feedback_calls ms (first_packet m)
            ++ flat_map (feedback_calls ms) (next_packets m))
      with (flat_map (feedback_calls ms) (first_packet m :: next_packets m)).
    rewrite Hsplit, flat_map_app. cbn [flat_map].
    eexists (tr ++ _ :: flat_map (feedback_calls ms) before).
    rewrite <- !app_assoc. reflexivity. }
  split; [exact Hsplits|].
  intros p Hin.
  assert (Hfed : In (process_rtcp p)
                    (tr ++ Log ms_message "%s stream [%p]: receiving RTCP %s%s"
                             [Z.b2z (rtcp_is_SR m); Z.b2z (rtcp_is_RR m)]
                        :: feedback_calls ms (first_packet m)
                           ++ flat_map (feedback_calls ms) (next_packets m))).
  { destruct (in_split _ _ Hin) as (before & after & Hsplit).
    destruct (Hsplits before p after Hsplit) as (tr0 & ->).
    apply in_or_app. right. apply in_or_app. left.
    unfold feedback_calls. apply in_or_app. right. apply in_or_app. right.
    left. reflexivity. }
  split; [exact Hfed|].
  intros Hdrop. unfold dropped in Hdrop. rewrite List.Forall_forall in Hdrop.
  apply (Hdrop _ Hfed). reflexivity.
Qed.

(** A receiver report, a truncated tail, and a sender report after it: the
    truncated sub-packet and the report behind it both reach the bitrate
    controller 14, the quality indicator 10 and the hook. *)
Lemma media_stream_process_rtcp_spec_witness :
  exists w' tr,
    media_stream_process_rtcp Sample.compound 1234 Sample.world = Some (tt, w')
    /\ last_packet_time (stream w') = 1234
    /\ trace w'
       = tr ++ [ms_bitrate_controller_process_rtcp 14%positive (mkRtcpPacket None [255; 3]);
                ms_quality_indicator_update_from_feedback 10%positive
                  (mkRtcpPacket None [255; 3]);
                process_rtcp (mkRtcpPacket None [255; 3]);
                ms_bitrate_controller_process_rtcp 14%positive
                  (mkRtcpPacket (Some RTCP_SR) [128; 200; 0; 6]);
                ms_quality_indicator_update_from_feedback 10%positive
                  (mkRtcpPacket (Some RTCP_SR) [128; 200; 0; 6]);
                process_rtcp (mkRtcpPacket (Some RTCP_SR) [128; 200; 0; 6])].
Proof.
  destruct (media_stream_process_rtcp_spec Sample.compound 1234 Sample.world)
    as (w' & Hrun & _ & Ht & _ & _ & Hrest & _).
  destruct (Hrest [first_packet Sample.compound] (mkRtcpPacket None [255; 3])
              [mkRtcpPacket (Some RTCP_SR) [128; 200; 0; 6]] eq_refl)
    as (tr & Htr).
  exists w', tr. split; [exact Hrun|]. split; [exact Ht | exact Htr].
Defined.

(** The claim C5 has a malformed or truncated sub-packet dropped
    individually.  In the compound packet of [Sample] the second sub-packet
    is a truncated tail whose header cannot be read; on the stream of
    [Sample], with the bitrate controller 14 and the quality indicator 10,
    [media_stream_process_rtcp] hands it to the controller, to the indicator
    and to the hook, between the receiver report before it and the sender
    report after it: it is not dropped. *)
Lemma truncated_sub_packet_is_not_dropped :
  malformed (mkRtcpPacket None [255; 3])
  /\ sub_packets Sample.compound
     = [mkRtcpPacket (Some RTCP_RR) [129; 201; 0; 7];
        mkRtcpPacket None [255; 3];
        mkRtcpPacket (Some RTCP_SR) [128; 200; 0; 6]]
  /\ exists w',
       media_stream_process_rtcp Sample.compound 1234 Sample.world = Some (tt, w')
       /\ trace w'
          = [Log ms_message "%s stream [%p]: receiving RTCP %s%s" [0; 1];
             ms_bitrate_controller_process_rtcp 14%positive
               (mkRtcpPacket (Some RTCP_RR) [129; 201; 0; 7]);
             ms_quality_indicator_update_from_feedback 10%positive
               (mkRtcpPacket (Some RTCP_RR) [129; 201; 0; 7]);
             process_rtcp (mkRtcpPacket (Some RTCP_RR) [129; 201; 0; 7]);
             ms_bitrate_controller_process_rtcp 14%positive (mkRtcpPacket None [255; 3]);
             ms_quality_indicator_update_from_feedback 10%positive
               (mkRtcpPacket None [255; 3]);
             process_rtcp (mkRtcpPacket None [255; 3]);
             ms_bitrate_controller_process_rtcp 14%positive
               (mkRtcpPacket (Some RTCP_SR) [128; 200; 0; 6]);
             ms_quality_indicator_update_from_feedback 10%positive
               (mkRtcpPacket (Some RTCP_SR) [128; 200; 0; 6]);
             process_rtcp (mkRtcpPacket (Some RTCP_SR) [128; 200; 0; 6])]
       /\ ~ dropped (mkRtcpPacket None [255; 3]) (trace w').
Proof.
  split; [reflexivity|]. split; [reflexivity|].
  eexists. split; [vm_compute; reflexivity|].
  split; [vm_compute; reflexivity|].
  intros Hdrop. unfold dropped in Hdrop. rewrite List.Forall_forall in Hdrop.
  apply (Hdrop (process_rtcp (mkRtcpPacket None [255; 3]))); [|reflexivity].
  vm_compute. tauto.
Defined.

(** ** Bitrate control *)

Lemma encoder_calls_app a b : encoder_calls (a ++ b) = encoder_calls a ++ encoder_calls b.
Proof. apply List.filter_app. Qed.

Lemma requested_limit_nonneg ms rs v : 0 <= v -> 0 <= requested_limit ms rs v.
Proof.
  intros Hv. unfold requested_limit, UINT64_MODULUS, INT_MAX.
  destruct (estimator_active ms rs).
  - apply Z.min_glb; [apply Z.mod_pos_bound|]; lia.
  - apply Z.min_glb; lia.
Qed.

Lemma capped_nonneg ms br : 0 <= br -> 0 <= capped ms br.
Proof.
  intros H. unfold capped.
  destruct (max_target_bitrate ms >? 0)%Z eqn:E; cbn [andb]; [|exact H].
  destruct (br >? max_target_bitrate ms)%Z; lia.
Qed.

Section Tmmbr.

Variable env : Env.

(** [update_bitrate_limit_from_tmmbr] on a stream with an encoder: it skips
    when the capped limit is the session's upload bandwidth already, and
    otherwise records the limit on the stream and on the session, pushing it
    to the encoder of a stream that is not a video stream. *)
Lemma update_bitrate_limit_from_tmmbr_eq br_limit w enc s rs :
  encoder (stream w) = Some enc ->
  rtp_session (sessions (stream w)) = Some s ->
  heap w !! s = Some rs ->
  let limit := capped (stream w) br_limit in
  exists r w' added,
    update_bitrate_limit_from_tmmbr env br_limit w = Some (r, w')
    /\ trace w' = trace w ++ added
    /\ next_handle w' = next_handle w
    /\ if (target_upload_bandwidth rs =? limit)%Z
       then r = -1 /\ stream w' = stream w /\ heap w' = heap w /\ encoder_calls added = []
       else r = limit
            /\ stream w' = set_target_bitrate limit (stream w)
            /\ heap w' = <[s := set_target_upload_bandwidth limit rs]> (heap w)
            /\ encoder_calls added = set_bitrate_calls (stream w) enc limit.
Proof.
  intros Henc Hs Hrs limit.
  unfold update_bitrate_limit_from_tmmbr, rtp_session_get_target_upload_bandwidth,
    rtp_session_set_target_upload_bandwidth, media_stream_set_target_network_bitrate.
  run. rewrite Hs, Hrs, Henc. subst limit. unfold capped, set_bitrate_calls.
  destruct ((max_target_bitrate (stream w) >? 0)%Z
            && (br_limit >? max_target_bitrate (stream w))%Z);
    run;
    match goal with |- context [(target_upload_bandwidth rs =? ?l)%Z] =>
      destruct (target_upload_bandwidth rs =? l)%Z end;
    run.
  1,3: eexists _, _, _; (split; [reflexivity|]); cbn [trace stream heap next_handle];
       (split; [added_trace|]); auto.
  all: destruct (MSFormatType_eqb (type (stream w)) MSVideo); run;
       cbn [negb]; run;
       try match goal with |- context [filter_status env ?a ?b] =>
         destruct (filter_status env a b =? 0)%Z end;
       cbn [negb]; run; cbn [sessions set_target_bitrate rtp_session]; rewrite ?Hs;
       rewrite ?Hrs.
  all: eexists _, _, _; (split; [reflexivity|]); cbn [trace stream heap next_handle];
       (split; [added_trace|]); auto.
Qed.

(** The video part always returns, and touches neither the session objects
    nor the target bitrate; on a stream that is not a video stream it does
    nothing. *)
Lemma process_tmmbr_video_frame br w enc :
  encoder (stream w) = Some enc ->
  exists w' added,
    process_tmmbr_video env br w = Some (tt, w')
    /\ trace w' = trace w ++ added
    /\ heap w' = heap w
    /\ target_bitrate (stream w') = target_bitrate (stream w)
    /\ (type (stream w) <> MSVideo -> w' = w).
Proof.
  intros Henc. unfold process_tmmbr_video. run.
  destruct (MSFormatType_eqb (type (stream w)) MSVideo) eqn:Ety.
  2:{ run. exists w, []. rewrite app_nil_r. destruct w; auto. }
  run. rewrite Henc.
  assert (Hv : type (stream w) <> MSVideo -> False)
    by (destruct (type (stream w)); try discriminate; auto).
  destruct (match video_stream_get_video_preset env with
            | Some p => (p =? "custom")%string | None => false end).
  - run. destruct (encoder_configuration_list env) as [l|]; run.
    + match goal with |- context [filter_status env ?a ?b] =>
        destruct (filter_status env a b =? 0)%Z end; cbn [negb]; run;
        eexists _, _; (split; [reflexivity|]); cbn [trace stream heap];
        (split; [added_trace|]); repeat split; auto; intros H; destruct (Hv H).
    + eexists _, _; (split; [reflexivity|]); cbn [trace stream heap];
        (split; [added_trace|]); repeat split; auto; intros H; destruct (Hv H).
  - destruct (video_quality_controller (stream w)) eqn:Eq; run;
      cbn [video_quality_controller set_video_quality_controller]; rewrite ?Eq; run;
      eexists _, _; (split; [reflexivity|]); cbn [trace stream heap];
        (split; [added_trace|]); repeat split; auto; intros H; destruct (Hv H).
Qed.

(** C3.  On a TMMBR, for a stream with an encoder and a valid transport: the
    limit asked for is capped to [max_target_bitrate] whenever that is
    positive and exceeded.  When the resulting limit is the session's upload
    bandwidth already, the stream and the session objects are unchanged and
    no encoder call is made.  Otherwise the limit becomes the stream's target
    bitrate and the session's upload bandwidth, and the encoder of a stream
    that is not a video stream gets exactly one set-bitrate call with it. *)
Theorem media_stream_process_tmmbr_capped (tmmbr_mxtbr : Z) (w : World) enc s rs :
  encoder (stream w) = Some enc ->
  rtp_session (sessions (stream w)) = Some s ->
  heap w !! s = Some rs ->
  0 <= tmmbr_mxtbr ->
  (estimator_active (stream w) rs = true ->
   audio_bandwidth_estimator_duplicate_rate rs mod UINT64_MODULUS <> 0) ->
  let request := requested_limit (stream w) rs tmmbr_mxtbr in
  let limit := capped (stream w) request in
  (0 < max_target_bitrate (stream w) < request -> limit = max_target_bitrate (stream w))
  /\ exists w' added,
      media_stream_process_tmmbr env tmmbr_mxtbr w = Some (tt, w')
      /\ trace w' = trace w ++ added
      /\ if (target_upload_bandwidth rs =? limit)%Z
         then stream w' = stream w /\ heap w' = heap w /\ encoder_calls added = []
         else target_bitrate (stream w') = limit
              /\ heap w' = <[s := set_target_upload_bandwidth limit rs]> (heap w)
              /\ (type (stream w) <> MSVideo ->
                  stream w' = set_target_bitrate limit (stream w)
                  /\ encoder_calls added
                     = [ms_filter_call_method enc (MS_FILTER_SET_BITRATE limit)]).
Proof.
  intros Henc Hs Hrs Hv Hrate request limit. split.
  { intros [Hpos Hlt]. subst limit. unfold capped.
    destruct (Z.gtb_spec (max_target_bitrate (stream w)) 0); [|lia].
    destruct (Z.gtb_spec request (max_target_bitrate (stream w))); [reflexivity|lia]. }
  assert (Hlimit : limit <> -1).
  { pose proof (capped_nonneg (stream w) request
                  (requested_limit_nonneg (stream w) rs tmmbr_mxtbr Hv)).
    subst limit. lia. }
  unfold media_stream_process_tmmbr. run.
  set (w0 := mkWorld (stream w) (heap w) (trace w ++ [_]) (next_handle w) (clock_reads w)).
  assert (Hstep : exists r w1 added,
            update_bitrate_limit_from_tmmbr env request w0 = Some (r, w1)
            /\ trace w1 = trace w0 ++ added
            /\ next_handle w1 = next_handle w0
            /\ if (target_upload_bandwidth rs =? limit)%Z
               then r = -1 /\ stream w1 = stream w0 /\ heap w1 = heap w0
                    /\ encoder_calls added = []
               else r = limit
                    /\ stream w1 = set_target_bitrate limit (stream w0)
                    /\ heap w1 = <[s := set_target_upload_bandwidth limit rs]> (heap w0)
                    /\ encoder_calls added = set_bitrate_calls (stream w0) enc limit)
    by (apply update_bitrate_limit_from_tmmbr_eq; assumption).
  destruct Hstep as (r & w1 & added & Hupd & Htr & Hnh & Hcase).
  assert (Hmin : forall c, (if (c <? INT_MAX)%Z then c else INT_MAX) = Z.min c INT_MAX).
  { intros c. destruct (Z.ltb_spec c INT_MAX); lia. }
  assert (Hend : exists w' added',
            (if (r =? -1)%Z then Some (tt, w1)
             else if VIDEO_ENABLED env then process_tmmbr_video env r w1
                  else Some (tt, w1)) = Some (tt, w')
            /\ trace w' = trace w1 ++ added'
            /\ heap w' = heap w1
            /\ target_bitrate (stream w') = target_bitrate (stream w1)
            /\ ((r = -1 \/ type (stream w1) <> MSVideo) -> w' = w1)).
  { destruct (Z.eqb_spec r (-1)).
    - exists w1, []. rewrite app_nil_r. auto.
    - destruct (VIDEO_ENABLED env).
      + assert (He : encoder (stream w1) = Some enc).
        { destruct (target_upload_bandwidth rs =? limit)%Z.
          - destruct Hcase as (_ & -> & _). exact Henc.
          - destruct Hcase as (_ & -> & _). exact Henc. }
        destruct (process_tmmbr_video_frame r w1 enc He)
          as (w' & a' & H1 & H2 & H3 & H4 & H5).
        exists w', a'. repeat split; auto. intros [Hr|Ht]; [contradiction | auto].
      + exists w1, []. rewrite app_nil_r. auto. }
  destruct Hend as (w' & added' & Hfin & Htr' & Hheap' & Htb' & Hsame).
  assert (Hgoal : (let br_int := requested_limit (stream w) rs tmmbr_mxtbr in
                   bind (update_bitrate_limit_from_tmmbr env br_int)
                     (fun br_int => if (br_int =? -1)%Z then ret tt
                        else when (VIDEO_ENABLED env) (process_tmmbr_video env br_int)) w0)
                  = Some (tt, w')).
  { cbv zeta. fold request. unfold bind. rewrite Hupd. rewrite <- Hfin.
    destruct (r =? -1)%Z; [reflexivity|]. destruct (VIDEO_ENABLED env); reflexivity. }
  exists w', ([Log ms_message "MediaStream[%p]: received a TMMBR for bitrate %llu kbits/s"
                 [tmmbr_mxtbr / 1000]] ++ added ++ added').
  split.
  { rewrite <- Hgoal. unfold requested_limit, estimator_active. cbv zeta.
    rewrite <- Hmin.
    destruct (MSFormatType_eqb (type (stream w)) MSAudio) eqn:Ety; cbn [andb].
    - rewrite Hs. change (heap w0) with (heap w). rewrite Hrs.
      destruct (audio_bandwidth_estimator_enabled rs && non_null (audio_bw_estimator rs))
        eqn:Eest.
      + destruct (Z.eqb_spec
                    (audio_bandwidth_estimator_duplicate_rate rs mod UINT64_MODULUS) 0)
          as [Hz|Hz].
        * exfalso. apply Hrate; [|exact Hz]. unfold estimator_active. now rewrite Ety, Eest.
        * reflexivity.
      + reflexivity.
    - reflexivity. }
  split.
  { rewrite Htr', Htr. subst w0. cbn [trace]. now rewrite <- !app_assoc. }
  assert (Hnil : w' = w1 -> added' = []).
  { intros E. rewrite E in Htr'. rewrite <- (app_nil_r (trace w1)) in Htr' at 1.
    apply app_inv_head in Htr'. now symmetry. }
  destruct (target_upload_bandwidth rs =? limit)%Z.
  - destruct Hcase as (Hr & Hst & Hhp & Hec).
    pose proof (Hsame (or_introl Hr)) as E. rewrite (Hnil E), E, Hst, Hhp.
    subst w0. cbn [stream heap]. repeat split.
    rewrite !encoder_calls_app, Hec. reflexivity.
  - destruct Hcase as (Hr & Hst & Hhp & Hec).
    rewrite Htb', Hheap', Hst, Hhp. subst w0. cbn [stream heap].
    split; [destruct (stream w); reflexivity|]. split; [reflexivity|].
    intros Hty.
    assert (E : w' = w1) by (apply Hsame; right; rewrite Hst; destruct (stream w); exact Hty).
    rewrite (Hnil E), E, Hst. split; [reflexivity|].
    rewrite !encoder_calls_app, Hec. unfold set_bitrate_calls. cbn [stream].
    destruct (type (stream w)); try reflexivity. contradiction.
Qed.

End Tmmbr.

(** A TMMBR of 500000 bit/s on the stream of [Sample], whose ceiling is
    300000 and whose session has no limit yet: 300000 is applied, with one
    set-bitrate call to the encoder 8; a second TMMBR of 500000 then changes
    neither the stream nor the session and calls no encoder. *)
Lemma media_stream_process_tmmbr_capped_witness :
  exists w1 w2 added1 added2,
    media_stream_process_tmmbr Sample.env 500000 Sample.world = Some (tt, w1)
    /\ trace w1 = trace Sample.world ++ added1
    /\ target_bitrate (stream w1) = 300000
    /\ heap w1 = <[1%positive := set_target_upload_bandwidth 300000 fresh_session]> Sample.heap
    /\ encoder_calls added1
       = [ms_filter_call_method 8%positive (MS_FILTER_SET_BITRATE 300000)]
    /\ media_stream_process_tmmbr Sample.env 500000 w1 = Some (tt, w2)
    /\ trace w2 = trace w1 ++ added2
    /\ stream w2 = stream w1 /\ heap w2 = heap w1 /\ encoder_calls added2 = [].
Proof.
  destruct (media_stream_process_tmmbr_capped Sample.env 500000 Sample.world
              8%positive 1%positive fresh_session eq_refl eq_refl eq_refl)
    as (_ & w1 & added1 & Hrun1 & Htr1 & Hcase1); [lia | discriminate |].
  change (target_upload_bandwidth fresh_session
          =? capped (stream Sample.world)
               (requested_limit (stream Sample.world) fresh_session 500000))%Z
    with false in Hcase1.
  change (capped (stream Sample.world)
            (requested_limit (stream Sample.world) fresh_session 500000))
    with 300000 in Hcase1.
  destruct Hcase1 as (Htb1 & Hheap1 & Haudio).
  destruct Haudio as (Hst1 & Hcalls1); [discriminate|].
  destruct (media_stream_process_tmmbr_capped Sample.env 500000 w1
              8%positive 1%positive (set_target_upload_bandwidth 300000 fresh_session))
    as (_ & w2 & added2 & Hrun2 & Htr2 & Hcase2).
  - rewrite Hst1. reflexivity.
  - rewrite Hst1. reflexivity.
  - rewrite Hheap1. apply lookup_insert_eq.
  - lia.
  - rewrite Hst1. discriminate.
  - rewrite Hst1 in Hcase2.
    change (target_upload_bandwidth (set_target_upload_bandwidth 300000 fresh_session)
            =? capped (set_target_bitrate 300000 (stream Sample.world))
                 (requested_limit (set_target_bitrate 300000 (stream Sample.world))
                    (set_target_upload_bandwidth 300000 fresh_session) 500000))%Z
      with true in Hcase2.
    destruct Hcase2 as (Hst2 & Hheap2 & Hcalls2).
    exists w1, w2, added1, added2.
    repeat split; try assumption. congruence.
Defined.

(** ** Forward error correction *)

Section Fec.

Variable env : Env.

Lemma fmtp_int_eq fmtp param found missing default ms hp tr nh cr :
  fmtp_int env fmtp param 10 found missing default (mkWorld ms hp tr nh cr)
  = Some (fmtp_value env fmtp param default,
          mkWorld ms hp
            (tr ++ [match fmtp_get_value env fmtp param 10 with
                    | Some buffer => Log ms_message found [atoi buffer]
                    | None => Log ms_error missing []
                    end]) nh cr).
Proof.
  unfold fmtp_int, fmtp_value. destruct (fmtp_get_value env fmtp param 10); reflexivity.
Qed.

(** The extraction always returns, with three log lines, one error notice
    for each attribute that was not found. *)
Lemma media_stream_extract_fec_params_eq pt ms hp tr nh cr :
  exists logs,
    media_stream_extract_fec_params env pt (mkWorld ms hp tr nh cr)
    = Some (expected_fec_params env pt, mkWorld ms hp (tr ++ logs) nh cr)
    /\ List.length (List.filter is_error_notice logs) = missing_attributes env pt
    /\ Forall (fun e => exists l f a, e = Log l f a) logs.
Proof.
  unfold media_stream_extract_fec_params. cbv zeta. unfold bind.
  rewrite !fmtp_int_eq. unfold ret. rewrite <- !app_assoc. cbn [app].
  eexists. split; [reflexivity|]. unfold missing_attributes. cbn [List.filter].
  destruct (fmtp_get_value env (recv_fmtp pt) "repair-window" 10),
    (fmtp_get_value env (recv_fmtp pt) "L" 10), (fmtp_get_value env (recv_fmtp pt) "D" 10);
    cbn; repeat split; repeat constructor; eauto.
Qed.

(** C6, as the code has it.  On a stream that already owns a FEC session,
    with the flexfec payload type in the profile, [media_stream_handle_fec]
    creates no secondary session: the stream's session handles are unchanged.
    It does configure the existing secondary session again, binds it into the
    bundle again, and constructs and initializes a new FEC stream object from
    the parameters it extracts, which replaces the stream's FEC stream. *)
Theorem media_stream_handle_fec_again (profile : RtpProfile) (w : World)
    pt p f rp rf :
  rtp_profile_get_payload_from_mime profile "flexfec" = Some pt ->
  rtp_session (sessions (stream w)) = Some p ->
  fec_session (sessions (stream w)) = Some f ->
  p <> f ->
  heap w !! p = Some rp ->
  heap w !! f = Some rf ->
  exists w' logs,
    media_stream_handle_fec env profile w = Some (tt, w')
    /\ sessions (stream w') = sessions (stream w)
    /\ fec_stream (stream w') = Some (next_handle w)
    /\ next_handle w' = Pos.succ (next_handle w)
    /\ heap w' = <[f := configured profile rf]>
                   (<[p := set_jitter_compensation 200 rp]> (heap w))
    /\ Forall (fun e => exists l t a, e = Log l t a) logs
    /\ trace w'
       = trace w
         ++ rtp_bundle_add_fec_session (bundle rp) p f
         :: logs
         ++ [fec_stream_new p f (expected_fec_params env pt) (next_handle w);
             fec_stream_init (next_handle w)].
Proof.
  intros Hpt Hp Hf Hne Hrp Hrf.
  destruct w as [ms hp tr nh cr]. cbn [stream heap trace next_handle] in *.
  unfold media_stream_handle_fec. rewrite Hpt.
  step. rewrite Hp, Hf. do 4 step. rewrite Hp, Hf.
  do 6 step. rewrite !insert_insert_eq. do 3 step. cbn [effect].
  destruct (media_stream_extract_fec_params_eq pt ms
              (<[f := configured profile rf]> (<[p := set_jitter_compensation 200 rp]> hp))
              (tr ++ [rtp_bundle_add_fec_session (bundle rp) p f]) nh cr)
    as (logs & Hext & _ & Hlogs).
  erewrite bind_Some by exact Hext. cbv beta.
  do 3 step. cbn [effect]. rewrite call_mk. cbn [effect].
  exists (mkWorld (set_fec_stream (Some nh) ms)
            (<[f := configured profile rf]> (<[p := set_jitter_compensation 200 rp]> hp))
            (((tr ++ [rtp_bundle_add_fec_session (bundle rp) p f]) ++ logs)
               ++ [fec_stream_new p f (expected_fec_params env pt) nh]
               ++ [fec_stream_init nh])
            (Pos.succ nh) cr), logs.
  split; [now rewrite <- !app_assoc|].
  cbn [stream heap trace next_handle sessions set_fec_stream fec_stream].
  repeat split; auto. rewrite <- !app_assoc. reflexivity.
Qed.

End Fec.

(** C7, as the code has it.  The extraction always returns, changing nothing
    but the log.  Each parameter is the documented default, with an error
    notice, exactly when [fmtp_get_value] does not find its attribute, and
    otherwise what [atoi] makes of the attribute's value.  With oRTP's
    parser as modelled, a payload type without fmtp gives the defaults
    (repair window 100000, L 10, D 0), and the fmtp
    repair-window=50000;L=4;D=2 gives 50000, 4 and 2. *)
Theorem media_stream_extract_fec_params_spec :
  (forall env pt w,
     exists w' logs,
       media_stream_extract_fec_params env pt w = Some (expected_fec_params env pt, w')
       /\ stream w' = stream w /\ heap w' = heap w
       /\ trace w' = trace w ++ logs
       /\ List.length (List.filter is_error_notice logs) = missing_attributes env pt)
  /\ (forall env pt,
        let params := expected_fec_params env pt in
        let found param := fmtp_get_value env (recv_fmtp pt) param 10 in
        (forall v, found "repair-window" = Some v -> repair_window params = atoi v)
        /\ (found "repair-window" = None -> repair_window params = 100000)
        /\ (forall v, found "L" = Some v -> fec_L params = atoi v)
        /\ (found "L" = None -> fec_L params = 10)
        /\ (forall v, found "D" = Some v -> fec_D params = atoi v)
        /\ (found "D" = None -> fec_D params = 0))
  /\ expected_fec_params Sample.env (Sample.flexfec None) = default_fec_params
  /\ expected_fec_params Sample.env (Sample.flexfec (Some "repair-window=50000;L=4;D=2"))
     = mkFecParameters 4 2 50000.
Proof.
  split; [|split; [|split]].
  - intros env pt [ms hp tr nh cr].
    destruct (media_stream_extract_fec_params_eq env pt ms hp tr nh cr)
      as (logs & Hrun & Hcount & _).
    eexists _, logs. split; [exact Hrun|]. cbn [stream heap trace]. auto.
  - intros env pt params found. subst params found.
    unfold expected_fec_params, fmtp_value. cbn [repair_window fec_L fec_D].
    repeat split; intros; repeat match goal with H : _ = _ |- _ => rewrite H end;
      reflexivity.
  - reflexivity.
  - reflexivity.
Qed.

(** C7, as stated, fails: the attributes repair-window=abc and L=xyz are
    there and cannot be read as numbers, and the extraction gives 0 for both,
    not the defaults 100000 and 10. *)
Lemma extract_fec_params_of_unparsable_values :
  exists params w',
    media_stream_extract_fec_params Sample.env
      (Sample.flexfec (Some "repair-window=abc;L=xyz;D=2")) Sample.world
    = Some (params, w')
    /\ params = mkFecParameters 0 2 0
    /\ repair_window params <> repair_window default_fec_params
    /\ fec_L params <> fec_L default_fec_params.
Proof.
  eexists _, _. split; [vm_compute; reflexivity|].
  split; [reflexivity|]. split; discriminate.
Defined.

(** C6, as stated, fails: the stream of [Sample] owns the FEC session 11 and
    the FEC stream 15; a further [media_stream_handle_fec] binds the session
    into the bundle again and replaces the FEC stream by a new object, 20. *)
Lemma handle_fec_is_not_idempotent :
  fec_session (Machine.sessions (stream Sample.world)) = Some 11%positive
  /\ fec_stream (stream Sample.world) = Some 15%positive
  /\ exists w',
      media_stream_handle_fec Sample.env Sample.profile Sample.world = Some (tt, w')
      /\ fec_stream (stream w') = Some 20%positive
      /\ fec_stream (stream w') <> fec_stream (stream Sample.world)
      /\ In (rtp_bundle_add_fec_session None 1%positive 11%positive) (trace w')
      /\ In (fec_stream_new 1%positive 11%positive (mkFecParameters 4 2 50000) 20%positive)
            (trace w').
Proof.
  split; [reflexivity|]. split; [reflexivity|].
  eexists. split; [vm_compute; reflexivity|].
  cbn [stream fec_stream trace]. split; [reflexivity|]. split; [discriminate|].
  split; cbn; tauto.
Defined.

(** The amended statement on the same stream: the session handles stay, the
    FEC stream becomes the new object 20, and the secondary session 11 is
    configured with the flexfec payload type 113. *)
Lemma media_stream_handle_fec_again_witness :
  exists w',
    media_stream_handle_fec Sample.env Sample.profile Sample.world = Some (tt, w')
    /\ Machine.sessions (stream w') = Sample.sessions
    /\ fec_stream (stream w') = Some 20%positive
    /\ option_map session_payload_type (heap w' !! 11%positive) = Some 113.
Proof.
  destruct (media_stream_handle_fec_again Sample.env Sample.profile Sample.world
              (Sample.flexfec (Some "repair-window=50000;L=4;D=2"))
              1%positive 11%positive fresh_session fresh_session)
    as (w' & logs & Hrun & Hss & Hfs & _ & Hheap & _); try reflexivity; [discriminate|].
  exists w'. split; [exact Hrun|]. split; [exact Hss|]. split; [exact Hfs|].
  rewrite Hheap, lookup_insert_eq. reflexivity.
Defined.

(** ** The VideoToolbox decoder *)

Lemma outputCb_destroying d dec tr :
  _destroying dec = true -> _mutex_held dec = false ->
  outputCb d (mkDecoderState dec tr)
  = Some (tt, mkDecoderState dec (tr ++ [mutex_lock; mutex_unlock])).
Proof.
  intros Hd Hm. destruct dec as [s fd q ds fr mh]. cbn in Hd, Hm. subst ds mh.
  unfold outputCb. drun. now rewrite <- app_assoc.
Qed.

Lemma deliver_destroying late : forall dec tr,
  _destroying dec = true -> _mutex_held dec = false ->
  deliver late (mkDecoderState dec tr)
  = Some (tt, mkDecoderState dec
                (tr ++ flat_map (fun _ => [mutex_lock; mutex_unlock]) late)).
Proof.
  induction late as [|d late IH]; intros dec tr Hd Hm; cbn [deliver flat_map].
  - now rewrite app_nil_r.
  - unfold dbind. rewrite outputCb_destroying by assumption.
    rewrite IH by assumption. now rewrite <- app_assoc.
Qed.

(** Outside a teardown a decoded image is queued: the guard is what
    discards a delivery, not the callback as such. *)
Lemma outputCb_enqueues d dec tr image :
  _destroying dec = false -> _mutex_held dec = false ->
  status d = noErr -> imageBuffer d = Some image ->
  exists st',
    outputCb d (mkDecoderState dec tr) = Some (tt, st')
    /\ _queue (this st') = _queue dec ++ [mkFrame (Some image)].
Proof.
  intros Hd Hm Hs Hi. destruct dec as [s fd q ds fr mh]. cbn in Hd, Hm. subst ds mh.
  unfold outputCb. drun. rewrite Hi, Hs. cbn [negb Z.eqb noErr orb non_null]. drun.
  eexists. split; reflexivity.
Qed.

(** C9.  When the flag [_destroying] is set as the output callback runs, the
    callback takes the lock, releases it and returns: the frame queue and
    every other field of the decoder are as before.  [destroyDecoder] sets
    the flag between taking and releasing the lock, before it waits for and
    invalidates the session; the deliveries that arrive while it waits are
    all discarded, so the queue after the teardown is the queue before it. *)
Theorem late_deliveries_are_discarded :
  (forall d st,
     _destroying (this st) = true -> _mutex_held (this st) = false ->
     outputCb d st
     = Some (tt, mkDecoderState (this st) (ops st ++ [mutex_lock; mutex_unlock])))
  /\ (forall late st,
        _mutex_held (this st) = false ->
        exists st',
          destroyDecoder late st = Some (tt, st')
          /\ _queue (this st') = _queue (this st)
          /\ _session (this st') = None
          /\ ops st'
             = ops st
               ++ [vt_log "destroying decoder"; mutex_lock; write_destroying true;
                   mutex_unlock;
                   VTDecompressionSessionWaitForAsynchronousFrames (_session (this st))]
               ++ flat_map (fun _ => [mutex_lock; mutex_unlock]) late
               ++ [VTDecompressionSessionInvalidate (_session (this st));
                   CFRelease (_session (this st)); CFRelease (_formatDesc (this st));
                   write_destroying false]).
Proof.
  split.
  - intros d [dec tr] Hd Hm. now apply outputCb_destroying.
  - intros late [dec tr] Hm. destruct dec as [s fd q ds fr mh]. cbn in Hm. subst mh.
    unfold destroyDecoder. drun.
    rewrite deliver_destroying by reflexivity.
    eexists. split; [reflexivity|]. cbn [this ops _queue _session _formatDesc].
    repeat split. rewrite <- !app_assoc. reflexivity.
Qed.

(** The decoder of [Sample], which is being torn down with two frames
    queued: a delivery of a good image leaves the two frames, and so does a
    whole teardown during which a good image and a failure are delivered. *)
Lemma late_deliveries_are_discarded_witness :
  outputCb (mkDelivery noErr (Some Sample.image)) (mkDecoderState Sample.decoder [])
  = Some (tt, mkDecoderState Sample.decoder [mutex_lock; mutex_unlock])
  /\ exists st',
      destroyDecoder [mkDelivery noErr (Some Sample.image); mkDelivery (-12909) None]
        (mkDecoderState Sample.decoder [])
      = Some (tt, st')
      /\ _queue (this st') = [mkFrame (Some Sample.image); mkFrame None].
Proof.
  destruct late_deliveries_are_discarded as [Hcb Hdestroy]. split.
  - apply (Hcb (mkDelivery noErr (Some Sample.image)) (mkDecoderState Sample.decoder []));
      reflexivity.
  - destruct (Hdestroy [mkDelivery noErr (Some Sample.image); mkDelivery (-12909) None]
                (mkDecoderState Sample.decoder []) eq_refl)
      as (st' & Hrun & Hq & _).
    exists st'. split; [exact Hrun | exact Hq].
Defined.

(** ** Further properties *)

(** Every valid suite is written as a descriptor from which it is built
    again; the invalid suite has no descriptor. *)
Theorem crypto_suite_to_name_params_then_build (cs : MSCryptoSuite) :
  match ms_crypto_suite_to_name_params cs with
  | (status, Some d) =>
      status = 0 /\ cs <> MS_CRYPTO_SUITE_INVALID
      /\ ms_crypto_suite_build_from_name_params d = cs
  | (status, None) => status = -1 /\ cs = MS_CRYPTO_SUITE_INVALID
  end.
Proof. destruct cs; cbn; repeat split; discriminate. Qed.

(** A params string that holds none of the three tokens is taken as no
    params at all: with a known name it gives the name's plain suite. *)
Theorem unrecognised_params_are_ignored (n : string) (p : option string) :
  In n known_names ->
  (forall tok, In tok params_tokens -> has p tok = false) ->
  ms_crypto_suite_build_from_name_params (mkNameParams n p)
  = ms_crypto_suite_build_from_name_params (mkNameParams n None)
  /\ ms_crypto_suite_build_from_name_params (mkNameParams n p) <> MS_CRYPTO_SUITE_INVALID.
Proof.
  intros Hn Hp.
  assert (H1 : has p "UNENCRYPTED_SRTP" = false) by (apply Hp; cbn; tauto).
  assert (H2 : has p "UNENCRYPTED_SRTCP" = false) by (apply Hp; cbn; tauto).
  assert (H3 : has p "UNAUTHENTICATED_SRTP" = false) by (apply Hp; cbn; tauto).
  unfold ms_crypto_suite_build_from_name_params,
    ms_crypto_suite_build_from_name_params_logged.
  cbn [name params].
  repeat (destruct Hn as [<- | Hn];
          [ unfold by_parameters; rewrite H1, H2, H3; cbn; split; [reflexivity|discriminate] |]).
  destruct Hn.
Qed.

Lemma unrecognised_params_are_ignored_witness :
  ms_crypto_suite_build_from_name_params (mkNameParams "AEAD_AES_256_GCM" (Some "KDR=1"))
  = MS_AEAD_AES_256_GCM.
Proof.
  apply (unrecognised_params_are_ignored "AEAD_AES_256_GCM" (Some "KDR=1")).
  - cbn. tauto.
  - intros tok Htok. cbn in Htok.
    repeat (destruct Htok as [<- | Htok]; [reflexivity|]). destruct Htok.
Defined.

Section FirstFec.

Variable env : Env.

(** The first FEC setup: with no FEC session yet, a secondary session is
    created, configured and bound into the primary's bundle, the primary's
    jitter compensation is set to 200 ms, and a FEC stream object is built
    from the extracted parameters and initialized. *)
Theorem media_stream_handle_fec_first (profile : RtpProfile) (w : World) pt p rp :
  rtp_profile_get_payload_from_mime profile "flexfec" = Some pt ->
  rtp_session (sessions (stream w)) = Some p ->
  fec_session (sessions (stream w)) = None ->
  heap w !! p = Some rp ->
  let f := next_handle w in
  let fs := Pos.succ (next_handle w) in
  exists w' logs,
    media_stream_handle_fec env profile w = Some (tt, w')
    /\ sessions (stream w') = set_fec_session (Some f) (sessions (stream w))
    /\ fec_stream (stream w') = Some fs
    /\ heap w' = <[f := configured profile fresh_session]>
                   (<[p := set_jitter_compensation 200 rp]> (heap w))
    /\ Forall (fun e => exists l t a, e = Log l t a) logs
    /\ trace w'
       = trace w
         ++ rtp_session_new f
         :: rtp_bundle_add_fec_session (bundle rp) p f
         :: logs
         ++ [fec_stream_new p f (expected_fec_params env pt) fs; fec_stream_init fs].
Proof.
  intros Hpt Hp Hf Hrp f fs. subst f fs.
  destruct w as [ms hp tr nh cr]. cbn [stream heap trace next_handle] in *.
  unfold media_stream_handle_fec. rewrite Hpt.
  step. rewrite Hp, Hf. do 2 step.
  erewrite bind_Some by (do 2 step; apply modify_stream_mk).
  cbn [effect]. step.
  cbn [sessions set_sessions set_fec_session fec_session rtp_session]. rewrite Hp.
  do 6 step. rewrite !insert_insert_eq. do 3 step. cbn [effect].
  destruct (media_stream_extract_fec_params_eq env pt
              (set_sessions (set_fec_session (Some nh) (sessions ms)) ms)
              (<[nh := configured profile fresh_session]>
                 (<[p := set_jitter_compensation 200 rp]> hp))
              ((tr ++ [rtp_session_new nh]) ++ [rtp_bundle_add_fec_session (bundle rp) p nh])
              (Pos.succ nh) cr)
    as (logs & Hext & _ & Hlogs).
  erewrite bind_Some by exact Hext. cbv beta.
  do 3 step. cbn [effect]. rewrite call_mk. cbn [effect].
  eexists _, logs.
  split; [reflexivity|].
  cbn [stream heap trace next_handle sessions set_fec_stream fec_stream set_sessions].
  repeat split; auto. rewrite <- !app_assoc. reflexivity.
Qed.

End FirstFec.

(** The first setup on the stream of [Sample] without a FEC session: the
    secondary session is the new object 20 and the FEC stream the object 21. *)
Lemma media_stream_handle_fec_first_witness :
  exists w',
    media_stream_handle_fec Sample.env Sample.profile Sample.world_without_fec
    = Some (tt, w')
    /\ fec_session (Machine.sessions (stream w')) = Some 20%positive
    /\ fec_stream (stream w') = Some 21%positive
    /\ option_map session_payload_type (heap w' !! 20%positive) = Some 113.
Proof.
  destruct (media_stream_handle_fec_first Sample.env Sample.profile
              Sample.world_without_fec
              (Sample.flexfec (Some "repair-window=50000;L=4;D=2"))
              1%positive fresh_session eq_refl eq_refl eq_refl eq_refl)
    as (w' & logs & Hrun & Hss & Hfs & Hheap & _).
  exists w'. split; [exact Hrun|]. split; [now rewrite Hss|]. split; [exact Hfs|].
  rewrite Hheap, lookup_insert_eq. reflexivity.
Defined.

(** A transport whose count was reset to 0 under a sample of 3: the stream
    keeps its sample and its last-packet time, and is not alive for the
    timeout 10 at the reading 1011. *)
Lemma media_stream_alive_zero_count_witness :
  exists w',
    media_stream_alive Sample.env 10
      (mkWorld (set_last_packet_count 3 Sample.stream) Sample.heap [] 20%positive 11)
    = Some (false, w')
    /\ last_packet_count (stream w') = 3.
Proof.
  destruct (media_stream_alive_zero_count Sample.env 10
              (mkWorld (set_last_packet_count 3 Sample.stream) Sample.heap [] 20%positive 11)
              1%positive fresh_session eq_refl eq_refl eq_refl eq_refl)
    as (alive & w' & Hrun & Hst & Hiff).
  exists w'. rewrite Hrun, Hst. split; [|reflexivity].
  assert (Hdead : alive = false) by (apply Hiff; vm_compute; reflexivity).
  now rewrite Hdead.
Defined.

(** The decoder of [Sample] at work: a good image joins the two frames. *)
Lemma outputCb_enqueues_witness :
  exists st',
    outputCb (mkDelivery noErr (Some Sample.image))
      (mkDecoderState Sample.running_decoder [])
    = Some (tt, st')
    /\ _queue (this st')
       = [mkFrame (Some Sample.image); mkFrame None; mkFrame (Some Sample.image)].
Proof.
  apply (outputCb_enqueues (mkDelivery noErr (Some Sample.image)) Sample.running_decoder []
           Sample.image); reflexivity.
Defined.

(** * Verification of the further parts *)

Import Behaviour.

(** ** Descriptors, flags and the error line *)

(** The flags of a suite built from a descriptor say what its params said. *)
Theorem built_suite_flags (d : MSCryptoSuiteNameParams) :
  ms_crypto_suite_build_from_name_params d <> MS_CRYPTO_SUITE_INVALID ->
  (ms_crypto_suite_is_unencrypted (ms_crypto_suite_build_from_name_params d) = true
   <-> mentions (params d) unencrypted_tokens)
  /\ (ms_crypto_suite_is_unauthenticated (ms_crypto_suite_build_from_name_params d) = true
      <-> has (params d) "UNAUTHENTICATED_SRTP" = true
          /\ ~ mentions (params d) unencrypted_tokens).
Proof.
  assert (Hm : mentions (params d) unencrypted_tokens
               <-> has (params d) "UNENCRYPTED_SRTP" = true
                   \/ has (params d) "UNENCRYPTED_SRTCP" = true).
  { unfold mentions, unencrypted_tokens. split.
    - intros (tok & [<- | [<- | []]] & H); auto.
    - intros [H | H]; eexists; (split; [|exact H]); cbn; tauto. }
  rewrite Hm. clear Hm.
  unfold ms_crypto_suite_build_from_name_params,
    ms_crypto_suite_build_from_name_params_logged, by_parameters, unsupported.
  repeat match goal with
         | |- context [(keywordcmp ?k ?n =? 0)%Z] => destruct (keywordcmp k n =? 0)%Z
         end;
    destruct (has (params d) "UNENCRYPTED_SRTP"), (has (params d) "UNENCRYPTED_SRTCP"),
      (has (params d) "UNAUTHENTICATED_SRTP");
    cbn; intros Hv; try (exfalso; apply Hv; reflexivity); intuition congruence.
Qed.

(** The descriptor AES_CM_128_HMAC_SHA1_80 with both an UNENCRYPTED and the
    UNAUTHENTICATED token: the suite built is an unencrypted one, and is not
    flagged unauthenticated. *)
Lemma built_suite_flags_witness :
  ms_crypto_suite_is_unencrypted
    (ms_crypto_suite_build_from_name_params
       (mkNameParams "AES_CM_128_HMAC_SHA1_80"
                     (Some "UNENCRYPTED_SRTP UNAUTHENTICATED_SRTP"))) = true
  /\ ms_crypto_suite_is_unauthenticated
       (ms_crypto_suite_build_from_name_params
          (mkNameParams "AES_CM_128_HMAC_SHA1_80"
                        (Some "UNENCRYPTED_SRTP UNAUTHENTICATED_SRTP"))) <> true.
Proof.
  destruct (built_suite_flags
              (mkNameParams "AES_CM_128_HMAC_SHA1_80"
                            (Some "UNENCRYPTED_SRTP UNAUTHENTICATED_SRTP")))
    as [Hc Ha]; [discriminate|].
  assert (Hm : mentions (Some "UNENCRYPTED_SRTP UNAUTHENTICATED_SRTP") unencrypted_tokens).
  { exists "UNENCRYPTED_SRTP"%string. split; [cbn; tauto | reflexivity]. }
  split.
  - apply Hc. exact Hm.
  - intros H. apply Ha in H. destruct H as [_ Hn]. exact (Hn Hm).
Defined.

(** ** Ticker priorities *)

Lemma strcaseeq_true_l a : forall b c,
  strcaseeq a b = true -> strcaseeq a c = strcaseeq b c.
Proof.
  induction a as [|x a IH]; intros [|y b] [|z c]; cbn [strcaseeq]; intros H;
    try discriminate H; try reflexivity.
  apply andb_prop in H as [Hxy Hab].
  apply Ascii.eqb_eq in Hxy. rewrite Hxy. f_equal. now apply IH.
Qed.

Lemma _ms_ticker_prio_from_env_case v v' :
  strcaseeq v v' = true ->
  fst (TickerPriority._ms_ticker_prio_from_env v)
  = fst (TickerPriority._ms_ticker_prio_from_env v').
Proof.
  intros H. unfold TickerPriority._ms_ticker_prio_from_env.
  rewrite !(strcaseeq_true_l v v' _ H).
  repeat match goal with |- context [strcaseeq v' ?w] => destruct (strcaseeq v' w) end;
    reflexivity.
Qed.

(** The default priority of a ticker: the environment's word counts
    whatever its letter case; unset, or on a universal Windows build, or
    unrecognised (then with an error line), the priority is HIGH for audio
    and, for video, HIGH on an iPhone build and NORMAL elsewhere. *)
Theorem default_prio_from_environment (platform : TickerPriority.Platform)
    (getenv : string -> option string) (is_video : bool) :
  let variable := if is_video then "MS_VIDEO_PRIO" else "MS_AUDIO_PRIO" in
  let fallback :=
    if is_video && negb (TickerPriority.TARGET_OS_IPHONE platform)
    then TickerPriority.MS_TICKER_PRIO_NORMAL else TickerPriority.MS_TICKER_PRIO_HIGH in
  let result := TickerPriority.__ms_get_default_prio platform getenv is_video in
  (forall getenv',
     (forall x, match getenv x, getenv' x with
                | Some v, Some v' => strcaseeq v v' = true
                | None, None => True
                | _, _ => False
                end) ->
     fst (TickerPriority.__ms_get_default_prio platform getenv' is_video) = fst result)
  /\ (forall v word prio,
        TickerPriority.MS2_WINDOWS_UNIVERSAL platform = false ->
        getenv variable = Some v ->
        In (word, prio) [("NORMAL", TickerPriority.MS_TICKER_PRIO_NORMAL);
                         ("HIGH", TickerPriority.MS_TICKER_PRIO_HIGH);
                         ("REALTIME", TickerPriority.MS_TICKER_PRIO_REALTIME)] ->
        strcaseeq v word = true ->
        result = (prio, []))
  /\ (TickerPriority.MS2_WINDOWS_UNIVERSAL platform = true \/ getenv variable = None ->
      result = (fallback, []))
  /\ (forall v,
        TickerPriority.MS2_WINDOWS_UNIVERSAL platform = false ->
        getenv variable = Some v ->
        (forall word, In word ["NORMAL"; "HIGH"; "REALTIME"] -> strcaseeq v word = false) ->
        result = (fallback, [mkLog true ("Undefined priority " ++ v)%string])).
Proof.
  intros variable fallback result. subst variable fallback result.
  unfold TickerPriority.__ms_get_default_prio, TickerPriority.prio_or.
  split; [|split; [|split]].
  - intros getenv' Henv.
    destruct is_video, (TickerPriority.MS2_WINDOWS_UNIVERSAL platform); try reflexivity.
    + specialize (Henv "MS_VIDEO_PRIO").
      destruct (getenv "MS_VIDEO_PRIO") as [v|], (getenv' "MS_VIDEO_PRIO") as [v'|];
        try contradiction; [|reflexivity].
      pose proof (_ms_ticker_prio_from_env_case v v' Henv) as Hc.
      destruct (TickerPriority._ms_ticker_prio_from_env v) as [[p|] l],
        (TickerPriority._ms_ticker_prio_from_env v') as [[p'|] l'];
        cbn [fst] in *; congruence.
    + specialize (Henv "MS_AUDIO_PRIO").
      destruct (getenv "MS_AUDIO_PRIO") as [v|], (getenv' "MS_AUDIO_PRIO") as [v'|];
        try contradiction; [|reflexivity].
      pose proof (_ms_ticker_prio_from_env_case v v' Henv) as Hc.
      destruct (TickerPriority._ms_ticker_prio_from_env v) as [[p|] l],
        (TickerPriority._ms_ticker_prio_from_env v') as [[p'|] l'];
        cbn [fst] in *; congruence.
  - intros v word prio Hwu Hv Hin Hword.
    assert (Hp : TickerPriority._ms_ticker_prio_from_env v = (Some prio, [])).
    { unfold TickerPriority._ms_ticker_prio_from_env.
      rewrite !(strcaseeq_true_l v word _ Hword).
      cbn [In] in Hin.
      destruct Hin as [E | [E | [E | []]]]; inversion E; subst; reflexivity. }
    rewrite Hwu. destruct is_video; rewrite Hv, Hp; reflexivity.
  - intros [Hwu | Hnone].
    + rewrite Hwu. destruct is_video, (TickerPriority.TARGET_OS_IPHONE platform); reflexivity.
    + destruct (TickerPriority.MS2_WINDOWS_UNIVERSAL platform), is_video;
        rewrite ?Hnone; destruct (TickerPriority.TARGET_OS_IPHONE platform); reflexivity.
  - intros v Hwu Hv Hno.
    assert (Hp : TickerPriority._ms_ticker_prio_from_env v
                 = (None, [mkLog true ("Undefined priority " ++ v)%string])).
    { unfold TickerPriority._ms_ticker_prio_from_env.
      rewrite !Hno by (cbn; tauto). reflexivity. }
    rewrite Hwu.
    destruct is_video; rewrite Hv, Hp;
      destruct (TickerPriority.TARGET_OS_IPHONE platform); reflexivity.
Qed.

(** An audio ticker with MS_AUDIO_PRIO set to RealTime, in mixed case. *)
Lemma default_prio_from_environment_witness :
  TickerPriority.__ms_get_default_prio (TickerPriority.mkPlatform false false)
    (fun _ => Some "RealTime") false
  = (TickerPriority.MS_TICKER_PRIO_REALTIME, []).
Proof.
  apply (proj1 (proj2 (default_prio_from_environment
                         (TickerPriority.mkPlatform false false)
                         (fun _ => Some "RealTime") false))
           "RealTime" "REALTIME" TickerPriority.MS_TICKER_PRIO_REALTIME);
    [reflexivity | reflexivity | cbn; tauto | reflexivity].
Defined.

(** ** Media resources *)

Lemma ms_media_resource_is_consistent_spec r :
  (usable r /\ Resource.ms_media_resource_is_consistent r = (true, []))
  \/ (~ usable r
      /\ exists line, Resource.ms_media_resource_is_consistent r = (false, [line])
                      /\ log_error line = true).
Proof.
  unfold usable, Resource.ms_media_resource_is_consistent.
  destruct (Resource.type r); try destruct (Resource.resource_arg r);
    first [ left; split; [try exact I; discriminate | reflexivity]
          | right; split; [tauto | eexists; split; reflexivity] ].
Qed.

(** A stream's input and output are consistent exactly when both are
    usable, and then nothing is logged; otherwise one error line is logged,
    for the input when it is at fault, the output being looked at only when
    the input is consistent. *)
Theorem ms_media_stream_io_is_consistent_spec (io : Resource.MSMediaStreamIO) :
  (fst (Resource.ms_media_stream_io_is_consistent io) = true
   <-> usable (Resource.input io) /\ usable (Resource.output io))
  /\ (fst (Resource.ms_media_stream_io_is_consistent io) = true ->
      snd (Resource.ms_media_stream_io_is_consistent io) = [])
  /\ (fst (Resource.ms_media_stream_io_is_consistent io) = false ->
      exists line,
        snd (Resource.ms_media_stream_io_is_consistent io) = [line]
        /\ log_error line = true)
  /\ (~ usable (Resource.input io) ->
      snd (Resource.ms_media_stream_io_is_consistent io)
      = snd (Resource.ms_media_resource_is_consistent (Resource.input io))).
Proof.
  unfold Resource.ms_media_stream_io_is_consistent.
  destruct (ms_media_resource_is_consistent_spec (Resource.input io))
    as [[Hi Ei] | [Hi (li & Ei & Hli)]];
    destruct (ms_media_resource_is_consistent_spec (Resource.output io))
      as [[Ho Eo] | [Ho (lo & Eo & Hlo)]];
    rewrite Ei; cbn [fst snd app]; rewrite ?Eo;
    cbn [fst snd app]; repeat split; intros; try tauto; try discriminate; eauto.
Qed.

(** A camera without its argument feeding a sound card without its own:
    one error line, the camera's. *)
Lemma ms_media_stream_io_is_consistent_spec_witness :
  Resource.ms_media_stream_io_is_consistent
    (Resource.mkIO (Resource.mkResource Resource.MSResourceCamera None)
                   (Resource.mkResource Resource.MSResourceSoundcard None))
  = (false, [mkLog true "No resource argument specified for resource type MSResourceCamera"]).
Proof.
  pose proof (ms_media_stream_io_is_consistent_spec
                (Resource.mkIO (Resource.mkResource Resource.MSResourceCamera None)
                               (Resource.mkResource Resource.MSResourceSoundcard None)))
    as (_ & _ & _ & Hin).
  assert (Hbad : ~ usable (Resource.input
                    (Resource.mkIO (Resource.mkResource Resource.MSResourceCamera None)
                       (Resource.mkResource Resource.MSResourceSoundcard None))))
    by (intros H; apply H; reflexivity).
  specialize (Hin Hbad).
  destruct (Resource.ms_media_stream_io_is_consistent _) as [ok log] eqn:E.
  cbn [snd] in Hin. rewrite Hin. vm_compute in E. inversion E. reflexivity.
Defined.

(** ** The MediaCodec H.264 decoder *)

Import StateMonad.

(** Unfold the plumbing of a computation on a state. *)
Ltac srun :=
  cbv [sbind sret sget smodify sfail sthe swhen sif_set MediaCodec.op MediaCodec.filter_op];
  cbv beta.

(** Read the fields of a decoder that is written out. *)
Ltac cfields :=
  cbn [MediaCodec._resetOnPsReceiving MediaCodec._lastSps MediaCodec._format MediaCodec.ops
       MediaCodec.set_resetOnPsReceiving MediaCodec.set_lastSps MediaCodec.set_format
       MediaCodec._sps MediaCodec._pps MediaCodec.filter_ops MediaCodec.set_sps
       MediaCodec.set_pps].

Lemma first_difference_eq a : forall b,
  List.length a = List.length b ->
  (Msgb.first_difference a b = 0 <-> a = b).
Proof.
  induction a as [|x a IH]; intros [|y b] Hl; cbn in Hl; try discriminate.
  - cbn. tauto.
  - cbn [Msgb.first_difference].
    destruct (Z.eqb_spec x y) as [->|Hne].
    + rewrite IH by lia. split; [intros ->; reflexivity | intros H; inversion H; reflexivity].
    + split; [lia | intros H; inversion H; contradiction].
Qed.

Lemma memcmp_whole a b :
  List.length a = List.length b ->
  Msgb.memcmp a b (List.length b) = Some (Msgb.first_difference a b).
Proof.
  intros Hl. unfold Msgb.memcmp. rewrite <- Hl at 1. rewrite Nat.leb_refl.
  rewrite (proj2 (Nat.leb_le _ _)) by lia. cbn [andb].
  rewrite <- Hl at 1. now rewrite !firstn_all.
Qed.

Lemma weakEquals_listed info :
  existsb (fun device => MediaCodec.weakEquals info device) MediaCodec._tvDevices = true
  <-> In (MediaCodec.manufacturer info, MediaCodec.platform info) restart_platforms.
Proof.
  rewrite existsb_exists. split.
  - intros (device & Hin & Hw). unfold MediaCodec.weakEquals in Hw.
    apply andb_prop in Hw as [Hm Hp].
    apply String.eqb_eq in Hm, Hp. rewrite Hm, Hp.
    cbn in Hin. repeat (destruct Hin as [<- | Hin]; [cbn; tauto|]). destruct Hin.
  - intros Hin. unfold restart_platforms in Hin. cbn [In] in Hin.
    assert (Hw : forall m p, (MediaCodec.manufacturer info, MediaCodec.platform info) = (m, p) ->
              forall mo, MediaCodec.weakEquals info (MediaCodec.mkDeviceInfo m mo p) = true).
    { intros m p E mo. inversion E. unfold MediaCodec.weakEquals. cbn.
      now rewrite !String.eqb_refl. }
    repeat (destruct Hin as [E | Hin];
            [ eexists; split; [| apply (Hw _ _ (eq_sym E))]; cbn; tauto |]).
    destruct Hin.
Qed.

Lemma exact_is_weak info device :
  MediaCodec.DeviceInfo_eqb device info = true -> MediaCodec.weakEquals info device = true.
Proof.
  unfold MediaCodec.DeviceInfo_eqb, MediaCodec.weakEquals. intros H.
  apply andb_prop in H as [H Hp]. apply andb_prop in H as [Hm _].
  apply String.eqb_eq in Hm, Hp. rewrite Hm, Hp. now rewrite !String.eqb_refl.
Qed.

(** The constructor reads the device's manufacturer, model and platform and
    turns the restart mode on exactly when the manufacturer and the platform
    are those of a listed device, whatever the model; a device whose
    manufacturer or platform cannot be read is taken to have an empty one and
    so never gets the mode.  Nothing else of the decoder is touched. *)
Theorem reset_mode_by_manufacturer_and_platform
    (__system_property_get : string -> Z * string) (d : MediaCodec.MediaCodecH264Decoder) :
  MediaCodec._resetOnPsReceiving d = false ->
  let info := MediaCodec.getDeviceInfo __system_property_get in
  exists d',
    MediaCodec.MediaCodecH264Decoder_new __system_property_get d = Some (tt, d')
    /\ (MediaCodec._resetOnPsReceiving d' = true
        <-> In (MediaCodec.manufacturer info, MediaCodec.platform info) restart_platforms)
    /\ (fst (__system_property_get "ro.product.manufacturer") < 0
        \/ fst (__system_property_get "ro.board.platform") < 0 ->
        MediaCodec._resetOnPsReceiving d' = false)
    /\ MediaCodec._lastSps d' = MediaCodec._lastSps d
    /\ MediaCodec._format d' = MediaCodec._format d.
Proof.
  intros H0 info.
  enough (exists d',
    MediaCodec.MediaCodecH264Decoder_new __system_property_get d = Some (tt, d')
    /\ (MediaCodec._resetOnPsReceiving d' = true
        <-> existsb (fun device => MediaCodec.weakEquals info device)
                    MediaCodec._tvDevices = true)
    /\ MediaCodec._lastSps d' = MediaCodec._lastSps d
    /\ MediaCodec._format d' = MediaCodec._format d) as (d' & Hrun & Hiff & Hrest).
  { exists d'. split; [exact Hrun|].
    assert (Hl : MediaCodec._resetOnPsReceiving d' = true
                 <-> In (MediaCodec.manufacturer info, MediaCodec.platform info)
                        restart_platforms).
    { rewrite Hiff. apply weakEquals_listed. }
    split; [exact Hl|]. split; [|exact Hrest].
    intros Hfail. destruct (MediaCodec._resetOnPsReceiving d') eqn:Ef; [|reflexivity].
    exfalso. destruct Hl as [Hl _]. specialize (Hl eq_refl).
    assert (He : MediaCodec.manufacturer info = EmptyString
                 \/ MediaCodec.platform info = EmptyString).
    { subst info. unfold MediaCodec.getDeviceInfo. cbn [MediaCodec.manufacturer MediaCodec.platform].
      destruct Hfail as [Hf|Hf]; [left|right].
      - destruct (__system_property_get "ro.product.manufacturer") as [st v].
        cbn [fst] in Hf. apply Z.ltb_lt in Hf. now rewrite Hf.
      - destruct (__system_property_get "ro.board.platform") as [st v].
        cbn [fst] in Hf. apply Z.ltb_lt in Hf. now rewrite Hf. }
    unfold restart_platforms in Hl. cbn [In] in Hl.
    destruct He as [He|He]; rewrite He in Hl;
      repeat (destruct Hl as [Hl|Hl]; [discriminate Hl|]); exact Hl. }
  unfold MediaCodec.MediaCodecH264Decoder_new. cbv zeta. fold info.
  destruct (existsb (fun device => MediaCodec.DeviceInfo_eqb device info)
                    MediaCodec._tvDevices) eqn:Ex.
  - srun. eexists. split; [reflexivity|]. cfields. repeat split; auto.
    intros _. apply existsb_exists in Ex as (device & Hin & He).
    apply existsb_exists. exists device. split; [exact Hin | now apply exact_is_weak].
  - destruct (List.find (fun device => MediaCodec.weakEquals info device)
                        MediaCodec._tvDevices) eqn:Ef.
    + srun. eexists. split; [reflexivity|]. cfields. repeat split; auto.
      intros _. apply find_some in Ef as [Hin Hw].
      apply existsb_exists. eauto.
    + srun. eexists. split; [reflexivity|]. cfields. rewrite H0.
      repeat split; auto; try discriminate.
      intros Hw. apply existsb_exists in Hw as (device & Hin & Hw).
      pose proof (find_none _ _ Ef device Hin) as Hn. cbv beta in Hn. congruence.
Qed.

(** A rockchip board on the rk3399 platform, of a model that is not listed. *)
Lemma reset_mode_by_manufacturer_and_platform_witness :
  exists d',
    MediaCodec.MediaCodecH264Decoder_new Scenario.rockchip_board
      (MediaCodec.mkH264Decoder false None ∅ [])
    = Some (tt, d')
    /\ MediaCodec._resetOnPsReceiving d' = true.
Proof.
  destruct (reset_mode_by_manufacturer_and_platform Scenario.rockchip_board
              (MediaCodec.mkH264Decoder false None ∅ []) eq_refl)
    as (d' & Hrun & Hflag & _).
  exists d'. split; [exact Hrun|]. apply Hflag. cbn. tauto.
Defined.

Lemma isNewPps_held sps d :
  holds_sps d sps -> MediaCodec.isNewPps sps d = Some (false, d).
Proof.
  intros (last & Hl & Hb). unfold MediaCodec.isNewPps. srun. rewrite Hl. cbv zeta.
  rewrite Hb, Nat.eqb_refl. cbn [negb]. srun.
  rewrite memcmp_whole by reflexivity.
  rewrite (proj2 (first_difference_eq _ _ eq_refl) eq_refl). reflexivity.
Qed.

Lemma isNewPps_new sps d :
  ~ holds_sps d sps ->
  MediaCodec.isNewPps sps d = Some (true, MediaCodec.set_lastSps (Some sps) d).
Proof.
  intros Hn. unfold MediaCodec.isNewPps. srun.
  destruct (MediaCodec._lastSps d) as [last|] eqn:El; [|reflexivity]. cbv zeta.
  destruct (Nat.eqb_spec (List.length (Msgb.bytes sps))
                         (List.length (Msgb.bytes last))) as [Hlen|Hlen];
    cbn [negb]; srun; [|reflexivity].
  rewrite memcmp_whole by (symmetry; exact Hlen).
  destruct (Z.eqb_spec (Msgb.first_difference (Msgb.bytes last)
                          (Msgb.bytes sps)) 0) as [E|E]; [|reflexivity].
  apply first_difference_eq in E; [|symmetry; exact Hlen].
  exfalso. apply Hn. exists last. auto.
Qed.

Lemma holds_sps_dec d sps : {holds_sps d sps} + {~ holds_sps d sps}.
Proof.
  unfold holds_sps. destruct (MediaCodec._lastSps d) as [last|].
  - destruct (decide (Msgb.bytes last = Msgb.bytes sps)) as [Hb|Hb].
    + left. eauto.
    + right. intros (l & Hl & Hbl). inversion Hl. subst. contradiction.
  - right. intros (l & Hl & _). discriminate.
Qed.

Section ParameterSets.

Variable utils : MediaCodec.H264Utils.

Lemma for_each_no_sps ps : forall d,
  no_sps utils ps -> MediaCodec.for_each_parameter_set utils ps d = Some (tt, d).
Proof.
  induction ps as [|m ps IH]; intros d Hn; [reflexivity|].
  inversion Hn as [|? ? Hm Hps]; subst.
  cbn [MediaCodec.for_each_parameter_set]. unfold MediaCodec.restart_on_new_size.
  apply Z.eqb_neq in Hm. srun. rewrite Hm. srun. now apply IH.
Qed.

Lemma for_each_app pre : forall post d,
  no_sps utils pre ->
  MediaCodec.for_each_parameter_set utils (pre ++ post) d
  = MediaCodec.for_each_parameter_set utils post d.
Proof.
  induction pre as [|m pre IH]; intros post d Hn; [reflexivity|].
  inversion Hn as [|? ? Hm Hpre]; subst.
  cbn [MediaCodec.for_each_parameter_set app]. unfold MediaCodec.restart_on_new_size.
  apply Z.eqb_neq in Hm. srun. rewrite Hm. srun. now apply IH.
Qed.

(** Outside the restart mode, and for a set without SPS in it, the decoder
    only passes the set on to its base class. *)
Theorem setParameterSets_passes_on (parameterSet : list Msgb.mblk_t) (timestamp : Z)
    (d : MediaCodec.MediaCodecH264Decoder) :
  MediaCodec._resetOnPsReceiving d = false \/ no_sps utils parameterSet ->
  MediaCodec.setParameterSets utils parameterSet timestamp d
  = Some (MediaCodec.base_setParameterSets utils parameterSet timestamp,
          MediaCodec.mkH264Decoder (MediaCodec._resetOnPsReceiving d) (MediaCodec._lastSps d)
            (MediaCodec._format d)
            (MediaCodec.ops d
             ++ [MediaCodec.MediaCodecDecoder_setParameterSets parameterSet timestamp])).
Proof.
  intros H. unfold MediaCodec.setParameterSets. srun.
  destruct d as [mode last format done]. cfields. destruct mode.
  - destruct H as [H|H]; [discriminate|]. rewrite for_each_no_sps by exact H. reflexivity.
  - reflexivity.
Qed.

(** In the restart mode, a set whose one SPS is [sps], on a decoder whose
    format has a width and a height: the decoder is restarted (stopped, then
    started) exactly when it does not hold an SPS of these bytes and the size
    the SPS announces is not the format's, which then takes that size; the
    decoder holds the SPS afterwards; and the same set given again restarts
    nothing. *)
Theorem setParameterSets_restarts_on_new_size (pre post : list Msgb.mblk_t)
    (sps : Msgb.mblk_t) (timestamp : Z) (d : MediaCodec.MediaCodecH264Decoder)
    (w h : Z) :
  MediaCodec._resetOnPsReceiving d = true ->
  no_sps utils pre -> no_sps utils post ->
  MediaCodec.ms_h264_nalu_get_type utils sps = MediaCodec.MSH264NaluTypeSPS ->
  MediaCodec._format d !! "width" = Some w ->
  MediaCodec._format d !! "height" = Some h ->
  let parameterSet := pre ++ sps :: post in
  let vsize := MediaCodec.ms_h264_sps_get_video_size utils sps in
  let passed_on := MediaCodec.MediaCodecDecoder_setParameterSets parameterSet timestamp in
  exists d',
    MediaCodec.setParameterSets utils parameterSet timestamp d
    = Some (MediaCodec.base_setParameterSets utils parameterSet timestamp, d')
    /\ holds_sps d' sps
    /\ (~ holds_sps d sps /\ (width vsize <> w \/ height vsize <> h) ->
        MediaCodec.ops d'
        = MediaCodec.ops d
          ++ [MediaCodec.ms_message
                "MediaCodecDecoder: restarting decoder because the video size has changed (%dx%d->%dx%d)";
              MediaCodec.stopImpl; MediaCodec.startImpl; passed_on]
        /\ MediaCodec._format d'
           = <["height" := height vsize]> (<["width" := width vsize]> (MediaCodec._format d)))
    /\ (holds_sps d sps \/ (width vsize = w /\ height vsize = h) ->
        MediaCodec.ops d' = MediaCodec.ops d ++ [passed_on]
        /\ MediaCodec._format d' = MediaCodec._format d)
    /\ exists d'',
        MediaCodec.setParameterSets utils parameterSet timestamp d'
        = Some (MediaCodec.base_setParameterSets utils parameterSet timestamp, d'')
        /\ MediaCodec.ops d'' = MediaCodec.ops d' ++ [passed_on]
        /\ MediaCodec._format d'' = MediaCodec._format d'
        /\ MediaCodec._lastSps d'' = MediaCodec._lastSps d'.
Proof.
  intros Hmode Hpre Hpost Hty Hw Hh parameterSet vsize passed_on.
  assert (Hagain : forall d1, MediaCodec._resetOnPsReceiving d1 = true -> holds_sps d1 sps ->
            MediaCodec.setParameterSets utils parameterSet timestamp d1
            = Some (MediaCodec.base_setParameterSets utils parameterSet timestamp,
                    MediaCodec.mkH264Decoder (MediaCodec._resetOnPsReceiving d1)
                      (MediaCodec._lastSps d1) (MediaCodec._format d1)
                      (MediaCodec.ops d1 ++ [passed_on]))).
  { intros d1 Hm1 Hheld. unfold MediaCodec.setParameterSets. srun. rewrite Hm1.
    subst parameterSet. rewrite for_each_app by exact Hpre.
    cbn [MediaCodec.for_each_parameter_set]. unfold MediaCodec.restart_on_new_size.
    srun. rewrite Hty, Z.eqb_refl, (isNewPps_held sps d1 Hheld). srun.
    rewrite for_each_no_sps by exact Hpost. rewrite Hm1. reflexivity. }
  destruct (holds_sps_dec d sps) as [Hheld|Hnew].
  - eexists. split; [apply Hagain; assumption|]. cfields.
    split; [exact Hheld|]. split; [tauto|]. split; [auto|].
    eexists. split; [apply Hagain; [exact Hmode | exact Hheld]|]. cfields. auto.
  - assert (Hrun : exists d',
        MediaCodec.setParameterSets utils parameterSet timestamp d
        = Some (MediaCodec.base_setParameterSets utils parameterSet timestamp, d')
        /\ MediaCodec._resetOnPsReceiving d' = true
        /\ MediaCodec._lastSps d' = Some sps
        /\ (if negb (width vsize =? w)%Z || negb (height vsize =? h)%Z
            then MediaCodec.ops d'
                 = MediaCodec.ops d
                   ++ [MediaCodec.ms_message
                         "MediaCodecDecoder: restarting decoder because the video size has changed (%dx%d->%dx%d)";
                       MediaCodec.stopImpl; MediaCodec.startImpl; passed_on]
                 /\ MediaCodec._format d'
                    = <["height" := height vsize]>
                        (<["width" := width vsize]> (MediaCodec._format d))
            else MediaCodec.ops d' = MediaCodec.ops d ++ [passed_on]
                 /\ MediaCodec._format d' = MediaCodec._format d)).
    { unfold MediaCodec.setParameterSets. srun. rewrite Hmode.
      subst parameterSet. rewrite for_each_app by exact Hpre.
      cbn [MediaCodec.for_each_parameter_set]. unfold MediaCodec.restart_on_new_size.
      srun. rewrite Hty, Z.eqb_refl, (isNewPps_new sps d Hnew). srun. cfields.
      rewrite Hw, Hh. fold vsize.
      destruct (negb (width vsize =? w)%Z || negb (height vsize =? h)%Z); srun; cfields;
        rewrite for_each_no_sps by exact Hpost;
        eexists; (split; [reflexivity|]); cfields; rewrite <- ?app_assoc; auto. }
    destruct Hrun as (d' & Hrun & Hm' & Hl' & Hcase).
    assert (Hheld' : holds_sps d' sps) by (exists sps; auto).
    exists d'. split; [exact Hrun|]. split; [exact Hheld'|].
    split; [|split].
    + intros [_ Hsize].
      destruct (Z.eqb_spec (width vsize) w), (Z.eqb_spec (height vsize) h);
        cbn [negb orb] in Hcase; try exact Hcase. lia.
    + intros [Hheld | [Ew Eh]]; [contradiction|].
      rewrite Ew, Eh, !Z.eqb_refl in Hcase. exact Hcase.
    + eexists. split; [apply Hagain; assumption|]. cfields. auto.
Qed.

End ParameterSets.

(** *** The filter's stored parameter sets *)

Lemma msgdsize_unfragmented m :
  Msgb.b_cont m = [] -> Msgb.msgdsize m = List.length (Msgb.bytes m).
Proof. unfold Msgb.msgdsize. intros ->. cbn. lia. Qed.

Lemma changed_unfragmented a b f :
  Msgb.b_cont a = [] -> Msgb.b_cont b = [] ->
  MediaCodec.changed a b f
  = Some (negb (bool_decide (Msgb.bytes b = Msgb.bytes a)), f).
Proof.
  intros Ha Hb. unfold MediaCodec.changed.
  rewrite !msgdsize_unfragmented by assumption.
  destruct (Nat.eqb_spec (List.length (Msgb.bytes a)) (List.length (Msgb.bytes b)))
    as [Hlen|Hlen]; cbn [negb]; srun.
  - rewrite memcmp_whole by (symmetry; exact Hlen).
    destruct (Z.eqb_spec (Msgb.first_difference (Msgb.bytes b)
                            (Msgb.bytes a)) 0) as [E|E]; cbn [negb].
    + apply first_difference_eq in E; [|symmetry; exact Hlen].
      now rewrite bool_decide_eq_true_2.
    + rewrite bool_decide_eq_false_2; [reflexivity|].
      intros E'. apply E. apply first_difference_eq; [symmetry; exact Hlen | exact E'].
  - rewrite bool_decide_eq_false_2; [reflexivity|]. intros E. apply Hlen. now rewrite E.
Qed.

Lemma dupb_unfragmented m : Msgb.b_cont m = [] -> Msgb.dupb m = m.
Proof. destruct m as [b c]. cbn. now intros ->. Qed.

(** For unfragmented parameter sets: [checkSpsChange] says true exactly when
    an SPS of other bytes is stored, and then drops the stored PPS;
    [checkPpsChange] says true exactly when a PPS of other bytes is stored;
    in every case the set given is the one stored afterwards, so that the
    same check made again says false and changes nothing. *)
Theorem parameter_set_change_detection (m : Msgb.mblk_t)
    (f : MediaCodec.MediaCodecH264DecoderFilterImpl) :
  Msgb.b_cont m = [] ->
  (forall s, MediaCodec._sps f = Some s -> Msgb.b_cont s = []) ->
  (forall p, MediaCodec._pps f = Some p -> Msgb.b_cont p = []) ->
  (exists r f',
     MediaCodec.checkSpsChange m f = Some (r, f')
     /\ (r = true <-> exists s, MediaCodec._sps f = Some s
                               /\ Msgb.bytes s <> Msgb.bytes m)
     /\ MediaCodec._sps f' = Some m
     /\ MediaCodec._pps f' = (if r then None else MediaCodec._pps f)
     /\ MediaCodec.checkSpsChange m f' = Some (false, f'))
  /\ (exists r f',
        MediaCodec.checkPpsChange m f = Some (r, f')
        /\ (r = true <-> exists p, MediaCodec._pps f = Some p
                                  /\ Msgb.bytes p <> Msgb.bytes m)
        /\ MediaCodec._pps f' = Some m
        /\ MediaCodec._sps f' = MediaCodec._sps f
        /\ MediaCodec.checkPpsChange m f' = Some (false, f')).
Proof.
  intros Hm Hs Hp.
  assert (Hsps : forall f0, MediaCodec._sps f0 = Some m ->
            MediaCodec.checkSpsChange m f0 = Some (false, f0)).
  { intros f0 E. unfold MediaCodec.checkSpsChange. srun. rewrite E.
    rewrite changed_unfragmented by assumption.
    rewrite bool_decide_eq_true_2 by reflexivity. reflexivity. }
  assert (Hpps : forall f0, MediaCodec._pps f0 = Some m ->
            MediaCodec.checkPpsChange m f0 = Some (false, f0)).
  { intros f0 E. unfold MediaCodec.checkPpsChange. srun. rewrite E.
    rewrite changed_unfragmented by assumption.
    rewrite bool_decide_eq_true_2 by reflexivity. reflexivity. }
  split.
  - assert (Hrun : exists r f',
       MediaCodec.checkSpsChange m f = Some (r, f')
       /\ (r = true <-> exists s, MediaCodec._sps f = Some s
                                 /\ Msgb.bytes s <> Msgb.bytes m)
       /\ MediaCodec._sps f' = Some m
       /\ MediaCodec._pps f' = (if r then None else MediaCodec._pps f)).
    { destruct f as [sps pps done]. cfields. cbn [MediaCodec._sps MediaCodec._pps] in Hs, Hp.
      unfold MediaCodec.checkSpsChange, MediaCodec.updateSps, MediaCodec.updatePps.
      srun. cfields. rewrite (dupb_unfragmented m Hm).
      destruct sps as [s|].
      - rewrite changed_unfragmented by auto.
        destruct (decide (Msgb.bytes s = Msgb.bytes m)) as [E|E].
        + rewrite bool_decide_eq_true_2 by exact E. cbn [negb]. srun.
          assert (Es : s = m).
          { pose proof (Hs s eq_refl) as Hc. destruct s as [b c], m as [b' c'].
            cbn [Msgb.bytes Msgb.b_cont] in E, Hc, Hm. congruence. }
          subst s. eexists _, _. split; [reflexivity|]. cfields.
          repeat split; try discriminate; auto.
          intros (s' & Hs' & Hne). inversion Hs'. subst. contradiction.
        + rewrite bool_decide_eq_false_2 by exact E. cbn [negb]. srun. cfields.
          eexists _, _. split; [reflexivity|]. cfields. repeat split; eauto.
      - eexists _, _. split; [reflexivity|]. cfields.
        repeat split; try discriminate; auto.
        intros (s' & Hs' & _). discriminate. }
    destruct Hrun as (r & f' & Hrun & Hr & Hs' & Hp').
    exists r, f'. repeat split; try apply Hr; auto.
  - assert (Hrun : exists r f',
       MediaCodec.checkPpsChange m f = Some (r, f')
       /\ (r = true <-> exists p, MediaCodec._pps f = Some p
                                 /\ Msgb.bytes p <> Msgb.bytes m)
       /\ MediaCodec._pps f' = Some m
       /\ MediaCodec._sps f' = MediaCodec._sps f).
    { destruct f as [sps pps done]. cfields. cbn [MediaCodec._sps MediaCodec._pps] in Hs, Hp.
      unfold MediaCodec.checkPpsChange, MediaCodec.updatePps.
      srun. cfields. rewrite (dupb_unfragmented m Hm).
      destruct pps as [p|].
      - rewrite changed_unfragmented by auto.
        destruct (decide (Msgb.bytes p = Msgb.bytes m)) as [E|E].
        + rewrite bool_decide_eq_true_2 by exact E. cbn [negb]. srun.
          assert (Es : p = m).
          { pose proof (Hp p eq_refl) as Hc. destruct p as [b c], m as [b' c'].
            cbn [Msgb.bytes Msgb.b_cont] in E, Hc, Hm. congruence. }
          subst p. eexists _, _. split; [reflexivity|]. cfields.
          repeat split; try discriminate; auto.
          intros (s' & Hs' & Hne). inversion Hs'. subst. contradiction.
        + rewrite bool_decide_eq_false_2 by exact E. cbn [negb]. srun. cfields.
          eexists _, _. split; [reflexivity|]. cfields. repeat split; eauto.
      - eexists _, _. split; [reflexivity|]. cfields.
        repeat split; try discriminate; auto.
        intros (s' & Hs' & _). discriminate. }
    destruct Hrun as (r & f' & Hrun & Hr & Hp' & Hs').
    exists r, f'. repeat split; try apply Hr; auto.
Qed.

Lemma split_at_comma_spec value : forall before after,
  MediaCodec.split_at_comma value = Some (before, after) ->
  value = (before ++ String "," after)%string
  /\ ~ In ","%char (list_ascii_of_string before).
Proof.
  induction value as [|c t IH]; intros before after H; cbn in H; [discriminate|].
  destruct (Ascii.eqb_spec c ",") as [->|Hne].
  - inversion H. subst. cbn. tauto.
  - destruct (MediaCodec.split_at_comma t) as [[b a]|]; [|discriminate].
    cbn in H. inversion H. subst. destruct (IH b after eq_refl) as [-> Hno].
    split; [reflexivity|]. cbn. intros [E|E]; [congruence | contradiction].
Qed.

(** Parameter sets given out of band: when the fmtp carries
    sprop-parameter-sets with a comma, the text before the first comma is
    decoded as the SPS and the text after it as the PPS, the next [process]
    hands the two to the unpacker, and the [process] after that hands over
    nothing; without the attribute or without a comma nothing is stored. *)
Theorem out_of_band_parameter_sets
    (fmtp_get_value : option string -> string -> nat -> option string)
    (b64_decode : string -> nat -> list Z) (fmtp : option string)
    (f : MediaCodec.MediaCodecH264DecoderFilterImpl) :
  match fmtp_get_value fmtp "sprop-parameter-sets" 256%nat with
  | Some value =>
      match MediaCodec.split_at_comma value with
      | Some (b64_sps, b64_pps) =>
          value = (b64_sps ++ String "," b64_pps)%string
          /\ ~ In ","%char (list_ascii_of_string b64_sps)
          /\ exists f1 f2 f3,
              MediaCodec.addFmtp fmtp_get_value b64_decode fmtp f = Some (tt, f1)
              /\ MediaCodec.process f1 = Some (tt, f2)
              /\ MediaCodec.process f2 = Some (tt, f3)
              /\ MediaCodec.filter_ops f3
                 = MediaCodec.filter_ops f
                   ++ [MediaCodec.filter_message "Got sprop-parameter-sets : sps=%s , pps=%s";
                       MediaCodec.setOutOfBandSpsPps
                         (Msgb.mkBlock (b64_decode b64_sps 256%nat) [])
                         (Msgb.mkBlock (b64_decode b64_pps 256%nat) []);
                       MediaCodec.H26xDecoderFilter_process;
                       MediaCodec.H26xDecoderFilter_process]
              /\ MediaCodec._sps f3 = None /\ MediaCodec._pps f3 = None
      | None => MediaCodec.addFmtp fmtp_get_value b64_decode fmtp f = Some (tt, f)
      end
  | None => MediaCodec.addFmtp fmtp_get_value b64_decode fmtp f = Some (tt, f)
  end.
Proof.
  unfold MediaCodec.addFmtp.
  destruct (fmtp_get_value fmtp "sprop-parameter-sets" 256%nat) as [value|]; [|reflexivity].
  destruct (MediaCodec.split_at_comma value) as [[b64_sps b64_pps]|] eqn:E; [|reflexivity].
  destruct (split_at_comma_spec value b64_sps b64_pps E) as [Hv Hno].
  split; [exact Hv|]. split; [exact Hno|].
  destruct f as [sps pps done]. unfold MediaCodec.process. srun. cfields.
  eexists _, _, _. split; [reflexivity|]. srun. cfields.
  split; [reflexivity|]. split; [reflexivity|]. cfields.
  rewrite <- !app_assoc. auto.
Qed.

(** A set of one PPS is passed on, also in the restart mode. *)
Lemma setParameterSets_passes_on_witness :
  MediaCodec.setParameterSets Scenario.utils [Scenario.pps] 0 Scenario.h264_decoder
  = Some (true,
          MediaCodec.mkH264Decoder true None (MediaCodec._format Scenario.h264_decoder)
            [MediaCodec.MediaCodecDecoder_setParameterSets [Scenario.pps] 0]).
Proof.
  apply (setParameterSets_passes_on Scenario.utils [Scenario.pps] 0 Scenario.h264_decoder).
  right. repeat constructor. vm_compute. discriminate.
Defined.

(** The first SPS, announcing 1280x720, on a decoder configured for 640x480. *)
Lemma setParameterSets_restarts_on_new_size_witness :
  exists d',
    MediaCodec.setParameterSets Scenario.utils [Scenario.sps; Scenario.pps] 0
      Scenario.h264_decoder
    = Some (true, d')
    /\ MediaCodec.ops d'
       = [MediaCodec.ms_message
            "MediaCodecDecoder: restarting decoder because the video size has changed (%dx%d->%dx%d)";
          MediaCodec.stopImpl; MediaCodec.startImpl;
          MediaCodec.MediaCodecDecoder_setParameterSets [Scenario.sps; Scenario.pps] 0].
Proof.
  pose proof (setParameterSets_restarts_on_new_size Scenario.utils [] [Scenario.pps]
                Scenario.sps 0 Scenario.h264_decoder 640 480) as H.
  cbv zeta in H.
  destruct H as (d' & Hrun & _ & Hnew & _).
  - reflexivity.
  - constructor.
  - repeat constructor. vm_compute. discriminate.
  - reflexivity.
  - vm_compute. reflexivity.
  - vm_compute. reflexivity.
  - exists d'. split; [exact Hrun|].
    destruct Hnew as [Hops _].
    + split.
      * intros (last & Hl & _). discriminate Hl.
      * left. vm_compute. discriminate.
    + exact Hops.
Defined.

(** An SPS given to a filter that stores other bytes as its SPS. *)
Lemma parameter_set_change_detection_witness :
  exists f',
    MediaCodec.checkSpsChange Scenario.sps Scenario.h264_filter = Some (true, f')
    /\ MediaCodec._sps f' = Some Scenario.sps
    /\ MediaCodec._pps f' = None.
Proof.
  destruct (parameter_set_change_detection Scenario.sps Scenario.h264_filter)
    as [(r & f' & Hrun & Hr & Hsps & Hpps & _) _].
  - reflexivity.
  - intros s Hs. injection Hs as <-. reflexivity.
  - intros p Hp. injection Hp as <-. reflexivity.
  - assert (Et : r = true).
    { apply Hr. exists Scenario.pps. split; [reflexivity|]. vm_compute. discriminate. }
    subst r. exists f'. split; [exact Hrun|]. split; [exact Hsps | exact Hpps].
Defined.

(** ** The decoder's frame queue *)

Lemma outputCb_running d s fd q fr tr :
  exists added,
    outputCb d (mkDecoderState (mkDecoder s fd q false fr false) tr)
    = Some (tt, mkDecoderState (mkDecoder s fd (q ++ [frame_of d]) false fr false)
                  (tr ++ added)).
Proof.
  unfold outputCb, frame_of. drun.
  destruct (negb (status d =? noErr)%Z || negb (non_null (imageBuffer d))); drun;
    eexists; rewrite <- !app_assoc; reflexivity.
Qed.

Lemma deliver_running ds : forall s fd q fr tr,
  exists added,
    deliver ds (mkDecoderState (mkDecoder s fd q false fr false) tr)
    = Some (tt, mkDecoderState (mkDecoder s fd (q ++ List.map frame_of ds) false fr false)
                  (tr ++ added)).
Proof.
  induction ds as [|d ds IH]; intros s fd q fr tr; cbn [deliver List.map].
  - exists []. now rewrite !app_nil_r.
  - destruct (outputCb_running d s fd q fr tr) as (a1 & H1).
    destruct (IH s fd (q ++ [frame_of d]) fr (tr ++ a1)) as (a2 & H2).
    exists (a1 ++ a2). unfold dbind. rewrite H1, H2.
    now rewrite <- !app_assoc.
Qed.

Lemma fetch_cons f q s fd ds fr tr :
  fetch (mkDecoderState (mkDecoder s fd (f :: q) ds fr false) tr)
  = Some (fetched f,
          mkDecoderState (mkDecoder s fd q ds fr false)
                         (tr ++ [mutex_lock; queue_pop_front; mutex_unlock])).
Proof. unfold fetch, fetched. drun. now rewrite <- !app_assoc. Qed.

Lemma fetch_times_all q : forall s fd ds fr tr,
  exists added,
    fetch_times (List.length q) (mkDecoderState (mkDecoder s fd q ds fr false) tr)
    = Some (List.map fetched q,
            mkDecoderState (mkDecoder s fd [] ds fr false) (tr ++ added)).
Proof.
  induction q as [|f q IH]; intros s fd ds fr tr; cbn [fetch_times List.length List.map].
  - exists []. now rewrite app_nil_r.
  - destruct (IH s fd ds fr (tr ++ [mutex_lock; queue_pop_front; mutex_unlock]))
      as (a & Ha).
    exists ([mutex_lock; queue_pop_front; mutex_unlock] ++ a).
    unfold dbind at 1. rewrite fetch_cons. unfold dbind. rewrite Ha.
    now rewrite <- !app_assoc.
Qed.

(** Frames leave the queue in the order they were delivered.  On a decoder
    that is not being torn down, the deliveries [ds] join the queue in their
    order, each as its image or, for a failure, as an empty frame; as many
    [fetch] calls as the queue is long then return the frames oldest first,
    with NoError for an image and DecodingFailure for an empty frame, and
    leave the queue empty, where [fetch] answers that no frame is
    available. *)
Theorem frames_are_fetched_in_delivery_order (ds : list Delivery) (st : DecoderState) :
  _destroying (this st) = false ->
  _mutex_held (this st) = false ->
  exists st1 st2 st3,
    deliver ds st = Some (tt, st1)
    /\ _queue (this st1) = _queue (this st) ++ List.map frame_of ds
    /\ fetch_times (List.length (_queue (this st1))) st1
       = Some (List.map fetched (_queue (this st1)), st2)
    /\ _queue (this st2) = []
    /\ fetch st2 = Some ((NoFrameAvailable, None), st3)
    /\ _queue (this st3) = [].
Proof.
  intros Hd Hm. destruct st as [[s fd q dst fr mh] tr]. cbn in Hd, Hm. subst dst mh.
  cbn [this _queue].
  destruct (deliver_running ds s fd q fr tr) as (a1 & H1).
  destruct (fetch_times_all (q ++ List.map frame_of ds) s fd false fr (tr ++ a1))
    as (a2 & H2).
  eexists _, _, _. split; [exact H1|]. cbn [this _queue].
  split; [reflexivity|]. split; [exact H2|]. cbn [this _queue].
  split; [reflexivity|]. split; [unfold fetch; drun; reflexivity|]. reflexivity.
Qed.

(** Two deliveries to the running decoder, which has two frames queued. *)
Lemma frames_are_fetched_in_delivery_order_witness :
  exists st1 st2,
    deliver Scenario.deliveries (mkDecoderState Sample.running_decoder []) = Some (tt, st1)
    /\ fetch_times 4 st1
       = Some ([(NoError, Some Sample.image); (DecodingFailure, None);
                (NoError, Some Sample.image); (DecodingFailure, None)], st2).
Proof.
  destruct (frames_are_fetched_in_delivery_order Scenario.deliveries
              (mkDecoderState Sample.running_decoder []))
    as (st1 & st2 & st3 & Hrun & Hq & Hf & _).
  - reflexivity.
  - reflexivity.
  - exists st1, st2. split; [exact Hrun|]. rewrite Hq in Hf. exact Hf.
Defined.

(** ** Feeding the VideoToolbox decoder *)

Section FeedingFacts.

Import Feeding.

Lemma fbind_Some {A B} (c : F A) (k : A -> F B) s o s' :
  c s = Some (o, s') ->
  fbind c k s = match o with
                | Returned a => k a s'
                | Thrown e => Some (Thrown e, s')
                end.
Proof. intros H. unfold fbind, sbind. rewrite H. now destruct o. Qed.

Lemma fbind_assoc {A B C} (c : F A) (k1 : A -> F B) (k2 : B -> F C) s :
  fbind (fbind c k1) k2 s = fbind c (fun a => fbind (k1 a) k2) s.
Proof.
  unfold fbind, sbind. destruct (c s) as [[[a|e] s']|]; reflexivity.
Qed.

Lemma fbind_history {B} (k : list Call -> F B) s : fbind history k s = k (calls s) s.
Proof. reflexivity. Qed.

Lemma fbind_call {B} c (k : unit -> F B) s :
  fbind (call c) k s = k tt (mkFeeder (self s) (encodedFrame s) (calls s ++ [c])).
Proof. reflexivity. Qed.

Lemma fbind_member {A B} (f : VideoToolboxDecoder -> A) (k : A -> F B) s :
  fbind (member f) k s = k (f (self s)) s.
Proof. reflexivity. Qed.

Lemma fbind_assign {B} f (k : unit -> F B) s :
  fbind (assign f) k s = k tt (mkFeeder (f (self s)) (encodedFrame s) (calls s)).
Proof. reflexivity. Qed.

Lemma fbind_queue {B} (k : list Msgb.mblk_t -> F B) s :
  fbind queue k s = k (encodedFrame s) s.
Proof. reflexivity. Qed.

Lemma fbind_set_encodedFrame {B} frame (k : unit -> F B) s :
  fbind (set_encodedFrame frame) k s = k tt (mkFeeder (self s) frame (calls s)).
Proof. reflexivity. Qed.

Lemma fbind_fret {A B} (a : A) (k : A -> F B) s : fbind (fret a) k s = k a s.
Proof. reflexivity. Qed.

Lemma fbind_throw {A B} e (k : A -> F B) s : fbind (throw e) k s = Some (Thrown e, s).
Proof. reflexivity. Qed.

Lemma fbind_decoder_op {A B} (c : D A) (k : A -> F B) s a st :
  c (mkDecoderState (self s) []) = Some (a, st) ->
  fbind (decoder_op c) k s
  = k a (mkFeeder (this st) (encodedFrame s) (calls s ++ List.map Decoder (ops st))).
Proof. intros H. unfold fbind, sbind, decoder_op. now rewrite H. Qed.

Lemma keeps_refl s : keeps s s.
Proof. unfold keeps. repeat split; auto. exists []. now rewrite app_nil_r. Qed.

Lemma keeps_trans s1 s2 s3 : keeps s1 s2 -> keeps s2 s3 -> keeps s1 s3.
Proof.
  intros (Hm & Hd & Hf & Hq & a & Ha) (Hm' & Hd' & Hf' & Hq' & a' & Ha').
  unfold keeps. repeat split; auto.
  - congruence.
  - exists (a ++ a'). rewrite Ha', Ha. now rewrite app_assoc.
Qed.

Lemma destroyDecoder_eq t sess fd q dst fr frame cs :
  destroyDecoder t (mkFeeder (mkDecoder sess fd q dst fr false) frame cs)
  = Some (Returned tt,
          mkFeeder (mkDecoder None None q false fr false) frame
            (cs ++ destroy_calls sess fd (late_deliveries t cs))).
Proof.
  unfold destroyDecoder. rewrite fbind_history. cbn [calls].
  unfold decoder_op. cbn [self encodedFrame calls].
  unfold VideoToolbox.destroyDecoder. drun.
  rewrite deliver_destroying by reflexivity. drun.
  unfold destroy_calls. cbn [app]. rewrite <- !app_assoc. reflexivity.
Qed.

(** One step of a feeding computation on an explicit state. *)
Ltac fstep :=
  rewrite ?fbind_assoc;
  first [ rewrite fbind_history | rewrite fbind_call | rewrite fbind_member
        | rewrite fbind_assign | rewrite fbind_queue | rewrite fbind_set_encodedFrame
        | rewrite fbind_fret | rewrite fbind_throw
        | erewrite fbind_decoder_op by (cbn [self]; drun; reflexivity) ];
  cbv [set_formatDesc set_session set_freeze set_destroying set_mutex_held];
  cbn [self encodedFrame calls this ops List.map app
       _session _formatDesc _queue _destroying _freeze _mutex_held].

(** The last step, and the calls put in one list. *)
Ltac fdone :=
  cbv [assign call fret throw sret when
       set_formatDesc set_session set_freeze set_destroying set_mutex_held];
  cbn [self encodedFrame calls this ops List.map
       _session _formatDesc _queue _destroying _freeze _mutex_held];
  rewrite <- ?app_assoc; cbn [app]; rewrite ?app_nil_r; reflexivity.

Ltac lists :=
  rewrite ?List.map_app; rewrite <- ?app_assoc; cbn [app List.map];
  rewrite ?app_nil_r; reflexivity.

(** A computation whose branches are all decided. *)
Ltac fcompute :=
  cbv [fbind sbind sret fret throw when history call member assign queue set_encodedFrame
       decoder_op the try_catch
       op lock unlock dbind dret read write assign_destroying non_null
       set_formatDesc set_session set_freeze set_destroying set_mutex_held
       self encodedFrame calls this ops
       _session _formatDesc _queue _destroying _freeze _mutex_held];
  lists.

Ltac keeps_tac :=
  repeat match goal with x := _ : list Call |- _ => subst x end;
  unfold keeps;
  cbn [self calls _mutex_held _destroying _freeze _queue set_formatDesc set_session
       set_freeze];
  repeat split; auto; try congruence;
  try (eexists; rewrite <- ?app_assoc; reflexivity).

Lemma formatDescFromSpsPps_eq t sess fd q dst fr mh frame cs :
  formatDescFromSpsPps t (mkFeeder (mkDecoder sess fd q dst fr mh) frame cs)
  = match createFormatDescription_result t cs with
    | inl e_what =>
        Some (Thrown (runtime_error ("cannot create format description: " ++ e_what)),
              mkFeeder (mkDecoder sess fd q dst fr mh) frame (cs ++ [createFormatDescription]))
    | inr desc =>
        Some (Returned tt,
              mkFeeder (mkDecoder sess (Some desc) q dst fr mh) frame
                (cs ++ [createFormatDescription; Decoder (vt_log "new video format %dx%d")]
                    ++ match fd with
                       | Some old => [Decoder (CFRelease (Some old))]
                       | None => []
                       end))
    end.
Proof.
  unfold formatDescFromSpsPps. do 2 fstep.
  destruct (createFormatDescription_result t cs) as [e|desc]; [reflexivity|].
  do 2 fstep. destruct fd as [old|]; unfold when, non_null.
  - fstep. fdone.
  - fstep. fdone.
Qed.

Lemma createDecoder_eq t sess fd q dst fr frame cs :
  createDecoder t (mkFeeder (mkDecoder sess fd q dst fr false) frame cs)
  = let h0 := cs ++ List.map Decoder
                      ([vt_log "creating a decoding session"; mutex_lock]
                       ++ (if dst then [write_destroying false] else [])
                       ++ [mutex_unlock]) in
    match createFormatDescription_result t h0 with
    | inl e_what =>
        Some (Thrown (runtime_error ("cannot create format description: " ++ e_what)),
              mkFeeder (mkDecoder sess fd q false fr false) frame
                (h0 ++ [createFormatDescription]))
    | inr desc =>
        let h1 := h0 ++ [createFormatDescription; Decoder (vt_log "new video format %dx%d")]
                     ++ match fd with
                        | Some old => [Decoder (CFRelease (Some old))]
                        | None => []
                        end in
        let status := fst (VTDecompressionSessionCreate_result t h1) in
        let session := snd (VTDecompressionSessionCreate_result t h1) in
        let h2 := h1 ++ [VTDecompressionSessionCreate (Some desc) (negb (TARGET_OS_IPHONE t))] in
        if negb (status =? noErr)%Z
        then Some (Thrown (runtime_error ("could not create the decoding context: "
                                          ++ toString t status)),
                   mkFeeder (mkDecoder session (Some desc) q false fr false) frame h2)
        else Some (Returned tt,
                   mkFeeder (mkDecoder session (Some desc) q false fr false) frame
                     (h2 ++ property_calls t session h2))
    end.
Proof.
  match goal with |- _ = (let h0 := ?v in _) => set (H0 := v) end.
  cbv zeta. unfold createDecoder. do 3 fstep.
  assert (Hprefix : forall (k : unit -> F unit) cs0,
    fbind (when dst (decoder_op (assign_destroying false))) k
      (mkFeeder (mkDecoder sess fd q dst fr true) frame cs0)
    = k tt (mkFeeder (mkDecoder sess fd q false fr true) frame
              (cs0 ++ List.map Decoder (if dst then [write_destroying false] else [])))).
  { intros k cs0. destruct dst; unfold when.
    - fstep. lists.
    - fstep. lists. }
  rewrite Hprefix. clear Hprefix.
  fstep.
  match goal with |- context [mkFeeder _ _ ?h] => set (h0 := h) end.
  assert (Eh0 : h0 = H0).
  { subst h0 H0. destruct dst; lists. }
  rewrite Eh0. clear Eh0 h0. clearbody H0. rename H0 into h0.
  destruct (createFormatDescription_result t h0) as [e|desc] eqn:Ed;
    (erewrite fbind_Some by (rewrite formatDescFromSpsPps_eq, Ed; reflexivity));
    [reflexivity|].
  cbv beta iota.
  do 3 fstep.
  match goal with |- context [mkFeeder _ _ (?h ++ [VTDecompressionSessionCreate _ _])] =>
    set (h1 := h) end.
  destruct (VTDecompressionSessionCreate_result t h1) as [status session] eqn:Ec.
  cbn [fst snd]. fstep.
  destruct (negb (status =? noErr)%Z) eqn:Es; [reflexivity|].
  set (h2 := h1 ++ [VTDecompressionSessionCreate (Some desc) (negb (TARGET_OS_IPHONE t))]).
  unfold property_calls.
  destruct (TARGET_OS_IPHONE t) eqn:Ei; cbn [negb]; unfold when at 1.
  - fstep. unfold when at 1. do 2 fstep. fold h2.
    destruct (negb (VTSessionSetProperty_result t h2 =? noErr)%Z); fcompute.
  - do 2 fstep. fold h2.
    destruct (VTSessionCopyProperty_result t h2) as [st hw] eqn:Ep.
    destruct (negb (st =? noErr)%Z); destruct hw as [[|]|]; fcompute.
Qed.

Lemma fbind_the {A B} (a : A) (k : A -> F B) s : fbind (the (Some a)) k s = k a s.
Proof. reflexivity. Qed.

Lemma block_bytes_defined t nalu block :
  nalu_block t nalu = Some block -> block_bytes t nalu = block.
Proof. unfold block_bytes. now intros ->. Qed.

Lemma append_nalus_eq t frame : forall stream d q cs,
  Forall (fun nalu => nalu_block t nalu <> None) frame ->
  append_nalus t frame stream (mkFeeder d q cs)
  = Some (Returned (stream ++ List.map (block_bytes t) frame),
          mkFeeder d (match frame with [] => q | _ :: _ => [] end)
            (cs ++ List.map freemsg frame)).
Proof.
  induction frame as [|nalu rest IH]; intros stream d q cs Hall.
  - cbn [append_nalus List.map]. now rewrite !app_nil_r.
  - inversion Hall as [|n r Hn Hrest]; subst.
    cbn [append_nalus]. fstep.
    destruct (nalu_block t nalu) as [block|] eqn:Eb; [|congruence].
    rewrite fbind_the. fstep. rewrite IH by exact Hrest.
    rewrite (block_bytes_defined _ _ _ Eb).
    cbn [List.map]. rewrite <- !app_assoc. cbn [app].
    now destruct rest.
Qed.

Lemma decodeFrame_eq t timestamp d frame cs :
  Forall (fun nalu => nalu_block t nalu <> None) frame ->
  decodeFrame t timestamp (mkFeeder d frame cs)
  = if negb (CMBlockBufferCreateEmpty_result t cs =? kCMBlockBufferNoErr)%Z
    then Some (Thrown (runtime_error "failure while creating input buffer for decoder"),
               mkFeeder d frame (cs ++ [CMBlockBufferCreateEmpty]))
    else
      let h := cs ++ CMBlockBufferCreateEmpty :: List.map freemsg frame in
      match frame with
      | [] => Some (Returned tt, mkFeeder d [] (h ++ [CFRelease_stream]))
      | _ :: _ =>
          let status := VTDecompressionSessionDecodeFrame_result t h in
          Some (if (status =? noErr)%Z then Returned tt
                else if (status =? kVTInvalidSessionErr)%Z then Thrown InvalidSessionError
                else Thrown (runtime_error
                               ("error while passing encoded frames to the decoder: "
                                ++ toString t status)),
                mkFeeder d []
                  (h ++ [VTDecompressionSessionDecodeFrame (_session d) (_formatDesc d)
                           (List.concat (List.map (block_bytes t) frame)) timestamp 1000;
                         CFRelease_sample; CFRelease_stream]))
      end.
Proof.
  intros Hall. unfold decodeFrame. do 2 fstep.
  destruct (negb (CMBlockBufferCreateEmpty_result t cs =? kCMBlockBufferNoErr)%Z);
    [reflexivity|].
  fstep. rewrite ?fbind_assoc.
  erewrite fbind_Some by (apply append_nalus_eq; exact Hall).
  cbv beta iota zeta. cbn [app].
  destruct frame as [|nalu rest].
  - cbn [List.map]. fcompute.
  - cbn [List.map]. rewrite <- !app_assoc. cbn [app].
    match goal with |- context [VTDecompressionSessionDecodeFrame_result t ?h] =>
      set (h1 := h) end.
    do 5 fstep. rewrite <- !app_assoc. cbn [app]. fold h1.
    destruct (VTDecompressionSessionDecodeFrame_result t h1 =? noErr)%Z eqn:Es;
      cbn [negb].
    + subst h1. fcompute.
    + fstep.
      destruct (VTDecompressionSessionDecodeFrame_result t h1 =? kVTInvalidSessionErr)%Z;
        subst h1; fcompute.
Qed.

Lemma createDecoder_keeps t sess fd q dst fr frame cs :
  exists o sess' fd' added,
    createDecoder t (mkFeeder (mkDecoder sess fd q dst fr false) frame cs)
    = Some (o, mkFeeder (mkDecoder sess' fd' q false fr false) frame (cs ++ added)).
Proof.
  rewrite createDecoder_eq. cbv zeta.
  match goal with |- context [createFormatDescription_result t ?h] =>
    destruct (createFormatDescription_result t h) as [e|desc] end.
  - eexists _, _, _, _. rewrite <- !app_assoc. reflexivity.
  - match goal with |- context [if negb ?c then _ else _] => destruct (negb c) end;
      eexists _, _, _, _; rewrite <- !app_assoc; reflexivity.
Qed.

Lemma decodeFrame_keeps t timestamp d frame cs :
  Forall (fun nalu => nalu_block t nalu <> None) frame ->
  exists o frame' added,
    decodeFrame t timestamp (mkFeeder d frame cs) = Some (o, mkFeeder d frame' (cs ++ added))
    /\ (o = Returned tt -> frame' = []).
Proof.
  intros Hall. rewrite decodeFrame_eq by exact Hall. cbv zeta.
  destruct (negb (CMBlockBufferCreateEmpty_result t cs =? kCMBlockBufferNoErr)%Z).
  - eexists _, _, _. split; [reflexivity|]. discriminate.
  - destruct frame as [|nalu rest].
    + eexists _, _, _. split; [rewrite <- !app_assoc; reflexivity|]. reflexivity.
    + eexists _, _, _. split; [rewrite <- !app_assoc; reflexivity|]. reflexivity.
Qed.

Lemma unfreeze_on_key_frame_eq t frame : forall d frame' cs,
  unfreeze_on_key_frame t frame (mkFeeder d frame' cs)
  = Some (Returned tt,
          mkFeeder (if existsb (isKeyFramePart t) frame then set_freeze false d else d)
            frame' cs).
Proof.
  induction frame as [|nalu rest IH]; intros d frame' cs; cbn [unfreeze_on_key_frame existsb].
  - reflexivity.
  - destruct (isKeyFramePart t nalu); cbn [orb]; [reflexivity | apply IH].
Qed.

Lemma try_catch_Some {A} (c : F A) (handler : Exception -> F A) s o s' :
  c s = Some (o, s') ->
  try_catch c handler s = match o with
                          | Returned a => Some (Returned a, s')
                          | Thrown e => handler e s'
                          end.
Proof. intros H. unfold try_catch, sbind. rewrite H. now destruct o. Qed.

(** A [try] block that returns. *)
Ltac returned :=
  match goal with
  | |- try_catch ?b ?hd ?s = Some (Returned ?r, ?s') =>
      let Hb := fresh "Hb" in
      assert (Hb : b s = Some (Returned r, s'));
      [| rewrite (try_catch_Some _ _ _ _ _ Hb); reflexivity ]
  end.

(** [feed] always returns: no exception leaves it, whatever the
    collaborators answer.  It leaves the mutex free, leaves the guard down
    if it was down, never freezes the decoder, leaves the decoded frames as
    they are, and returns true only with the caller's queue emptied. *)
Theorem feed_always_returns (t : Toolbox) (timestamp : Z) (s : Feeder) :
  _mutex_held (self s) = false ->
  Forall (fun nalu => nalu_block t nalu <> None)
         (extractAllPs_leaves t (calls s ++ [extractAllPs (encodedFrame s)])
                              (encodedFrame s)) ->
  exists r s',
    feed t timestamp s = Some (Returned r, s')
    /\ _mutex_held (self s') = false
    /\ (_destroying (self s) = false -> _destroying (self s') = false)
    /\ (_freeze (self s') = true -> _freeze (self s) = true)
    /\ _queue (self s') = _queue (self s)
    /\ (exists added, calls s' = calls s ++ added)
    /\ (r = true -> encodedFrame s' = []).
Proof.
  intros Hm Hall.
  enough (exists r s', feed t timestamp s = Some (Returned r, s')
                       /\ keeps s s' /\ (r = true -> encodedFrame s' = []))
    as (r & s' & Hrun & (K1 & K2 & K3 & K4 & K5) & Hr).
  { exists r, s'. repeat split; auto. }
  destruct s as [[sess fd q dst fr mh] frame cs]. cbn in Hm. subst mh.
  cbn [calls encodedFrame] in Hall.
  set (h := cs ++ [extractAllPs frame]) in *.
  set (leaves := extractAllPs_leaves t h frame) in *.
  set (s := mkFeeder (mkDecoder sess fd q dst fr false) frame cs).
  unfold feed.
  match goal with |- context [try_catch ?b ?hd] => set (BODY := b); set (HANDLER := hd) end.
  assert (Hbody : exists o s1,
    BODY s = Some (o, s1) /\ keeps s s1 /\ _mutex_held (self s1) = false
    /\ (o = Returned true -> encodedFrame s1 = [])).
  { subst BODY s. do 4 fstep. fold h. fold leaves. clearbody leaves.
    match goal with |- context [fbind (when _ _) ?k _] => set (REST := k) end.
    assert (Hrest : forall sess fd dst cs',
      exists o s1,
        REST tt (mkFeeder (mkDecoder sess fd q dst fr false) leaves cs') = Some (o, s1)
        /\ keeps (mkFeeder (mkDecoder sess fd q dst fr false) leaves cs') s1
        /\ _mutex_held (self s1) = false
        /\ (o = Returned true -> encodedFrame s1 = [])).
    { clear - Hall. intros sess fd dst cs'. subst REST. cbv beta. fstep.
      destruct leaves as [|nalu rest].
      { eexists _, _. split; [reflexivity|]. split; [apply keeps_refl|].
        split; reflexivity. }
      fstep.
      destruct (negb (psGatheringCompleted t cs')).
      { fstep. eexists _, _. split; [reflexivity|]. split; [apply keeps_refl|].
        split; [reflexivity | discriminate]. }
      do 2 fstep.
      match goal with |- context [fbind (when _ _) ?k _] => set (K := k) end.
      assert (HK : forall sess fd dst cs'',
        exists o s1,
          K tt (mkFeeder (mkDecoder sess fd q dst fr false) (nalu :: rest) cs'') = Some (o, s1)
          /\ keeps (mkFeeder (mkDecoder sess fd q dst fr false) (nalu :: rest) cs'') s1
          /\ _mutex_held (self s1) = false
          /\ (o = Returned true -> encodedFrame s1 = [])).
      { clear - Hall. intros sess fd dst cs''. subst K. cbv beta. fstep.
        assert (Hdecode : forall fr',
          (fr' = true -> fr = true) ->
          exists o s1,
            fbind (decodeFrame t timestamp) (fun _ => fret true)
              (mkFeeder (mkDecoder sess fd q dst fr' false) (nalu :: rest) cs'')
            = Some (o, s1)
            /\ keeps (mkFeeder (mkDecoder sess fd q dst fr false) (nalu :: rest) cs'') s1
            /\ _mutex_held (self s1) = false
            /\ (o = Returned true -> encodedFrame s1 = [])).
        { intros fr' Hfr.
          destruct (decodeFrame_keeps t timestamp (mkDecoder sess fd q dst fr' false)
                      (nalu :: rest) cs'' Hall) as (o & frame' & added & Hd & Hf).
          rewrite (fbind_Some _ _ _ _ _ Hd). destruct o as [[]|e].
          - eexists _, _. split; [reflexivity|]. split; [keeps_tac|].
            split; [reflexivity|]. intros _. now apply Hf.
          - eexists _, _. split; [reflexivity|]. split; [keeps_tac|].
            split; [reflexivity | discriminate]. }
        destruct fr; unfold when at 1.
        - erewrite fbind_Some by apply unfreeze_on_key_frame_eq. cbv beta iota.
          destruct (existsb (isKeyFramePart t) (nalu :: rest)).
          + fstep. cbn [negb]. apply Hdecode. discriminate.
          + fstep. cbn [negb]. eexists _, _. split; [reflexivity|].
            split; [apply keeps_refl|]. split; [reflexivity | discriminate].
        - do 2 fstep. cbn [negb]. apply Hdecode. auto. }
      clearbody K.
      destruct sess as [sess|]; unfold when at 1, non_null; cbn [negb].
      - fstep. apply HK.
      - destruct (createDecoder_keeps t None fd q dst fr (nalu :: rest) cs')
          as (o & sess' & fd' & added & Hc).
        rewrite (fbind_Some _ _ _ _ _ Hc). destruct o as [[]|e].
        + destruct (HK sess' fd' false (cs' ++ added)) as (o & s1 & Hk & Hkeeps & Hm & Hr).
          exists o, s1. split; [exact Hk|]. split; [|split; assumption].
          eapply keeps_trans; [|exact Hkeeps]. keeps_tac.
        + eexists _, _. split; [reflexivity|]. split; [keeps_tac|].
          split; [reflexivity | discriminate]. }
    clearbody REST.
    destruct (hasNewParameters t h); unfold when at 1.
    - do 2 fstep. destruct sess as [sess|]; unfold when at 1, non_null.
      + erewrite fbind_Some by apply destroyDecoder_eq. cbv beta iota.
        match goal with |- context [REST tt (mkFeeder (mkDecoder ?a ?b _ ?c _ _) _ ?d)] =>
          destruct (Hrest a b c d) as (o & s1 & Hk & Hkeeps & Hm & Hr) end.
        exists o, s1. split; [exact Hk|]. split; [|split; assumption].
        eapply keeps_trans; [|exact Hkeeps]. keeps_tac.
      + fstep.
        match goal with |- context [REST tt (mkFeeder (mkDecoder ?a ?b _ ?c _ _) _ ?d)] =>
          destruct (Hrest a b c d) as (o & s1 & Hk & Hkeeps & Hm & Hr) end.
        exists o, s1. split; [exact Hk|]. split; [|split; assumption].
        eapply keeps_trans; [|exact Hkeeps]. keeps_tac.
    - fstep.
      match goal with |- context [REST tt (mkFeeder (mkDecoder ?a ?b _ ?c _ _) _ ?d)] =>
        destruct (Hrest a b c d) as (o & s1 & Hk & Hkeeps & Hm & Hr) end.
      exists o, s1. split; [exact Hk|]. split; [|split; assumption].
      eapply keeps_trans; [|exact Hkeeps]. keeps_tac. }
  destruct Hbody as (o & s1 & Hb & Hkeeps & Hm1 & Hr).
  rewrite (try_catch_Some _ _ _ _ _ Hb). destruct o as [r|e].
  - exists r, s1. split; [reflexivity|]. split; [exact Hkeeps|].
    intros ->. now apply Hr.
  - subst HANDLER. cbv beta.
    destruct s1 as [[sess1 fd1 q1 dst1 fr1 mh1] frame1 cs1]. cbn in Hm1. subst mh1.
    do 2 fstep. destruct e as [text|].
    + fstep. eexists _, _. split; [reflexivity|].
      split; [|discriminate]. eapply keeps_trans; [exact Hkeeps|]. keeps_tac.
    + erewrite fbind_Some by apply destroyDecoder_eq. cbv beta iota.
      eexists _, _. split; [reflexivity|].
      split; [|discriminate]. eapply keeps_trans; [exact Hkeeps|]. keeps_tac.
Qed.

Lemma htonl_sum v :
  0 <= v < 2 ^ 32 ->
  Z.land (Z.shiftr v 24) 255 * 2 ^ 24 + Z.land (Z.shiftr v 16) 255 * 2 ^ 16
  + Z.land (Z.shiftr v 8) 255 * 2 ^ 8 + Z.land v 255 = v.
Proof.
  intros Hv. change 255 with (Z.ones 8).
  rewrite !Z.land_ones, !Z.shiftr_div_pow2 by lia.
  change (2 ^ 32) with 4294967296 in Hv.
  change (2 ^ 24) with 16777216. change (2 ^ 16) with 65536. change (2 ^ 8) with 256.
  Z.div_mod_to_equations. lia.
Qed.

Lemma nalu_block_framed t nalu :
  _naluSizeLength t = 4%nat -> unfragmented nalu ->
  Z.of_nat (List.length (Msgb.bytes nalu)) < 2 ^ 32 ->
  nalu_block t nalu = Some (framed nalu).
Proof.
  unfold unfragmented, nalu_block, framed, Msgb.msgdsize. intros H4 Hu Hs.
  rewrite H4, Hu. cbn [List.length]. rewrite Nat.add_0_r, !Nat.leb_refl.
  cbn [andb]. rewrite firstn_all, Z.mod_small by lia. reflexivity.
Qed.

Lemma split_nalus_framed nalus : forall fuel,
  (List.length nalus <= fuel)%nat ->
  Forall (fun nalu => Z.of_nat (List.length (Msgb.bytes nalu)) < 2 ^ 32) nalus ->
  split_nalus fuel (List.concat (List.map framed nalus)) = Some (List.map Msgb.bytes nalus).
Proof.
  induction nalus as [|nalu rest IH]; intros fuel Hfuel Hall.
  - destruct fuel; reflexivity.
  - inversion Hall as [|n r Hn Hrest]; subst.
    destruct fuel as [|fuel]; [cbn in Hfuel; lia|].
    cbn [List.map List.concat]. unfold framed at 1. unfold htonl.
    rewrite <- !app_assoc. cbn [app split_nalus].
    rewrite htonl_sum by lia. rewrite Nat2Z.id.
    rewrite length_app.
    rewrite (proj2 (Nat.leb_le _ _)) by lia.
    rewrite firstn_app, Nat.sub_diag, firstn_all, firstn_O, app_nil_r.
    rewrite skipn_app, Nat.sub_diag, skipn_all, skipn_O. cbn [app].
    rewrite IH; [reflexivity| cbn in Hfuel; lia | exact Hrest].
Qed.

Lemma framed_blocks t nalus :
  _naluSizeLength t = 4%nat ->
  Forall (fun nalu => unfragmented nalu
                      /\ Z.of_nat (List.length (Msgb.bytes nalu)) < 2 ^ 32) nalus ->
  Forall (fun nalu => nalu_block t nalu <> None) nalus
  /\ List.map (block_bytes t) nalus = List.map framed nalus.
Proof.
  intros H4 Hall. induction Hall as [|nalu rest [Hu Hs] Hrest [IH1 IH2]].
  - split; [constructor | reflexivity].
  - pose proof (nalu_block_framed t nalu H4 Hu Hs) as Hb. split.
    + constructor; [congruence | exact IH1].
    + cbn [List.map]. now rewrite (block_bytes_defined _ _ _ Hb), IH2.
Qed.

(** [decodeFrame] on a queue of unfragmented NAL units, with the length
    field of four bytes: every NAL unit is taken from the queue and freed,
    and the decoder is given one sample that holds them in their order, each
    behind its size in four bytes, the most significant first, so that the
    NAL units can be read back from it.  The sample and the stream are
    released whatever the decoder answers; the call returns when the answer
    is [noErr] and throws otherwise, [InvalidSessionError] exactly for
    [kVTInvalidSessionErr]. *)
Theorem decodeFrame_frames_the_nal_units (t : Toolbox) (timestamp : Z) (s : Feeder) :
  _naluSizeLength t = 4%nat ->
  Forall (fun nalu => unfragmented nalu
                      /\ Z.of_nat (List.length (Msgb.bytes nalu)) < 2 ^ 32)
         (encodedFrame s) ->
  encodedFrame s <> [] ->
  CMBlockBufferCreateEmpty_result t (calls s) = kCMBlockBufferNoErr ->
  let nalus := encodedFrame s in
  let h := calls s ++ CMBlockBufferCreateEmpty :: List.map freemsg nalus in
  let data := List.concat (List.map framed nalus) in
  let status := VTDecompressionSessionDecodeFrame_result t h in
  exists o,
    decodeFrame t timestamp s
    = Some (o, mkFeeder (self s) []
                 (h ++ [VTDecompressionSessionDecodeFrame (_session (self s))
                          (_formatDesc (self s)) data timestamp 1000;
                        CFRelease_sample; CFRelease_stream]))
    /\ split_nalus (List.length nalus) data = Some (List.map Msgb.bytes nalus)
    /\ (o = Returned tt <-> status = noErr)
    /\ (o = Thrown InvalidSessionError <-> status = kVTInvalidSessionErr).
Proof.
  intros H4 Hall Hne Hc nalus h data status.
  destruct s as [d frame cs]. cbn [encodedFrame calls self] in *.
  destruct (framed_blocks t frame H4 Hall) as [Hdef Hmap].
  rewrite decodeFrame_eq by exact Hdef. rewrite Hc. cbn [Z.eqb kCMBlockBufferNoErr negb].
  cbv zeta. destruct frame as [|nalu rest]; [congruence|].
  rewrite Hmap. fold nalus h data status.
  eexists. split; [reflexivity|]. split.
  - apply split_nalus_framed; [lia|].
    eapply List.Forall_impl; [|exact Hall]. cbv beta. tauto.
  - unfold noErr, kVTInvalidSessionErr.
    destruct (status =? 0)%Z eqn:E0.
    + apply Z.eqb_eq in E0. rewrite E0. split; split; auto; discriminate.
    + apply Z.eqb_neq in E0. destruct (status =? -12903)%Z eqn:E1.
      * apply Z.eqb_eq in E1. split; split; auto; try discriminate; congruence.
      * apply Z.eqb_neq in E1. split; split; try discriminate; congruence.
Qed.

(** A frozen decoder waits for a key frame.  With a session, no new
    parameter sets and the parameter sets complete: a frame without a part of
    a key frame is left in the queue, nothing is given to the decoder, and
    [feed] returns false; a frame with such a part unfreezes the decoder, and
    all its NAL units, also those before the part, are given to the decoder
    in one sample. *)
Theorem feed_waits_for_a_key_frame (t : Toolbox) (timestamp : Z) (s : Feeder)
    (sess : handle) :
  _session (self s) = Some sess ->
  _freeze (self s) = true ->
  let h := calls s ++ [extractAllPs (encodedFrame s)] in
  let nalus := extractAllPs_leaves t h (encodedFrame s) in
  let h' := h ++ CMBlockBufferCreateEmpty :: List.map freemsg nalus in
  hasNewParameters t h = false ->
  psGatheringCompleted t h = true ->
  nalus <> [] ->
  (existsb (isKeyFramePart t) nalus = false ->
   feed t timestamp s = Some (Returned false, mkFeeder (self s) nalus h))
  /\ (existsb (isKeyFramePart t) nalus = true ->
      Forall (fun nalu => nalu_block t nalu <> None) nalus ->
      CMBlockBufferCreateEmpty_result t h = kCMBlockBufferNoErr ->
      VTDecompressionSessionDecodeFrame_result t h' = noErr ->
      feed t timestamp s
      = Some (Returned true,
              mkFeeder (set_freeze false (self s)) []
                (h' ++ [VTDecompressionSessionDecodeFrame (Some sess) (_formatDesc (self s))
                          (List.concat (List.map (block_bytes t) nalus)) timestamp 1000;
                        CFRelease_sample; CFRelease_stream]))).
Proof.
  intros Hs Hf h nalus h' Hnew Hps Hne.
  destruct s as [[se fd q dst fr mh] frame cs]. cbn [self _session _freeze] in Hs, Hf.
  subst se fr. cbn [calls encodedFrame self _formatDesc] in *.
  split.
  - intros Hk. unfold feed. returned.
    do 4 fstep. fold h. rewrite Hnew. unfold when at 1. do 2 fstep. fold nalus.
    destruct nalus as [|nalu rest] eqn:En; [congruence|].
    fstep. rewrite Hps. cbn [negb]. do 2 fstep. unfold non_null, when at 1. cbn [negb].
    do 2 fstep. unfold when at 1.
    erewrite fbind_Some by apply unfreeze_on_key_frame_eq. cbv beta iota.
    rewrite Hk. fstep. reflexivity.
  - intros Hk Hdef Hc Hd. unfold feed. returned.
    do 4 fstep. fold h. rewrite Hnew. unfold when at 1. do 2 fstep. fold nalus.
    destruct nalus as [|nalu rest] eqn:En; [congruence|].
    fstep. rewrite Hps. cbn [negb]. do 2 fstep. unfold non_null, when at 1. cbn [negb].
    do 2 fstep. unfold when at 1.
    erewrite fbind_Some by apply unfreeze_on_key_frame_eq. cbv beta iota.
    rewrite Hk. fstep. cbn [negb].
    erewrite fbind_Some by (rewrite decodeFrame_eq by exact Hdef; rewrite Hc;
                            cbn [Z.eqb kCMBlockBufferNoErr negb]; cbv zeta;
                            fold h'; rewrite Hd; reflexivity).
    cbv beta iota. cbn [Z.eqb noErr _session _formatDesc]. reflexivity.
Qed.

(** When the decoder refuses a frame, [feed] logs the error and returns
    false, and the NAL units of the frame are gone from the queue.  For
    [kVTInvalidSessionErr] the session is destroyed as well: it is waited
    for, invalidated and released together with its format description, so
    that the next frame creates a new one; for any other error the session
    stays.  The decoder is not frozen by this. *)
Theorem feed_destroys_an_invalid_session (t : Toolbox) (timestamp : Z) (s : Feeder)
    (sess : handle) :
  _session (self s) = Some sess ->
  _freeze (self s) = false ->
  _mutex_held (self s) = false ->
  let h := calls s ++ [extractAllPs (encodedFrame s)] in
  let nalus := extractAllPs_leaves t h (encodedFrame s) in
  let h' := h ++ CMBlockBufferCreateEmpty :: List.map freemsg nalus in
  let status := VTDecompressionSessionDecodeFrame_result t h' in
  let invalid := (status =? kVTInvalidSessionErr)%Z in
  let logged :=
    h' ++ [VTDecompressionSessionDecodeFrame (Some sess) (_formatDesc (self s))
             (List.concat (List.map (block_bytes t) nalus)) timestamp 1000;
           CFRelease_sample; CFRelease_stream;
           ms_error "VideoToolboxDecoder: %s"
             (if invalid then InvalidSessionError_what t
              else "error while passing encoded frames to the decoder: "
                   ++ toString t status);
           ms_error "VideoToolboxDecoder: feeding failed" EmptyString] in
  hasNewParameters t h = false ->
  psGatheringCompleted t h = true ->
  nalus <> [] ->
  Forall (fun nalu => nalu_block t nalu <> None) nalus ->
  CMBlockBufferCreateEmpty_result t h = kCMBlockBufferNoErr ->
  status <> noErr ->
  feed t timestamp s
  = Some (Returned false,
          if invalid
          then mkFeeder (mkDecoder None None (_queue (self s)) false false false) []
                 (logged ++ destroy_calls (Some sess) (_formatDesc (self s))
                                          (late_deliveries t logged))
          else mkFeeder (self s) [] logged).
Proof.
  intros Hs Hf Hm h nalus h' status invalid logged Hnew Hps Hne Hdef Hc Hst.
  destruct s as [[se fd q dst fr mh] frame cs].
  cbn [self _session _freeze _mutex_held] in Hs, Hf, Hm.
  subst se fr mh. cbn [calls encodedFrame self _formatDesc _queue] in *.
  apply Z.eqb_neq in Hst.
  unfold feed.
  match goal with |- try_catch ?b ?hd ?s = _ =>
    assert (Hb : b s
      = Some (Thrown (if invalid then InvalidSessionError
                      else runtime_error ("error while passing encoded frames to the decoder: "
                                          ++ toString t status)),
              mkFeeder (mkDecoder (Some sess) fd q dst false false) []
                (h' ++ [VTDecompressionSessionDecodeFrame (Some sess) fd
                          (List.concat (List.map (block_bytes t) nalus)) timestamp 1000;
                        CFRelease_sample; CFRelease_stream]))) end.
  { do 4 fstep. fold h. rewrite Hnew. unfold when at 1. do 2 fstep. fold nalus.
    destruct nalus as [|nalu rest] eqn:En; [congruence|].
    fstep. rewrite Hps. cbn [negb]. do 2 fstep. unfold non_null, when at 1. cbn [negb].
    do 2 fstep. unfold when at 1. do 2 fstep. cbn [negb].
    erewrite fbind_Some by (rewrite decodeFrame_eq by exact Hdef; rewrite Hc;
                            cbn [Z.eqb kCMBlockBufferNoErr negb]; cbv zeta;
                            fold h'; fold status; rewrite Hst; fold invalid;
                            reflexivity).
    cbn [_session _formatDesc]. now destruct invalid. }
  rewrite (try_catch_Some _ _ _ _ _ Hb). clear Hb.
  destruct invalid eqn:Ei.
  - do 2 fstep. erewrite fbind_Some by apply destroyDecoder_eq. cbv beta iota.
    unfold fret, sret. cbn [what]. subst logged. rewrite <- !app_assoc. reflexivity.
  - do 3 fstep. unfold fret, sret. cbn [what]. subst logged.
    rewrite <- !app_assoc. reflexivity.
Qed.

(** New parameter sets on a decoder at work, with a frame to decode: the
    store's change is acknowledged; the old session is waited for,
    invalidated and released with its format description; only then a format
    description is made from the store and a session is created from it
    (the old description, gone already, is not released a second time); and
    the frame is decoded by the new session with the new description. *)
Theorem feed_rebuilds_the_session (t : Toolbox) (timestamp : Z) (s : Feeder)
    (sess desc : handle) (sess' : option handle) :
  _session (self s) = Some sess ->
  _freeze (self s) = false ->
  _mutex_held (self s) = false ->
  let h := calls s ++ [extractAllPs (encodedFrame s)] in
  let nalus := extractAllPs_leaves t h (encodedFrame s) in
  let destroyed :=
    h ++ acknowlege :: destroy_calls (Some sess) (_formatDesc (self s))
                                     (late_deliveries t (h ++ [acknowlege])) in
  let h0 := destroyed ++ List.map Decoder [vt_log "creating a decoding session";
                                           mutex_lock; mutex_unlock] in
  let h1 := h0 ++ [createFormatDescription; Decoder (vt_log "new video format %dx%d")] in
  let h2 := h1 ++ [VTDecompressionSessionCreate (Some desc) (negb (TARGET_OS_IPHONE t))] in
  let h3 := h2 ++ property_calls t sess' h2 in
  let h4 := h3 ++ CMBlockBufferCreateEmpty :: List.map freemsg nalus in
  hasNewParameters t h = true ->
  nalus <> [] ->
  Forall (fun nalu => nalu_block t nalu <> None) nalus ->
  psGatheringCompleted t destroyed = true ->
  createFormatDescription_result t h0 = inr desc ->
  VTDecompressionSessionCreate_result t h1 = (noErr, sess') ->
  CMBlockBufferCreateEmpty_result t h3 = kCMBlockBufferNoErr ->
  VTDecompressionSessionDecodeFrame_result t h4 = noErr ->
  feed t timestamp s
  = Some (Returned true,
          mkFeeder (mkDecoder sess' (Some desc) (_queue (self s)) false false false) []
            (h4 ++ [VTDecompressionSessionDecodeFrame sess' (Some desc)
                      (List.concat (List.map (block_bytes t) nalus)) timestamp 1000;
                    CFRelease_sample; CFRelease_stream])).
Proof.
  intros Hs Hf Hm h nalus destroyed h0 h1 h2 h3 h4 Hnew Hne Hdef Hps Hfd Hcr Hbuf Hdec.
  destruct s as [[se fd q dst fr mh] frame cs].
  cbn [self _session _freeze _mutex_held] in Hs, Hf, Hm.
  subst se fr mh. cbn [calls encodedFrame self _formatDesc _queue] in *.
  unfold feed. returned.
  do 4 fstep. fold h. rewrite Hnew. unfold when at 1. do 2 fstep.
  unfold non_null, when at 1.
  erewrite fbind_Some by apply destroyDecoder_eq. cbv beta iota.
  fstep. fold nalus.
  destruct nalus as [|nalu rest] eqn:En; [congruence|].
  fstep.
  assert (Ed : (h ++ [acknowlege])
               ++ destroy_calls (Some sess) fd (late_deliveries t (h ++ [acknowlege]))
               = destroyed).
  { subst destroyed. now rewrite <- app_assoc. }
  rewrite Ed, Hps. cbn [negb]. do 2 fstep. unfold non_null, when at 1. cbn [negb].
  erewrite fbind_Some by
    (rewrite createDecoder_eq; cbv zeta;
     match goal with |- context [createFormatDescription_result t ?x] =>
       replace x with h0 by reflexivity end;
     rewrite Hfd;
     match goal with |- context [VTDecompressionSessionCreate_result t ?x] =>
       replace x with h1 by reflexivity end;
     rewrite Hcr; cbn [fst snd Z.eqb noErr negb]; reflexivity).
  cbv beta iota. fstep. unfold when at 1. do 2 fstep. cbn [negb].
  erewrite fbind_Some by
    (rewrite decodeFrame_eq by exact Hdef; cbv zeta;
     match goal with |- context [CMBlockBufferCreateEmpty_result t ?x] =>
       replace x with h3 by reflexivity end;
     rewrite Hbuf; cbn [Z.eqb kCMBlockBufferNoErr negb];
     match goal with |- context [VTDecompressionSessionDecodeFrame_result t ?x] =>
       replace x with h4 by reflexivity end;
     rewrite Hdec; reflexivity).
  cbv beta iota. cbn [Z.eqb noErr _session _formatDesc]. reflexivity.
Qed.

End FeedingFacts.

(** The decoder at work refuses a frame with an error that is not the
    invalid session. *)
Lemma feed_always_returns_witness :
  exists r s',
    Feeding.feed (Scenario.toolbox false (-12909)) 90000
      (Scenario.feeder false [Scenario.idr; Scenario.slice])
    = Some (Feeding.Returned r, s')
    /\ _mutex_held (Feeding.self s') = false
    /\ _destroying (Feeding.self s') = false.
Proof.
  destruct (feed_always_returns (Scenario.toolbox false (-12909)) 90000
              (Scenario.feeder false [Scenario.idr; Scenario.slice]))
    as (r & s' & Hrun & Hm & Hd & _).
  - reflexivity.
  - repeat (apply List.Forall_cons; [vm_compute; discriminate|]). apply List.Forall_nil.
  - exists r, s'. split; [exact Hrun|]. split; [exact Hm | apply Hd; reflexivity].
Defined.

(** An IDR slice and another slice, framed. *)
Lemma decodeFrame_frames_the_nal_units_witness :
  exists o s',
    Feeding.decodeFrame (Scenario.toolbox false 0) 90000
      (Scenario.feeder false [Scenario.idr; Scenario.slice])
    = Some (o, s')
    /\ Feeding.split_nalus 2 [0; 0; 0; 3; 101; 136; 132; 0; 0; 0; 2; 65; 154]
       = Some [[101; 136; 132]; [65; 154]].
Proof.
  pose proof (decodeFrame_frames_the_nal_units (Scenario.toolbox false 0) 90000
                (Scenario.feeder false [Scenario.idr; Scenario.slice])) as H.
  cbv zeta in H.
  destruct H as (o & Hrun & Hsplit & _).
  - reflexivity.
  - repeat (apply List.Forall_cons; [split; [reflexivity | vm_compute; reflexivity]|]).
    apply List.Forall_nil.
  - discriminate.
  - reflexivity.
  - exists o. eexists. split; [exact Hrun | exact Hsplit].
Defined.

(** The frozen decoder fed with a slice that is no part of a key frame. *)
Lemma feed_waits_for_a_key_frame_witness :
  Feeding.feed (Scenario.toolbox false 0) 90000 (Scenario.feeder true [Scenario.slice])
  = Some (Feeding.Returned false,
          Feeding.mkFeeder (Feeding.self (Scenario.feeder true [Scenario.slice]))
            [Scenario.slice] [Feeding.extractAllPs [Scenario.slice]]).
Proof.
  pose proof (feed_waits_for_a_key_frame (Scenario.toolbox false 0) 90000
                (Scenario.feeder true [Scenario.slice]) 40%positive) as H.
  cbv zeta in H.
  destruct H as [Hno _].
  - reflexivity.
  - reflexivity.
  - reflexivity.
  - reflexivity.
  - discriminate.
  - apply Hno. reflexivity.
Defined.

(** The session reported invalid while the two deliveries are still made. *)
Lemma feed_destroys_an_invalid_session_witness :
  exists s',
    Feeding.feed (Scenario.toolbox false Feeding.kVTInvalidSessionErr) 90000
      (Scenario.feeder false [Scenario.idr; Scenario.slice])
    = Some (Feeding.Returned false, s')
    /\ _session (Feeding.self s') = None
    /\ Feeding.encodedFrame s' = [].
Proof.
  pose proof (feed_destroys_an_invalid_session
                (Scenario.toolbox false Feeding.kVTInvalidSessionErr) 90000
                (Scenario.feeder false [Scenario.idr; Scenario.slice]) 40%positive) as H.
  cbv zeta in H.
  eexists. split.
  - apply H.
    + reflexivity.
    + reflexivity.
    + reflexivity.
    + reflexivity.
    + reflexivity.
    + discriminate.
    + repeat (apply List.Forall_cons; [vm_compute; discriminate|]). apply List.Forall_nil.
    + reflexivity.
    + vm_compute. discriminate.
  - split; reflexivity.
Defined.

(** New parameter sets for the decoder at work: the session at 40 gives way
    to the session at 43. *)
Lemma feed_rebuilds_the_session_witness :
  exists s',
    Feeding.feed (Scenario.toolbox true 0) 90000
      (Scenario.feeder false [Scenario.idr; Scenario.slice])
    = Some (Feeding.Returned true, s')
    /\ _session (Feeding.self s') = Some 43%positive
    /\ _formatDesc (Feeding.self s') = Some 42%positive.
Proof.
  pose proof (feed_rebuilds_the_session (Scenario.toolbox true 0) 90000
                (Scenario.feeder false [Scenario.idr; Scenario.slice])
                40%positive 42%positive (Some 43%positive)) as H.
  cbv zeta in H.
  eexists. split.
  - apply H.
    + reflexivity.
    + reflexivity.
    + reflexivity.
    + reflexivity.
    + discriminate.
    + repeat (apply List.Forall_cons; [vm_compute; discriminate|]). apply List.Forall_nil.
    + reflexivity.
    + reflexivity.
    + reflexivity.
    + reflexivity.
    + reflexivity.
  - split; reflexivity.
Defined.

(** ** The rest of the controller *)

Import TickerPriority Session.

Lemma sbind_Some {S A B} (c : ST S A) (k : A -> ST S B) s a s' :
  c s = Some (a, s') -> sbind c k s = k a s'.
Proof. unfold sbind. now intros ->. Qed.

Lemma sbind_assoc {S A B C} (c : ST S A) (k1 : A -> ST S B) (k2 : B -> ST S C) s :
  sbind (sbind c k1) k2 s = sbind c (fun a => sbind (k1 a) k2) s.
Proof. unfold sbind. destruct (c s) as [[a s']|]; reflexivity. Qed.

Lemma lift_mk {A} (m : M A) a ms hp tr nh cr ms' hp' tr' nh' cr' ib lit bc cs :
  m (mkWorld ms hp [] nh cr) = Some (a, mkWorld ms' hp' tr' nh' cr') ->
  lift m (mkSession (mkWorld ms hp tr nh cr) ib lit bc cs)
  = Some (a, mkSession (mkWorld ms' hp' [] nh' cr') ib lit bc (cs ++ List.map Core tr')).
Proof.
  intros H. unfold lift, flush.
  cbn [world stream heap next_handle clock_reads is_beginning last_iterate_time
       bandwidth_controller calls].
  rewrite H. reflexivity.
Qed.

Lemma lift_get_stream ms hp tr nh cr ib lit bc cs :
  lift get_stream (mkSession (mkWorld ms hp tr nh cr) ib lit bc cs)
  = Some (ms, mkSession (mkWorld ms hp [] nh cr) ib lit bc cs).
Proof. erewrite lift_mk by reflexivity. cbn [List.map]. now rewrite app_nil_r. Qed.

Lemma lift_modify_stream f ms hp tr nh cr ib lit bc cs :
  lift (modify_stream f) (mkSession (mkWorld ms hp tr nh cr) ib lit bc cs)
  = Some (tt, mkSession (mkWorld (f ms) hp [] nh cr) ib lit bc cs).
Proof. erewrite lift_mk by reflexivity. cbn [List.map]. now rewrite app_nil_r. Qed.

Lemma lift_alloc ms hp tr nh cr ib lit bc cs :
  lift alloc (mkSession (mkWorld ms hp tr nh cr) ib lit bc cs)
  = Some (nh, mkSession (mkWorld ms hp [] (Pos.succ nh) cr) ib lit bc cs).
Proof. erewrite lift_mk by reflexivity. cbn [List.map]. now rewrite app_nil_r. Qed.

Lemma lift_call e ms hp tr nh cr ib lit bc cs :
  lift (call e) (mkSession (mkWorld ms hp tr nh cr) ib lit bc cs)
  = Some (tt, mkSession (mkWorld ms (effect e hp) [] nh cr) ib lit bc (cs ++ [Core e])).
Proof. erewrite lift_mk by reflexivity. reflexivity. Qed.

Lemma lift_deref h rs ms hp tr nh cr ib lit bc cs :
  hp !! h = Some rs ->
  lift (deref (Some h)) (mkSession (mkWorld ms hp tr nh cr) ib lit bc cs)
  = Some (rs, mkSession (mkWorld ms hp [] nh cr) ib lit bc cs).
Proof.
  intros H. erewrite lift_mk by (apply deref_mk; exact H).
  cbn [List.map]. now rewrite app_nil_r.
Qed.

Lemma lift_update h f rs ms hp tr nh cr ib lit bc cs :
  hp !! h = Some rs ->
  lift (update (Some h) f) (mkSession (mkWorld ms hp tr nh cr) ib lit bc cs)
  = Some (tt, mkSession (mkWorld ms (<[h := f rs]> hp) [] nh cr) ib lit bc cs).
Proof.
  intros H. erewrite lift_mk by (apply update_mk; exact H).
  cbn [List.map]. now rewrite app_nil_r.
Qed.

Lemma lift_ms_time_now e ms hp tr nh cr ib lit bc cs :
  lift (ms_time_now e) (mkSession (mkWorld ms hp tr nh cr) ib lit bc cs)
  = Some (ms_time e cr, mkSession (mkWorld ms hp [] nh (S cr)) ib lit bc cs).
Proof. erewrite lift_mk by reflexivity. cbn [List.map]. now rewrite app_nil_r. Qed.

Lemma xcall_mk k w ib lit bc cs :
  xcall k (mkSession w ib lit bc cs) = Some (tt, mkSession w ib lit bc (cs ++ [k])).
Proof. reflexivity. Qed.

Lemma sget_mk {S} (s : S) : sget s = Some (s, s).
Proof. reflexivity. Qed.

Lemma smodify_mk {S} (f : S -> S) s : smodify f s = Some (tt, f s).
Proof. reflexivity. Qed.

Lemma sret_mk {S A} (a : A) (s : S) : sret a s = Some (a, s).
Proof. reflexivity. Qed.

Lemma sthe_mk {S A} (a : A) (s : S) : sthe (Some a) s = Some (a, s).
Proof. reflexivity. Qed.

Lemma lift_if_set_call {A} (p : option A) (f : A -> Event) ms hp tr nh cr ib lit bc cs :
  (forall a, heap_event (f a) = false) ->
  lift (if_set p (fun a => call (f a))) (mkSession (mkWorld ms hp tr nh cr) ib lit bc cs)
  = Some (tt, mkSession (mkWorld ms hp [] nh cr) ib lit bc
                (cs ++ List.map Core (olist (option_map f p)))).
Proof.
  intros Hf. destruct p as [a|]; cbn [if_set olist option_map List.map].
  - rewrite lift_call. specialize (Hf a).
    destruct (f a); cbn [effect heap_event] in *; try reflexivity; discriminate.
  - erewrite lift_mk by reflexivity. reflexivity.
Qed.

(** Read the fields of a session that is written out. *)
Ltac xfields :=
  cbn [world is_beginning last_iterate_time bandwidth_controller calls set_is_beginning
       set_last_iterate_time set_bandwidth_controller stream heap trace next_handle
       clock_reads].

(** One step of a computation on an explicit session. *)
Ltac xstep :=
  rewrite ?sbind_assoc;
  lazymatch goal with
  | |- @sbind _ _ _ (@sget _) _ _ = _ => erewrite sbind_Some by apply sget_mk
  | |- @sbind _ _ _ (@smodify _ _) _ _ = _ => erewrite sbind_Some by apply smodify_mk
  | |- @sbind _ _ _ (@sret _ _ _) _ _ = _ => erewrite sbind_Some by apply sret_mk
  | |- @sbind _ _ _ (@sthe _ _ _) _ _ = _ => erewrite sbind_Some by apply sthe_mk
  | |- @sbind _ _ _ (xcall _) _ _ = _ => erewrite sbind_Some by apply xcall_mk
  | |- @sbind _ _ _ (@lift _ get_stream) _ _ = _ => erewrite sbind_Some by apply lift_get_stream
  | |- @sbind _ _ _ (@lift _ (modify_stream _)) _ _ = _ =>
      erewrite sbind_Some by apply lift_modify_stream
  | |- @sbind _ _ _ (@lift _ alloc) _ _ = _ => erewrite sbind_Some by apply lift_alloc
  | |- @sbind _ _ _ (@lift _ (call _)) _ _ = _ => erewrite sbind_Some by apply lift_call
  | |- @sbind _ _ _ (@lift _ (ms_time_now _)) _ _ = _ => erewrite sbind_Some by apply lift_ms_time_now
  | |- @sbind _ _ _ (@lift _ (deref _)) _ _ = _ =>
      erewrite sbind_Some by (apply lift_deref; solve_lookup)
  | |- @sbind _ _ _ (@lift _ (update _ _)) _ _ = _ =>
      erewrite sbind_Some by (apply lift_update; solve_lookup)
  end;
  cbv beta; cbv [set_is_beginning set_last_iterate_time set_bandwidth_controller]; xfields.

(** What the handlers of the dispatcher leave alone. *)

Lemma tmmbr_frame_refl p rs w : heap w !! p = Some rs -> tmmbr_frame p rs w w.
Proof.
  intros H. unfold tmmbr_frame. split; [|split; [|split]].
  - exists (target_bitrate (stream w)), (video_quality_controller (stream w)).
    destruct (stream w); reflexivity.
  - exists (target_upload_bandwidth rs). symmetry.
    replace (set_target_upload_bandwidth (target_upload_bandwidth rs) rs) with rs
      by (destruct rs; reflexivity).
    now apply insert_id.
  - exists []. now rewrite app_nil_r.
  - reflexivity.
Qed.

Lemma tmmbr_frame_trans p rs w w1 w2 :
  tmmbr_frame p rs w w1 ->
  (forall rs1, heap w1 !! p = Some rs1 -> tmmbr_frame p rs1 w1 w2) ->
  tmmbr_frame p rs w w2.
Proof.
  intros ((tb & vqc & Hst) & (b & Hhp) & (added & Htr) & Hcr) H2.
  assert (H1 : heap w1 !! p = Some (set_target_upload_bandwidth b rs))
    by (rewrite Hhp; apply lookup_insert_eq).
  destruct (H2 _ H1) as ((tb' & vqc' & Hst') & (b' & Hhp') & (added' & Htr') & Hcr').
  split; [|split; [|split]].
  - exists tb', vqc'. rewrite Hst', Hst. destruct (stream w); reflexivity.
  - exists b'. rewrite Hhp', Hhp, insert_insert_eq. destruct rs; reflexivity.
  - exists (added ++ added'). now rewrite Htr', Htr, <- app_assoc.
  - now rewrite Hcr', Hcr.
Qed.

(** The frame of a world that is written out. *)
Lemma tmmbr_frame_mk p rs ms hp tr nh cr ms' hp' tr' nh' :
  (exists tb vqc, ms' = set_video_quality_controller vqc (set_target_bitrate tb ms)) ->
  (hp' = hp \/ exists b, hp' = <[p := set_target_upload_bandwidth b rs]> hp) ->
  (exists added, tr' = tr ++ added) ->
  hp !! p = Some rs ->
  tmmbr_frame p rs (mkWorld ms hp tr nh cr) (mkWorld ms' hp' tr' nh' cr).
Proof.
  intros Hst Hhp Htr Hrs. split; [exact Hst|]. split; [|split; [exact Htr | reflexivity]].
  cbn [heap]. destruct Hhp as [->|Hhp]; [|exact Hhp].
  exists (target_upload_bandwidth rs). symmetry.
  replace (set_target_upload_bandwidth (target_upload_bandwidth rs) rs) with rs
    by (destruct rs; reflexivity).
  now apply insert_id.
Qed.

Ltac same_stream :=
  match goal with
  | |- exists tb vqc, ?ms' = _ =>
      exists (target_bitrate ms'), (video_quality_controller ms');
      match goal with ms : MediaStream |- _ => destruct ms; reflexivity end
  end.

Ltac same_trace :=
  first [ exists []; symmetry; apply app_nil_r
        | eexists; rewrite <- ?app_assoc; reflexivity ].

Ltac framed :=
  apply tmmbr_frame_mk;
  [ same_stream
  | first [ left; reflexivity | right; eexists; reflexivity ]
  | same_trace
  | eassumption ].

Section Lifecycle.

Variable c : Collaborators.

Lemma media_stream_init_eq factory ss ms hp tr nh cr ib lit bc cs :
  media_stream_init factory ss (mkSession (mkWorld ms hp tr nh cr) ib lit bc cs)
  = Some (tt, mkSession
                (mkWorld (set_stun_allowed true
                            (set_factory factory
                               (set_evq (Some (Pos.succ nh))
                                  (set_evd (Some nh) (set_sessions ss ms)))))
                         hp [] (Pos.succ (Pos.succ nh)) cr)
                ib lit bc (cs ++ init_calls ss nh (Pos.succ nh))).
Proof.
  unfold media_stream_init, media_stream_add_tmmbr_handler, bind_zrtp, bind_dtls, init_calls.
  do 9 xstep.
  erewrite sbind_Some by (apply lift_if_set_call; reflexivity). cbv beta.
  erewrite sbind_Some by (apply lift_if_set_call; reflexivity). cbv beta.
  erewrite sbind_Some by (xstep; apply xcall_mk). cbv beta.
  rewrite lift_modify_stream.
  cbn [evd set_factory set_evq set_evd].
  destruct (zrtp_context ss), (dtls_context ss); cbn [olist option_map List.map];
    rewrite <- ?app_assoc; reflexivity.
Qed.

Lemma lift_run {A} (m : M A) a w w' ib lit bc cs :
  m (flush w) = Some (a, w') ->
  lift m (mkSession w ib lit bc cs)
  = Some (a, mkSession (flush w') ib lit bc (cs ++ List.map Core (trace w'))).
Proof. intros H. unfold lift. cbn [world is_beginning last_iterate_time bandwidth_controller calls].
  now rewrite H. Qed.

(** [media_stream_init] installs the sessions, creates an event dispatcher
    and an event queue, registers the queue with the transport, gives the
    ZRTP and DTLS contexts their back-pointer, connects the TMMBR handler and
    allows STUN.  Whatever it registered or created, a [media_stream_free]
    after it undoes: the dispatcher and the queue are destroyed, the queue is
    unregistered from the transport, the back-pointers are cleared and the
    handler is disconnected. *)
Theorem media_stream_init_then_free (factory : option handle)
    (ss : MSMediaStreamSessions) (s : Session) :
  let d := next_handle (world s) in
  let q := Pos.succ d in
  exists s1 s2 freed,
    media_stream_init factory ss s = Some (tt, s1)
    /\ calls s1 = calls s ++ init_calls ss d q
    /\ sessions (stream (world s1)) = ss
    /\ evd (stream (world s1)) = Some d
    /\ evq (stream (world s1)) = Some q
    /\ stun_allowed (stream (world s1)) = true
    /\ lift (media_stream_free (env c)) s1 = Some (tt, s2)
    /\ calls s2 = calls s1 ++ freed
    /\ forall k u, In k (init_calls ss d q) -> undone_by k = Some u -> In u freed.
Proof.
  destruct s as [[ms hp tr nh cr] ib lit bc cs]. xfields. cbv zeta.
  rewrite media_stream_init_eq.
  eexists _, _, _. split; [reflexivity|]. xfields.
  split; [reflexivity|]. split; [reflexivity|]. split; [reflexivity|].
  split; [reflexivity|]. split; [reflexivity|].
  split; [apply lift_run, media_stream_free_eq|]. xfields.
  split; [reflexivity|].
  intros k u Hk Hu.
  set (ms1 := set_stun_allowed true _).
  assert (Htr : forall w0 : World,
            In u (List.map Core (free_before ms1)) ->
            trace w0 = free_before ms1 ->
            In u (List.map Core
                    (trace (emit (free_after (env c) ms1)
                              ((if owns_sessions ms1 then uninit_world else id) w0))))).
  { intros w0 Hin Hw0. apply in_map_iff in Hin as (e & <- & He). apply in_map.
    unfold emit. cbn [trace]. apply in_or_app. left.
    destruct (owns_sessions ms1); [|unfold id; now rewrite Hw0].
    rewrite uninit_world_eq. cbn [trace]. apply in_or_app. left. now rewrite Hw0. }
  apply Htr; [|unfold emit, flush; cbn [stream trace app]; reflexivity].
  clear Htr. subst ms1. unfold free_before, init_calls in *.
  cbn [evd evq sessions set_stun_allowed set_factory set_evq set_evd set_sessions
       zrtp_context dtls_context rtp_session] in *.
  destruct (zrtp_context ss), (dtls_context ss), (rtp_session ss);
    cbn [olist option_map app In List.map] in *;
    repeat match goal with
           | H : _ \/ _ |- _ => destruct H
           | H : False |- _ => destruct H
           end; subst; cbn [undone_by] in Hu; inversion Hu; subst; tauto.
Qed.

(** *** The handlers of the dispatcher *)

Lemma update_bitrate_limit_from_tmmbr_frame br_limit ms hp tr nh cr p rs :
  rtp_session (sessions ms) = Some p ->
  hp !! p = Some rs ->
  exists r w',
    update_bitrate_limit_from_tmmbr (env c) br_limit (mkWorld ms hp tr nh cr) = Some (r, w')
    /\ tmmbr_frame p rs (mkWorld ms hp tr nh cr) w'
    /\ (r <> -1 -> encoder ms <> None).
Proof.
  intros Hs Hrs.
  unfold update_bitrate_limit_from_tmmbr, rtp_session_get_target_upload_bandwidth,
    rtp_session_set_target_upload_bandwidth, media_stream_set_target_network_bitrate.
  run. rewrite Hs, Hrs.
  destruct (encoder ms) as [enc|] eqn:Henc.
  2:{ run. eexists _, _. split; [reflexivity|]. split; [framed | congruence]. }
  destruct ((max_target_bitrate ms >? 0)%Z && (br_limit >? max_target_bitrate ms)%Z);
    run;
    match goal with |- context [(target_upload_bandwidth rs =? ?l)%Z] =>
      destruct (target_upload_bandwidth rs =? l)%Z end;
    run.
  1,3: eexists _, _; (split; [reflexivity|]); (split; [framed | congruence]).
  all: destruct (MSFormatType_eqb (type ms) MSVideo); run;
       cbn [negb]; run;
       try match goal with |- context [filter_status (env c) ?a ?b] =>
         destruct (filter_status (env c) a b =? 0)%Z end;
       cbn [negb]; run; cbn [sessions set_target_bitrate rtp_session]; rewrite ?Hs;
       rewrite ?Hrs.
  all: eexists _, _; (split; [reflexivity|]); (split; [framed | congruence]).
Qed.

Lemma process_tmmbr_video_framed br ms hp tr nh cr p rs :
  hp !! p = Some rs ->
  encoder ms <> None ->
  exists w',
    process_tmmbr_video (env c) br (mkWorld ms hp tr nh cr) = Some (tt, w')
    /\ tmmbr_frame p rs (mkWorld ms hp tr nh cr) w'.
Proof.
  intros Hrs Henc. unfold process_tmmbr_video. run.
  destruct (MSFormatType_eqb (type ms) MSVideo).
  2:{ run. eexists. split; [reflexivity | framed]. }
  run. destruct (encoder ms) as [enc|]; [|congruence]. clear Henc.
  destruct (match video_stream_get_video_preset (env c) with
            | Some p => (p =? "custom")%string | None => false end).
  - run. destruct (encoder_configuration_list (env c)) as [l|]; run.
    + match goal with |- context [filter_status (env c) ?a ?b] =>
        destruct (filter_status (env c) a b =? 0)%Z end; cbn [negb]; run;
        (eexists; split; [reflexivity | framed]).
    + eexists; split; [reflexivity | framed].
  - destruct (video_quality_controller ms) eqn:Eq; run;
      cbn [video_quality_controller set_video_quality_controller]; rewrite ?Eq; run;
      (eexists; split; [reflexivity | framed]).
Qed.

Lemma tmmbr_frame_encoder p rs w w' :
  tmmbr_frame p rs w w' -> encoder (stream w') = encoder (stream w).
Proof. intros ((tb & vqc & ->) & _). now destruct (stream w). Qed.

Lemma tmmbr_frame_heap p rs w w' :
  tmmbr_frame p rs w w' -> exists rs', heap w' !! p = Some rs'.
Proof. intros (_ & (b & ->) & _). eexists. apply lookup_insert_eq. Qed.

(** [media_stream_process_tmmbr] returns on a stream with a valid transport
    unless it divides by a zero duplicate rate, and stays within the frame. *)
Lemma media_stream_process_tmmbr_framed tmmbr_mxtbr w p rs :
  rtp_session (sessions (stream w)) = Some p ->
  heap w !! p = Some rs ->
  (estimator_active (stream w) rs = true ->
   audio_bandwidth_estimator_duplicate_rate rs mod UINT64_MODULUS <> 0) ->
  exists w',
    media_stream_process_tmmbr (env c) tmmbr_mxtbr w = Some (tt, w')
    /\ tmmbr_frame p rs w w'.
Proof.
  destruct w as [ms hp tr nh cr]. cbn [stream heap]. intros Hs Hrs Hrate.
  unfold media_stream_process_tmmbr. step. step.
  set (w0 := mkWorld ms hp
               (tr ++ [Log ms_message
                         "MediaStream[%p]: received a TMMBR for bitrate %llu kbits/s"
                         [tmmbr_mxtbr / 1000]]) nh cr).
  assert (H0 : tmmbr_frame p rs (mkWorld ms hp tr nh cr) w0) by (subst w0; framed).
  assert (Hreq : exists request,
            (if MSFormatType_eqb (type ms) MSAudio
             then bind (deref (rtp_session (sessions ms))) (fun rs0 =>
                    if audio_bandwidth_estimator_enabled rs0 && non_null (audio_bw_estimator rs0)
                    then
                      let rate := audio_bandwidth_estimator_duplicate_rate rs0
                                  mod UINT64_MODULUS in
                      if (rate =? 0)%Z then undefined
                      else ret ((tmmbr_mxtbr - tmmbr_mxtbr / rate) mod UINT64_MODULUS)
                    else ret tmmbr_mxtbr)
             else ret tmmbr_mxtbr) w0 = Some (request, w0)).
  { unfold estimator_active in Hrate.
    destruct (MSFormatType_eqb (type ms) MSAudio); cbn [andb] in Hrate;
      [|eexists; reflexivity].
    rewrite Hs. subst w0. erewrite bind_Some by (apply deref_mk; exact Hrs). cbv beta.
    destruct (audio_bandwidth_estimator_enabled rs && non_null (audio_bw_estimator rs));
      [|eexists; reflexivity].
    cbv zeta.
    destruct (Z.eqb_spec (audio_bandwidth_estimator_duplicate_rate rs mod UINT64_MODULUS) 0)
      as [Hz|Hz]; [exfalso; now apply Hrate | eexists; reflexivity]. }
  destruct Hreq as (request & Hreq).
  erewrite bind_Some by exact Hreq. cbv beta zeta.
  destruct (update_bitrate_limit_from_tmmbr_frame
              (if (request <? INT_MAX)%Z then request else INT_MAX)
              ms hp (tr ++ [Log ms_message
                              "MediaStream[%p]: received a TMMBR for bitrate %llu kbits/s"
                              [tmmbr_mxtbr / 1000]]) nh cr p rs Hs Hrs)
    as (r & w1 & Hupd & H1 & Henc).
  fold w0 in Hupd, H1.
  erewrite bind_Some by exact Hupd. cbv beta.
  assert (H01 : tmmbr_frame p rs (mkWorld ms hp tr nh cr) w1).
  { eapply tmmbr_frame_trans; [exact H0|]. intros rs1 Hrs1.
    subst w0. cbn [heap] in Hrs1. rewrite Hrs in Hrs1. injection Hrs1 as <-. exact H1. }
  destruct (Z.eqb_spec r (-1)) as [Hr|Hr]; [exists w1; split; [reflexivity | exact H01]|].
  destruct (VIDEO_ENABLED (env c)); cbn [when];
    [|exists w1; split; [reflexivity | exact H01]].
  destruct (tmmbr_frame_heap _ _ _ _ H01) as (rs1 & Hrs1).
  pose proof (tmmbr_frame_encoder _ _ _ _ H01) as Henc1. cbn [stream] in Henc1.
  destruct w1 as [ms1 hp1 tr1 nh1 cr1]. cbn [stream heap] in *.
  destruct (process_tmmbr_video_framed r ms1 hp1 tr1 nh1 cr1 p rs1 Hrs1)
    as (w2 & Hvid & H2).
  { rewrite Henc1. now apply Henc. }
  exists w2. split; [exact Hvid|].
  eapply tmmbr_frame_trans; [exact H01|]. intros rs2 Hrs2. cbn [heap] in Hrs2.
  rewrite Hrs1 in Hrs2. injection Hrs2 as <-. exact H2.
Qed.

(** The handler returns under the same conditions, which matter for a TMMBR
    only, and stays within the frame. *)
Lemma media_stream_tmmbr_received_framed packet w p rs :
  rtp_session (sessions (stream w)) = Some p ->
  heap w !! p = Some rs ->
  (has_tmmbr c [packet] = true -> estimator_active (stream w) rs = true ->
   audio_bandwidth_estimator_duplicate_rate rs mod UINT64_MODULUS <> 0) ->
  exists w',
    media_stream_tmmbr_received c packet w = Some (tt, w')
    /\ tmmbr_frame p rs w w'.
Proof.
  intros Hs Hrs Hrate. unfold media_stream_tmmbr_received.
  unfold has_tmmbr in Hrate. cbn [existsb] in Hrate.
  destruct (rtcp_RTPFB_get_type c packet);
    try (exists w; split; [reflexivity | now apply tmmbr_frame_refl]).
  apply media_stream_process_tmmbr_framed; auto.
Qed.

Lemma tmmbr_frame_sessions p rs w w' :
  tmmbr_frame p rs w w' -> sessions (stream w') = sessions (stream w).
Proof. intros ((tb & vqc & ->) & _). now destruct (stream w). Qed.

Lemma tmmbr_frame_estimator p rs w w' rs' :
  tmmbr_frame p rs w w' -> heap w' !! p = Some rs' ->
  estimator_active (stream w') rs' = estimator_active (stream w) rs
  /\ audio_bandwidth_estimator_duplicate_rate rs'
     = audio_bandwidth_estimator_duplicate_rate rs.
Proof.
  intros ((tb & vqc & ->) & (b & ->) & _) H.
  rewrite lookup_insert_eq in H. injection H as <-.
  destruct (stream w), rs; split; reflexivity.
Qed.

(** The handlers of an iteration all return, within the frame. *)
Lemma dispatch_framed dispatched : forall w p rs,
  rtp_session (sessions (stream w)) = Some p ->
  heap w !! p = Some rs ->
  (has_tmmbr c dispatched = true -> estimator_active (stream w) rs = true ->
   audio_bandwidth_estimator_duplicate_rate rs mod UINT64_MODULUS <> 0) ->
  exists w',
    dispatch c dispatched w = Some (tt, w')
    /\ tmmbr_frame p rs w w'.
Proof.
  induction dispatched as [|packet rest IH]; intros w p rs Hs Hrs Hrate.
  - exists w. split; [reflexivity | now apply tmmbr_frame_refl].
  - cbn [dispatch].
    destruct (media_stream_tmmbr_received_framed packet w p rs Hs Hrs) as (w1 & Hrun & H1).
    { intros Ht. apply Hrate. cbn [has_tmmbr existsb] in *.
      unfold has_tmmbr. cbn [existsb]. rewrite orb_false_r in Ht. now rewrite Ht. }
    erewrite bind_Some by exact Hrun. cbv beta.
    destruct (tmmbr_frame_heap _ _ _ _ H1) as (rs1 & Hrs1).
    destruct (tmmbr_frame_estimator _ _ _ _ _ H1 Hrs1) as (Hact & Hdup).
    destruct (IH w1 p rs1) as (w2 & Hrest & H2).
    + rewrite (tmmbr_frame_sessions _ _ _ _ H1). exact Hs.
    + exact Hrs1.
    + rewrite Hact, Hdup. intros Ht. apply Hrate.
      unfold has_tmmbr in *. cbn [existsb]. rewrite Ht. apply orb_true_r.
    + exists w2. split; [exact Hrest|].
      eapply tmmbr_frame_trans; [exact H1|]. intros rs2 Hrs2.
      rewrite Hrs1 in Hrs2. injection Hrs2 as <-. exact H2.
Qed.

(** *** The periodic iteration *)

Lemma media_stream_process_rtcp_eq m curtime ms hp tr nh cr :
  media_stream_process_rtcp m curtime (mkWorld ms hp tr nh cr)
  = Some (tt, mkWorld (set_last_packet_time curtime ms) hp
                (tr ++ Log ms_message "%s stream [%p]: receiving RTCP %s%s"
                         [Z.b2z (rtcp_is_SR m); Z.b2z (rtcp_is_RR m)]
                    :: flat_map (feedback_calls ms) (sub_packets m)) nh cr).
Proof.
  unfold media_stream_process_rtcp, rtcp_parser_context_init.
  unfold bind at 1 2. unfold modify_stream, call, set_world_stream.
  cbn [stream heap trace next_handle clock_reads effect].
  unfold bind. rewrite process_rtcp_packet_eq, process_next_packets_eq.
  unfold sub_packets. cbn [flat_map]. rewrite <- !app_assoc. reflexivity.
Qed.

Lemma event_calls_last_packet_time t ms ev :
  event_calls c (set_last_packet_time t ms) ev = event_calls c ms ev.
Proof. reflexivity. Qed.

Lemma process_event_eq curtime ev ms hp tr nh cr ib lit bc cs p rs :
  (is_rtcp_received ev = true -> packet ev <> None) ->
  rtp_session (sessions ms) = Some p -> hp !! p = Some rs ->
  process_event c curtime ev (mkSession (mkWorld ms hp tr nh cr) ib lit bc cs)
  = Some (tt, mkSession
                (mkWorld (if is_rtcp_received ev then set_last_packet_time curtime ms else ms)
                         hp [] nh cr)
                ib lit bc (cs ++ event_calls c ms ev)).
Proof.
  intros Hp Hs Hrs. unfold process_event, event_calls, is_rtcp_received in *.
  xstep.
  destruct (ortp_event_get_type ev).
  - destruct (ice_check_list ms); cbn [sif_set olist option_map].
    + xstep. rewrite xcall_mk. now rewrite <- app_assoc.
    + xstep. rewrite xcall_mk. reflexivity.
  - destruct (packet ev) as [m|]; [|exfalso; now apply Hp].
    rewrite sbind_assoc. xstep.
    erewrite sbind_Some by (apply lift_mk, media_stream_process_rtcp_eq). cbv beta.
    rewrite xcall_mk. cbn [app]. now rewrite <- app_assoc.
  - rewrite Hs, sbind_assoc. do 2 xstep. rewrite xcall_mk. now rewrite <- app_assoc.
  - xstep. rewrite xcall_mk. now rewrite <- app_assoc.
  - xstep. rewrite xcall_mk. now rewrite <- app_assoc.
  - xstep. rewrite xcall_mk. reflexivity.
Qed.

Lemma process_events_eq curtime pending : forall ms hp nh cr ib lit bc cs p rs,
  well_formed_events pending ->
  rtp_session (sessions ms) = Some p -> hp !! p = Some rs ->
  process_events c curtime pending (mkSession (mkWorld ms hp [] nh cr) ib lit bc cs)
  = Some (tt, mkSession
                (mkWorld (if existsb is_rtcp_received pending
                          then set_last_packet_time curtime ms else ms)
                         hp [] nh cr)
                ib lit bc (cs ++ flat_map (event_calls c ms) pending)).
Proof.
  induction pending as [|ev pending IH]; intros ms hp nh cr ib lit bc cs p rs Hwf Hs Hrs.
  - cbn [process_events existsb flat_map]. now rewrite app_nil_r.
  - inversion Hwf as [|? ? Hev Hrest]; subst.
    cbn [process_events existsb flat_map].
    erewrite sbind_Some by (eapply process_event_eq; eassumption). cbv beta.
    destruct (is_rtcp_received ev); cbn [orb].
    + erewrite IH by (try eassumption; reflexivity).
      assert (Hf : flat_map (event_calls c (set_last_packet_time curtime ms)) pending
                   = flat_map (event_calls c ms) pending).
      { clear. induction pending as [|e l IHl]; cbn [flat_map]; [reflexivity|].
        now rewrite event_calls_last_packet_time, IHl. }
      rewrite Hf, <- app_assoc.
      destruct (existsb is_rtcp_received pending); reflexivity.
    + erewrite IH by eassumption. now rewrite <- app_assoc.
Qed.

Lemma filter_Core (P : Call -> bool) l :
  (forall e, P (Core e) = false) -> List.filter P (List.map Core l) = [].
Proof.
  intros H. induction l as [|e l IH]; cbn [List.map List.filter]; [reflexivity|].
  now rewrite H.
Qed.

Lemma filter_olist {A} (P : Call -> bool) (f : A -> Call) (p : option A) :
  (forall a, P (f a) = false) -> List.filter P (olist (option_map f p)) = [].
Proof. intros H. destruct p; cbn; [now rewrite H | reflexivity]. Qed.

Lemma event_calls_destroy ms pending :
  List.filter is_event_destroy (flat_map (event_calls c ms) pending)
  = List.map (fun ev => ortp_event_destroy (event ev)) pending.
Proof.
  induction pending as [|ev l IH]; cbn [flat_map List.map]; [reflexivity|].
  rewrite List.filter_app, IH. unfold event_calls. rewrite List.filter_app.
  cbn [List.filter is_event_destroy app].
  destruct (ortp_event_get_type ev); try destruct (packet ev);
    rewrite ?filter_Core by reflexivity; rewrite ?filter_olist by reflexivity;
    reflexivity.
Qed.

Lemma event_calls_report_interval ms pending :
  List.filter is_report_interval (flat_map (event_calls c ms) pending) = [].
Proof.
  induction pending as [|ev l IH]; cbn [flat_map]; [reflexivity|].
  rewrite List.filter_app, IH. unfold event_calls. rewrite List.filter_app.
  cbn [List.filter is_report_interval app].
  destruct (ortp_event_get_type ev); try destruct (packet ev);
    rewrite ?filter_Core by reflexivity; rewrite ?filter_olist by reflexivity;
    reflexivity.
Qed.

Lemma event_calls_frame tb vqc ms ev :
  event_calls c (set_video_quality_controller vqc (set_target_bitrate tb ms)) ev
  = event_calls c ms ev.
Proof. reflexivity. Qed.

(** The dispatcher's turn and the loop over the event queue, from the world
    [w1] the handlers leave. *)
Lemma dispatcher_then_events dispatched pending curtime ms hp tr nh cr ib lit bc cs w1
    p rs1 q :
  dispatch c (handled ms dispatched) (mkWorld ms hp [] nh cr) = Some (tt, w1) ->
  rtp_session (sessions (stream w1)) = Some p ->
  heap w1 !! p = Some rs1 ->
  evq (stream w1) = Some q ->
  well_formed_events pending ->
  sbind (sif_set (evd ms) (fun d =>
           sbind (xcall (ortp_ev_dispatcher_iterate d))
                 (fun _ => lift (dispatch c dispatched))))
        (fun _ => sbind (lift get_stream) (fun stream =>
                    sif_set (evq stream) (fun _ => process_events c curtime pending)))
        (mkSession (mkWorld ms hp tr nh cr) ib lit bc cs)
  = Some (tt,
          mkSession
            (mkWorld (if existsb is_rtcp_received pending
                      then set_last_packet_time curtime (stream w1) else stream w1)
                     (heap w1) [] (next_handle w1) (clock_reads w1))
            ib lit bc
            (cs ++ olist (option_map ortp_ev_dispatcher_iterate (evd ms))
                ++ List.map Core (trace w1)
                ++ flat_map (event_calls c (stream w1)) pending)).
Proof.
  intros Hrun Hs Hrs Hq Hwf. unfold handled in Hrun.
  destruct (evd ms) as [d|]; cbn [non_null sif_set olist option_map] in *.
  - rewrite sbind_assoc. xstep.
    erewrite sbind_Some by (apply lift_run; exact Hrun). cbv beta.
    destruct w1 as [ms1 hp1 tr1 nh1 cr1]. unfold flush. xfields. cbn [stream heap] in *.
    xstep. rewrite Hq. cbn [sif_set].
    erewrite process_events_eq by eassumption.
    rewrite <- !app_assoc. reflexivity.
  - cbn [dispatch] in Hrun. unfold ret in Hrun. injection Hrun as <-.
    cbn [stream heap trace next_handle clock_reads List.map app] in *.
    do 2 xstep. rewrite Hq. cbn [sif_set].
    erewrite process_events_eq by eassumption. reflexivity.
Qed.

Lemma media_stream_iterate_eq dispatched pending ms hp tr nh cr ib lit bc cs w1 p rs1 q :
  let s := mkSession (mkWorld ms hp tr nh cr) ib lit bc cs in
  let curtime := ms_time (env c) cr in
  dispatch c (handled ms dispatched) (dispatcher_world s) = Some (tt, w1) ->
  rtp_session (sessions (stream w1)) = Some p ->
  heap w1 !! p = Some rs1 ->
  evq (stream w1) = Some q ->
  well_formed_events pending ->
  media_stream_iterate c dispatched pending s
  = Some (tt,
          mkSession
            (mkWorld (if existsb is_rtcp_received pending
                      then set_last_packet_time curtime (stream w1) else stream w1)
                     (heap w1) [] (next_handle w1) (clock_reads w1))
            (ib && negb (beginning_is_over s curtime))
            curtime bc
            (cs ++ iterate_prelude s curtime
                ++ List.map Core (trace w1)
                ++ flat_map (event_calls c (stream w1)) pending)).
Proof.
  intros s curtime Hrun Hs Hrs Hq Hwf. subst s.
  unfold dispatcher_world in Hrun. xfields. cbn [stream heap next_handle clock_reads] in Hrun.
  unfold media_stream_iterate, iterate_prelude, beginning_is_over. xfields.
  do 2 xstep. fold curtime.
  erewrite sbind_Some.
  2:{ instantiate (1 := mkSession (mkWorld ms hp [] nh (S cr)) ib lit bc
                          (cs ++ olist (option_map
                                   (fun cl => ice_check_list_process cl
                                                (rtp_session (sessions ms)))
                                   (ice_check_list ms)))).
      instantiate (1 := tt).
      destruct (ice_check_list ms); cbn [sif_set olist option_map];
        [apply xcall_mk | unfold sret; now rewrite app_nil_r]. }
  cbv beta.
  destruct (MSStreamState_eqb (state ms) MSStreamStarted); cbn [swhen andb].
  - rewrite sbind_assoc. xstep. xfields.
    destruct (ib && (curtime - start_time ms >? 15)%Z) eqn:Esw; cbn [swhen].
    + apply andb_prop in Esw as [-> _]. cbn [andb negb].
      rewrite !sbind_assoc. do 3 xstep. xfields.
      destruct (qi ms) as [qq|]; cbn [sif_set olist option_map].
      * destruct ((curtime >? lit)%Z); cbn [swhen andb].
        -- destruct (MediaStreamDir_eqb (direction ms) MediaStreamSendOnly);
             cbn [swhen negb]; do 2 xstep; xfields;
             destruct (rc ms); cbn [sif_set olist option_map];
             repeat xstep; erewrite dispatcher_then_events by eassumption;
             rewrite <- ?app_assoc; reflexivity.
        -- do 2 xstep; xfields;
             destruct (rc ms); cbn [sif_set olist option_map];
             repeat xstep; erewrite dispatcher_then_events by eassumption;
             rewrite <- ?app_assoc; reflexivity.
      * destruct ((curtime >? lit)%Z); cbn [swhen andb];
          destruct (MediaStreamDir_eqb (direction ms) MediaStreamSendOnly);
          cbn [negb]; do 2 xstep; xfields;
          destruct (rc ms); cbn [sif_set olist option_map];
          repeat xstep; erewrite dispatcher_then_events by eassumption;
          rewrite <- ?app_assoc; reflexivity.
    + rewrite !sbind_assoc. do 2 xstep. xfields.
      cbn [negb]. rewrite andb_true_r.
      destruct (qi ms) as [qq|]; cbn [sif_set olist option_map].
      * destruct ((curtime >? lit)%Z); cbn [swhen andb].
        -- destruct (MediaStreamDir_eqb (direction ms) MediaStreamSendOnly);
             cbn [swhen negb]; do 2 xstep; xfields;
             destruct (rc ms); cbn [sif_set olist option_map];
             repeat xstep; erewrite dispatcher_then_events by eassumption;
             rewrite <- ?app_assoc; reflexivity.
        -- do 2 xstep; xfields;
             destruct (rc ms); cbn [sif_set olist option_map];
             repeat xstep; erewrite dispatcher_then_events by eassumption;
             rewrite <- ?app_assoc; reflexivity.
      * destruct ((curtime >? lit)%Z); cbn [swhen andb];
          destruct (MediaStreamDir_eqb (direction ms) MediaStreamSendOnly);
          cbn [negb]; do 2 xstep; xfields;
          destruct (rc ms); cbn [sif_set olist option_map];
          repeat xstep; erewrite dispatcher_then_events by eassumption;
          rewrite <- ?app_assoc; reflexivity.
  - do 2 xstep. xfields.
    cbn [negb andb]. rewrite andb_true_r.
    destruct (rc ms); cbn [sif_set olist option_map];
      repeat xstep; erewrite dispatcher_then_events by eassumption;
      rewrite <- ?app_assoc; reflexivity.
Qed.

(** The world the handlers of an iteration leave, and what the loop over the
    event queue needs of it. *)
Lemma dispatcher_returns dispatched (s : Session) p rs q :
  rtp_session (sessions (stream (world s))) = Some p ->
  heap (world s) !! p = Some rs ->
  evq (stream (world s)) = Some q ->
  (has_tmmbr c (handled (stream (world s)) dispatched) = true ->
   estimator_active (stream (world s)) rs = true ->
   audio_bandwidth_estimator_duplicate_rate rs mod UINT64_MODULUS <> 0) ->
  exists w1 rs1,
    dispatch c (handled (stream (world s)) dispatched) (dispatcher_world s) = Some (tt, w1)
    /\ tmmbr_frame p rs (dispatcher_world s) w1
    /\ rtp_session (sessions (stream w1)) = Some p
    /\ heap w1 !! p = Some rs1
    /\ evq (stream w1) = Some q
    /\ (forall ev, event_calls c (stream w1) ev = event_calls c (stream (world s)) ev).
Proof.
  intros Hs Hrs Hq Hrate.
  destruct (dispatch_framed (handled (stream (world s)) dispatched) (dispatcher_world s)
              p rs Hs Hrs Hrate) as (w1 & Hrun & Hframe).
  destruct (tmmbr_frame_heap _ _ _ _ Hframe) as (rs1 & Hrs1).
  exists w1, rs1. split; [exact Hrun|]. split; [exact Hframe|].
  split; [rewrite (tmmbr_frame_sessions _ _ _ _ Hframe); exact Hs|].
  split; [exact Hrs1|].
  destruct Hframe as ((tb & vqc & Hst) & _). rewrite Hst.
  cbn [dispatcher_world stream]. split.
  - rewrite <- Hq. now destruct (stream (world s)).
  - intros ev. apply event_calls_frame.
Qed.

Lemma flat_map_ext_calls (f g : OrtpEvent -> list Call) l :
  (forall ev, f ev = g ev) -> flat_map f l = flat_map g l.
Proof. intros H. induction l as [|e l IH]; cbn [flat_map]; [reflexivity | now rewrite H, IH]. Qed.

(** [media_stream_iterate] on a stream with a valid transport and an event
    queue.  The clock is read once and the reading becomes the last iterate
    time.  After the calls of the prelude the dispatcher runs
    [media_stream_tmmbr_received] on each feedback packet dispatched to it;
    the handlers return (a TMMBR on an audio stream with an active estimator
    needs a duplicate rate that is not zero) and change nothing but the
    target bitrate and the video quality controller of the stream and the
    upload bandwidth of the transport.  Then every event of the queue is
    handled in order and destroyed, once; a received RTCP packet sets the
    last-packet time to the same reading; and the report interval is set to
    5000 only at the end of the stream's beginning, which ends with it.
    When no packet is dispatched the handlers leave the world as it is. *)
Theorem media_stream_iterate_spec (dispatched : list mblk_t) (pending : list OrtpEvent)
    (s : Session) p rs q :
  rtp_session (sessions (stream (world s))) = Some p ->
  heap (world s) !! p = Some rs ->
  evq (stream (world s)) = Some q ->
  well_formed_events pending ->
  (has_tmmbr c (handled (stream (world s)) dispatched) = true ->
   estimator_active (stream (world s)) rs = true ->
   audio_bandwidth_estimator_duplicate_rate rs mod UINT64_MODULUS <> 0) ->
  let ms := stream (world s) in
  let curtime := ms_time (env c) (clock_reads (world s)) in
  exists w1 s' added,
    dispatch c (handled ms dispatched) (dispatcher_world s) = Some (tt, w1)
    /\ tmmbr_frame p rs (dispatcher_world s) w1
    /\ (handled ms dispatched = [] -> w1 = dispatcher_world s)
    /\ media_stream_iterate c dispatched pending s = Some (tt, s')
    /\ calls s' = calls s ++ added
    /\ added = iterate_prelude s curtime
               ++ List.map Core (trace w1)
               ++ flat_map (event_calls c ms) pending
    /\ List.filter is_event_destroy added
       = List.map (fun ev => ortp_event_destroy (event ev)) pending
    /\ List.filter is_report_interval added
       = (if beginning_is_over s curtime
          then [rtp_session_set_rtcp_report_interval (Some p) 5000] else [])
    /\ is_beginning s' = (is_beginning s && negb (beginning_is_over s curtime))
    /\ last_iterate_time s' = curtime
    /\ clock_reads (world s') = S (clock_reads (world s))
    /\ stream (world s')
       = (if existsb is_rtcp_received pending
          then set_last_packet_time curtime (stream w1) else stream w1)
    /\ heap (world s') = heap w1.
Proof.
  intros Hs Hrs Hq Hwf Hrate. cbv zeta.
  destruct (dispatcher_returns dispatched s p rs q Hs Hrs Hq Hrate)
    as (w1 & rs1 & Hrun & Hframe & Hs1 & Hrs1 & Hq1 & Hcalls).
  pose proof Hframe as (_ & _ & _ & Hclock).
  destruct s as [[ms hp tr nh cr] ib lit bc cs]. xfields.
  cbn [dispatcher_world clock_reads world] in Hclock.
  cbn [world stream heap] in Hrun, Hcalls, Hs, Hrs, Hq.
  eexists w1, _, _. split; [exact Hrun|]. split; [exact Hframe|].
  split.
  { intros Hnone. rewrite Hnone in Hrun. cbn [dispatch] in Hrun. unfold ret in Hrun.
    now injection Hrun as <-. }
  split; [eapply media_stream_iterate_eq; eassumption|]. xfields.
  rewrite (flat_map_ext_calls _ _ pending Hcalls). xfields.
  split; [reflexivity|]. split; [reflexivity|].
  split; [|split; [|repeat split; auto]].
  - rewrite !List.filter_app, event_calls_destroy, filter_Core by reflexivity.
    unfold iterate_prelude. rewrite !List.filter_app.
    rewrite !filter_olist by reflexivity.
    destruct (beginning_is_over _ _);
      match goal with |- context [if ?b then olist _ else []] => destruct b end;
      rewrite ?filter_olist by reflexivity; reflexivity.
  - rewrite !List.filter_app, event_calls_report_interval, filter_Core, app_nil_r
      by reflexivity.
    unfold iterate_prelude. rewrite !List.filter_app.
    rewrite !filter_olist by reflexivity. xfields. rewrite Hs.
    destruct (beginning_is_over _ _);
      match goal with |- context [if ?b then olist _ else []] => destruct b end;
      rewrite ?filter_olist by reflexivity; reflexivity.
Qed.

(** *** STUN and the ICE check list *)

Lemma media_stream_configure_stun_packet_sending_eq ms hp tr nh cr p rs :
  rtp_session (sessions ms) = Some p -> hp !! p = Some rs ->
  media_stream_configure_stun_packet_sending (mkWorld ms hp tr nh cr)
  = Some (tt, mkWorld ms hp (tr ++ stun_calls ms rs) nh cr).
Proof.
  intros Hs Hrs. unfold media_stream_configure_stun_packet_sending, stun_calls, stun_enabled.
  step. rewrite Hs. step.
  assert (E : (if non_null (bundle rs) && negb (is_primary rs) then false
               else if non_null (ice_check_list ms) then false else stun_allowed ms)
              = stun_allowed ms && negb (non_null (ice_check_list ms))
                && negb (non_null (bundle rs) && negb (is_primary rs))).
  { destruct (non_null (bundle rs) && negb (is_primary rs)),
      (non_null (ice_check_list ms)), (stun_allowed ms); reflexivity. }
  rewrite E.
  destruct (rtpsend ms) as [f|]; cbn [if_set].
  - step. cbn [effect].
    destruct (non_null (dtls_context (sessions ms))); cbn [when].
    + rewrite call_mk. cbn [effect]. now rewrite <- app_assoc.
    + reflexivity.
  - unfold ret. now rewrite app_nil_r.
Qed.

(** Setting the ICE check list hands it the transport and configures the
    sending filter anew: with a check list in place STUN is switched off
    whatever the stream allows; with the check list removed it is on exactly
    when the stream allows it and the transport is not a secondary session
    of a bundle.  The forced variant follows whenever a DTLS context is
    there. *)
Theorem media_stream_set_ice_check_list_spec (cl : option handle) (s : Session) p rs f :
  rtp_session (sessions (stream (world s))) = Some p ->
  heap (world s) !! p = Some rs ->
  rtpsend (stream (world s)) = Some f ->
  let ms := stream (world s) in
  let enabled :=
    match cl with
    | Some _ => false
    | None => stun_allowed ms && negb (non_null (bundle rs) && negb (is_primary rs))
    end in
  exists s',
    media_stream_set_ice_check_list cl s = Some (tt, s')
    /\ stream (world s') = set_ice_check_list cl ms
    /\ heap (world s') = heap (world s)
    /\ calls s'
       = calls s
         ++ olist (option_map (fun l => ice_check_list_set_rtp_session l (Some p)) cl)
         ++ Core (ms_filter_call_method f (MS_RTP_SEND_ENABLE_STUN enabled))
         :: (if non_null (dtls_context (sessions ms))
             then [Core (ms_filter_call_method f (MS_RTP_SEND_ENABLE_STUN_FORCED enabled))]
             else []).
Proof.
  destruct s as [[ms hp tr nh cr] ib lit bc cs]. xfields. intros Hs Hrs Hf. cbv zeta.
  eexists. split.
  { unfold media_stream_set_ice_check_list. do 2 xstep.
    cbn [ice_check_list set_ice_check_list sessions].
    erewrite sbind_Some.
    2:{ instantiate (1 := mkSession (mkWorld (set_ice_check_list cl ms) hp [] nh cr) ib lit bc
                            (cs ++ olist (option_map
                                     (fun l => ice_check_list_set_rtp_session l (Some p)) cl))).
        instantiate (1 := tt). rewrite Hs.
        destruct cl; cbn [sif_set olist option_map];
          [apply xcall_mk | unfold sret; now rewrite app_nil_r]. }
    cbv beta.
    erewrite lift_mk
      by (apply media_stream_configure_stun_packet_sending_eq with (p := p) (rs := rs);
          [exact Hs | exact Hrs]).
    reflexivity. }
  xfields.
  split; [reflexivity|]. split; [reflexivity|].
  unfold stun_calls, stun_enabled.
  cbn [rtpsend set_ice_check_list stun_allowed ice_check_list sessions app].
  rewrite Hf, <- app_assoc.
  destruct cl; cbn [non_null negb andb];
    rewrite ?andb_false_r, ?andb_true_r; cbn [andb];
    destruct (non_null (dtls_context (sessions ms))); reflexivity.
Qed.

(** *** The ticker *)

Lemma log_lines_eq ls : forall w ib lit bc cs,
  log_lines ls (mkSession w ib lit bc cs)
  = Some (tt, mkSession w ib lit bc (cs ++ List.map log_line ls)).
Proof.
  induction ls as [|l ls IH]; intros w ib lit bc cs; cbn [log_lines List.map].
  - unfold sret. now rewrite app_nil_r.
  - xstep. rewrite IH. now rewrite <- app_assoc.
Qed.

Lemma substring_length n : forall s m, (String.length (String.substring n m s) <= m)%nat.
Proof.
  induction n as [|n IH]; intros s m.
  - revert s. induction m as [|m IHm]; intros [|a s]; cbn; try lia.
    specialize (IHm s). lia.
  - destruct s as [|a s]; cbn; [destruct m; cbn; lia | apply IH].
Qed.

Lemma ticker_name_length ms : (String.length (ticker_name c ms) <= 30)%nat.
Proof.
  unfold ticker_name, snprintf.
  pose proof (substring_length 0 (media_stream_type_str c ms ++ " MSTicker")%string
                (31 - 1)) as H.
  destruct (String.substring 0 (31 - 1) _); cbn in *; lia.
Qed.

(** [media_stream_start_ticker] creates a ticker only for a stream that has
    none: its name holds at most 30 characters, its priority is the default
    one for the stream's type (that of audio for anything but video); once
    the stream has a ticker the call does nothing, so that starting twice
    creates one ticker. *)
Theorem media_stream_start_ticker_once (s : Session) :
  let ms := stream (world s) in
  let prio := __ms_get_default_prio (platform c) (getenv c)
                (MSFormatType_eqb (type ms) MSVideo) in
  exists s1,
    media_stream_start_ticker c s = Some (tt, s1)
    /\ (ticker (sessions ms) = None ->
        ticker (sessions (stream (world s1))) = Some (next_handle (world s))
        /\ calls s1
           = calls s ++ List.map log_line (snd prio)
             ++ [ms_ticker_new_with_params (ticker_name c ms) (fst prio)
                   (next_handle (world s))]
        /\ (String.length (ticker_name c ms) <= 30)%nat)
    /\ (ticker (sessions ms) <> None ->
        stream (world s1) = ms /\ calls s1 = calls s)
    /\ media_stream_start_ticker c s1 = Some (tt, s1).
Proof.
  destruct s as [[ms hp tr nh cr] ib lit bc cs]. xfields. cbv zeta.
  assert (Hidle : forall ms1 hp1 nh1 cr1 cs1,
            ticker (sessions ms1) <> None ->
            media_stream_start_ticker c (mkSession (mkWorld ms1 hp1 [] nh1 cr1) ib lit bc cs1)
            = Some (tt, mkSession (mkWorld ms1 hp1 [] nh1 cr1) ib lit bc cs1)).
  { intros ms1 hp1 nh1 cr1 cs1 Ht. unfold media_stream_start_ticker. xstep.
    destruct (ticker (sessions ms1)); [reflexivity | contradiction]. }
  destruct (ticker (sessions ms)) eqn:Et.
  - exists (mkSession (mkWorld ms hp [] nh cr) ib lit bc cs). split.
    + unfold media_stream_start_ticker. xstep. now rewrite Et.
    + xfields. split; [discriminate|]. split; [auto|].
      apply Hidle. rewrite Et. discriminate.
  - assert (Eb : (if MSFormatType_eqb (type ms) MSVideo then true else false)
                 = MSFormatType_eqb (type ms) MSVideo)
      by (destruct (MSFormatType_eqb (type ms) MSVideo); reflexivity).
    destruct (__ms_get_default_prio (platform c) (getenv c)
                (MSFormatType_eqb (type ms) MSVideo)) as [prio logged] eqn:Ep.
    cbn [fst snd].
    eexists. split.
    + unfold media_stream_start_ticker. xstep. rewrite Et, Eb, Ep.
      erewrite sbind_Some by apply log_lines_eq. cbv beta.
      do 2 xstep. rewrite lift_modify_stream. reflexivity.
    + xfields. cbn [sessions set_sessions set_ticker ticker].
      split; [|split; [intros H; now contradiction H|]].
      * intros _. split; [reflexivity|].
        rewrite <- app_assoc. split; [reflexivity|].
        pose proof (ticker_name_length ms). lia.
      * apply Hidle. cbn [sessions set_sessions set_ticker ticker]. discriminate.
Qed.

(** *** The summary *)

(** [media_stream_print_summary] does more than print: a stream that has an
    ICE check list has lost it afterwards (the route is printed first);
    nothing else of the stream or of the session objects changes. *)
Theorem media_stream_print_summary_drops_ice_check_list (s : Session) p rs :
  rtp_session (sessions (stream (world s))) = Some p ->
  heap (world s) !! p = Some rs ->
  exists s' logs,
    media_stream_print_summary s = Some (tt, s')
    /\ ice_check_list (stream (world s')) = None
    /\ stream (world s') = set_ice_check_list None (stream (world s))
    /\ heap (world s') = heap (world s)
    /\ Forall (fun k => exists l t a, k = Core (Log l t a)) logs
    /\ calls s'
       = calls s ++ logs
         ++ olist (option_map ice_check_list_print_route
                              (ice_check_list (stream (world s))))
         ++ rtp_stats_display p
         :: olist (option_map fec_stream_print_stats (session_fec_stream rs)).
Proof.
  destruct s as [[ms hp tr nh cr] ib lit bc cs]. xfields. intros Hs Hrs.
  exists (mkSession (mkWorld (set_ice_check_list None ms) hp [] nh cr) ib lit bc
            ((((((cs ++ [Core (Log ms_message
                                "MediaStream[%p] (%s) with RtpSession[%p] summary:" [])])
                   ++ [Core (Log ms_message "send-ssrc = [dec:%u hex:%x]" [])])
                  ++ [Core (Log ms_message "recv-ssrc = [dec:%u hex:%x]" [])])
                 ++ olist (option_map ice_check_list_print_route (ice_check_list ms)))
                ++ [rtp_stats_display p])
               ++ olist (option_map fec_stream_print_stats (session_fec_stream rs)))),
    [Core (Log ms_message "MediaStream[%p] (%s) with RtpSession[%p] summary:" []);
     Core (Log ms_message "send-ssrc = [dec:%u hex:%x]" []);
     Core (Log ms_message "recv-ssrc = [dec:%u hex:%x]" [])].
  split.
  { unfold media_stream_print_summary. do 2 xstep. rewrite Hs. do 3 xstep.
    erewrite sbind_Some.
    2:{ instantiate (1 := mkSession (mkWorld (set_ice_check_list None ms) hp [] nh cr)
                            ib lit bc
                            ((((cs ++ [Core (Log ms_message
                                        "MediaStream[%p] (%s) with RtpSession[%p] summary:" [])])
                                ++ [Core (Log ms_message "send-ssrc = [dec:%u hex:%x]" [])])
                               ++ [Core (Log ms_message "recv-ssrc = [dec:%u hex:%x]" [])])
                             ++ olist (option_map ice_check_list_print_route
                                         (ice_check_list ms)))).
        instantiate (1 := tt).
        destruct ms as [? ? ? ? ? ? ? ? ? ? ? ? ? ? icl ? ? ? ? ? ? ? ? ? ?].
        cbn [ice_check_list set_ice_check_list].
        destruct icl; cbn [sif_set olist option_map].
        - xstep. now rewrite lift_modify_stream.
        - unfold sret. now rewrite app_nil_r. }
    cbv beta. do 2 xstep.
    destruct (session_fec_stream rs); cbn [sif_set olist option_map];
      [apply xcall_mk | unfold sret; now rewrite app_nil_r]. }
  xfields. split; [reflexivity|]. split; [reflexivity|]. split; [reflexivity|].
  split; [repeat constructor; eauto|].
  rewrite <- !app_assoc. reflexivity.
Qed.

(** *** A duplex transport *)

(** [ms_create_duplex_rtp_session] returns a new session, non-blocking,
    unscheduled and with the TMMBR feature on, as the secondary session of
    [media_stream_handle_fec] is.  Its receive buffer is the MTU asked for,
    and never below 1500.  Given an address it binds to that address, once;
    given none it binds to the IPv6 wildcard, and to the IPv4 wildcard only
    when that fails. *)
Theorem ms_create_duplex_rtp_session_spec (local_ip : option string)
    (loc_rtp_port loc_rtcp_port mtu : Z) (s : Session) :
  let rtpr := next_handle (world s) in
  exists s' added,
    ms_create_duplex_rtp_session c local_ip loc_rtp_port loc_rtcp_port mtu s
    = Some (rtpr, s')
    /\ calls s' = calls s ++ added
    /\ stream (world s') = stream (world s)
    /\ heap (world s') = <[rtpr := duplex_session]> (heap (world s))
    /\ In (rtp_session_set_recv_buf_size rtpr (Z.max mtu 1500)) added
    /\ 1500 <= Z.max mtu 1500
    /\ List.filter is_local_addr added
       = match local_ip with
         | Some ip => [rtp_session_set_local_addr rtpr ip loc_rtp_port loc_rtcp_port]
         | None =>
             rtp_session_set_local_addr rtpr "::0" loc_rtp_port loc_rtcp_port
             :: (if (local_addr_status c "::0" loc_rtp_port loc_rtcp_port <? 0)%Z
                 then [rtp_session_set_local_addr rtpr "0.0.0.0" loc_rtp_port loc_rtcp_port]
                 else [])
         end
    /\ forall profile rs,
        scheduling_mode (configured profile rs) = scheduling_mode duplex_session
        /\ blocking_mode (configured profile rs) = blocking_mode duplex_session
        /\ avpf_feature_tmmbr (configured profile rs) = avpf_feature_tmmbr duplex_session.
Proof.
  destruct s as [[ms hp tr nh cr] ib lit bc cs]. xfields. cbv zeta.
  destruct local_ip as [ip|];
    [| destruct (local_addr_status c "::0" loc_rtp_port loc_rtcp_port <? 0)%Z eqn:Est ];
    destruct (DISABLE_CHECKSUMS c) eqn:Edc;
    try destruct (setsockopt_status c =? -1)%Z eqn:Eso;
    (eexists _, _; split;
     [ unfold ms_create_duplex_rtp_session, disable_checksums; cbv zeta;
       rewrite ?Est, ?Edc, ?Eso; cbn [swhen effect];
       repeat (xstep; cbn [swhen effect]; rewrite ?Eso; rewrite ?insert_insert_eq);
       unfold sret, duplex_session, MS_MINIMAL_MTU; reflexivity
     | xfields; split; [rewrite <- !app_assoc; reflexivity|];
       split; [reflexivity|]; split; [reflexivity|];
       split; [cbn [app In]; tauto|]; split; [lia|];
       split; [reflexivity|]; intros; repeat split ]).
Qed.

(** *** The direction *)

Lemma event_calls_local_quality ms pending :
  List.filter is_local_quality_update (flat_map (event_calls c ms) pending) = [].
Proof.
  induction pending as [|ev l IH]; cbn [flat_map]; [reflexivity|].
  rewrite List.filter_app, IH. unfold event_calls. rewrite List.filter_app.
  cbn [List.filter is_local_quality_update app].
  destruct (ortp_event_get_type ev); try destruct (packet ev);
    rewrite ?filter_Core by reflexivity; rewrite ?filter_olist by reflexivity;
    reflexivity.
Qed.

(** A stream set to send only elects the controlled streams anew when it
    has a bandwidth controller, and from then on [media_stream_iterate] leaves
    the local quality indicator alone; in the other directions a started
    stream updates it at each iteration whose clock reading is later than
    the last one.  This holds whatever feedback packets the dispatcher hands
    to its handler during the iteration. *)
Theorem media_stream_set_direction_spec (dir : MediaStreamDir) (dispatched : list mblk_t)
    (pending : list OrtpEvent) (s : Session) p rs q :
  rtp_session (sessions (stream (world s))) = Some p ->
  heap (world s) !! p = Some rs ->
  evq (stream (world s)) = Some q ->
  well_formed_events pending ->
  (has_tmmbr c (handled (stream (world s)) dispatched) = true ->
   estimator_active (stream (world s)) rs = true ->
   audio_bandwidth_estimator_duplicate_rate rs mod UINT64_MODULUS <> 0) ->
  let curtime := ms_time (env c) (clock_reads (world s)) in
  exists s1 s2 added,
    media_stream_set_direction dir s = Some (tt, s1)
    /\ direction (stream (world s1)) = dir
    /\ calls s1
       = calls s
         ++ (if MediaStreamDir_eqb dir MediaStreamSendOnly
             then olist (option_map ms_bandwidth_controller_elect_controlled_streams
                                    (bandwidth_controller s))
             else [])
    /\ media_stream_iterate c dispatched pending s1 = Some (tt, s2)
    /\ calls s2 = calls s1 ++ added
    /\ List.filter is_local_quality_update added
       = (if MSStreamState_eqb (state (stream (world s))) MSStreamStarted
             && (curtime >? last_iterate_time s)%Z
             && negb (MediaStreamDir_eqb dir MediaStreamSendOnly)
          then olist (option_map ms_quality_indicator_update_local
                                 (qi (stream (world s))))
          else []).
Proof.
  destruct s as [[ms hp tr nh cr] ib lit bc cs]. xfields. intros Hs Hrs Hq Hwf Hrate.
  cbv zeta.
  assert (Hset : media_stream_set_direction dir
                   (mkSession (mkWorld ms hp tr nh cr) ib lit bc cs)
                 = Some (tt, mkSession (mkWorld (set_direction dir ms) hp [] nh cr) ib lit bc
                               (cs ++ (if MediaStreamDir_eqb dir MediaStreamSendOnly
                                       then olist (option_map
                                              ms_bandwidth_controller_elect_controlled_streams
                                              bc)
                                       else [])))).
  { unfold media_stream_set_direction. do 2 xstep.
    destruct (MediaStreamDir_eqb dir MediaStreamSendOnly); cbn [swhen].
    - destruct bc; cbn [sif_set olist option_map];
        [apply xcall_mk | unfold sret; now rewrite app_nil_r].
    - unfold sret. now rewrite app_nil_r. }
  match type of Hset with _ = Some (tt, ?s1') =>
    destruct (dispatcher_returns dispatched s1' p rs q)
      as (w1 & rs1 & Hrun & _ & Hs1 & Hrs1 & Hq1 & _);
    [exact Hs | exact Hrs | exact Hq | exact Hrate |]
  end.
  eexists _, _, _. split; [exact Hset|]. xfields.
  split; [reflexivity|]. split; [reflexivity|].
  split; [eapply media_stream_iterate_eq with (p := p) (rs1 := rs1) (q := q);
          [exact Hrun | exact Hs1 | exact Hrs1 | exact Hq1 | exact Hwf]|].
  xfields. split; [reflexivity|].
  rewrite !List.filter_app, event_calls_local_quality, filter_Core, app_nil_r
    by reflexivity.
  unfold iterate_prelude, beginning_is_over. xfields.
  cbn [state qi direction set_direction sessions start_time ice_check_list rc evd].
  rewrite !List.filter_app. rewrite !filter_olist by reflexivity.
  destruct (MSStreamState_eqb (state ms) MSStreamStarted),
    (ib && (ms_time (env c) cr - start_time ms >? 15)%Z),
    (ms_time (env c) cr >? lit)%Z, (MediaStreamDir_eqb dir MediaStreamSendOnly), (qi ms);
    reflexivity.
Qed.

End Lifecycle.

(** Enabling DTLS on a stream without DTLS context and with a valid
    transport: an MTU of 0 in the parameters is replaced by the factory's;
    the sending filter, if there is one, is then told whether to send STUN
    packets, and told so a second time, as forced, exactly when a context
    came back, so that the firewall gets opened while the handshake keeps
    RTP packets from flowing. *)
Theorem media_stream_enable_dtls_configures_stun (env : Env) (params : MSDtlsSrtpParams)
    (w : World) p rs :
  dtls_context (sessions (stream w)) = None ->
  rtp_session (sessions (stream w)) = Some p ->
  heap w !! p = Some rs ->
  let ms := stream w in
  let ctx := if dtls_srtp_available env then Some (next_handle w) else None in
  let params_copy :=
    mkDtlsParams (dtls_role params)
                 (if (mtu params =? 0)%Z then ms_factory_get_mtu env else mtu params) in
  let enabled := stun_enabled ms rs in
  exists w',
    media_stream_enable_dtls env params w = Some (tt, w')
    /\ stream w' = set_sessions (set_dtls_context ctx (sessions ms)) ms
    /\ trace w'
       = trace w
         ++ [Log ms_message "Create DTLS media stream context in stream session [%p]" [];
             ms_dtls_srtp_context_new params_copy ctx]
         ++ match rtpsend ms with
            | Some f =>
                ms_filter_call_method f (MS_RTP_SEND_ENABLE_STUN enabled)
                :: (if dtls_srtp_available env
                    then [ms_filter_call_method f (MS_RTP_SEND_ENABLE_STUN_FORCED enabled)]
                    else [])
            | None => []
            end.
Proof.
  intros Hd Hs Hrs. destruct w as [ms hp tr nh cr]. cbn [stream heap trace next_handle] in *.
  cbv zeta.
  assert (Hp : (if (mtu params =? 0)%Z
                then mkDtlsParams (dtls_role params) (ms_factory_get_mtu env) else params)
               = mkDtlsParams (dtls_role params)
                   (if (mtu params =? 0)%Z then ms_factory_get_mtu env else mtu params)).
  { destruct (mtu params =? 0)%Z; [reflexivity | now destruct params]. }
  destruct (dtls_srtp_available env) eqn:Ea;
    (eexists; split;
     [ unfold media_stream_enable_dtls; step; rewrite Hd, Hp, Ea; step; cbn [effect];
       repeat (step; cbn [effect]);
       apply media_stream_configure_stun_packet_sending_eq with (p := p) (rs := rs);
       [exact Hs | exact Hrs]
     | cbn [stream heap trace]; split; [reflexivity|];
       unfold stun_calls, stun_enabled;
       cbn [rtpsend set_sessions sessions set_dtls_context dtls_context stun_allowed
            ice_check_list non_null];
       rewrite <- !app_assoc; cbn [app];
       destruct (rtpsend ms); reflexivity ]).
Qed.

(** One iteration of the started stream at clock reading 1000, with a
    TMMBR for 128 kbit/s dispatched to the handler and, in the queue, a
    received RTCP packet and a STUN packet: the handler makes 128000 the
    target bitrate of the stream and the upload bandwidth of the transport 1,
    and the received packet sets the last-packet time to 1000. *)
Lemma media_stream_iterate_spec_witness :
  exists s',
    media_stream_iterate Scenario.collaborators Scenario.dispatched Scenario.pending
      Scenario.session
    = Some (tt, s')
    /\ last_iterate_time s' = 1000
    /\ clock_reads (world s') = 1%nat
    /\ target_bitrate (stream (world s')) = 128000
    /\ last_packet_time (stream (world s')) = 1000
    /\ heap (world s') !! 1%positive
       = Some (set_target_upload_bandwidth 128000 fresh_session).
Proof.
  pose proof (media_stream_iterate_spec Scenario.collaborators Scenario.dispatched
                Scenario.pending Scenario.session 1%positive fresh_session 3%positive) as H.
  cbv zeta in H.
  destruct H as (w1 & s' & added & Hdisp & _ & _ & Hrun & _ & _ & _ & _ & _ & Hlit
                 & Hclock & Hst & Hhp).
  - reflexivity.
  - vm_compute. reflexivity.
  - reflexivity.
  - unfold well_formed_events, Scenario.pending.
    repeat (apply List.Forall_cons;
            [intros Hr; vm_compute in Hr; first [discriminate Hr | discriminate]|]).
    apply List.Forall_nil.
  - intros _ Hact. vm_compute in Hact. discriminate Hact.
  - vm_compute in Hdisp. injection Hdisp as <-.
    exists s'. split; [exact Hrun|]. split; [exact Hlit|]. split; [exact Hclock|].
    rewrite Hst, Hhp. repeat split; vm_compute; reflexivity.
Defined.

(** Removing the check list of a stream that allows STUN, on a primary
    transport outside a bundle. *)
Lemma media_stream_set_ice_check_list_spec_witness :
  exists s',
    media_stream_set_ice_check_list None Scenario.session_with_check_list = Some (tt, s')
    /\ calls s' = [Core (ms_filter_call_method 5%positive (MS_RTP_SEND_ENABLE_STUN true))].
Proof.
  pose proof (media_stream_set_ice_check_list_spec None Scenario.session_with_check_list
                1%positive fresh_session 5%positive) as H.
  cbv zeta in H.
  destruct H as (s' & Hrun & _ & _ & Hcalls).
  - reflexivity.
  - vm_compute. reflexivity.
  - reflexivity.
  - exists s'. split; [exact Hrun | exact Hcalls].
Defined.

(** The summary of a stream with a check list. *)
Lemma media_stream_print_summary_drops_ice_check_list_witness :
  exists s',
    media_stream_print_summary Scenario.session_with_check_list = Some (tt, s')
    /\ ice_check_list (stream (world Scenario.session_with_check_list)) = Some 16%positive
    /\ ice_check_list (stream (world s')) = None.
Proof.
  destruct (media_stream_print_summary_drops_ice_check_list
              Scenario.session_with_check_list 1%positive fresh_session)
    as (s' & logs & Hrun & Hnone & _).
  - reflexivity.
  - vm_compute. reflexivity.
  - exists s'. split; [exact Hrun|]. split; [reflexivity | exact Hnone].
Defined.

(** The started stream set to send only: the controlled streams are elected
    anew and the next iteration, with a TMMBR dispatched to the handler,
    leaves the quality indicator alone. *)
Lemma media_stream_set_direction_spec_witness :
  exists s1 s2 added,
    media_stream_set_direction MediaStreamSendOnly Scenario.session = Some (tt, s1)
    /\ calls s1 = [ms_bandwidth_controller_elect_controlled_streams 30%positive]
    /\ media_stream_iterate Scenario.collaborators Scenario.dispatched Scenario.pending s1
       = Some (tt, s2)
    /\ calls s2 = calls s1 ++ added
    /\ List.filter is_local_quality_update added = [].
Proof.
  pose proof (media_stream_set_direction_spec Scenario.collaborators MediaStreamSendOnly
                Scenario.dispatched Scenario.pending Scenario.session 1%positive
                fresh_session 3%positive) as H.
  cbv zeta in H.
  destruct H as (s1 & s2 & added & Hrun & _ & Hcalls & Hit & Hcalls2 & Hq).
  - reflexivity.
  - vm_compute. reflexivity.
  - reflexivity.
  - unfold well_formed_events, Scenario.pending.
    repeat (apply List.Forall_cons;
            [intros Hr; vm_compute in Hr; first [discriminate Hr | discriminate]|]).
    apply List.Forall_nil.
  - intros _ Hact. vm_compute in Hact. discriminate Hact.
  - exists s1, s2, added. split; [exact Hrun|]. split; [exact Hcalls|].
    split; [exact Hit|]. split; [exact Hcalls2 | exact Hq].
Defined.

(** DTLS enabled on the sample stream with an MTU of 0. *)
Lemma media_stream_enable_dtls_configures_stun_witness :
  exists w',
    media_stream_enable_dtls Sample.env (mkDtlsParams 0 0) Sample.world = Some (tt, w')
    /\ trace w'
       = [Log ms_message "Create DTLS media stream context in stream session [%p]" [];
          ms_dtls_srtp_context_new (mkDtlsParams 0 1440) (Some 20%positive);
          ms_filter_call_method 5%positive (MS_RTP_SEND_ENABLE_STUN true);
          ms_filter_call_method 5%positive (MS_RTP_SEND_ENABLE_STUN_FORCED true)].
Proof.
  pose proof (media_stream_enable_dtls_configures_stun Sample.env (mkDtlsParams 0 0)
                Sample.world 1%positive fresh_session) as H.
  cbv zeta in H.
  destruct H as (w' & Hrun & _ & Htrace).
  - reflexivity.
  - reflexivity.
  - vm_compute. reflexivity.
  - exists w'. split; [exact Hrun | exact Htrace].
Defined.

(** ** More on the controller's machine operations *)

(** Releasing the sessions twice is releasing them once: the second
    [ms_media_stream_sessions_uninit] finds every slot empty, makes no call
    and changes nothing.  The FEC session is not among what is released: its
    slot keeps its handle, and its object stays unless it is the transport
    itself. *)
Theorem ms_media_stream_sessions_uninit_twice (w : World) :
  exists w1,
    ms_media_stream_sessions_uninit w = Some (tt, w1)
    /\ trace w1 = trace w ++ expected_releases (sessions (stream w))
    /\ sessions (stream w1)
       = mkSessions None (fec_session (sessions (stream w))) None None None None
    /\ (forall f, fec_session (sessions (stream w)) = Some f ->
                  rtp_session (sessions (stream w)) <> Some f ->
                  heap w1 !! f = heap w !! f)
    /\ ms_media_stream_sessions_uninit w1 = Some (tt, w1).
Proof.
  eexists. split; [apply uninit_eq|]. rewrite uninit_world_eq.
  cbn [trace stream heap sessions set_sessions].
  split; [reflexivity|]. split; [reflexivity|]. split.
  - intros f _ Hne. unfold without_session.
    destruct (rtp_session (sessions (stream w))) as [p|]; [|reflexivity].
    apply lookup_delete_ne. congruence.
  - rewrite uninit_eq, uninit_world_eq.
    cbn [trace stream heap next_handle clock_reads sessions set_sessions released_sessions
         rtp_session fec_session srtp_context zrtp_context dtls_context ticker].
    unfold expected_releases, released_sessions, without_session.
    cbn [rtp_session fec_session srtp_context zrtp_context dtls_context ticker olist
         option_map app]. rewrite app_nil_r.
    destruct (stream w); reflexivity.
Qed.

Section Feedback.

Variable c : Collaborators.

(** A feedback packet that is not a TMMBR changes nothing.  A TMMBR on a
    stream without encoder is logged and refused with a warning: the stream
    and the session objects stay as they are and no filter is called. *)
Theorem media_stream_tmmbr_received_without_encoder (packet : mblk_t) (w : World) p rs :
  encoder (stream w) = None ->
  rtp_session (sessions (stream w)) = Some p ->
  heap w !! p = Some rs ->
  (estimator_active (stream w) rs = true ->
   audio_bandwidth_estimator_duplicate_rate rs mod UINT64_MODULUS <> 0) ->
  exists w',
    media_stream_tmmbr_received c packet w = Some (tt, w')
    /\ stream w' = stream w
    /\ heap w' = heap w
    /\ trace w'
       = trace w
         ++ match rtcp_RTPFB_get_type c packet with
            | RTCP_RTPFB_TMMBR =>
                [Log ms_message "MediaStream[%p]: received a TMMBR for bitrate %llu kbits/s"
                     [rtcp_RTPFB_tmmbr_get_max_bitrate c packet / 1000];
                 Log ms_warning "TMMBR not applicable because no encoder for this stream." []]
            | _ => []
            end.
Proof.
  intros Henc Hs Hrs Hrate. destruct w as [ms hp tr nh cr].
  cbn [stream heap trace] in *.
  unfold media_stream_tmmbr_received.
  destruct (rtcp_RTPFB_get_type c packet);
    try (eexists; split; [reflexivity|]; cbn [stream heap trace];
         rewrite app_nil_r; auto).
  unfold media_stream_process_tmmbr. do 2 step.
  assert (Hreq : exists v,
    (if MSFormatType_eqb (type ms) MSAudio
     then
       bind (deref (rtp_session (sessions ms))) (fun rs0 =>
         if audio_bandwidth_estimator_enabled rs0 && non_null (audio_bw_estimator rs0)
         then
           let rate := audio_bandwidth_estimator_duplicate_rate rs0 mod UINT64_MODULUS in
           if (rate =? 0)%Z then undefined
           else ret ((rtcp_RTPFB_tmmbr_get_max_bitrate c packet
                      - rtcp_RTPFB_tmmbr_get_max_bitrate c packet / rate) mod UINT64_MODULUS)
         else ret (rtcp_RTPFB_tmmbr_get_max_bitrate c packet))
     else ret (rtcp_RTPFB_tmmbr_get_max_bitrate c packet))
      (mkWorld ms hp
         (tr ++ [Log ms_message "MediaStream[%p]: received a TMMBR for bitrate %llu kbits/s"
                     [rtcp_RTPFB_tmmbr_get_max_bitrate c packet / 1000]]) nh cr)
    = Some (v, mkWorld ms hp
         (tr ++ [Log ms_message "MediaStream[%p]: received a TMMBR for bitrate %llu kbits/s"
                     [rtcp_RTPFB_tmmbr_get_max_bitrate c packet / 1000]]) nh cr)).
  { destruct (MSFormatType_eqb (type ms) MSAudio) eqn:Ety; [|eexists; reflexivity].
    rewrite Hs. erewrite bind_Some by (apply deref_mk; exact Hrs). cbv beta zeta.
    destruct (audio_bandwidth_estimator_enabled rs && non_null (audio_bw_estimator rs))
      eqn:Eest; [|eexists; reflexivity].
    destruct (Z.eqb_spec (audio_bandwidth_estimator_duplicate_rate rs mod UINT64_MODULUS) 0)
      as [Hz|Hz]; [|eexists; reflexivity].
    exfalso. apply Hrate; [|exact Hz]. unfold estimator_active. now rewrite Ety, Eest. }
  destruct Hreq as (v & Hreq).
  erewrite bind_Some by exact Hreq. cbv beta zeta.
  unfold update_bitrate_limit_from_tmmbr, rtp_session_get_target_upload_bandwidth.
  erewrite bind_Some.
  2:{ step. rewrite Hs.
      erewrite bind_Some by (erewrite bind_Some by (apply deref_mk; exact Hrs); reflexivity).
      rewrite Henc. step. reflexivity. }
  cbv beta. cbn [Z.eqb Z.opp Pos.eqb]. unfold ret.
  eexists. split; [reflexivity|]. cbn [stream heap trace].
  rewrite <- app_assoc. auto.
Qed.

End Feedback.

(** *** TMMBR on a video stream *)

Section VideoTmmbr.

Variable env : Env.

Lemma process_tmmbr_video_controller br ms hp tr nh cr enc :
  type ms = MSVideo -> encoder ms = Some enc -> custom_preset env = false ->
  process_tmmbr_video env br (mkWorld ms hp tr nh cr)
  = Some (tt, match video_quality_controller ms with
              | Some ctl =>
                  mkWorld ms hp
                    (tr ++ [ms_video_quality_controller_update_from_tmmbr ctl br]) nh cr
              | None =>
                  mkWorld (set_video_quality_controller (Some nh) ms) hp
                    (tr ++ [ms_video_quality_controller_new nh;
                            ms_video_quality_controller_update_from_tmmbr nh br])
                    (Pos.succ nh) cr
              end).
Proof.
  intros Hty Henc Hpre. unfold process_tmmbr_video, custom_preset in *.
  step. rewrite Hty. cbn [MSFormatType_eqb when]. rewrite Henc. step. rewrite Hpre.
  destruct (video_quality_controller ms) as [ctl|] eqn:Ev.
  - do 2 step. rewrite Ev. step. rewrite call_mk. reflexivity.
  - erewrite bind_Some by (do 2 step; apply modify_stream_mk). cbn [effect].
    step. cbn [video_quality_controller set_video_quality_controller]. step.
    rewrite call_mk. cbn [effect]. now rewrite <- app_assoc.
Qed.

Lemma process_tmmbr_video_custom br ms hp tr nh cr enc :
  type ms = MSVideo -> encoder ms = Some enc -> custom_preset env = true ->
  let current := encoder_configuration env in
  let best l :=
    ms_video_find_best_configuration_for_size_and_bitrate env l (vsize current)
      (ms_factory_get_cpu_count env) br in
  let applied l :=
    mkVConf (Z.min br (bitrate_limit (best l))) (bitrate_limit current) (vsize current)
            (fps current) (mincpu current) in
  exists logs,
    process_tmmbr_video env br (mkWorld ms hp tr nh cr)
    = Some (tt, mkWorld ms hp
                  (tr ++ ms_filter_call_method enc MS_VIDEO_ENCODER_GET_CONFIGURATION_LIST
                      :: match encoder_configuration_list env with
                         | Some l =>
                             ms_filter_call_method enc MS_VIDEO_ENCODER_GET_CONFIGURATION
                             :: Log ms_message "Changing video encoder's output bitrate to %i"
                                    [Z.min br (bitrate_limit (best l))]
                             :: ms_filter_call_method enc
                                  (MS_VIDEO_ENCODER_SET_CONFIGURATION (applied l))
                             :: logs
                         | None => logs
                         end) nh cr)
    /\ Forall (fun e => exists l t a, e = Log l t a) logs.
Proof.
  intros Hty Henc Hpre current best applied. unfold process_tmmbr_video, custom_preset in *.
  assert (Hmin : forall a b, (if (a <? b)%Z then a else b) = Z.min a b).
  { intros a b. destruct (Z.ltb_spec a b); lia. }
  step. rewrite Hty. cbn [MSFormatType_eqb when]. rewrite Henc. step. rewrite Hpre.
  step. cbn [effect].
  destruct (encoder_configuration_list env) as [l|]; cbn [if_set].
  - do 3 step. cbn [effect]. rewrite Hmin. fold current. fold (best l). fold (applied l).
    destruct (filter_status env enc (MS_VIDEO_ENCODER_SET_CONFIGURATION (applied l)) =? 0)%Z;
      cbn [negb when].
    + exists []. split; [|constructor]. unfold ret. rewrite <- !app_assoc. reflexivity.
    + eexists [_]. split; [|repeat constructor; eauto].
      rewrite call_mk. cbn [effect]. rewrite <- !app_assoc. reflexivity.
  - exists []. split; [|constructor]. reflexivity.
Qed.

Lemma update_bitrate_limit_from_tmmbr_video br ms hp tr nh cr enc p rs :
  type ms = MSVideo -> encoder ms = Some enc ->
  rtp_session (sessions ms) = Some p -> hp !! p = Some rs ->
  target_upload_bandwidth rs <> capped ms br ->
  update_bitrate_limit_from_tmmbr env br (mkWorld ms hp tr nh cr)
  = Some (capped ms br,
          mkWorld (set_target_bitrate (capped ms br) ms)
                  (<[p := set_target_upload_bandwidth (capped ms br) rs]> hp)
                  (tr ++ capping_log ms br) nh cr).
Proof.
  intros Hty Henc Hs Hrs Hne.
  unfold update_bitrate_limit_from_tmmbr, rtp_session_get_target_upload_bandwidth,
    rtp_session_set_target_upload_bandwidth, media_stream_set_target_network_bitrate,
    capped, capping_log in *.
  step. rewrite Hs.
  erewrite bind_Some by (erewrite bind_Some by (apply deref_mk; exact Hrs); reflexivity).
  cbv beta. rewrite Henc.
  destruct ((max_target_bitrate ms >? 0)%Z && (br >? max_target_bitrate ms)%Z).
  - erewrite bind_Some by (step; reflexivity). cbv beta.
    apply Z.eqb_neq in Hne. rewrite Hne, Hty. cbn [MSFormatType_eqb negb when].
    step. erewrite bind_Some by (step; reflexivity). cbv beta.
    cbn [sessions set_target_bitrate]. rewrite ?Hs. step. reflexivity.
  - step. apply Z.eqb_neq in Hne. rewrite Hne, Hty. cbn [MSFormatType_eqb negb when].
    step. erewrite bind_Some by (step; reflexivity). cbv beta.
    cbn [sessions set_target_bitrate]. rewrite ?Hs. step. now rewrite app_nil_r.
Qed.

(** A TMMBR that changes the limit of a video stream (video support built
    in, a valid transport, an encoder): the encoder gets no set-bitrate
    call.  Unless the preset is the custom one, the limit goes to the video
    quality controller, which is created at the first such TMMBR and reused
    afterwards.  With the custom preset no quality controller is made or
    called: the encoder's configuration list is asked for and, if there is
    one, the current configuration is set again with, as required bitrate,
    the limit or the bitrate limit of the best configuration for it,
    whichever is smaller. *)
Theorem media_stream_process_tmmbr_video (tmmbr_mxtbr : Z) (w : World) enc p rs :
  VIDEO_ENABLED env = true ->
  type (stream w) = MSVideo ->
  encoder (stream w) = Some enc ->
  rtp_session (sessions (stream w)) = Some p ->
  heap w !! p = Some rs ->
  0 <= tmmbr_mxtbr ->
  let limit := capped (stream w) (Z.min tmmbr_mxtbr INT_MAX) in
  target_upload_bandwidth rs <> limit ->
  exists w' added,
    media_stream_process_tmmbr env tmmbr_mxtbr w = Some (tt, w')
    /\ trace w' = trace w ++ added
    /\ target_bitrate (stream w') = limit
    /\ heap w' = <[p := set_target_upload_bandwidth limit rs]> (heap w)
    /\ List.filter (fun e => match e with
                             | ms_filter_call_method _ (MS_FILTER_SET_BITRATE _) => true
                             | _ => false
                             end) added = []
    /\ if custom_preset env
       then
         video_quality_controller (stream w') = video_quality_controller (stream w)
         /\ List.filter is_quality_controller_call added = []
         /\ encoder_calls added
            = ms_filter_call_method enc MS_VIDEO_ENCODER_GET_CONFIGURATION_LIST
              :: match encoder_configuration_list env with
                 | Some l =>
                     let current := encoder_configuration env in
                     let best :=
                       ms_video_find_best_configuration_for_size_and_bitrate env l
                         (vsize current) (ms_factory_get_cpu_count env) limit in
                     [ms_filter_call_method enc MS_VIDEO_ENCODER_GET_CONFIGURATION;
                      ms_filter_call_method enc
                        (MS_VIDEO_ENCODER_SET_CONFIGURATION
                           (mkVConf (Z.min limit (bitrate_limit best))
                                    (bitrate_limit current) (vsize current) (fps current)
                                    (mincpu current)))]
                 | None => []
                 end
       else
         let ctl := match video_quality_controller (stream w) with
                    | Some ctl => ctl
                    | None => next_handle w
                    end in
         video_quality_controller (stream w') = Some ctl
         /\ encoder_calls added = []
         /\ List.filter is_quality_controller_call added
            = match video_quality_controller (stream w) with
              | Some _ => []
              | None => [ms_video_quality_controller_new ctl]
              end
              ++ [ms_video_quality_controller_update_from_tmmbr ctl limit].
Proof.
  intros Hvid Hty Henc Hs Hrs Hv limit Hne.
  destruct w as [ms hp tr nh cr]. cbn [stream heap trace next_handle] in *.
  assert (Hlimit : limit <> -1).
  { assert (0 <= Z.min tmmbr_mxtbr INT_MAX) by (unfold INT_MAX; lia).
    pose proof (capped_nonneg ms _ H). subst limit. lia. }
  assert (Hmin : (if (tmmbr_mxtbr <? INT_MAX)%Z then tmmbr_mxtbr else INT_MAX)
                 = Z.min tmmbr_mxtbr INT_MAX).
  { destruct (Z.ltb_spec tmmbr_mxtbr INT_MAX); lia. }
  set (tr0 := (tr ++ [Log ms_message
                        "MediaStream[%p]: received a TMMBR for bitrate %llu kbits/s"
                        [tmmbr_mxtbr / 1000]])
              ++ capping_log ms (Z.min tmmbr_mxtbr INT_MAX)).
  assert (Hrun : forall wf,
            process_tmmbr_video env limit
              (mkWorld (set_target_bitrate limit ms)
                       (<[p := set_target_upload_bandwidth limit rs]> hp) tr0 nh cr)
            = Some (tt, wf) ->
            media_stream_process_tmmbr env tmmbr_mxtbr (mkWorld ms hp tr nh cr)
            = Some (tt, wf)).
  { intros wf Hwf. unfold media_stream_process_tmmbr. do 2 step. rewrite Hty.
    cbn [MSFormatType_eqb effect]. step. rewrite Hmin.
    rewrite (bind_Some _ _ _ _ _
               (update_bitrate_limit_from_tmmbr_video _ ms hp _ nh cr enc p rs
                  Hty Henc Hs Hrs Hne)).
    cbv beta. fold limit. fold tr0.
    apply Z.eqb_neq in Hlimit. rewrite Hlimit, Hvid. exact Hwf. }
  assert (Hcap : forall P : Event -> bool,
            (forall l t a, P (Log l t a) = false) ->
            List.filter P (capping_log ms (Z.min tmmbr_mxtbr INT_MAX)) = []).
  { intros P HP. unfold capping_log. destruct (_ && _); cbn [List.filter];
      rewrite ?HP; reflexivity. }
  assert (Hlogs : forall (P : Event -> bool) logs,
            (forall l t a, P (Log l t a) = false) ->
            Forall (fun e => exists l t a, e = Log l t a) logs -> List.filter P logs = []).
  { intros P logs HP Hl. induction Hl as [|e l0 (l1 & t & a & ->) _ IH]; [reflexivity|].
    cbn [List.filter]. now rewrite HP. }
  destruct (custom_preset env) eqn:Epre.
  - destruct (process_tmmbr_video_custom limit (set_target_bitrate limit ms)
                (<[p := set_target_upload_bandwidth limit rs]> hp) tr0 nh cr enc
                Hty Henc Epre) as (logs & Hvideo & Hl).
    eexists _, _. split; [apply Hrun, Hvideo|]. cbn [stream heap trace].
    split; [subst tr0; rewrite <- !app_assoc; reflexivity|].
    split; [reflexivity|]. split; [reflexivity|].
    unfold encoder_calls.
    cbn [app List.filter is_encoder_call is_quality_controller_call].
    rewrite !List.filter_app, !Hcap by reflexivity.
    cbn [app List.filter is_encoder_call is_quality_controller_call
         video_quality_controller set_target_bitrate].
    destruct (encoder_configuration_list env);
      cbn [app List.filter is_encoder_call is_quality_controller_call];
      rewrite !Hlogs by (reflexivity || exact Hl); repeat split.
  - pose proof (process_tmmbr_video_controller limit (set_target_bitrate limit ms)
                  (<[p := set_target_upload_bandwidth limit rs]> hp) tr0 nh cr enc
                  Hty Henc Epre) as Hvideo.
    cbn [video_quality_controller set_target_bitrate] in Hvideo.
    destruct (video_quality_controller ms) as [ctl|] eqn:Ev;
      (eexists _, _; split; [apply Hrun; exact Hvideo|]; cbn [stream heap trace];
       split; [subst tr0; rewrite <- !app_assoc; reflexivity|];
       split; [reflexivity|]; split; [reflexivity|];
       unfold encoder_calls;
       cbn [app List.filter is_encoder_call is_quality_controller_call];
       rewrite !List.filter_app, !Hcap by reflexivity;
       cbn [app List.filter is_encoder_call is_quality_controller_call
            video_quality_controller set_video_quality_controller set_target_bitrate];
       rewrite ?Ev; repeat split).
Qed.

End VideoTmmbr.

(** A TMMBR for 128 kbit/s on the stream without encoder. *)
Lemma media_stream_tmmbr_received_without_encoder_witness :
  exists w',
    media_stream_tmmbr_received Scenario.collaborators Sample.compound
      Scenario.world_without_encoder
    = Some (tt, w')
    /\ trace w'
       = [Log ms_message "MediaStream[%p]: received a TMMBR for bitrate %llu kbits/s" [128];
          Log ms_warning "TMMBR not applicable because no encoder for this stream." []].
Proof.
  destruct (media_stream_tmmbr_received_without_encoder Scenario.collaborators
              Sample.compound Scenario.world_without_encoder 1%positive fresh_session)
    as (w' & Hrun & _ & _ & Htrace).
  - reflexivity.
  - reflexivity.
  - vm_compute. reflexivity.
  - intros Ha. vm_compute in Ha. discriminate Ha.
  - exists w'. split; [exact Hrun | exact Htrace].
Defined.

(** A TMMBR of 500000 bit/s on the video stream, whose maximum target
    bitrate is 300000: the new quality controller gets the capped limit. *)
Lemma media_stream_process_tmmbr_video_witness :
  exists w',
    media_stream_process_tmmbr Sample.env 500000 Scenario.video_world = Some (tt, w')
    /\ target_bitrate (stream w') = 300000
    /\ video_quality_controller (stream w') = Some 20%positive.
Proof.
  pose proof (media_stream_process_tmmbr_video Sample.env 500000 Scenario.video_world
                8%positive 1%positive fresh_session) as H.
  cbv zeta in H.
  destruct H as (w' & added & Hrun & _ & Htb & _ & _ & Hc).
  - reflexivity.
  - reflexivity.
  - reflexivity.
  - reflexivity.
  - vm_compute. reflexivity.
  - lia.
  - vm_compute. discriminate.
  - exists w'. split; [exact Hrun|]. split; [exact Htb|].
    change (custom_preset Sample.env) with false in Hc. cbv iota zeta in Hc.
    destruct Hc as [Hc _]. exact Hc.
Defined.
